(** * aws-account-operator: the account-lifecycle reconciliation engine

    A shallow embedding of the SDK-v2 AWS client wrapper
    ([pkg/awsclient/client_v2.go]), the STS credential chain builder
    ([pkg/awsclient/sts]), the account controller
    ([controllers/account/account_controller_v2.go]) and, from the
    specification and the controller tests, the account-claim controller.

    Conventions of the embedding:
    - a Go string is a [string]; a Go pointer that may be nil is an [option];
    - a Go [(T, error)] result is a pair [T * option error] (both components
      are kept, as Go does);
    - [time.Duration] is an int64 count of nanoseconds, a [Z] here;
    - effects (provider calls, sleeps, control-plane reads and writes) are
      threaded through a state monad that records a chronological trace;
    - logging has no effect on any result and is left out. *)

From Stdlib Require Import ZArith Lia.
From stdpp Require Import base option list strings gmap pretty.

Local Open Scope string_scope.

(** ** Go basics *)

(** [time.Duration]: nanoseconds in an int64. *)
Definition Duration := Z.
Definition Nanosecond : Duration := 1%Z.
Definition Millisecond : Duration := 1000000%Z.
Definition Second : Duration := 1000000000%Z.
Definition Minute : Duration := 60000000000%Z.

(** int64 wrap-around (two's complement), as Go's arithmetic on
    [time.Duration] has it. *)
Definition wrap64 (z : Z) : Z :=
  ((z + 2 ^ 63) mod 2 ^ 64 - 2 ^ 63)%Z.

Definition Duration_mul (a b : Duration) : Duration := wrap64 (a * b).

(** Go [error] values.  The sentinel errors of [api/v1alpha1] are compared by
    identity in the source ([switch orgErr]), so they are constructors;
    [OperationError code] is a [*smithy.OperationError] whose inner error
    prints as [code]; [errorString] is [errors.New]/[fmt.Errorf]. *)
Inductive error :=
| ErrAwsFailedCreateAccount
| ErrAwsAccountLimitExceeded
| ErrAwsInternalFailure
| ErrAwsConcurrentModification
| ErrAwsTooManyRequests
| ErrInvalidConfigMap
| OperationError (code : string)
| StatusNotFound
| StatusConflict
| errorString (msg : string).

#[global] Instance error_eq_dec : EqDecision error.
Proof. solve_decision. Defined.

(** ** API types ([api/v1alpha1]), the fields the modelled code reads *)

Record LegalEntity := {
  LegalEntity_Name : string;
  LegalEntity_ID : string
}.

Record ObjectMeta := {
  Name : string;
  Namespace : string;
  DeletionTimestamp : option Z;
  Finalizers : list string;
  Labels : list (string * string)
}.

Record AccountSpec := {
  AwsAccountID : string;
  BYOC : bool;
  ClaimLink : string;
  ClaimLinkNamespace : string;
  Spec_LegalEntity : LegalEntity;
  ManualSTSMode : bool;
  AccountPool : string
}.

(** [awsv1alpha1.AccountConditionType], the values the controller passes. *)
Inductive AccountConditionType :=
| ConditionCreating            (* awsv1alpha1.AccountCreating *)
| ConditionReady               (* awsv1alpha1.AccountReady *)
| ConditionCreationFailed      (* awsv1alpha1.AccountCreationFailed *)
| ConditionClientError.        (* awsv1alpha1.AccountClientError *)

#[global] Instance AccountConditionType_eq_dec : EqDecision AccountConditionType.
Proof. solve_decision. Defined.

Record AccountCondition := {
  Condition_Type : AccountConditionType;
  Condition_Reason : string;
  Condition_Message : string
}.

Record AccountStatus := {
  Claimed : bool;
  SupportCaseID : string;
  Conditions : list AccountCondition;
  State : string;
  Reused : bool
}.

Record Account := {
  Meta : ObjectMeta;
  Spec : AccountSpec;
  Status : AccountStatus
}.

#[global] Instance LegalEntity_eq_dec : EqDecision LegalEntity.
Proof. solve_decision. Defined.
#[global] Instance ObjectMeta_eq_dec : EqDecision ObjectMeta.
Proof. solve_decision. Defined.
#[global] Instance AccountSpec_eq_dec : EqDecision AccountSpec.
Proof. solve_decision. Defined.
#[global] Instance AccountCondition_eq_dec : EqDecision AccountCondition.
Proof. solve_decision. Defined.
#[global] Instance AccountStatus_eq_dec : EqDecision AccountStatus.
Proof. solve_decision. Defined.
#[global] Instance Account_eq_dec : EqDecision Account.
Proof. solve_decision. Defined.

Record AccountClaimSpec := {
  Claim_LegalEntity : LegalEntity;
  AccountLink : string;
  Claim_BYOC : bool;
  Claim_AccountPool : string
}.

Record AccountClaimStatus := {
  Claim_State : string
}.

Record AccountClaim := {
  Claim_Meta : ObjectMeta;
  Claim_Spec : AccountClaimSpec;
  Claim_Status : AccountClaimStatus
}.

#[global] Instance AccountClaimSpec_eq_dec : EqDecision AccountClaimSpec.
Proof. solve_decision. Defined.
#[global] Instance AccountClaimStatus_eq_dec : EqDecision AccountClaimStatus.
Proof. solve_decision. Defined.
#[global] Instance AccountClaim_eq_dec : EqDecision AccountClaim.
Proof. solve_decision. Defined.

(** [types.NamespacedName]: namespace first, then name. *)
Definition NamespacedName : Type := string * string.

Definition ObjectKeyFromObject (a : Account) : NamespacedName :=
  (Namespace (Meta a), Name (Meta a)).

(** Field updates, written out (Go assigns through the pointer). *)
Definition set_Finalizers (fs : list string) (a : Account) : Account :=
  {| Meta := {| Name := Name (Meta a); Namespace := Namespace (Meta a);
                DeletionTimestamp := DeletionTimestamp (Meta a);
                Finalizers := fs; Labels := Labels (Meta a) |};
     Spec := Spec a; Status := Status a |}.

Definition set_Labels (ls : list (string * string)) (a : Account) : Account :=
  {| Meta := {| Name := Name (Meta a); Namespace := Namespace (Meta a);
                DeletionTimestamp := DeletionTimestamp (Meta a);
                Finalizers := Finalizers (Meta a); Labels := ls |};
     Spec := Spec a; Status := Status a |}.

Definition set_AwsAccountID (id : string) (a : Account) : Account :=
  {| Meta := Meta a;
     Spec := {| AwsAccountID := id; BYOC := BYOC (Spec a);
                ClaimLink := ClaimLink (Spec a);
                ClaimLinkNamespace := ClaimLinkNamespace (Spec a);
                Spec_LegalEntity := Spec_LegalEntity (Spec a);
                ManualSTSMode := ManualSTSMode (Spec a);
                AccountPool := AccountPool (Spec a) |};
     Status := Status a |}.

Definition set_Status (st : AccountStatus) (a : Account) : Account :=
  {| Meta := Meta a; Spec := Spec a; Status := st |}.

Definition set_SupportCaseID (id : string) (a : Account) : Account :=
  set_Status {| Claimed := Claimed (Status a); SupportCaseID := id;
                Conditions := Conditions (Status a); State := State (Status a);
                Reused := Reused (Status a) |} a.

(** ** SDK types (aws-sdk-go-v2), the fields the modelled code reads *)

Record sts_AssumeRoleInput := {
  DurationSeconds : option Z;          (* *int32 *)
  RoleArn : option string;
  RoleSessionName : option string;
  ExternalId : option string
}.

Record sts_AssumedRoleUser := {
  Arn : option string;
  AssumedRoleId : option string
}.

Record sts_Credentials := {
  AccessKeyId : option string;
  SecretAccessKey : option string;
  SessionToken : option string
}.

Record sts_AssumeRoleOutput := {
  AssumedRoleUser : option sts_AssumedRoleUser;
  Credentials : option sts_Credentials
}.

(** [&sts.AssumeRoleOutput{}] *)
Definition empty_AssumeRoleOutput : sts_AssumeRoleOutput :=
  {| AssumedRoleUser := None; Credentials := None |}.

Record organizations_CreateAccountInput := {
  AccountName : option string;
  Email : option string
}.

(** [types.CreateAccountStatus]; [CreateState] and [FailureReason] are string
    enums of the SDK. *)
Record organizations_CreateAccountStatus := {
  CreateAccountStatus_Id : option string;
  CreateAccountStatus_AccountId : option string;
  CreateAccountStatus_State : string;
  CreateAccountStatus_FailureReason : string
}.

(** [CreateAccountOutput] and [DescribeCreateAccountStatusOutput] both hold one
    [*types.CreateAccountStatus]. *)
Record organizations_CreateAccountOutput := {
  CreateAccountStatus : option organizations_CreateAccountStatus
}.

Record organizations_DescribeCreateAccountStatusInput := {
  CreateAccountRequestId : option string
}.

Record organizations_TagResourceInput := {
  ResourceId : option string;
  Tags : list (option string * option string)
}.

(** [awsclient.NewAwsClientInputV2] *)
Record NewAwsClientInputV2 := {
  AwsCredsSecretIDKey : string;
  AwsCredsSecretAccessKey : string;
  AwsToken : string;
  AwsRegion : string;
  SecretName : string;
  NameSpace : string
}.

(** ** Effects *)

(** The resource categories of the teardown engine (section 4.4). *)
Inductive TeardownCategory :=
| Buckets
| HostedZones
| Volumes
| Snapshots
| EndpointServices.

#[global] Instance TeardownCategory_eq_dec : EqDecision TeardownCategory.
Proof. solve_decision. Defined.

(** What the engine does to its collaborators, in the order it does it. *)
Inductive Event :=
| EvSleep (d : Duration)
| EvAssumeRole (input : sts_AssumeRoleInput)
| EvCreateAccount (input : organizations_CreateAccountInput)
| EvDescribeCreateAccountStatus (input : organizations_DescribeCreateAccountStatusInput)
| EvTagResource (input : organizations_TagResourceInput)
| EvDeleteBucket (bucket : option string)
| EvGetClientV2 (controller : string) (input : NewAwsClientInputV2)
| EvGet (key : NamespacedName)
| EvGetConfigMap
| EvUpdate (obj : Account)
| EvStatusUpdate (obj : Account)
| EvGetClaim (key : NamespacedName)
| EvStatusUpdateClaim (key : NamespacedName)
| EvUpdateClaim (obj : AccountClaim)
| EvDeleteAccount (key : NamespacedName)
| EvTeardown (category : TeardownCategory) (failure : option error).

(** A provider call is a call on a [ClientV2]. *)
Definition isProviderCall (e : Event) : bool :=
  match e with
  | EvAssumeRole _ | EvCreateAccount _ | EvDescribeCreateAccountStatus _
  | EvTagResource _ | EvDeleteBucket _ | EvTeardown _ _ => true
  | _ => false
  end.

Definition isCreateAccount (e : Event) : bool :=
  match e with EvCreateAccount _ => true | _ => false end.

Definition isWrite (e : Event) : bool :=
  match e with
  | EvUpdate _ | EvStatusUpdate _ | EvStatusUpdateClaim _
  | EvUpdateClaim _ | EvDeleteAccount _ => true
  | _ => false
  end.

(** The operator config map's [Data]. *)
Definition ConfigMapData : Type := list (string * string).

Fixpoint lookupData (k : string) (d : ConfigMapData) : option string :=
  match d with
  | [] => None
  | (k', v) :: d' => if decide (k' = k) then Some v else lookupData k d'
  end.

(** The machine state a reconciliation runs in: the trace so far, how many
    calls each collaborator has answered, the control plane's stored accounts
    and config map, and the in-memory object [currentAcctInstance] points
    to. *)
Record World := {
  trace : list Event;
  awsCalls : nat;
  k8sCalls : nat;
  accounts : gmap NamespacedName Account;
  claims : gmap NamespacedName AccountClaim;
  configMap : option ConfigMapData;
  current : Account
}.

Definition emptyAccount : Account :=
  {| Meta := {| Name := ""; Namespace := ""; DeletionTimestamp := None;
                Finalizers := []; Labels := [] |};
     Spec := {| AwsAccountID := ""; BYOC := false; ClaimLink := "";
                ClaimLinkNamespace := "";
                Spec_LegalEntity := {| LegalEntity_Name := ""; LegalEntity_ID := "" |};
                ManualSTSMode := false; AccountPool := "" |};
     Status := {| Claimed := false; SupportCaseID := ""; Conditions := [];
                  State := ""; Reused := false |} |}.

Definition emit (e : Event) (w : World) : World :=
  {| trace := trace w ++ [e]; awsCalls := awsCalls w; k8sCalls := k8sCalls w;
     accounts := accounts w; claims := claims w;
     configMap := configMap w; current := current w |}.

Definition tickAws (w : World) : World :=
  {| trace := trace w; awsCalls := S (awsCalls w); k8sCalls := k8sCalls w;
     accounts := accounts w; claims := claims w;
     configMap := configMap w; current := current w |}.

Definition tickK8s (w : World) : World :=
  {| trace := trace w; awsCalls := awsCalls w; k8sCalls := S (k8sCalls w);
     accounts := accounts w; claims := claims w;
     configMap := configMap w; current := current w |}.

Definition set_accounts (m : gmap NamespacedName Account) (w : World) : World :=
  {| trace := trace w; awsCalls := awsCalls w; k8sCalls := k8sCalls w;
     accounts := m; claims := claims w; configMap := configMap w;
     current := current w |}.

Definition set_claims (m : gmap NamespacedName AccountClaim) (w : World) : World :=
  {| trace := trace w; awsCalls := awsCalls w; k8sCalls := k8sCalls w;
     accounts := accounts w; claims := m; configMap := configMap w;
     current := current w |}.

Definition set_current (a : Account) (w : World) : World :=
  {| trace := trace w; awsCalls := awsCalls w; k8sCalls := k8sCalls w;
     accounts := accounts w; claims := claims w;
     configMap := configMap w; current := a |}.

(** How a Go call ends: it returns, it panics (nil dereference), or, for the
    unbounded polling loop, the model's fuel runs out. *)
Inductive Outcome (A : Type) :=
| Val (a : A)
| Panic (what : string)
| OutOfFuel.
Arguments Val {A} a.
Arguments Panic {A} what.
Arguments OutOfFuel {A}.

Definition M (A : Type) : Type := World -> Outcome A * World.

Definition ret {A} (a : A) : M A := fun w => (Val a, w).

Definition bind {A B} (m : M A) (k : A -> M B) : M B :=
  fun w =>
    match m w with
    | (Val a, w') => k a w'
    | (Panic what, w') => (Panic what, w')
    | (OutOfFuel, w') => (OutOfFuel, w')
    end.

Notation "x <- m ;; k" := (bind m (fun x => k))
  (at level 100, m at next level, right associativity).
Notation "m ;;; k" := (bind m (fun _ => k))
  (at level 100, right associativity).

Definition panic {A} (what : string) : M A := fun w => (Panic what, w).
Definition outOfFuel {A} : M A := fun w => (OutOfFuel, w).
Definition get : M World := fun w => (Val w, w).
Definition modify (f : World -> World) : M unit := fun w => (Val tt, f w).

(** [*p] on a pointer that may be nil. *)
Definition deref {A} (what : string) (p : option A) : M A :=
  match p with
  | Some a => ret a
  | None => panic ("nil pointer dereference: " +:+ what)
  end.

(** [time.Sleep] *)
Definition Sleep (d : Duration) : M unit := modify (emit (EvSleep d)).

(** ** The collaborators

    The provider, the client builder, the control plane and the process-wide
    configuration are outside the engine.  Their behaviour is a parameter:
    the [n]-th call a collaborator receives is answered by a function of [n]
    and of the call's input (an ordered script of answers, as the mocked
    client of the controller tests has). *)
Inductive DevMode := DevModeProduction | DevModeLocal | DevModeCluster.

#[global] Instance DevMode_eq_dec : EqDecision DevMode.
Proof. solve_decision. Defined.

Record Environment := {
  (* the SDK's service clients *)
  assumeRoleAnswer :
    nat -> sts_AssumeRoleInput -> option sts_AssumeRoleOutput * option error;
  createAccountAnswer :
    nat -> organizations_CreateAccountInput ->
    option organizations_CreateAccountOutput * option error;
  describeCreateAccountStatusAnswer :
    nat -> organizations_DescribeCreateAccountStatusInput ->
    option organizations_CreateAccountOutput * option error;
  tagResourceAnswer : nat -> organizations_TagResourceInput -> option error;
  deleteBucketAnswer : nat -> option string -> option error;
  (* the outcome of one resource category of a teardown *)
  teardownAnswer : nat -> TeardownCategory -> option error;
  (* the client builder: the error of building a client from an input *)
  getClientAnswer : NewAwsClientInputV2 -> option error;
  (* the control plane: the error injected into its [n]-th call *)
  k8sAnswer : nat -> option error;
  (* [err.Error()] *)
  Error_ : error -> string;
  (* Go's [regexp.MatchString pattern s] *)
  regexp_MatchString : string -> string -> bool * option error;
  (* package [config] *)
  GetIAMArn : string -> string -> string -> string;
  GetDefaultRegion : string;
  IsFedramp : bool;
  (* constants of [api/v1alpha1] and [utils] whose values are not in the
     sources *)
  AccountFinalizer : string;
  AccountClaimFinalizer : string;
  AccountCrNamespace : string;
  AccountOperatorIAMRole : string;
  IAMUserIDLabel : string;
  AwsSecretName : string;
  (* package [utils] *)
  WaitTime : Z;
  DetectDevMode : DevMode;
  GetFeatureFlagValue : ConfigMapData -> string -> bool * option error;
  CreationConditionOlderThan : Account -> Duration -> bool;
  GenerateShortUID : string;
  formatAccountEmail : string -> string;
  (* [totalaccountwatcher.TotalAccountWatcher.AccountsCanBeCreated()] *)
  AccountsCanBeCreated : bool;
  (* methods of [awsv1alpha1.Account] whose bodies are not in the sources *)
  GetAssumeRole : Account -> string;
  ReadyForRegionEnablement : Account -> bool;
  IsEnablingOptInRegions : Account -> bool;
  ReadyForInitialization : Account -> bool
}.

(** ** package awsclient *)
Module awsclient.

(** The [ClientV2] interface, restricted to the methods the modelled code
    calls: a value of the interface is the table of its methods. *)
Record ClientV2 := {
  AssumeRole :
    sts_AssumeRoleInput -> M (option sts_AssumeRoleOutput * option error);
  CreateAccount :
    organizations_CreateAccountInput ->
    M (option organizations_CreateAccountOutput * option error);
  DescribeCreateAccountStatus :
    organizations_DescribeCreateAccountStatusInput ->
    M (option organizations_CreateAccountOutput * option error);
  TagResource : organizations_TagResourceInput -> M (option error);
  DeleteBucket : option string -> M (option error);
  BatchDeleteBucketObjects : option string -> M (option error)
}.

(** The SDK's service clients the wrapper forwards to. *)
Record sts_Client := {
  sts_Client_AssumeRole :
    sts_AssumeRoleInput -> M (option sts_AssumeRoleOutput * option error)
}.

Record organizations_Client := {
  organizations_Client_CreateAccount :
    organizations_CreateAccountInput ->
    M (option organizations_CreateAccountOutput * option error);
  organizations_Client_DescribeCreateAccountStatus :
    organizations_DescribeCreateAccountStatusInput ->
    M (option organizations_CreateAccountOutput * option error);
  organizations_Client_TagResource :
    organizations_TagResourceInput -> M (option error)
}.

Record s3_Client := {
  s3_Client_DeleteBucket : option string -> M (option error)
}.

(** [awsClientV2] is the implementation of [ClientV2]. *)
Record awsClientV2 := {
  orgClient : organizations_Client;
  stsClient : sts_Client;
  s3Client : s3_Client
}.

Definition awsClientV2_AssumeRole (c : awsClientV2) input :=
  sts_Client_AssumeRole (stsClient c) input.

Definition awsClientV2_CreateAccount (c : awsClientV2) input :=
  organizations_Client_CreateAccount (orgClient c) input.

Definition awsClientV2_DescribeCreateAccountStatus (c : awsClientV2) input :=
  organizations_Client_DescribeCreateAccountStatus (orgClient c) input.

Definition awsClientV2_TagResource (c : awsClientV2) input :=
  organizations_Client_TagResource (orgClient c) input.

Definition awsClientV2_DeleteBucket (c : awsClientV2) input :=
  s3_Client_DeleteBucket (s3Client c) input.

(** [func (c *awsClientV2) BatchDeleteBucketObjects(bucketName *string) error] *)
Definition awsClientV2_BatchDeleteBucketObjects
    (c : awsClientV2) (bucketName : option string) : M (option error) :=
  ret (Some (errorString "BatchDeleteBucketObjects not implemented for AWS SDK v2")).

(** The method table of [*awsClientV2]. *)
Definition asClientV2 (c : awsClientV2) : ClientV2 :=
  {| AssumeRole := awsClientV2_AssumeRole c;
     CreateAccount := awsClientV2_CreateAccount c;
     DescribeCreateAccountStatus := awsClientV2_DescribeCreateAccountStatus c;
     TagResource := awsClientV2_TagResource c;
     DeleteBucket := awsClientV2_DeleteBucket c;
     BatchDeleteBucketObjects := awsClientV2_BatchDeleteBucketObjects c |}.

(** [IBuilderV2]; the [kubeClient] argument is the control plane of the
    [World]. *)
Record IBuilderV2 := {
  GetClientV2 :
    string -> NewAwsClientInputV2 -> M (option ClientV2 * option error)
}.

Section Scripted.
Context (env : Environment).

(** One answered provider call: the answer is the script's at the number of
    provider calls made so far; the call is recorded. *)
Definition providerCall {A} (e : Event) (answer : nat -> A) : M A :=
  fun w => (Val (answer (awsCalls w)), tickAws (emit e w)).

Definition sdkSts : sts_Client :=
  {| sts_Client_AssumeRole input :=
       providerCall (EvAssumeRole input) (fun n => assumeRoleAnswer env n input) |}.

Definition sdkOrganizations : organizations_Client :=
  {| organizations_Client_CreateAccount input :=
       providerCall (EvCreateAccount input)
         (fun n => createAccountAnswer env n input);
     organizations_Client_DescribeCreateAccountStatus input :=
       providerCall (EvDescribeCreateAccountStatus input)
         (fun n => describeCreateAccountStatusAnswer env n input);
     organizations_Client_TagResource input :=
       providerCall (EvTagResource input)
         (fun n => tagResourceAnswer env n input) |}.

Definition sdkS3 : s3_Client :=
  {| s3_Client_DeleteBucket b :=
       providerCall (EvDeleteBucket b) (fun n => deleteBucketAnswer env n b) |}.

(** What [newClientV2] returns once the SDK configuration has loaded. *)
Definition newClientV2 : awsClientV2 :=
  {| orgClient := sdkOrganizations; stsClient := sdkSts; s3Client := sdkS3 |}.

(** A builder whose clients talk to the scripted provider. *)
Definition scriptedBuilder : IBuilderV2 :=
  {| GetClientV2 controllerName input :=
       modify (emit (EvGetClientV2 controllerName input)) ;;;
       match getClientAnswer env input with
       | Some err => ret (None, Some err)
       | None => ret (Some (asClientV2 newClientV2), None)
       end |}.

End Scripted.

(** Modelled from the spec: the teardown engine's storage-bucket category
    (section 4.4) is not in the sources.  Each bucket's objects are emptied
    before the bucket is deleted; a failure is collected and does not stop the
    pass; the category reports failure when anything was collected. *)
Fixpoint deleteBuckets (client : ClientV2) (buckets : list string)
    : M (list error) :=
  match buckets with
  | [] => ret []
  | b :: rest =>
      emptied <- BatchDeleteBucketObjects client (Some b) ;;
      match emptied with
      | Some err =>
          errs <- deleteBuckets client rest ;;
          ret (err :: errs)
      | None =>
          deleted <- DeleteBucket client (Some b) ;;
          errs <- deleteBuckets client rest ;;
          ret (match deleted with Some err => err :: errs | None => errs end)
      end
  end.

End awsclient.

(** ** package sts ([pkg/awsclient/sts]) *)
Module sts.
Import awsclient.

Definition controllerNameV2 : string := "account".

Section WithEnvironment.
Context (env : Environment).

(** [func matchSubstringV2(roleID, role string) (bool, error)] *)
Definition matchSubstringV2 (roleID role : string) : bool * option error :=
  regexp_MatchString env roleID role.

(** The input [GetSTSCredentialsV2] builds: the session lasts 3600 seconds,
    and the external ID is set only when it is not empty. *)
Definition assumeRoleInput (roleArn externalID roleSessionName : string)
    : sts_AssumeRoleInput :=
  let roleSessionDuration : Z := 3600%Z in
  {| DurationSeconds := Some roleSessionDuration;
     RoleArn := Some roleArn;
     RoleSessionName := Some roleSessionName;
     ExternalId := if decide (externalID = "") then None else Some externalID |}.

(** The body of [for i := 0; i < 100; i++] with [remaining = 100 - i]
    iterations left and the current values of [assumeRoleOutput, err]. *)
Fixpoint assumeRoleLoop (client : ClientV2) (input : sts_AssumeRoleInput)
    (remaining : nat) (last : option sts_AssumeRoleOutput * option error)
    : M (option sts_AssumeRoleOutput * option error) :=
  match remaining with
  | O => ret last
  | S remaining' =>
      Sleep (Duration_mul 500%Z Millisecond) ;;;
      r <- AssumeRole client input ;;
      match r.2 with
      | None => ret r                                  (* break *)
      | Some _ => assumeRoleLoop client input remaining' r
      end
  end.

(** [func GetSTSCredentialsV2(reqLogger, client, roleArn, externalID,
    roleSessionName)], returning the output pointer and the error *)
Definition GetSTSCredentialsV2 (client : ClientV2)
    (roleArn externalID roleSessionName : string)
    : M (option sts_AssumeRoleOutput * option error) :=
  let input := assumeRoleInput roleArn externalID roleSessionName in
  r <- assumeRoleLoop client input 100 (Some empty_AssumeRoleOutput, None) ;;
  match r.2 with
  | Some err => ret (Some empty_AssumeRoleOutput, Some err)
  | None => ret r
  end.

(** [*creds.AssumedRoleUser.AssumedRoleId] *)
Definition assumedRoleIdOf (creds : option sts_AssumeRoleOutput) : M string :=
  c <- deref "creds" creds ;;
  u <- deref "creds.AssumedRoleUser" (AssumedRoleUser c) ;;
  deref "creds.AssumedRoleUser.AssumedRoleId" (AssumedRoleId u).

(** The body of [for i := 0; i < 10; i++] of [HandleRoleAssumptionV2] at
    index [i] with [remaining = 10 - i]; [creds] is the variable's current
    value.  The result is [(creds, credsErr)]: an error stands for the early
    [return nil, nil, credsErr]. *)
Fixpoint roleAssumptionLoop (awsSetupClient : ClientV2)
    (roleArn roleSessionName ccsRoleID : string)
    (remaining i : nat) (creds : option sts_AssumeRoleOutput)
    : M (option sts_AssumeRoleOutput * option error) :=
  match remaining with
  | O => ret (creds, None)
  | S remaining' =>
      r <- GetSTSCredentialsV2 awsSetupClient roleArn "" roleSessionName ;;
      match r.2 with
      | Some credsErr => ret (None, Some credsErr)
      | None =>
          roleId <- assumedRoleIdOf r.1 ;;
          let match_ := (matchSubstringV2 ccsRoleID roleId).1 in
          if bool_decide (ccsRoleID <> "") && negb match_ then
            Sleep (Duration_mul (Z.of_nat i) Second) ;;;
            roleAssumptionLoop awsSetupClient roleArn roleSessionName ccsRoleID
              remaining' (S i) r.1
          else ret (r.1, None)                         (* break *)
      end
  end.

(** [config.AwsResourceTypeRole] *)
Definition AwsResourceTypeRole : string := "role".

(** [func HandleRoleAssumptionV2(reqLogger, awsClientBuilder,
    currentAcctInstance, client, awsSetupClient, region, roleToAssume,
    ccsRoleID) (awsclient.ClientV2, *sts.AssumeRoleOutput, error)] *)
Definition HandleRoleAssumptionV2 (awsClientBuilder : IBuilderV2)
    (currentAcctInstance : Account) (awsSetupClient : ClientV2)
    (region roleToAssume ccsRoleID : string)
    : M (option ClientV2 * option sts_AssumeRoleOutput * option error) :=
  let roleArn :=
    GetIAMArn env (AwsAccountID (Spec currentAcctInstance)) AwsResourceTypeRole
      roleToAssume in
  let roleSessionName := "awsAccountOperator" in
  r <- roleAssumptionLoop awsSetupClient roleArn roleSessionName ccsRoleID
         10 0 None ;;
  match r.2 with
  | Some credsErr => ret (None, None, Some credsErr)
  | None =>
      let creds := r.1 in
      let awsRegion :=
        if decide (region <> "") then region else GetDefaultRegion env in
      c <- deref "creds" creds ;;
      k <- deref "creds.Credentials" (Credentials c) ;;
      accessKeyId <- deref "creds.Credentials.AccessKeyId" (AccessKeyId k) ;;
      secretAccessKey <-
        deref "creds.Credentials.SecretAccessKey" (SecretAccessKey k) ;;
      sessionToken <- deref "creds.Credentials.SessionToken" (SessionToken k) ;;
      b <- GetClientV2 awsClientBuilder controllerNameV2
             {| AwsCredsSecretIDKey := accessKeyId;
                AwsCredsSecretAccessKey := secretAccessKey;
                AwsToken := sessionToken;
                AwsRegion := awsRegion;
                SecretName := ""; NameSpace := "" |} ;;
      match b.2 with
      | Some err => ret (None, None, Some err)
      | None => ret (b.1, creds, None)
      end
  end.

(** [func AssumeRoleAndCreateClientV2(...)] *)
Definition AssumeRoleAndCreateClientV2 (awsClientBuilder : IBuilderV2)
    (currentAcctInstance : Account) (awsSetupClient : ClientV2)
    (region roleToAssume ccsRoleID : string) :=
  HandleRoleAssumptionV2 awsClientBuilder currentAcctInstance awsSetupClient
    region roleToAssume ccsRoleID.

End WithEnvironment.
End sts.

(** ** The control plane ([sigs.k8s.io/controller-runtime/pkg/client])

    Accounts are served with a status subresource: [Update] persists metadata
    and spec, [Status().Update] persists the status, and both write the stored
    object back into the caller's.  An object pending deletion is removed
    when its last finalizer goes.  A stale resource version or any other
    failure is an injected answer of the environment. *)
Module k8s.
Section WithEnvironment.
Context (env : Environment).

(** One control-plane call: recorded, and answered by the script. *)
Definition controlPlaneCall (e : Event) : M (option error) :=
  fun w => (Val (k8sAnswer env (k8sCalls w)), tickK8s (emit e w)).

(** [r.Get(ctx, key, currentAcctInstance)] *)
Definition Get (key : NamespacedName) : M (option error) :=
  injected <- controlPlaneCall (EvGet key) ;;
  match injected with
  | Some err => ret (Some err)
  | None =>
      w <- get ;;
      match accounts w !! key with
      | None => ret (Some StatusNotFound)
      | Some stored => modify (set_current stored) ;;; ret None
      end
  end.

Definition storeAccount (key : NamespacedName) (obj : Account) : M unit :=
  w <- get ;;
  match DeletionTimestamp (Meta obj), Finalizers (Meta obj) with
  | Some _, [] => modify (set_accounts (delete key (accounts w)))
  | _, _ => modify (set_accounts (<[key := obj]> (accounts w)))
  end ;;;
  modify (set_current obj).

(** [r.Update(ctx, currentAcctInstance)] *)
Definition Update : M (option error) :=
  w <- get ;;
  let obj := current w in
  let key := ObjectKeyFromObject obj in
  injected <- controlPlaneCall (EvUpdate obj) ;;
  match injected with
  | Some err => ret (Some err)
  | None =>
      match accounts w !! key with
      | None => ret (Some StatusNotFound)
      | Some stored =>
          storeAccount key
            {| Meta := Meta obj; Spec := Spec obj; Status := Status stored |} ;;;
          ret None
      end
  end.

(** [r.Status().Update(ctx, currentAcctInstance)] *)
Definition StatusUpdate : M (option error) :=
  w <- get ;;
  let obj := current w in
  let key := ObjectKeyFromObject obj in
  injected <- controlPlaneCall (EvStatusUpdate obj) ;;
  match injected with
  | Some err => ret (Some err)
  | None =>
      match accounts w !! key with
      | None => ret (Some StatusNotFound)
      | Some stored =>
          storeAccount key
            {| Meta := Meta stored; Spec := Spec stored; Status := Status obj |} ;;;
          ret None
      end
  end.

(** [utils.GetOperatorConfigMap(r.Client)] reads the operator's config map;
    the map returned with an error is empty. *)
Definition GetOperatorConfigMap : M (ConfigMapData * option error) :=
  injected <- controlPlaneCall EvGetConfigMap ;;
  match injected with
  | Some err => ret ([], Some err)
  | None =>
      w <- get ;;
      match configMap w with
      | None => ret ([], Some StatusNotFound)
      | Some data => ret (data, None)
      end
  end.

(** [r.Get(ctx, key, accountClaim)] on an account claim. *)
Definition GetClaim (key : NamespacedName) : M (option AccountClaim * option error) :=
  injected <- controlPlaneCall (EvGetClaim key) ;;
  match injected with
  | Some err => ret (None, Some err)
  | None =>
      w <- get ;;
      match claims w !! key with
      | None => ret (None, Some StatusNotFound)
      | Some c => ret (Some c, None)
      end
  end.

End WithEnvironment.
End k8s.

(** [k8serr.IsNotFound] *)
Definition IsNotFound (err : error) : bool := bool_decide (err = StatusNotFound).

(** ** Methods of [awsv1alpha1.Account] and helpers of package [utils]

    Modelled from the spec: these one-line helpers are declared outside the
    sources at hand.  Each reads the field its name says (data model, section
    3); [SetAccountStatus] takes its arguments in the order of its call sites
    in the controller: the account, the condition message, the condition type,
    the state. *)
Module utils.

Definition AccountPending : string := "Pending".
Definition AccountCreating : string := "Creating".
Definition AccountFailed : string := "Failed".
Definition AccountInitializingRegions : string := "InitializingRegions".
Definition AccountReady : string := "Ready".
Definition AccountPendingVerification : string := "PendingVerification".
Definition AccountOptingInRegions : string := "OptingInRegions".
Definition AccountOptInRegionEnabled : string := "OptInRegionsEnabled".

Definition IsPendingDeletion (a : Account) : bool :=
  bool_decide (DeletionTimestamp (Meta a) <> None).
Definition IsBYOC (a : Account) : bool := BYOC (Spec a).
Definition HasState (a : Account) : bool :=
  bool_decide (State (Status a) <> "").
Definition IsClaimed (a : Account) : bool := Claimed (Status a).
Definition HasClaimLink (a : Account) : bool :=
  bool_decide (ClaimLink (Spec a) <> "").
Definition HasAwsAccountID (a : Account) : bool :=
  bool_decide (AwsAccountID (Spec a) <> "").
Definition IsFailed (a : Account) : bool :=
  bool_decide (State (Status a) = AccountFailed).
Definition IsReady (a : Account) : bool :=
  bool_decide (State (Status a) = AccountReady).
Definition IsCreating (a : Account) : bool :=
  bool_decide (State (Status a) = AccountCreating).
Definition IsInitializingRegions (a : Account) : bool :=
  bool_decide (State (Status a) = AccountInitializingRegions).
Definition IsPendingVerification (a : Account) : bool :=
  bool_decide (State (Status a) = AccountPendingVerification).
Definition IsReadyUnclaimedAndHasClaimLink (a : Account) : bool :=
  IsReady a && HasClaimLink a && negb (IsClaimed a).
Definition IsUnclaimedAndHasNoState (a : Account) : bool :=
  negb (IsClaimed a) && negb (HasState a).

(** [utils.Contains], [utils.Remove] on string slices. *)
Definition Contains (l : list string) (s : string) : bool :=
  existsb (String.eqb s) l.
Definition Remove (l : list string) (s : string) : list string :=
  List.filter (fun x => negb (String.eqb s x)) l.

Definition IsNonSTSPendingDeletionWithFinalizer (finalizer : string)
    (a : Account) : bool :=
  IsPendingDeletion a && negb (ManualSTSMode (Spec a))
  && Contains (Finalizers (Meta a)) finalizer.

(** [string(ctype)] *)
Definition conditionTypeName (ctype : AccountConditionType) : string :=
  match ctype with
  | ConditionCreating => "Creating"
  | ConditionReady => "Ready"
  | ConditionCreationFailed => "AccountCreationFailed"
  | ConditionClientError => "AccountClientError"
  end.

(** [utils.SetAccountCondition] with [UpdateConditionNever]: a condition of a
    type not yet present is appended, its reason the type's name. *)
Definition SetAccountCondition (conditions : list AccountCondition)
    (ctype : AccountConditionType) (message : string) : list AccountCondition :=
  if existsb (fun c => bool_decide (Condition_Type c = ctype)) conditions
  then conditions
  else conditions ++ [{| Condition_Type := ctype;
                         Condition_Reason := conditionTypeName ctype;
                         Condition_Message := message |}].

(** [utils.SetAccountStatus(account, message, ctype, state)] *)
Definition SetAccountStatus (message : string) (ctype : AccountConditionType)
    (state : string) (a : Account) : Account :=
  set_Status {| Claimed := Claimed (Status a);
                SupportCaseID := SupportCaseID (Status a);
                Conditions := SetAccountCondition (Conditions (Status a)) ctype message;
                State := state;
                Reused := Reused (Status a) |} a.

(** [utils.AccountCRHasIAMUserIDLabel], [utils.AddLabels] with
    [utils.GenerateLabel]. *)
Definition AccountCRHasIAMUserIDLabel (label : string) (a : Account) : bool :=
  existsb (fun kv => String.eqb label kv.1) (Labels (Meta a)).
Definition AddLabels (a : Account) (kv : string * string) : Account :=
  set_Labels (Labels (Meta a) ++ [kv]) a.

End utils.

(** ** package account ([controllers/account/account_controller_v2.go]) *)
Module account.
Import awsclient utils.

(** [reconcile.Result] *)
Record Result := {
  Requeue : bool;
  RequeueAfter : Duration
}.

Definition emptyResult : Result := {| Requeue := false; RequeueAfter := 0%Z |}.

(** [AccountReconcilerV2]; its embedded [client.Client] is the control plane
    of the [World]. *)
Record AccountReconcilerV2 := {
  awsClientBuilder : IBuilderV2;
  shardName : string
}.

Definition controllerName : string := "account".

(** [awsAccountInitRequeueDurationV2 = 1 * time.Minute] *)
Definition awsAccountInitRequeueDurationV2 : Duration := Duration_mul 1%Z Minute.

Section WithEnvironment.
Context (env : Environment).

(** [createPendTime = utils.WaitTime * time.Minute] *)
Definition createPendTime : Duration := Duration_mul (WaitTime env) Minute.

Definition currentAccount : M Account := w <- get ;; ret (current w).
Definition assign (f : Account -> Account) : M unit :=
  modify (fun w => set_current (f (current w)) w).

(** [func (r *AccountReconcilerV2) statusUpdate(ctx, account) error] *)
Definition statusUpdate : M (option error) := k8s.StatusUpdate env.

(** [func (r *AccountReconcilerV2) accountSpecUpdate(ctx, reqLogger, account) error] *)
Definition accountSpecUpdate : M (option error) :=
  err <- k8s.Update env ;;
  match err with
  | Some e => ret (Some e)
  | None => ret None
  end.

(** [func (r *AccountReconcilerV2) addFinalizer(ctx, reqLogger, account) error] *)
Definition addFinalizer : M (option error) :=
  account <- currentAccount ;;
  if negb (Contains (Finalizers (Meta account)) (AccountFinalizer env)) then
    assign (set_Finalizers (Finalizers (Meta account) ++ [AccountFinalizer env])) ;;;
    err <- k8s.Update env ;;
    match err with
    | Some e => ret (Some e)
    | None => ret None
    end
  else ret None.

(** [func (r *AccountReconcilerV2) removeFinalizer(ctx, account, finalizerName) error] *)
Definition removeFinalizer (finalizerName : string) : M (option error) :=
  account <- currentAccount ;;
  assign (set_Finalizers (Remove (Finalizers (Meta account)) finalizerName)) ;;;
  err <- k8s.Update env ;;
  match err with
  | Some e => ret (Some e)
  | None => ret None
  end.

(** [func (r *AccountReconcilerV2) setAccountFailedV2(ctx, reqLogger, account,
    ctype, reason, message, state) (reconcile.Result, error)].  The source
    passes [state] where [utils.SetAccountStatus] takes the message and
    [message] where it takes the state, and does not use [reason]. *)
Definition setAccountFailedV2 (ctype : AccountConditionType)
    (reason message state : string) : M (Result * option error) :=
  assign (SetAccountStatus state ctype message) ;;;
  err <- statusUpdate ;;
  match err with
  | Some e => ret (emptyResult, Some e)
  | None => ret (emptyResult, None)
  end.

(** [func (r *AccountReconcilerV2) handleAWSClientErrorV2(ctx, reqLogger,
    currentAcctInstance, err) (reconcile.Result, error)] *)
Definition handleAWSClientErrorV2 (err : error) : M (Result * option error) :=
  currentAcctInstance <- currentAccount ;;
  let reason :=
    match err with
    | OperationError code => code       (* errors.As(err, &awsErr) *)
    | _ => ""
    end in
  let errMsg :=
    "Failed to create STS Credentials for account ID "
    +:+ AwsAccountID (Spec currentAcctInstance) +:+ ": " +:+ Error_ env err in
  setAccountFailedV2 ConditionClientError reason errMsg AccountFailed ;;;
  ret (emptyResult, Some err).

(** The stubs of the migration: each logs and returns. *)
Definition handleAccountInitializingRegionsV2 : M (Result * option error) :=
  ret (emptyResult, None).
Definition initializeNewCCSAccountV2 : M (Result * option error) :=
  ret (emptyResult, None).
Definition HandleNonCCSPendingVerificationV2 (awsSetupClient : ClientV2)
    : M (Result * option error) :=
  ret (emptyResult, None).
Definition handleOptInRegionEnablementV2 (awsSetupClient : ClientV2)
    (optInRegions : string) : M (Result * option error) :=
  ret (emptyResult, None).
Definition getSTSClientV2 (accountClaim : option AccountClaim)
    (awsSetupClient : ClientV2)
    : M (option ClientV2 * option sts_AssumeRoleOutput * option error) :=
  ret (Some awsSetupClient, Some empty_AssumeRoleOutput, None).
Definition handleIAMUserCreationV2 (awsSetupClient : ClientV2)
    (namespace : string)
    : M (Result * option sts_AssumeRoleOutput * option error) :=
  ret (emptyResult, Some empty_AssumeRoleOutput, None).
Definition initializeRegionsV2 (creds : option sts_AssumeRoleOutput)
    (amiOwner : string) : M (option error) :=
  ret None.
Definition finalizeAccountV2 (awsClient : option ClientV2) : M unit := ret tt.
Definition ClaimAccountV2 : M (option error) := ret None.
Definition isAwsOptInErrorV2 (err : option error) : bool := false.

(** [func newBYOCAccountV2(account *awsv1alpha1.Account) bool] *)
Definition newBYOCAccountV2 (account : Account) : bool := BYOC (Spec account).

(** [func (r *AccountReconcilerV2) TagAccountV2(ctx, awsSetupClient,
    awsAccountID, shardName) error] *)
Definition TagAccountV2 (awsSetupClient : ClientV2)
    (awsAccountID shardName : string) : M (option error) :=
  let inputTag :=
    {| ResourceId := Some awsAccountID;
       Tags := [(Some "owner", Some shardName)] |} in
  err <- TagResource awsSetupClient inputTag ;;
  match err with
  | Some e => ret (Some e)
  | None => ret None
  end.

(** [&organizations.DescribeCreateAccountStatusOutput{}] *)
Definition empty_DescribeCreateAccountStatusOutput
    : organizations_CreateAccountOutput :=
  {| CreateAccountStatus := None |}.

(** The polling loop [for { ... time.Sleep(10 * time.Second) }] of
    [CreateAccountV2]; it has no bound of its own, the model's [fuel] counts
    its iterations. *)
Fixpoint pollCreateAccountStatus (client : ClientV2)
    (describeStatusInput : organizations_DescribeCreateAccountStatusInput)
    (fuel : nat)
    : M (option organizations_CreateAccountOutput * option error) :=
  match fuel with
  | O => outOfFuel
  | S fuel' =>
      r <- DescribeCreateAccountStatus client describeStatusInput ;;
      match r.2 with
      | Some err => ret (Some empty_DescribeCreateAccountStatusOutput, Some err)
      | None =>
          status <- deref "status" r.1 ;;
          cas <- deref "status.CreateAccountStatus" (CreateAccountStatus status) ;;
          let createStatus := CreateAccountStatus_State cas in
          if decide (createStatus = "FAILED") then
            let returnErr :=
              if decide (CreateAccountStatus_FailureReason cas = "ACCOUNT_LIMIT_EXCEEDED")
              then ErrAwsAccountLimitExceeded
              else if decide (CreateAccountStatus_FailureReason cas = "INTERNAL_FAILURE")
              then ErrAwsInternalFailure
              else ErrAwsFailedCreateAccount in
            ret (Some empty_DescribeCreateAccountStatusOutput, Some returnErr)
          else if decide (createStatus <> "IN_PROGRESS") then
            ret (r.1, None)                               (* break *)
          else
            Sleep (Duration_mul 10%Z Second) ;;;
            pollCreateAccountStatus client describeStatusInput fuel'
      end
  end.

(** [func (r *AccountReconcilerV2) CreateAccountV2(ctx, reqLogger, client,
    accountName, accountEmail)].  An error of [CreateAccount] that is not a
    [*smithy.OperationError] leaves [returnErr] nil. *)
Definition CreateAccountV2 (fuel : nat) (client : ClientV2)
    (accountName accountEmail : string)
    : M (option organizations_CreateAccountOutput * option error) :=
  let createInput :=
    {| AccountName := Some accountName; Email := Some accountEmail |} in
  r <- CreateAccount client createInput ;;
  match r.2 with
  | Some err =>
      let returnErr :=
        match err with
        | OperationError code =>
            Some (if decide (code = "ConcurrentModificationException")
                  then ErrAwsConcurrentModification
                  else if decide (code = "ConstraintViolationException")
                  then ErrAwsAccountLimitExceeded
                  else if decide (code = "ServiceException")
                  then ErrAwsInternalFailure
                  else if decide (code = "TooManyRequestsException")
                  then ErrAwsTooManyRequests
                  else ErrAwsFailedCreateAccount)
        | _ => None
        end in
      ret (Some empty_DescribeCreateAccountStatusOutput, returnErr)
  | None =>
      createOutput <- deref "createOutput" r.1 ;;
      cas <- deref "createOutput.CreateAccountStatus"
               (CreateAccountStatus createOutput) ;;
      let describeStatusInput :=
        {| CreateAccountRequestId := CreateAccountStatus_Id cas |} in
      pollCreateAccountStatus client describeStatusInput fuel
  end.

(** [func (r *AccountReconcilerV2) BuildAccountV2(ctx, reqLogger, awsClient,
    account) (string, error)] *)
Definition BuildAccountV2 (fuel : nat) (awsClient : ClientV2)
    : M (string * option error) :=
  account <- currentAccount ;;
  let email := formatAccountEmail env (Name (Meta account)) in
  r <- CreateAccountV2 fuel awsClient (Name (Meta account)) email ;;
  match r.2 with
  | Some orgErr =>
      if decide (orgErr = ErrAwsFailedCreateAccount) then
        assign (SetAccountStatus "Failed to create AWS Account"
                  ConditionCreationFailed AccountFailed) ;;;
        err <- statusUpdate ;;
        match err with
        | Some e => ret ("", Some e)
        | None => ret ("", Some orgErr)
        end
      else ret ("", Some orgErr)
  | None =>
      account <- currentAccount ;;
      k8s.Get env (ObjectKeyFromObject account) ;;;
      orgOutput <- deref "orgOutput" r.1 ;;
      cas <- deref "orgOutput.CreateAccountStatus"
               (CreateAccountStatus orgOutput) ;;
      accountId <- deref "orgOutput.CreateAccountStatus.AccountId"
                     (CreateAccountStatus_AccountId cas) ;;
      ret (accountId, None)
  end.

(** [func (r *AccountReconcilerV2) nonCCSAssignAccountIDV2(ctx, reqLogger,
    currentAcctInstance, awsSetupClient) error] *)
Definition nonCCSAssignAccountIDV2 (fuel : nat) (r : AccountReconcilerV2)
    (awsSetupClient : ClientV2) : M (option error) :=
  built <-
    match DetectDevMode env with
    | DevModeProduction => BuildAccountV2 fuel awsSetupClient
    | _ => ret ("123456789012", None)
    end ;;
  match built.2 with
  | Some err => ret (Some err)
  | None =>
      let awsAccountID := built.1 in
      assign (SetAccountStatus AccountCreating ConditionCreating AccountCreating) ;;;
      err <- statusUpdate ;;
      match err with
      | Some e => ret (Some e)
      | None =>
          (if decide (DetectDevMode env <> DevModeProduction)
           then assign (set_SupportCaseID "11111111")
           else ret tt) ;;;
          assign (set_AwsAccountID awsAccountID) ;;;
          TagAccountV2 awsSetupClient awsAccountID (shardName r) ;;;
          accountSpecUpdate
      end
  end.

(** [func (r *AccountReconcilerV2) getAccountClaim(ctx, account)] *)
Definition getAccountClaim : M (option AccountClaim * option error) :=
  account <- currentAccount ;;
  k8s.GetClaim env
    (ClaimLinkNamespace (Spec account), ClaimLink (Spec account)).

(** Lines 216-284 of [Reconcile]: the set-up of a new account.  [Some] is a
    [return] of [Reconcile], [None] falls through to the rest of it. *)
Definition setUpAccount (fuel : nat) (r : AccountReconcilerV2)
    (awsSetupClient : ClientV2) : M (option (Result * option error)) :=
  currentAcctInstance <- currentAccount ;;
  if newBYOCAccountV2 currentAcctInstance then
    i <- initializeNewCCSAccountV2 ;;
    match i.2 with
    | Some initErr =>
        setAccountFailedV2 ConditionCreationFailed (Error_ env initErr)
          "Failed to initialize new CCS account" AccountFailed ;;;
        ret (Some (i.1, Some initErr))
    | None =>
        assign (SetAccountStatus AccountCreating ConditionCreating AccountCreating) ;;;
        updateErr <- statusUpdate ;;
        match updateErr with
        | Some e => ret (Some (emptyResult, Some e))
        | None => ret None
        end
    end
  else
    if IsPendingVerification currentAcctInstance then
      res <- HandleNonCCSPendingVerificationV2 awsSetupClient ;;
      ret (Some res)
    else if IsReadyUnclaimedAndHasClaimLink currentAcctInstance then
      err <- ClaimAccountV2 ;;
      ret (Some (emptyResult, err))
    else if IsCreating currentAcctInstance
            && CreationConditionOlderThan env currentAcctInstance createPendTime then
      let errMsg :=
        "Creation pending for longer than " +:+ pretty (WaitTime env)
        +:+ " minutes" in
      f <- setAccountFailedV2 ConditionCreationFailed "CreationTimeout" errMsg
             AccountFailed ;;
      match f.2 with
      | Some stateErr => ret (Some (emptyResult, Some stateErr))
      | None => ret (Some (emptyResult, Some (errorString errMsg)))
      end
    else if IsUnclaimedAndHasNoState currentAcctInstance then
      if negb (HasAwsAccountID currentAcctInstance) then
        if negb (AccountsCanBeCreated env) && negb (IsFedramp env) then
          ret (Some ({| Requeue := true;
                        RequeueAfter := Duration_mul 5%Z Minute |}, None))
        else
          err <- nonCCSAssignAccountIDV2 fuel r awsSetupClient ;;
          match err with
          | Some e => ret (Some (emptyResult, Some e))
          | None => ret None
          end
      else
        assign (SetAccountStatus "AWS account already created"
                  ConditionCreating AccountCreating) ;;;
        err <- statusUpdate ;;
        match err with
        | Some e => ret (Some (emptyResult, Some e))
        | None => ret None
        end
    else ret None.

(** Lines 303-376 of [Reconcile]: account init for both BYOC and non-BYOC. *)
Definition initializeAccount (request : NamespacedName)
    (awsSetupClient : ClientV2) (amiOwner : string)
    : M (Result * option error) :=
  currentAcctInstance <- currentAccount ;;
  credsOrReturn <-
    (if ManualSTSMode (Spec currentAcctInstance) then
       c <- getAccountClaim ;;
       match c.2 with
       | Some acctClaimErr =>
           k8s.controlPlaneCall env
             (EvStatusUpdateClaim
                (ClaimLinkNamespace (Spec currentAcctInstance),
                 ClaimLink (Spec currentAcctInstance))) ;;;
           ret (inr (emptyResult, Some acctClaimErr))
       | None =>
           s <- getSTSClientV2 c.1 awsSetupClient ;;
           match s.2 with
           | Some e => ret (inr (emptyResult, Some e))
           | None => ret (inl s.1.2)
           end
       end
     else
       if negb (AccountCRHasIAMUserIDLabel (IAMUserIDLabel env) currentAcctInstance)
       then
         assign (fun a => AddLabels a (IAMUserIDLabel env, GenerateShortUID env)) ;;;
         err <- k8s.Update env ;;
         ret (inr ({| Requeue := true; RequeueAfter := 0%Z |}, err))
       else
         h <- handleIAMUserCreationV2 awsSetupClient request.1 ;;
         match h.2 with
         | Some e => ret (inr (emptyResult, Some e))
         | None => ret (inl h.1.2)
         end) ;;
  match credsOrReturn with
  | inr res => ret res
  | inl creds =>
      err <- initializeRegionsV2 creds amiOwner ;;
      if isAwsOptInErrorV2 err then
        ret ({| Requeue := false;
                RequeueAfter := awsAccountInitRequeueDurationV2 |}, None)
      else
        match err with
        | Some e => ret (emptyResult, Some e)
        | None =>
            assign (SetAccountStatus AccountReady ConditionReady AccountReady) ;;;
            err <- statusUpdate ;;
            match err with
            | Some e => ret (emptyResult, Some e)
            | None => ret (emptyResult, None)
            end
        end
  end.

(** Lines 161-202 of [Reconcile]: the account is pending deletion. *)
Definition finalizeDeletion (r : AccountReconcilerV2)
    (awsSetupClient : ClientV2) : M (Result * option error) :=
  currentAcctInstance <- currentAccount ;;
  if ManualSTSMode (Spec currentAcctInstance) then
    err <- removeFinalizer (AccountFinalizer env) ;;
    ret (emptyResult, err)
  else
    let roleToAssume :=
      if IsBYOC currentAcctInstance then GetAssumeRole env currentAcctInstance
      else AccountOperatorIAMRole env in
    h <- sts.HandleRoleAssumptionV2 env (awsClientBuilder r) currentAcctInstance
           awsSetupClient "" roleToAssume "" ;;
    match h.2 with
    | Some err => handleAWSClientErrorV2 err
    | None =>
        let awsClient := h.1.1 in
        finalizeAccountV2 awsClient ;;;
        currentAcctInstance <- currentAccount ;;
        if IsNonSTSPendingDeletionWithFinalizer (AccountFinalizer env)
             currentAcctInstance then
          err <- removeFinalizer (AccountFinalizer env) ;;
          match err with
          | Some e => ret (emptyResult, Some e)
          | None => ret (emptyResult, None)
          end
        else ret (emptyResult, None)
    end.

(** Lines 161-378 of [Reconcile]: what is done with the account once the
    operator's client is built and the finalizer is in place. *)
Definition reconcileAccount (fuel : nat) (r : AccountReconcilerV2)
    (request : NamespacedName) (configMap : ConfigMapData)
    (isOptInRegionFeatureEnabled : bool) (optInRegions : string)
    (awsSetupClient : ClientV2) : M (Result * option error) :=
  currentAcctInstance <- currentAccount ;;
  if IsPendingDeletion currentAcctInstance then
    finalizeDeletion r awsSetupClient
  else if IsFailed currentAcctInstance then
    ret (emptyResult, None)
  else if IsInitializingRegions currentAcctInstance then
    handleAccountInitializingRegionsV2
  else
  returned <- setUpAccount fuel r awsSetupClient ;;
  match returned with
  | Some res => ret res
  | None =>
  currentAcctInstance <- currentAccount ;;
  if (ReadyForRegionEnablement env currentAcctInstance
      || IsEnablingOptInRegions env currentAcctInstance)
     && isOptInRegionFeatureEnabled && bool_decide (optInRegions <> "") then
    handleOptInRegionEnablementV2 awsSetupClient optInRegions
  else
  match lookupData "ami-owner" configMap with
  | None => ret (emptyResult, Some ErrInvalidConfigMap)
  | Some amiOwner =>
  currentAcctInstance <- currentAccount ;;
  if ReadyForInitialization env currentAcctInstance then
    initializeAccount request awsSetupClient amiOwner
  else ret (emptyResult, None)
  end end.

(** [func (r *AccountReconcilerV2) Reconcile(ctx, request) (ctrl.Result, error)] *)
Definition Reconcile (fuel : nat) (r : AccountReconcilerV2)
    (request : NamespacedName) : M (Result * option error) :=
  modify (set_current emptyAccount) ;;;       (* &awsv1alpha1.Account{} *)
  err <- k8s.Get env request ;;
  match err with
  | Some e =>
      if IsNotFound e then ret (emptyResult, None) else ret (emptyResult, Some e)
  | None =>
  cm <- k8s.GetOperatorConfigMap env ;;
  match cm.2 with
  | Some e => ret (emptyResult, Some e)
  | None =>
  let configMap := cm.1 in
  let flag := GetFeatureFlagValue env configMap "feature.opt_in_regions" in
  let isOptInRegionFeatureEnabled :=
    match flag.2 with Some _ => false | None => flag.1 end in
  let optInRegions := default "" (lookupData "opt-in-regions" configMap) in
  let awsRegion := GetDefaultRegion env in
  b <- GetClientV2 (awsClientBuilder r) controllerName
         {| AwsCredsSecretIDKey := ""; AwsCredsSecretAccessKey := "";
            AwsToken := ""; AwsRegion := awsRegion;
            SecretName := AwsSecretName env;
            NameSpace := AccountCrNamespace env |} ;;
  match b.2 with
  | Some e => ret (emptyResult, Some e)
  | None =>
  (* a builder returns a client with a nil error; a nil one would panic at
     its first call *)
  awsSetupClient <- deref "awsSetupClient" b.1 ;;
  currentAcctInstance <- currentAccount ;;
  finalizerErr <-
    (if negb (ManualSTSMode (Spec currentAcctInstance)) then addFinalizer
     else ret None) ;;
  match finalizerErr with
  | Some e => ret (emptyResult, Some e)
  | None =>
      reconcileAccount fuel r request configMap isOptInRegionFeatureEnabled
        optInRegions awsSetupClient
  end end end end.

End WithEnvironment.
End account.

(** ** package accountclaim ([controllers/accountclaim])

    Modelled from the spec: the claim controller is not among the sources at
    hand; of its package only the tests
    ([controllers/accountclaim/accountclaim_controller_test.go]) are.  The
    pool matcher follows section 4.2 of the specification and the deletion
    flow sections 3, 4.4, 7 and 8; where a test fixes a behaviour, the model
    follows the test. *)
Module accountclaim.
Import awsclient utils.

Definition controllerName : string := "accountclaim".

(** Modelled from the spec: [AccountClaimReconciler] is not in the sources;
    the tests build it from a client builder. *)
Record AccountClaimReconciler := {
  awsClientBuilder : IBuilderV2
}.

(** *** The pool matcher (section 4.2) *)

(** Modelled from the spec: step 1 of the pool matcher, which is not in the
    sources.  The target pool is the claim's explicit pool name, else the pool
    marked default in the configuration. *)
Definition targetPool (defaultPool : string) (claim : AccountClaim) : string :=
  if decide (Claim_AccountPool (Claim_Spec claim) = "") then defaultPool
  else Claim_AccountPool (Claim_Spec claim).

(** Modelled from the spec: the pool test of step 2, which is not in the
    sources.  An account is in the target pool when it carries the target's
    name; an account with an empty pool name is in the default pool. *)
Definition inPool (defaultPool target : string) (a : Account) : bool :=
  bool_decide (AccountPool (Spec a) = target)
  || (bool_decide (target = defaultPool)
      && bool_decide (AccountPool (Spec a) = "")).

(** Modelled from the spec: the candidates of step 2, which is not in the
    sources: ready, unclaimed and in the target pool. *)
Definition isCandidate (defaultPool : string) (claim : AccountClaim)
    (a : Account) : bool :=
  IsReady a && negb (IsClaimed a)
  && inPool defaultPool (targetPool defaultPool claim) a.

Definition candidates (defaultPool : string) (claim : AccountClaim)
    (listing : list Account) : list Account :=
  List.filter (isCandidate defaultPool claim) listing.

(** Modelled from the spec: the legal-entity match of step 3, which is not in
    the sources; the tests compare the entities' identifiers. *)
Definition matchAccountForReuse (claim : AccountClaim) (a : Account) : bool :=
  bool_decide (LegalEntity_ID (Spec_LegalEntity (Spec a))
               = LegalEntity_ID (Claim_LegalEntity (Claim_Spec claim))).

(** Modelled from the spec: the tie-break of step 3, which is not in the
    sources, as one pass over the candidates.  A reused account of the
    claim's legal entity ends the pass; otherwise the first reused account
    seen is remembered, and the first never-claimed one. *)
Fixpoint pickAccount (claim : AccountClaim) (cs : list Account)
    (reusedAccount unusedAccount : option Account) : option Account :=
  match cs with
  | [] =>
      match reusedAccount with
      | Some a => Some a
      | None => unusedAccount
      end
  | a :: rest =>
      if Reused (Status a) then
        if matchAccountForReuse claim a then Some a
        else
          pickAccount claim rest
            (match reusedAccount with Some _ => reusedAccount | None => Some a end)
            unusedAccount
      else
        pickAccount claim rest reusedAccount
          (match unusedAccount with Some _ => unusedAccount | None => Some a end)
  end.

(** Modelled from the spec: steps 1 to 3 of the pool matcher
    ([getUnclaimedAccount] in the tests' words), not in the sources. *)
Definition getUnclaimedAccount (defaultPool : string) (claim : AccountClaim)
    (listing : list Account) : option Account :=
  pickAccount claim (candidates defaultPool claim listing) None None.

(** Modelled from the spec: the two halves of the bind of step 4, which is not
    in the sources: the account's claim link and claimed flag, then the
    claim's account link. *)
Definition bindAccount (claim : AccountClaim) (a : Account) : Account :=
  {| Meta := Meta a;
     Spec := {| AwsAccountID := AwsAccountID (Spec a); BYOC := BYOC (Spec a);
                ClaimLink := Name (Claim_Meta claim);
                ClaimLinkNamespace := Namespace (Claim_Meta claim);
                Spec_LegalEntity := Spec_LegalEntity (Spec a);
                ManualSTSMode := ManualSTSMode (Spec a);
                AccountPool := AccountPool (Spec a) |};
     Status := {| Claimed := true; SupportCaseID := SupportCaseID (Status a);
                  Conditions := Conditions (Status a);
                  State := State (Status a); Reused := Reused (Status a) |} |}.

Definition bindClaim (claim : AccountClaim) (a : Account) : AccountClaim :=
  {| Claim_Meta := Claim_Meta claim;
     Claim_Spec := {| Claim_LegalEntity := Claim_LegalEntity (Claim_Spec claim);
                      AccountLink := Name (Meta a);
                      Claim_BYOC := Claim_BYOC (Claim_Spec claim);
                      Claim_AccountPool := Claim_AccountPool (Claim_Spec claim) |};
     Claim_Status := Claim_Status claim |}.

(** Modelled from the spec: steps 1 to 4 of the pool matcher, not in the
    sources: the bound account and the bound claim, when there is a match. *)
Definition claimAccount (defaultPool : string) (claim : AccountClaim)
    (listing : list Account) : option (Account * AccountClaim) :=
  match getUnclaimedAccount defaultPool claim listing with
  | Some a => Some (bindAccount claim a, bindClaim claim a)
  | None => None
  end.

(** *** The deletion flow (sections 3, 4.4, 7 and 8) *)
Section WithEnvironment.
Context (env : Environment).

(** Modelled from the spec: one resource category of the teardown engine
    (section 4.4), which is not in the sources.  The category's outcome is the
    provider's; it is recorded with the call. *)
Definition teardownCategory (awsClient : ClientV2) (c : TeardownCategory)
    : M (option error) :=
  fun w =>
    let failure := teardownAnswer env (awsCalls w) c in
    (Val failure, tickAws (emit (EvTeardown c failure) w)).

(** Modelled from the spec: the categories are independent (section 4.4): a
    failure is collected and the next category is attempted all the same. *)
Fixpoint runCategories (awsClient : ClientV2) (cs : list TeardownCategory)
    : M (list error) :=
  match cs with
  | [] => ret []
  | c :: rest =>
      failure <- teardownCategory awsClient c ;;
      failures <- runCategories awsClient rest ;;
      ret (match failure with Some err => err :: failures | None => failures end)
  end.

Definition teardownCategories : list TeardownCategory :=
  [Buckets; HostedZones; Volumes; Snapshots; EndpointServices].

(** Modelled from the spec: the teardown engine (section 4.4), which is not in
    the sources, reports failure if any category failed. *)
Definition cleanUpAwsAccount (awsClient : ClientV2) : M (option error) :=
  failures <- runCategories awsClient teardownCategories ;;
  match failures with
  | [] => ret None
  | _ :: _ => ret (Some (errorString "AWS account cleanup failed"))
  end.

(** Modelled from the spec: the account left in the pool, reset, for reuse
    (sections 3 and 8): claim link cleared, unclaimed, ready, reused. *)
Definition resetAccount (a : Account) : Account :=
  {| Meta := Meta a;
     Spec := {| AwsAccountID := AwsAccountID (Spec a); BYOC := BYOC (Spec a);
                ClaimLink := ""; ClaimLinkNamespace := "";
                Spec_LegalEntity := Spec_LegalEntity (Spec a);
                ManualSTSMode := ManualSTSMode (Spec a);
                AccountPool := AccountPool (Spec a) |};
     Status := {| Claimed := false; SupportCaseID := SupportCaseID (Status a);
                  Conditions := Conditions (Status a);
                  State := AccountReady; Reused := true |} |}.

(** Modelled from the spec: the two versioned writes the control plane has
    for an account (sections 5 and 6).  An update writes the object's
    metadata and spec and leaves the stored status; the control plane rejects
    it when the stored version has changed since the read. *)
Definition updateAccount (key : NamespacedName) (obj : Account)
    : M (option error) :=
  injected <- k8s.controlPlaneCall env (EvUpdate obj) ;;
  match injected with
  | Some err => ret (Some err)
  | None =>
      w <- get ;;
      match accounts w !! key with
      | None => ret (Some StatusNotFound)
      | Some stored =>
          modify (set_accounts
                    (<[key := {| Meta := Meta obj; Spec := Spec obj;
                                 Status := Status stored |}]> (accounts w))) ;;;
          ret None
      end
  end.

(** Modelled from the spec: an update of the status writes the object's
    status and leaves the stored metadata and spec; it is rejected like an
    update. *)
Definition updateAccountStatus (key : NamespacedName) (obj : Account)
    : M (option error) :=
  injected <- k8s.controlPlaneCall env (EvStatusUpdate obj) ;;
  match injected with
  | Some err => ret (Some err)
  | None =>
      w <- get ;;
      match accounts w !! key with
      | None => ret (Some StatusNotFound)
      | Some stored =>
          modify (set_accounts
                    (<[key := {| Meta := Meta stored; Spec := Spec stored;
                                 Status := Status obj |}]> (accounts w))) ;;;
          ret None
      end
  end.

(** Modelled from the spec: the reset of an account takes both writes, since
    the claim link is part of the account's spec and the flags [Claimed],
    [State] and [Reused] are part of its status (section 3): the update,
    then the update of the status.  Neither the spec nor the tests tell the
    order of the two (the control plane of the conflict test rejects updates
    and lets updates of the status through); the update comes first here.  A
    rejected write ends the reset, and what was written stays written. *)
Definition resetAccountSpecStatus (key : NamespacedName) (acct : Account)
    : M (option error) :=
  rejected <- updateAccount key (resetAccount acct) ;;
  match rejected with
  | Some e => ret (Some e)
  | None => updateAccountStatus key (resetAccount acct)
  end.

(** Modelled from the spec: a versioned write of a claim; a claim marked for
    deletion is physically removed once it carries no finalizer
    (section 6). *)
Definition writeClaim (key : NamespacedName) (obj : AccountClaim)
    : M (option error) :=
  injected <- k8s.controlPlaneCall env (EvUpdateClaim obj) ;;
  match injected with
  | Some err => ret (Some err)
  | None =>
      w <- get ;;
      match claims w !! key with
      | None => ret (Some StatusNotFound)
      | Some _ =>
          match DeletionTimestamp (Claim_Meta obj), Finalizers (Claim_Meta obj) with
          | Some _, [] => modify (set_claims (delete key (claims w)))
          | _, _ => modify (set_claims (<[key := obj]> (claims w)))
          end ;;;
          ret None
      end
  end.

(** Modelled from the spec: a BYOC account is deleted when its owning claim
    is deleted (section 3); an account that carries finalizers is marked for
    deletion, stamped like its claim. *)
Definition deleteAccount (key : NamespacedName) (stamp : option Z)
    : M (option error) :=
  injected <- k8s.controlPlaneCall env (EvDeleteAccount key) ;;
  match injected with
  | Some err => ret (Some err)
  | None =>
      w <- get ;;
      match accounts w !! key with
      | None => ret (Some StatusNotFound)
      | Some stored =>
          match Finalizers (Meta stored) with
          | [] => modify (set_accounts (delete key (accounts w)))
          | _ :: _ =>
              modify (set_accounts
                        (<[key := {| Meta := {| Name := Name (Meta stored);
                                                Namespace := Namespace (Meta stored);
                                                DeletionTimestamp := stamp;
                                                Finalizers := Finalizers (Meta stored);
                                                Labels := Labels (Meta stored) |};
                                     Spec := Spec stored;
                                     Status := Status stored |}]> (accounts w)))
          end ;;;
          ret None
      end
  end.

(** The account a claim is bound to lives in the operator's namespace. *)
Definition accountKey (accountClaim : AccountClaim) : NamespacedName :=
  (AccountCrNamespace env, AccountLink (Claim_Spec accountClaim)).

Definition withoutFinalizer (accountClaim : AccountClaim) : AccountClaim :=
  {| Claim_Meta :=
       {| Name := Name (Claim_Meta accountClaim);
          Namespace := Namespace (Claim_Meta accountClaim);
          DeletionTimestamp := DeletionTimestamp (Claim_Meta accountClaim);
          Finalizers :=
            Remove (Finalizers (Claim_Meta accountClaim)) (AccountClaimFinalizer env);
          Labels := Labels (Claim_Meta accountClaim) |};
     Claim_Spec := Claim_Spec accountClaim;
     Claim_Status := Claim_Status accountClaim |}.

(** Modelled from the spec: the client scoped to an account (sections 4.3
    and 4.4), which the claim controller obtains outside the sources at hand:
    the operator's client, then the account's role through the credential
    chain. *)
Definition assumeAccountRole (r : AccountClaimReconciler) (acct : Account)
    : M (option ClientV2 * option error) :=
  b <- GetClientV2 (awsClientBuilder r) controllerName
         {| AwsCredsSecretIDKey := ""; AwsCredsSecretAccessKey := "";
            AwsToken := ""; AwsRegion := GetDefaultRegion env;
            SecretName := AwsSecretName env;
            NameSpace := AccountCrNamespace env |} ;;
  match b.2 with
  | Some e => ret (None, Some e)
  | None =>
      awsSetupClient <- deref "awsSetupClient" b.1 ;;
      h <- sts.HandleRoleAssumptionV2 env (awsClientBuilder r) acct
             awsSetupClient "" (AccountOperatorIAMRole env) "" ;;
      match h.2 with
      | Some e => ret (None, Some e)
      | None => ret (h.1.1, None)
      end
  end.

(** Modelled from the spec: teardown, then release (sections 4.4, 7 and 8),
    not in the sources.  Only a teardown without a failure is followed by the
    reset; a reset that the control plane rejects is reported as the tests
    read it. *)
Definition releaseAccount (awsClient : ClientV2) (key : NamespacedName)
    (acct : Account) : M (option error) :=
  failed <- cleanUpAwsAccount awsClient ;;
  match failed with
  | Some e => ret (Some e)
  | None =>
      rejected <- resetAccountSpecStatus key acct ;;
      match rejected with
      | Some e =>
          ret (Some (errorString
                       ("account CR modified during reset: " +:+ Error_ env e)))
      | None => ret None
      end
  end.

(** Modelled from the spec: what is done for the account before its claim is
    let go (sections 3 and 8), which is not in the sources.  The bound account
    is read afresh.  A BYOC account is deleted.  Any other account is torn
    down through a client scoped to it and released. *)
Definition finalizeAccountClaim (r : AccountClaimReconciler)
    (accountClaim : AccountClaim) : M (option error) :=
  let key := accountKey accountClaim in
  err <- k8s.Get env key ;;
  match err with
  | Some e => ret (Some e)
  | None =>
      w <- get ;;
      let acct := current w in
      if IsBYOC acct
      then deleteAccount key (DeletionTimestamp (Claim_Meta accountClaim))
      else
        c <- assumeAccountRole r acct ;;
        match c.2 with
        | Some e => ret (Some e)
        | None =>
            awsClient <- deref "awsClient" c.1 ;;
            releaseAccount awsClient key acct
        end
  end.

(** Modelled from the spec: the reconciliation of a claim marked for deletion
    (sections 3 and 8), which is not in the sources.  The claim is read
    afresh; a claim that other finalizers still hold is left alone (so the
    tests); the claim's own finalizer is dropped, which removes the claim,
    only once the account has been dealt with.  An error is returned to the
    caller, which requeues the claim.  A live claim is the pool matcher's. *)
Definition ReconcileDeletion (r : AccountClaimReconciler)
    (request : NamespacedName) : M (account.Result * option error) :=
  c <- k8s.GetClaim env request ;;
  match c.2 with
  | Some err =>
      if IsNotFound err then ret (account.emptyResult, None)
      else ret (account.emptyResult, Some err)
  | None =>
      accountClaim <- deref "accountClaim" c.1 ;;
      match DeletionTimestamp (Claim_Meta accountClaim) with
      | None => ret (account.emptyResult, None)
      | Some _ =>
          if decide (Finalizers (Claim_Meta accountClaim)
                     = [AccountClaimFinalizer env])
          then
            err <- finalizeAccountClaim r accountClaim ;;
            match err with
            | Some e => ret (account.emptyResult, Some e)
            | None =>
                err <- writeClaim request (withoutFinalizer accountClaim) ;;
                ret (account.emptyResult, err)
            end
          else ret (account.emptyResult, None)
      end
  end.

(** Modelled from the spec: a reconciliation that returned an error is
    requeued (section 7), here at most [requeues] times; the last error
    stands. *)
Fixpoint reconcileWithRequeue (requeues : nat) (r : AccountClaimReconciler)
    (request : NamespacedName) : M (account.Result * option error) :=
  res <- ReconcileDeletion r request ;;
  match res.2, requeues with
  | Some _, S n => reconcileWithRequeue n r request
  | _, _ => ret res
  end.

End WithEnvironment.
End accountclaim.

(** ** Vocabulary of the statements *)

(** One attempt of [GetSTSCredentialsV2]: half a second of sleep, then the
    call. *)
Definition attemptEvents (input : sts_AssumeRoleInput) : list Event :=
  [EvSleep (500 * Millisecond)%Z; EvAssumeRole input].

(** The world after [n] more attempts: their events on the trace, [n] more
    provider calls answered, nothing else touched. *)
Definition afterAttempts (input : sts_AssumeRoleInput) (n : nat) (w : World)
    : World :=
  {| trace := trace w ++ concat (replicate n (attemptEvents input));
     awsCalls := awsCalls w + n; k8sCalls := k8sCalls w;
     accounts := accounts w; claims := claims w;
     configMap := configMap w; current := current w |}.

(** The events [es] appended to the trace. *)
Definition emitAll (es : list Event) (w : World) : World :=
  {| trace := trace w ++ es;
     awsCalls := awsCalls w; k8sCalls := k8sCalls w;
     accounts := accounts w; claims := claims w;
     configMap := configMap w; current := current w |}.

(** The number of events of a kind on a trace. *)
Definition countEvents (p : Event -> bool) (t : list Event) : nat :=
  length (List.filter p t).

Definition isAssumeRole (e : Event) : bool :=
  match e with EvAssumeRole _ => true | _ => false end.

Definition isSleep (e : Event) : bool :=
  match e with EvSleep _ => true | _ => false end.

(** The assumed-role identifier an output carries, when it carries one. *)
Definition roleIdOf (out : option sts_AssumeRoleOutput) : option string :=
  match out with
  | Some c =>
      match AssumedRoleUser c with
      | Some u => AssumedRoleId u
      | None => None
      end
  | None => None
  end.

(** The [n]-th provider call, an assume-role call with [input], succeeds at
    once with role identifier [roleId]. *)
Definition assumesRole (env : Environment) (n : nat)
    (input : sts_AssumeRoleInput) (roleId : string) : Prop :=
  exists out, assumeRoleAnswer env n input = (out, None)
              /\ roleIdOf out = Some roleId.

(** The events of [n] mismatching attempts of [HandleRoleAssumptionV2] from
    attempt index [i] on: each is one whole attempt of [GetSTSCredentialsV2]
    followed by a sleep of as many seconds as the attempt's index. *)
Definition backoffEvents (input : sts_AssumeRoleInput) (i n : nat) : list Event :=
  flat_map (fun j => (attemptEvents input ++ [EvSleep (Z.of_nat j * Second)%Z])%list)
           (seq i n).

(** Events [es] and [n] answered provider calls later. *)
Definition advance (es : list Event) (n : nat) (w : World) : World :=
  {| trace := trace w ++ es;
     awsCalls := awsCalls w + n; k8sCalls := k8sCalls w;
     accounts := accounts w; claims := claims w;
     configMap := configMap w; current := current w |}.

(** Neither a provider call nor a sleep. *)
Definition isQuiet (e : Event) : bool := negb (isProviderCall e || isSleep e).

(** The input [Reconcile] builds the operator's client from. *)
Definition operatorClientInput (env : Environment) : NewAwsClientInputV2 :=
  {| AwsCredsSecretIDKey := ""; AwsCredsSecretAccessKey := "";
     AwsToken := ""; AwsRegion := GetDefaultRegion env;
     SecretName := AwsSecretName env;
     NameSpace := AccountCrNamespace env |}.

(** [Reconcile] adds the account finalizer to an account that is not in
    manual STS mode and does not carry it. *)
Definition needsFinalizer (env : Environment) (a : Account) : bool :=
  negb (ManualSTSMode (Spec a))
  && negb (utils.Contains (Finalizers (Meta a)) (AccountFinalizer env)).

Definition withFinalizer (env : Environment) (a : Account) : Account :=
  if needsFinalizer env a
  then set_Finalizers (Finalizers (Meta a) ++ [AccountFinalizer env]) a
  else a.

(** The opt-in-region settings [Reconcile] reads off the config map. *)
Definition optInFeatureEnabled (env : Environment) (data : ConfigMapData) : bool :=
  match (GetFeatureFlagValue env data "feature.opt_in_regions").2 with
  | Some _ => false
  | None => (GetFeatureFlagValue env data "feature.opt_in_regions").1
  end.

Definition optInRegionsOf (data : ConfigMapData) : string :=
  default "" (lookupData "opt-in-regions" data).

(** What [Reconcile] does before it looks at the account's state, when
    nothing fails: it reads the account and the config map, builds the
    operator's client and, where needed, writes the finalizer. *)
Definition preludeEvents (env : Environment) (request : NamespacedName)
    (a : Account) : list Event :=
  [EvGet request; EvGetConfigMap;
   EvGetClientV2 account.controllerName (operatorClientInput env)]
  ++ (if needsFinalizer env a then [EvUpdate (withFinalizer env a)] else []).

Definition afterPrelude (env : Environment) (request : NamespacedName)
    (a : Account) (w : World) : World :=
  {| trace := trace w ++ preludeEvents env request a;
     awsCalls := awsCalls w;
     k8sCalls := if needsFinalizer env a then 3 + k8sCalls w else 2 + k8sCalls w;
     accounts :=
       if needsFinalizer env a
       then <[request := withFinalizer env a]> (accounts w)
       else accounts w;
     claims := claims w;
     configMap := configMap w;
     current := withFinalizer env a |}.

(** A computation that adds to the trace only events satisfying [P],
    whatever the world it starts in and however it ends. *)
Definition emitsOnly {A} (P : Event -> bool) (m : M A) : Prop :=
  forall w, exists es, trace (m w).2 = (trace w ++ es)%list
                       /\ forallb P es = true.

Definition notCreateAccount (e : Event) : bool := negb (isCreateAccount e).
Definition notProviderCall (e : Event) : bool := negb (isProviderCall e).
Definition notWrite (e : Event) : bool := negb (isWrite e).

(** A relation between the world a computation starts in and the world it
    ends in, kept however the computation goes. *)
Definition respects {A} (R : World -> World -> Prop) (m : M A) : Prop :=
  forall w, R w (m w).2.

Definition isTeardown (e : Event) : bool :=
  match e with EvTeardown _ _ => true | _ => false end.

Definition notTeardown (e : Event) : bool := negb (isTeardown e).

(** Neither store written and no teardown call made. *)
Definition untouched (w w' : World) : Prop :=
  accounts w' = accounts w /\ claims w' = claims w
  /\ exists es, trace w' = (trace w ++ es)%list /\ forallb notTeardown es = true.

(** The teardown calls among [es] are one per category, none of which
    failed. *)
Definition cleanTeardown (es : list Event) : Prop :=
  List.filter isTeardown es
  = map (fun c => EvTeardown c None) accountclaim.teardownCategories.

(** The teardown calls a pass makes from provider call [n] on, with their
    outcomes. *)
Fixpoint teardownEvents (env : Environment) (n : nat)
    (cs : list TeardownCategory) : list Event :=
  match cs with
  | [] => []
  | c :: rest => EvTeardown c (teardownAnswer env n c) :: teardownEvents env (S n) rest
  end.

(** The failures a pass collects from provider call [n] on. *)
Fixpoint teardownFailures (env : Environment) (n : nat)
    (cs : list TeardownCategory) : list error :=
  match cs with
  | [] => []
  | c :: rest =>
      match teardownAnswer env n c with
      | Some err => err :: teardownFailures env (S n) rest
      | None => teardownFailures env (S n) rest
      end
  end.

(** The first of two optional values that is there. *)
Definition orElse {A} (x y : option A) : option A :=
  match x with Some _ => x | None => y end.

(** An account that has been claimed before, by the claim's legal entity. *)
Definition reclaims (claim : AccountClaim) (a : Account) : bool :=
  Reused (Status a) && accountclaim.matchAccountForReuse claim a.

Definition isReused (a : Account) : bool := Reused (Status a).

(** Credentials a client can be built from. *)
Definition isUsable (out : option sts_AssumeRoleOutput) : bool :=
  match out with
  | Some c =>
      match AssumedRoleUser c, Credentials c with
      | Some u, Some k =>
          match AssumedRoleId u, AccessKeyId k, SecretAccessKey k, SessionToken k with
          | Some _, Some _, Some _, Some _ => true
          | _, _, _, _ => false
          end
      | _, _ => false
      end
  | None => false
  end.

(** The assume-role call the claim controller makes for an account. *)
Definition operatorRoleInput (env : Environment) (acct : Account)
    : sts_AssumeRoleInput :=
  sts.assumeRoleInput
    (GetIAMArn env (AwsAccountID (Spec acct)) sts.AwsResourceTypeRole
       (AccountOperatorIAMRole env))
    "" "awsAccountOperator".

(** From provider call [n] on, the role is assumed at once and the five
    categories of a teardown find nothing they fail on. *)
Definition cooperates (env : Environment) (acct : Account) (n : nat) : Prop :=
  (exists out, assumeRoleAnswer env n (operatorRoleInput env acct) = (out, None)
               /\ isUsable out = true)
  /\ (forall input, getClientAnswer env input = None)
  /\ (forall i c, i < 5 -> teardownAnswer env (n + 1 + i) c = None).

(** The account after the first write of a reset: the claim link is cleared
    and the status is as it was. *)
Definition specReset (a : Account) : Account :=
  {| Meta := Meta a; Spec := Spec (accountclaim.resetAccount a);
     Status := Status a |}.

(** The three writes of a claim's deletion: the update and the update of the
    status that reset the account, and the removal of the claim's
    finalizer. *)
Inductive RejectedWrite :=
| ResetUpdate
| ResetStatusUpdate
| FinalizerWrite.

(** The control plane that rejects one write, as a conflict, in each of the
    reconciliations [attempts] and answers every other call: its answer to
    call [n].  A reconciliation reads the claim, reads the account, writes
    the two halves of the reset and, if they are accepted, writes the
    claim. *)
Fixpoint rejections (attempts : list RejectedWrite) (n : nat) : option error :=
  match attempts with
  | [] => None
  | ResetUpdate :: rest =>
      match n with
      | 0 | 1 => None
      | 2 => Some StatusConflict
      | S (S (S m)) => rejections rest m
      end
  | ResetStatusUpdate :: rest =>
      match n with
      | 0 | 1 | 2 => None
      | 3 => Some StatusConflict
      | S (S (S (S m))) => rejections rest m
      end
  | FinalizerWrite :: rest =>
      match n with
      | 0 | 1 | 2 | 3 => None
      | 4 => Some StatusConflict
      | S (S (S (S (S m)))) => rejections rest m
      end
  end.

(** What a reconciliation leaves of the account [a] when the control plane
    rejected its write [rejected]: the writes before it stay written. *)
Definition leftBy (rejected : RejectedWrite) (a : Account) : Account :=
  match rejected with
  | ResetUpdate => a
  | ResetStatusUpdate => specReset a
  | FinalizerWrite => accountclaim.resetAccount a
  end.

(** The first of the three writes that the control plane rejects when the
    update of the reset is its call [n], with the error. *)
Definition firstRejected (env : Environment) (n : nat)
    : option (RejectedWrite * error) :=
  match k8sAnswer env n with
  | Some e => Some (ResetUpdate, e)
  | None =>
      match k8sAnswer env (S n) with
      | Some e => Some (ResetStatusUpdate, e)
      | None =>
          match k8sAnswer env (S (S n)) with
          | Some e => Some (FinalizerWrite, e)
          | None => None
          end
      end
  end.

(** The error a reconciliation returns for a rejected write: a rejected
    reset is reported as modified during the reset, a rejected removal of
    the finalizer as it is. *)
Definition rejectionError (env : Environment) (rejected : RejectedWrite)
    (e : error) : error :=
  match rejected with
  | FinalizerWrite => e
  | _ => errorString ("account CR modified during reset: " +:+ Error_ env e)
  end.

(** A claim marked for deletion that only its own finalizer holds, bound to
    an account of the pool. *)
Definition beingDeleted (env : Environment) (request : NamespacedName)
    (claim : AccountClaim) (acct : Account) (w : World) : Prop :=
  claims w !! request = Some claim
  /\ DeletionTimestamp (Claim_Meta claim) <> None
  /\ Finalizers (Claim_Meta claim) = [AccountClaimFinalizer env]
  /\ accounts w !! accountclaim.accountKey env claim = Some acct
  /\ BYOC (Spec acct) = false.

(** ** Fixtures: concrete collaborators *)
Module fixtures.

(** On a pattern without metacharacters [regexp.MatchString] is a substring
    search. *)
Definition substringMatch (pattern s : string) : bool * option error :=
  (bool_decide (String.index 0 pattern s <> None), None).

Definition roleUser (roleId : string) : sts_AssumeRoleOutput :=
  {| AssumedRoleUser :=
       Some {| Arn := Some ("aws:::" +:+ roleId); AssumedRoleId := Some roleId |};
     Credentials :=
       Some {| AccessKeyId := Some "ACCESS_KEY";
               SecretAccessKey := Some "SECRET_KEY";
               SessionToken := Some "SESSION_TOKEN" |} |}.

Definition createStatus (state : string) : organizations_CreateAccountOutput :=
  {| CreateAccountStatus :=
       Some {| CreateAccountStatus_Id := Some "car-1";
               CreateAccountStatus_AccountId := Some "111122223333";
               CreateAccountStatus_State := state;
               CreateAccountStatus_FailureReason := "" |} |}.

(** [err.Error()] of the errors the scenarios meet. *)
Definition errorText (err : error) : string :=
  match err with
  | StatusConflict => "Conflict"
  | StatusNotFound => "NotFound"
  | errorString msg => msg
  | OperationError code => code
  | _ => "error"
  end.

(** An environment from the scripts a scenario varies; everything else
    answers without error. *)
Definition scenario
    (stsScript : nat -> sts_AssumeRoleInput ->
                 option sts_AssumeRoleOutput * option error)
    (k8sScript : nat -> option error)
    (canCreate fedramp : bool) (mode : DevMode)
    (timedOut : Account -> bool) : Environment :=
  {| assumeRoleAnswer := stsScript;
     createAccountAnswer := fun _ _ => (Some (createStatus "IN_PROGRESS"), None);
     describeCreateAccountStatusAnswer :=
       fun _ _ => (Some (createStatus "SUCCEEDED"), None);
     tagResourceAnswer := fun _ _ => None;
     deleteBucketAnswer := fun _ _ => None;
     teardownAnswer := fun _ _ => None;
     getClientAnswer := fun _ => None;
     k8sAnswer := k8sScript;
     Error_ := errorText;
     regexp_MatchString := substringMatch;
     GetIAMArn := fun id type name =>
       "arn:aws:iam::" +:+ id +:+ ":" +:+ type +:+ "/" +:+ name;
     GetDefaultRegion := "us-east-1";
     IsFedramp := fedramp;
     AccountFinalizer := "finalizer.aws.managed.openshift.io";
     AccountClaimFinalizer := "finalizer.aws.managed.openshift.io";
     AccountCrNamespace := "aws-account-operator";
     AccountOperatorIAMRole := "OrganizationAccountAccessRole";
     IAMUserIDLabel := "iamUserId";
     AwsSecretName := "aws-account-operator-credentials";
     WaitTime := 25%Z;
     DetectDevMode := mode;
     GetFeatureFlagValue := fun _ _ => (false, None);
     CreationConditionOlderThan := fun a _ => timedOut a;
     GenerateShortUID := "abcdef";
     formatAccountEmail := fun name => name +:+ "@example.com";
     AccountsCanBeCreated := canCreate;
     GetAssumeRole := fun _ => "BYOCAdminAccess";
     ReadyForRegionEnablement := fun _ => false;
     IsEnablingOptInRegions := fun _ => false;
     ReadyForInitialization := fun _ => false |}.

(** The assume-role call fails [n] times, then succeeds. *)
Definition failsThenSucceeds (n : nat) (k : nat) (_ : sts_AssumeRoleInput)
    : option sts_AssumeRoleOutput * option error :=
  if decide (k < n) then (None, Some (OperationError "AccessDenied"))
  else (Some (roleUser "AROAEXAMPLE:awsAccountOperator"), None).

(** The role of the first [n] answers is a stale one. *)
Definition staleThenFresh (n : nat) (k : nat) (_ : sts_AssumeRoleInput)
    : option sts_AssumeRoleOutput * option error :=
  if decide (k < n) then (Some (roleUser "AROASTALE:awsAccountOperator"), None)
  else (Some (roleUser "AROAFRESH:awsAccountOperator"), None).

Definition account (name state : string) (finalizers : list string) : Account :=
  {| Meta := {| Name := name; Namespace := "aws-account-operator";
                DeletionTimestamp := None; Finalizers := finalizers;
                Labels := [] |};
     Spec := {| AwsAccountID := ""; BYOC := false; ClaimLink := "";
                ClaimLinkNamespace := "";
                Spec_LegalEntity := {| LegalEntity_Name := ""; LegalEntity_ID := "" |};
                ManualSTSMode := false; AccountPool := "" |};
     Status := {| Claimed := false; SupportCaseID := ""; Conditions := [];
                  State := state; Reused := false |} |}.

(** A control plane that holds one account and the operator's config map. *)
Definition worldWith (a : Account) : World :=
  {| trace := []; awsCalls := 0; k8sCalls := 0;
     accounts := {[ ObjectKeyFromObject a := a ]};
     claims := ∅;
     configMap := Some [("ami-owner", "000000000000")];
     current := emptyAccount |}.

Definition reconciler (env : Environment) : account.AccountReconcilerV2 :=
  {| account.awsClientBuilder := awsclient.scriptedBuilder env;
     account.shardName := "hive-shard-1" |}.

Definition claimReconciler (env : Environment)
    : accountclaim.AccountClaimReconciler :=
  {| accountclaim.awsClientBuilder := awsclient.scriptedBuilder env |}.

(** The claim and the account of the deletion tests; the account is bound to
    the claim. *)
Definition legalCorp : LegalEntity :=
  {| LegalEntity_Name := "LegalCorp. Inc."; LegalEntity_ID := "abcdefg123456" |}.

Definition deletedClaim : AccountClaim :=
  {| Claim_Meta := {| Name := "testAccountClaim";
                      Namespace := "myAccountClaimNamespace";
                      DeletionTimestamp := Some 1%Z;
                      Finalizers := ["finalizer.aws.managed.openshift.io"];
                      Labels := [] |};
     Claim_Spec := {| Claim_LegalEntity := legalCorp;
                      AccountLink := "osd-creds-mgmt-aaabbb";
                      Claim_BYOC := false; Claim_AccountPool := "" |};
     Claim_Status := {| Claim_State := "Ready" |} |}.

Definition deletedClaimKey : NamespacedName :=
  ("myAccountClaimNamespace", "testAccountClaim").

Definition claimedAccount : Account :=
  {| Meta := {| Name := "osd-creds-mgmt-aaabbb"; Namespace := "aws-account-operator";
                DeletionTimestamp := None; Finalizers := []; Labels := [] |};
     Spec := {| AwsAccountID := ""; BYOC := false;
                ClaimLink := "testAccountClaim";
                ClaimLinkNamespace := "myAccountClaimNamespace";
                Spec_LegalEntity := legalCorp;
                ManualSTSMode := false; AccountPool := "" |};
     Status := {| Claimed := true; SupportCaseID := ""; Conditions := [];
                  State := "Ready"; Reused := false |} |}.

(** A control plane that holds the claim and its account. *)
Definition worldWithClaim : World :=
  {| trace := []; awsCalls := 0; k8sCalls := 0;
     accounts := {[ ObjectKeyFromObject claimedAccount := claimedAccount ]};
     claims := {[ deletedClaimKey := deletedClaim ]};
     configMap := Some [("ami-owner", "000000000000")];
     current := emptyAccount |}.

(** A scenario of the claim controller: the provider's answers to a
    teardown and the control plane's answers vary. *)
Definition claimScenario
    (teardownScript : nat -> TeardownCategory -> option error)
    (k8sScript : nat -> option error) : Environment :=
  let env :=
    scenario (fun _ _ =>
                (Some (roleUser "OrganizationAccountAccessRole/awsAccountOperator"),
                 None))
      k8sScript true false DevModeProduction (fun _ => false) in
  {| assumeRoleAnswer := assumeRoleAnswer env;
     createAccountAnswer := createAccountAnswer env;
     describeCreateAccountStatusAnswer := describeCreateAccountStatusAnswer env;
     tagResourceAnswer := tagResourceAnswer env;
     deleteBucketAnswer := deleteBucketAnswer env;
     teardownAnswer := teardownScript;
     getClientAnswer := getClientAnswer env;
     k8sAnswer := k8sAnswer env;
     Error_ := Error_ env;
     regexp_MatchString := regexp_MatchString env;
     GetIAMArn := GetIAMArn env;
     GetDefaultRegion := GetDefaultRegion env;
     IsFedramp := IsFedramp env;
     AccountFinalizer := AccountFinalizer env;
     AccountClaimFinalizer := AccountClaimFinalizer env;
     AccountCrNamespace := AccountCrNamespace env;
     AccountOperatorIAMRole := AccountOperatorIAMRole env;
     IAMUserIDLabel := IAMUserIDLabel env;
     AwsSecretName := AwsSecretName env;
     WaitTime := WaitTime env;
     DetectDevMode := DetectDevMode env;
     GetFeatureFlagValue := GetFeatureFlagValue env;
     CreationConditionOlderThan := CreationConditionOlderThan env;
     GenerateShortUID := GenerateShortUID env;
     formatAccountEmail := formatAccountEmail env;
     AccountsCanBeCreated := AccountsCanBeCreated env;
     GetAssumeRole := GetAssumeRole env;
     ReadyForRegionEnablement := ReadyForRegionEnablement env;
     IsEnablingOptInRegions := IsEnablingOptInRegions env;
     ReadyForInitialization := ReadyForInitialization env |}.

(** The accounts and claims of the pool tests. *)
Definition poolAccount (name pool : string) (entity : LegalEntity)
    (reused : bool) : Account :=
  {| Meta := {| Name := name; Namespace := "aws-account-operator";
                DeletionTimestamp := None; Finalizers := []; Labels := [] |};
     Spec := {| AwsAccountID := ""; BYOC := false; ClaimLink := "";
                ClaimLinkNamespace := ""; Spec_LegalEntity := entity;
                ManualSTSMode := false; AccountPool := pool |};
     Status := {| Claimed := false; SupportCaseID := ""; Conditions := [];
                  State := "Ready"; Reused := reused |} |}.

Definition poolClaim (name pool : string) (entity : LegalEntity) : AccountClaim :=
  {| Claim_Meta := {| Name := name; Namespace := "aws-account-operator";
                      DeletionTimestamp := None;
                      Finalizers := ["finalizer.aws.managed.openshift.io"];
                      Labels := [] |};
     Claim_Spec := {| Claim_LegalEntity := entity; AccountLink := "";
                      Claim_BYOC := false; Claim_AccountPool := pool |};
     Claim_Status := {| Claim_State := "" |} |}.

Definition noEntity : LegalEntity :=
  {| LegalEntity_Name := ""; LegalEntity_ID := "" |}.
Definition legalEntity1 : LegalEntity :=
  {| LegalEntity_Name := "test1"; LegalEntity_ID := "abcdefg" |}.
Definition legalEntity2 : LegalEntity :=
  {| LegalEntity_Name := "test2"; LegalEntity_ID := "hijklmno" |}.

Definition defaultAccountPoolName : string := "my-default-accountpool".
Definition sqAccountPoolName : string := "my-service-quota-accountpool".

End fixtures.

(** ** Vocabulary of the further statements *)

(** What [k] rounds of the status poll of [CreateAccountV2] that find the
    creation in progress add to the trace: the call, then ten seconds of
    sleep. *)
Definition pollEvents (input : organizations_DescribeCreateAccountStatusInput)
    (k : nat) : list Event :=
  concat (replicate k [EvDescribeCreateAccountStatus input;
                       EvSleep (10 * Second)%Z]).

(** The [n]-th provider call, a status poll, finds the creation in state
    [state]. *)
Definition pollFinds (env : Environment) (n : nat)
    (input : organizations_DescribeCreateAccountStatusInput)
    (out : organizations_CreateAccountOutput)
    (cas : organizations_CreateAccountStatus) : Prop :=
  describeCreateAccountStatusAnswer env n input = (Some out, None)
  /\ CreateAccountStatus out = Some cas.

(** An error that [errors.As] does not find a [*smithy.OperationError] in. *)
Definition isOperationError (err : error) : bool :=
  match err with OperationError _ => true | _ => false end.

(** The error [CreateAccountV2] makes of the code of an operation error
    (lines 565-576 of the controller). *)
Definition createAccountError (code : string) : error :=
  match code with
  | "ConcurrentModificationException" => ErrAwsConcurrentModification
  | "ConstraintViolationException" => ErrAwsAccountLimitExceeded
  | "ServiceException" => ErrAwsInternalFailure
  | "TooManyRequestsException" => ErrAwsTooManyRequests
  | _ => ErrAwsFailedCreateAccount
  end.

(** The error the status poll makes of the failure reason of a creation that
    failed (lines 597-605 of the controller). *)
Definition createFailureError (reason : string) : error :=
  match reason with
  | "ACCOUNT_LIMIT_EXCEEDED" => ErrAwsAccountLimitExceeded
  | "INTERNAL_FAILURE" => ErrAwsInternalFailure
  | _ => ErrAwsFailedCreateAccount
  end.

(** The access key, the secret key and the session token of an assume-role
    output, when all three are there. *)
Definition credentialKeys (out : option sts_AssumeRoleOutput)
    : option (string * string * string) :=
  match out with
  | Some c =>
      match Credentials c with
      | Some k =>
          match AccessKeyId k, SecretAccessKey k, SessionToken k with
          | Some id, Some secret, Some token => Some (id, secret, token)
          | _, _, _ => None
          end
      | None => None
      end
  | None => None
  end.

(** The input [HandleRoleAssumptionV2] hands to the builder for the
    credentials [keys]: no secret is named, and the region is the default
    one when none is asked for. *)
Definition assumedClientInput (env : Environment) (region : string)
    (keys : string * string * string) : NewAwsClientInputV2 :=
  {| AwsCredsSecretIDKey := keys.1.1;
     AwsCredsSecretAccessKey := keys.1.2;
     AwsToken := keys.2;
     AwsRegion := if decide (region <> "") then region else GetDefaultRegion env;
     SecretName := ""; NameSpace := "" |}.


(** ** package awsclient: the builder of the clients ([BuilderV2]) *)
Module builder.

(** [awsCredsSecretIDKeyV2], [awsCredsSecretAccessKeyV2] *)
Definition awsCredsSecretIDKeyV2 : string := "aws_access_key_id".
Definition awsCredsSecretAccessKeyV2 : string := "aws_secret_access_key".

(** The options [newClientV2] hands to [config.LoadDefaultConfig]: the
    region and, when static credentials are given, their access key
    identifier, secret and session token. *)
Record LoadOptions := {
  WithRegion : string;
  WithCredentialsProvider : option (string * string * string)
}.

(** [corev1.Secret], its [Data] read as strings. *)
Definition SecretData : Type := gmap string string.

Section WithSDK.
(** The SDK and the control plane are outside the builder: loading the
    configuration, making the service clients of a configuration, wrapping
    an error ([fmt.Errorf] with [%w]) and reading a secret are parameters. *)
Context {Config Client : Type}.
Context (LoadDefaultConfig : LoadOptions -> Config * option error).
Context (NewFromConfig : Config -> Client).
Context (Errorf : string -> error -> error).
Context (kubeGet : NamespacedName -> SecretData * option error).

(** [func newClientV2(controllerName, awsAccessID, awsAccessSecret, token,
    region string) (ClientV2, error)] *)
Definition newClientV2
    (controllerName awsAccessID awsAccessSecret token region : string)
    : option Client * option error :=
  let loaded :=
    if bool_decide (awsAccessID <> "") && bool_decide (awsAccessSecret <> "")
    then
      LoadDefaultConfig
        {| WithRegion := region;
           WithCredentialsProvider := Some (awsAccessID, awsAccessSecret, token) |}
    else
      LoadDefaultConfig
        {| WithRegion := region; WithCredentialsProvider := None |} in
  match loaded.2 with
  | Some err => (None, Some (Errorf "failed to load AWS config" err))
  | None => (Some (NewFromConfig loaded.1), None)
  end.

(** [func (rp *BuilderV2) GetClientV2(controllerName, kubeClient, input)
    (ClientV2, error)].  A key the secret does not hold reads as the empty
    string. *)
Definition GetClientV2 (controllerName : string) (input : NewAwsClientInputV2)
    : option Client * option error :=
  if bool_decide (SecretName input <> "") && bool_decide (NameSpace input <> "")
  then
    let got := kubeGet (NameSpace input, SecretName input) in
    match got.2 with
    | Some err =>
        (None,
         Some (Errorf ("failed to get secret " +:+ SecretName input
                       +:+ " in namespace " +:+ NameSpace input) err))
    | None =>
        let awsAccessID := default "" (got.1 !! awsCredsSecretIDKeyV2) in
        let awsAccessSecret := default "" (got.1 !! awsCredsSecretAccessKeyV2) in
        newClientV2 controllerName awsAccessID awsAccessSecret "" (AwsRegion input)
    end
  else
    newClientV2 controllerName (AwsCredsSecretIDKey input)
      (AwsCredsSecretAccessKey input) (AwsToken input) (AwsRegion input).

End WithSDK.
End builder.

(** ** package account, the code of the first SDK ([controllers/account/byoc.go]) *)
Module byoc.
Import utils.

(** [func newBYOCAccount(currentAcctInstance *awsv1alpha1.Account) bool] *)
Definition newBYOCAccount (currentAcctInstance : Account) : bool :=
  if IsBYOC currentAcctInstance then
    if negb (HasState currentAcctInstance) || negb (IsClaimed currentAcctInstance)
    then true
    else false
  else false.

(** An error of a call of the first SDK: an [awserr.Error], with its code
    and message, or any other error. *)
Inductive sdkError :=
| awserr (code message : string)
| otherError (err : error).

(** [iam.ErrCodeNoSuchEntityException], [iam.ErrCodeServiceFailureException] *)
Definition ErrCodeNoSuchEntityException : string := "NoSuchEntity".
Definition ErrCodeServiceFailureException : string := "ServiceFailure".

Record iam_GetRoleInput := { GetRole_RoleName : option string }.
Record iam_Role := { Role_RoleId : option string; Role_Arn : option string }.
Record iam_GetRoleOutput := { Role : option iam_Role }.

(** [&iam.GetRoleOutput{}] *)
Definition empty_GetRoleOutput : iam_GetRoleOutput := {| Role := None |}.

(** [awsclient.Client], the method [GetExistingRole] calls. *)
Record Client := {
  GetRole : iam_GetRoleInput -> option iam_GetRoleOutput * option sdkError
}.

(** [func GetExistingRole(reqLogger, byocRole, byocAWSClient)], returning the
    output pointer and the error *)
Definition GetExistingRole (byocRole : string) (byocAWSClient : Client)
    : option iam_GetRoleOutput * option sdkError :=
  let got := GetRole byocAWSClient {| GetRole_RoleName := Some byocRole |} in
  match got.2 with
  | Some err =>
      match err with
      | awserr code _ =>
          if decide (code = ErrCodeNoSuchEntityException) then
            (Some empty_GetRoleOutput, None)
          else if decide (code = ErrCodeServiceFailureException) then
            (Some empty_GetRoleOutput, Some err)
          else (Some empty_GetRoleOutput, Some err)
      | otherError _ => (Some empty_GetRoleOutput, Some err)
      end
  | None => (got.1, got.2)
  end.

Section WithEnvironment.
Context (env : Environment).

(** [r.Get(context.TODO(), types.NamespacedName{Namespace:
    awsv1alpha1.AccountCrNamespace, Name: awsv1alpha1.DefaultConfigMap},
    configMap)]: the read of the operator's config map. *)
Definition getDefaultConfigMap : M (ConfigMapData * option error) :=
  k8s.GetOperatorConfigMap env.

(** [func (r *AccountReconciler) GetSREAccessARN(reqLogger, arnName)
    (string, error)] *)
Definition GetSREAccessARN (arnName : string) : M (string * option error) :=
  cm <- getDefaultConfigMap ;;
  match cm.2 with
  | Some err => ret ("", Some err)
  | None =>
      let SREAccessARN := default "" (lookupData arnName cm.1) in
      if decide (SREAccessARN = "") then ret ("", Some ErrInvalidConfigMap)
      else ret (SREAccessARN, None)
  end.

Section WithFirstSDK.
(** The client of the first SDK, [stsclient.GetSTSCredentials], the builder's
    [GetClient] and the two fields of the claim that [getSTSClient] reads
    are not in the sources: they are parameters. *)
Context {ClientV1 : Type}.
Context (GetSTSCredentials :
           option ClientV1 -> string -> string -> string ->
           M (option sts_AssumeRoleOutput * option error)).
Context (GetClient :
           string -> NewAwsClientInputV2 -> M (option ClientV1 * option error)).
Context (STSRoleARN STSExternalID : AccountClaim -> string).

(** The input of [GetClient] for the credentials of an assumed role. *)
Definition credentialsInput (creds : option sts_AssumeRoleOutput)
    (what awsRegion : string) : M NewAwsClientInputV2 :=
  c <- deref what creds ;;
  k <- deref (what +:+ ".Credentials") (Credentials c) ;;
  accessKeyId <- deref (what +:+ ".Credentials.AccessKeyId") (AccessKeyId k) ;;
  secretAccessKey <-
    deref (what +:+ ".Credentials.SecretAccessKey") (SecretAccessKey k) ;;
  sessionToken <- deref (what +:+ ".Credentials.SessionToken") (SessionToken k) ;;
  ret {| AwsCredsSecretIDKey := accessKeyId;
         AwsCredsSecretAccessKey := secretAccessKey;
         AwsToken := sessionToken;
         AwsRegion := awsRegion;
         SecretName := ""; NameSpace := "" |}.

(** [func (r *AccountReconciler) getSTSClient(log, accountClaim,
    operatorAWSClient) (awsclient.Client, *sts.AssumeRoleOutput, error)].
    When the key [sts-jump-role] is missing the source returns [cmErr],
    which is nil there. *)
Definition getSTSClient (accountClaim : option AccountClaim)
    (operatorAWSClient : option ClientV1)
    : M (option ClientV1 * option sts_AssumeRoleOutput * option error) :=
  cm <- getDefaultConfigMap ;;
  let cmErr := cm.2 in
  match cmErr with
  | Some _ => ret (None, None, cmErr)
  | None =>
      let stsAccessARN := default "" (lookupData "sts-jump-role" cm.1) in
      if decide (stsAccessARN = "") then ret (None, None, cmErr)
      else
        let awsRegion := GetDefaultRegion env in
        j <- GetSTSCredentials operatorAWSClient stsAccessARN ""
               "awsAccountOperator" ;;
        match j.2 with
        | Some err => ret (None, None, Some err)
        | None =>
            jumpInput <- credentialsInput j.1 "jumpRoleCreds" awsRegion ;;
            b <- GetClient account.controllerName jumpInput ;;
            match b.2 with
            | Some err => ret (None, None, Some err)
            | None =>
                let jumpRoleClient := b.1 in
                claim <- deref "accountClaim" accountClaim ;;
                c <- GetSTSCredentials jumpRoleClient (STSRoleARN claim)
                       (STSExternalID claim) "RH-Account-Initialization" ;;
                match c.2 with
                | Some err => ret (None, None, Some err)
                | None =>
                    customerInput <-
                      credentialsInput c.1 "customerAccountCreds" awsRegion ;;
                    b' <- GetClient account.controllerName customerInput ;;
                    match b'.2 with
                    | Some err => ret (None, None, Some err)
                    | None => ret (b'.1, c.1, None)
                    end
                end
            end
        end
  end.

End WithFirstSDK.
End WithEnvironment.
End byoc.

(** ** package account, the example reconciler
    ([controllers/account/account_controller_v2_example.go]) *)
Module example.
Import awsclient.

(** [AccountReconcilerV2Example], the fields the modelled code reads. *)
Record AccountReconcilerV2Example := {
  awsClientBuilder : IBuilderV2;
  shardName : string
}.

Record iam_CreateUserInput := { CreateUser_UserName : option string }.
Record iam_User := { UserName : option string }.
Record iam_CreateUserOutput := { User : option iam_User }.
Record iam_CreateAccessKeyInput := { CreateAccessKey_UserName : option string }.
Record iam_AccessKey := { AccessKey_AccessKeyId : option string }.
Record iam_CreateAccessKeyOutput := { AccessKey : option iam_AccessKey }.
Record ec2_RunInstancesInput := {
  ImageId : option string;
  MinCount : option Z;
  MaxCount : option Z;
  InstanceType : string
}.
Record ec2_Instance := { InstanceId : option string }.
Record ec2_RunInstancesOutput := { Instances : list ec2_Instance }.

(** The methods of [ClientV2] that [createIAMUserV2] calls; the record
    [ClientV2] above does not hold them. *)
Record IamEc2 := {
  CreateUser :
    iam_CreateUserInput -> M (option iam_CreateUserOutput * option error);
  CreateAccessKey :
    iam_CreateAccessKeyInput ->
    M (option iam_CreateAccessKeyOutput * option error);
  RunInstances :
    ec2_RunInstancesInput -> M (option ec2_RunInstancesOutput * option error)
}.

Section WithEnvironment.
Context (env : Environment).
Context (iamEc2 : ClientV2 -> IamEc2).

(** [func (r *AccountReconcilerV2Example) createIAMUserV2(ctx, reqLogger,
    awsClient, creds) (reconcile.Result, error)].  The log lines dereference
    what the calls return. *)
Definition createIAMUserV2 (awsClient : option ClientV2)
    (creds : option sts_AssumeRoleOutput) : M (account.Result * option error) :=
  let createUserInput := {| CreateUser_UserName := Some "example-user" |} in
  client <- deref "awsClient" awsClient ;;
  u <- CreateUser (iamEc2 client) createUserInput ;;
  match u.2 with
  | Some err => ret (account.emptyResult, Some err)
  | None =>
      userResult <- deref "userResult" u.1 ;;
      user <- deref "userResult.User" (User userResult) ;;
      deref "userResult.User.UserName" (UserName user) ;;;
      let createAccessKeyInput :=
        {| CreateAccessKey_UserName := UserName user |} in
      k <- CreateAccessKey (iamEc2 client) createAccessKeyInput ;;
      match k.2 with
      | Some err => ret (account.emptyResult, Some err)
      | None =>
          accessKeyResult <- deref "accessKeyResult" k.1 ;;
          accessKey <-
            deref "accessKeyResult.AccessKey" (AccessKey accessKeyResult) ;;
          deref "accessKeyResult.AccessKey.AccessKeyId"
            (AccessKey_AccessKeyId accessKey) ;;;
          let runInstancesInput :=
            {| ImageId := Some "ami-12345678";
               MinCount := Some 1%Z; MaxCount := Some 1%Z;
               InstanceType := "t2.micro" |} in
          i <- RunInstances (iamEc2 client) runInstancesInput ;;
          match i.2 with
          | Some err => ret (account.emptyResult, Some err)
          | None =>
              instanceResult <- deref "instanceResult" i.1 ;;
              match Instances instanceResult with
              | [] => panic "index out of range [0] with length 0"
              | instance :: _ =>
                  deref "instanceResult.Instances[0].InstanceId"
                    (InstanceId instance) ;;;
                  ret (account.emptyResult, None)
              end
          end
      end
  end.

(** [func (r *AccountReconcilerV2Example) createAccountV2(ctx, reqLogger,
    account, awsClient) (reconcile.Result, error)] *)
Definition createAccountV2 (r : AccountReconcilerV2Example)
    (awsClient : option ClientV2) : M (account.Result * option error) :=
  acct <- account.currentAccount ;;
  let createAccountInput :=
    {| AccountName := Some (Name (Meta acct));
       Email := Some (Name (Meta acct) +:+ "@example.com") |} in
  client <- deref "awsClient" awsClient ;;
  c <- CreateAccount client createAccountInput ;;
  match c.2 with
  | Some err => ret (account.emptyResult, Some err)
  | None =>
      result <- deref "result" c.1 ;;
      cas <- deref "result.CreateAccountStatus" (CreateAccountStatus result) ;;
      deref "result.CreateAccountStatus.Id" (CreateAccountStatus_Id cas) ;;;
      let describeInput :=
        {| CreateAccountRequestId := CreateAccountStatus_Id cas |} in
      s <- DescribeCreateAccountStatus client describeInput ;;
      match s.2 with
      | Some err => ret (account.emptyResult, Some err)
      | None =>
          statusResult <- deref "statusResult" s.1 ;;
          deref "statusResult.CreateAccountStatus"
            (CreateAccountStatus statusResult) ;;;
          if decide (AwsAccountID (Spec acct) <> "") then
            h <- sts.AssumeRoleAndCreateClientV2 env (awsClientBuilder r) acct
                   client (GetDefaultRegion env)
                   "OrganizationAccountAccessRole" "" ;;
            match h.2 with
            | Some err => ret (account.emptyResult, Some err)
            | None => createIAMUserV2 h.1.1 h.1.2
            end
          else
            ret ({| account.Requeue := false;
                    account.RequeueAfter := Duration_mul 30%Z Second |}, None)
      end
  end.

(** [func (r *AccountReconcilerV2Example) Reconcile(ctx, request)
    (ctrl.Result, error)] *)
Definition Reconcile (r : AccountReconcilerV2Example)
    (request : NamespacedName) : M (account.Result * option error) :=
  modify (set_current emptyAccount) ;;;       (* &awsv1alpha1.Account{} *)
  err <- k8s.Get env request ;;
  match err with
  | Some e => ret (account.emptyResult, Some e)
  | None =>
      b <- GetClientV2 (awsClientBuilder r) "account"
             {| AwsCredsSecretIDKey := ""; AwsCredsSecretAccessKey := "";
                AwsToken := ""; AwsRegion := GetDefaultRegion env;
                SecretName := ""; NameSpace := "" |} ;;
      match b.2 with
      | Some e => ret (account.emptyResult, Some e)
      | None =>
          acct <- account.currentAccount ;;
          if decide (State (Status acct) = "") then createAccountV2 r b.1
          else ret (account.emptyResult, None)
      end
  end.

(** [n] reconciliations of the same request, one after the other; the
    results are those of the last. *)
Fixpoint reconcileTimes (r : AccountReconcilerV2Example)
    (request : NamespacedName) (n : nat) : M (account.Result * option error) :=
  match n with
  | O => ret (account.emptyResult, None)
  | S n' => reconcileTimes r request n' ;;; Reconcile r request
  end.

End WithEnvironment.
End example.

(** Scripts of the further scenarios: an environment with the answers of one
    collaborator replaced. *)
Module scripts.

Definition withOrganizations
    (create : nat -> organizations_CreateAccountInput ->
              option organizations_CreateAccountOutput * option error)
    (describe : nat -> organizations_DescribeCreateAccountStatusInput ->
                option organizations_CreateAccountOutput * option error)
    (tag : nat -> organizations_TagResourceInput -> option error)
    (env : Environment) : Environment :=
  {| assumeRoleAnswer := assumeRoleAnswer env;
     createAccountAnswer := create;
     describeCreateAccountStatusAnswer := describe;
     tagResourceAnswer := tag;
     deleteBucketAnswer := deleteBucketAnswer env;
     teardownAnswer := teardownAnswer env;
     getClientAnswer := getClientAnswer env;
     k8sAnswer := k8sAnswer env;
     Error_ := Error_ env;
     regexp_MatchString := regexp_MatchString env;
     GetIAMArn := GetIAMArn env;
     GetDefaultRegion := GetDefaultRegion env;
     IsFedramp := IsFedramp env;
     AccountFinalizer := AccountFinalizer env;
     AccountClaimFinalizer := AccountClaimFinalizer env;
     AccountCrNamespace := AccountCrNamespace env;
     AccountOperatorIAMRole := AccountOperatorIAMRole env;
     IAMUserIDLabel := IAMUserIDLabel env;
     AwsSecretName := AwsSecretName env;
     WaitTime := WaitTime env;
     DetectDevMode := DetectDevMode env;
     GetFeatureFlagValue := GetFeatureFlagValue env;
     CreationConditionOlderThan := CreationConditionOlderThan env;
     GenerateShortUID := GenerateShortUID env;
     formatAccountEmail := formatAccountEmail env;
     AccountsCanBeCreated := AccountsCanBeCreated env;
     GetAssumeRole := GetAssumeRole env;
     ReadyForRegionEnablement := ReadyForRegionEnablement env;
     IsEnablingOptInRegions := IsEnablingOptInRegions env;
     ReadyForInitialization := ReadyForInitialization env |}.

(** The production environment of the scenarios: every collaborator answers
    without error, accounts can be created. *)
Definition production : Environment :=
  fixtures.scenario (fixtures.failsThenSucceeds 0) (fun _ => None)
    true false DevModeProduction (fun _ => false).

(** The creation is in progress for [k] polls and is then in [state]. *)
Definition inProgressThen (k : nat) (state reason : string) (n : nat)
    (_ : organizations_DescribeCreateAccountStatusInput)
    : option organizations_CreateAccountOutput * option error :=
  (Some {| CreateAccountStatus :=
             Some {| CreateAccountStatus_Id := Some "car-1";
                     CreateAccountStatus_AccountId := Some "111122223333";
                     CreateAccountStatus_State :=
                       if decide (n < k) then "IN_PROGRESS" else state;
                     CreateAccountStatus_FailureReason :=
                       if decide (n < k) then "" else reason |} |}, None).

(** The environment of the scenarios outside production. *)
Definition development : Environment :=
  fixtures.scenario (fixtures.failsThenSucceeds 0) (fun _ => None)
    true false DevModeLocal (fun _ => false).

(** The provider denies every assume-role call. *)
Definition denying : Environment :=
  fixtures.scenario (fun _ _ => (None, Some (OperationError "AccessDenied")))
    (fun _ => None) true false DevModeProduction (fun _ => false).

(** The provider answers every assume-role call with an empty output. *)
Definition anonymous : Environment :=
  fixtures.scenario (fun _ _ => (Some empty_AssumeRoleOutput, None))
    (fun _ => None) true false DevModeProduction (fun _ => false).

(** The role assumed is the stale one at each of the first ten calls. *)
Definition stale : Environment :=
  fixtures.scenario (fixtures.staleThenFresh 10) (fun _ => None)
    true false DevModeProduction (fun _ => false).

(** The first three assume-role calls are denied. *)
Definition flaky : Environment :=
  fixtures.scenario (fixtures.failsThenSucceeds 3) (fun _ => None)
    true false DevModeProduction (fun _ => false).

(** The accounts of the scenarios. *)
Definition accountWith (name state : string) (finalizers : list string)
    (deleted : option Z) (byoc sts claimed : bool) : Account :=
  {| Meta := {| Name := name; Namespace := "aws-account-operator";
                DeletionTimestamp := deleted; Finalizers := finalizers;
                Labels := [] |};
     Spec := {| AwsAccountID := "123456789012"; BYOC := byoc; ClaimLink := "";
                ClaimLinkNamespace := "";
                Spec_LegalEntity := fixtures.noEntity;
                ManualSTSMode := sts; AccountPool := "" |};
     Status := {| Claimed := claimed; SupportCaseID := ""; Conditions := [];
                  State := state; Reused := false |} |}.

Definition accountFinalizer : string := "finalizer.aws.managed.openshift.io".

Definition accountKey : NamespacedName :=
  ("aws-account-operator", "osd-creds-mgmt-aaabbb").

(** A control plane that holds one account, with [currentAcctInstance]
    pointing to what was read of it. *)
Definition withCurrent (a : Account) : World :=
  set_current a (fixtures.worldWith a).

(** A control plane that holds one account and a config map with the given
    data. *)
Definition worldWithConfig (a : Account) (data : ConfigMapData) : World :=
  {| trace := []; awsCalls := 0; k8sCalls := 0;
     accounts := {[ ObjectKeyFromObject a := a ]};
     claims := ∅;
     configMap := Some data;
     current := emptyAccount |}.

(** The call that asks for the creation of an account fails with [err]. *)
Definition refusing (err : error) : Environment :=
  withOrganizations (fun _ _ => (None, Some err))
    (describeCreateAccountStatusAnswer production)
    (tagResourceAnswer production) production.

(** The creation is in progress at the first polls: provider calls 1 and 2. *)
Definition slowCreation : Environment :=
  withOrganizations (createAccountAnswer production)
    (inProgressThen 3 "SUCCEEDED" "") (tagResourceAnswer production) production.

(** A builder over an SDK that loads every configuration: the client is the
    options its configuration was loaded with. *)
Definition loadAll (options : builder.LoadOptions)
    : builder.LoadOptions * option error := (options, None).

Definition wrap (message : string) (err : error) : error :=
  errorString (message +:+ ": " +:+ fixtures.errorText err).

(** A control plane whose secrets hold both keys, or the identifier only. *)
Definition fullSecret (_ : NamespacedName)
    : builder.SecretData * option error :=
  ({[ "aws_access_key_id" := "AKIAEXAMPLE";
      "aws_secret_access_key" := "SECRET_KEY" ]}, None).

Definition partialSecret (_ : NamespacedName)
    : builder.SecretData * option error :=
  ({[ "aws_access_key_id" := "AKIAEXAMPLE" ]}, None).

(** The IAM and EC2 calls succeed; no instance comes back. *)
Definition noInstance (_ : awsclient.ClientV2) : example.IamEc2 :=
  {| example.CreateUser _ :=
       ret (Some {| example.User :=
                      Some {| example.UserName := Some "example-user" |} |},
            None);
     example.CreateAccessKey _ :=
       ret (Some {| example.AccessKey :=
                      Some {| example.AccessKey_AccessKeyId :=
                                Some "AKIAEXAMPLE" |} |}, None);
     example.RunInstances _ := ret (Some {| example.Instances := [] |}, None) |}.

(** The environment [env] with every account ready for initialization. *)
Definition readyForInitialization (env : Environment) : Environment :=
  {| assumeRoleAnswer := assumeRoleAnswer env;
     createAccountAnswer := createAccountAnswer env;
     describeCreateAccountStatusAnswer := describeCreateAccountStatusAnswer env;
     tagResourceAnswer := tagResourceAnswer env;
     deleteBucketAnswer := deleteBucketAnswer env;
     teardownAnswer := teardownAnswer env;
     getClientAnswer := getClientAnswer env;
     k8sAnswer := k8sAnswer env;
     Error_ := Error_ env;
     regexp_MatchString := regexp_MatchString env;
     GetIAMArn := GetIAMArn env;
     GetDefaultRegion := GetDefaultRegion env;
     IsFedramp := IsFedramp env;
     AccountFinalizer := AccountFinalizer env;
     AccountClaimFinalizer := AccountClaimFinalizer env;
     AccountCrNamespace := AccountCrNamespace env;
     AccountOperatorIAMRole := AccountOperatorIAMRole env;
     IAMUserIDLabel := IAMUserIDLabel env;
     AwsSecretName := AwsSecretName env;
     WaitTime := WaitTime env;
     DetectDevMode := DetectDevMode env;
     GetFeatureFlagValue := GetFeatureFlagValue env;
     CreationConditionOlderThan := CreationConditionOlderThan env;
     GenerateShortUID := GenerateShortUID env;
     formatAccountEmail := formatAccountEmail env;
     AccountsCanBeCreated := AccountsCanBeCreated env;
     GetAssumeRole := GetAssumeRole env;
     ReadyForRegionEnablement := ReadyForRegionEnablement env;
     IsEnablingOptInRegions := IsEnablingOptInRegions env;
     ReadyForInitialization := fun _ => true |}.

(** An account in state [Creating] that carries the account finalizer. *)
Definition creatingAccount : Account :=
  accountWith "osd-creds-mgmt-aaabbb" "Creating" [accountFinalizer] None
    false false false.

End scripts.

(** * Part II: properties *)

(** ** The effect monad *)

Lemma bind_ret_l {A B} (a : A) (k : A -> M B) w : bind (ret a) k w = k a w.
Proof. reflexivity. Qed.

Lemma bind_val {A B} (m : M A) (k : A -> M B) w a w' :
  m w = (Val a, w') -> bind m k w = k a w'.
Proof. intros H. unfold bind. now rewrite H. Qed.

(** ** awsclient: the unimplemented batch delete *)
Section AwsClient.
Import awsclient.

(** C10. For every bucket name, [BatchDeleteBucketObjects] of the SDK-v2
    client returns a non-nil error (and does nothing else); hence a pass of
    the teardown engine's bucket category over this client, with at least one
    bucket to empty, collects an error for every bucket, never deletes a
    bucket, and so reports failure. *)
Theorem BatchDeleteBucketObjects_unimplemented (c : awsClientV2) :
  (forall (bucketName : option string) (w : World),
      exists err : error,
        BatchDeleteBucketObjects (asClientV2 c) bucketName w = (Val (Some err), w))
  /\ (forall (buckets : list string) (w : World),
        exists errs : list error,
          deleteBuckets (asClientV2 c) buckets w = (Val errs, w)
          /\ length errs = length buckets).
Proof.
  split.
  - intros bucketName w. eexists. reflexivity.
  - induction buckets as [|b rest IH]; intros w.
    + exists []. split; reflexivity.
    + destruct (IH w) as (errs & Hrun & Hlen).
      eexists. split.
      * cbn [deleteBuckets]. unfold bind at 1. cbn.
        unfold bind at 1. rewrite Hrun. reflexivity.
      * cbn. now rewrite Hlen.
Qed.

End AwsClient.

(** ** sts: the assume-role retry loop *)
Section GetSTSCredentials.
Import awsclient.
Context (env : Environment).

Let client : ClientV2 := asClientV2 (newClientV2 env).

Lemma half_second : Duration_mul 500%Z Millisecond = (500 * Millisecond)%Z.
Proof. reflexivity. Qed.

Lemma afterAttempts_0 input w : afterAttempts input 0 w = w.
Proof.
  destruct w. unfold afterAttempts. cbn.
  rewrite app_nil_r, Nat.add_0_r. reflexivity.
Qed.

Lemma afterAttempts_add input n m w :
  afterAttempts input m (afterAttempts input n w) = afterAttempts input (n + m) w.
Proof.
  unfold afterAttempts. cbn [trace awsCalls k8sCalls accounts claims configMap current].
  f_equal.
  - rewrite replicate_add, concat_app, app_assoc. reflexivity.
  - lia.
Qed.

Lemma afterAttempts_S input n w :
  afterAttempts input n (afterAttempts input 1 w) = afterAttempts input (S n) w.
Proof. apply afterAttempts_add. Qed.

(** One iteration of the loop on the scripted client. *)
Lemma assumeRoleLoop_step input remaining last w :
  sts.assumeRoleLoop client input (S remaining) last w =
  let r := assumeRoleAnswer env (awsCalls w) input in
  match r.2 with
  | None => (Val r, afterAttempts input 1 w)
  | Some _ => sts.assumeRoleLoop client input remaining r (afterAttempts input 1 w)
  end.
Proof.
  assert (Hw : tickAws (emit (EvAssumeRole input)
                 (emit (EvSleep (Duration_mul 500%Z Millisecond)) w))
               = afterAttempts input 1 w).
  { unfold afterAttempts, tickAws, emit, attemptEvents. cbn.
    rewrite <- app_assoc, Nat.add_1_r. reflexivity. }
  cbn [sts.assumeRoleLoop]. unfold Sleep, modify, bind at 1 2.
  cbn [client asClientV2 AssumeRole awsClientV2_AssumeRole newClientV2 stsClient
       sdkSts sts_Client_AssumeRole providerCall].
  cbn [awsCalls emit]. rewrite Hw.
  destruct (assumeRoleAnswer env (awsCalls w) input) as [out [e|]]; reflexivity.
Qed.

(** While the answers are errors the loop goes on. *)
Lemma assumeRoleLoop_failures input k :
  forall remaining last w,
    (forall j, j < S k -> (assumeRoleAnswer env (awsCalls w + j) input).2 <> None) ->
    sts.assumeRoleLoop client input (S k + remaining) last w =
    sts.assumeRoleLoop client input remaining
      (assumeRoleAnswer env (awsCalls w + k) input) (afterAttempts input (S k) w).
Proof.
  induction k as [|k IH]; intros remaining last w Hfail.
  - change (1 + remaining) with (S remaining). rewrite assumeRoleLoop_step. cbn zeta.
    specialize (Hfail 0 ltac:(lia)). rewrite Nat.add_0_r in *.
    destruct (assumeRoleAnswer env (awsCalls w) input) as [out [e|]];
      [reflexivity | now destruct Hfail].
  - change (S (S k) + remaining) with (S (S k + remaining)).
    rewrite assumeRoleLoop_step. cbn zeta.
    pose proof (Hfail 0 ltac:(lia)) as H0. rewrite Nat.add_0_r in H0.
    destruct (assumeRoleAnswer env (awsCalls w) input) as [out [e|]] eqn:Hans;
      [|now destruct H0].
    cbn [snd]. rewrite IH.
    + rewrite afterAttempts_S. cbn [afterAttempts awsCalls].
      replace (awsCalls w + 1 + k) with (awsCalls w + S k) by lia. reflexivity.
    + intros j Hj. cbn [afterAttempts awsCalls].
      replace (awsCalls w + 1 + j) with (awsCalls w + S j) by lia.
      apply Hfail. lia.
Qed.

(** [k] failed attempts, then a successful one. *)
Lemma GetSTSCredentialsV2_succeeds roleArn externalID roleSessionName w k out :
  let input := sts.assumeRoleInput roleArn externalID roleSessionName in
  k < 100 ->
  (forall j, j < k -> (assumeRoleAnswer env (awsCalls w + j) input).2 <> None) ->
  assumeRoleAnswer env (awsCalls w + k) input = (out, None) ->
  sts.GetSTSCredentialsV2 client roleArn externalID roleSessionName w
  = (Val (out, None), afterAttempts input (S k) w).
Proof.
  intros input Hk Hfail Hok.
  unfold sts.GetSTSCredentialsV2. fold input. unfold bind.
  destruct k as [|k].
  - rewrite assumeRoleLoop_step. cbn zeta.
    rewrite Nat.add_0_r in Hok. rewrite Hok. reflexivity.
  - replace 100 with (S k + S (99 - S k)) by lia.
    rewrite assumeRoleLoop_failures by (intros j Hj; apply Hfail; lia).
    rewrite assumeRoleLoop_step. cbn zeta.
    cbn [afterAttempts awsCalls]. rewrite Hok. cbn [snd].
    rewrite afterAttempts_add. replace (S k + 1) with (S (S k)) by lia.
    reflexivity.
Qed.

(** A hundred failed attempts. *)
Lemma GetSTSCredentialsV2_exhausts roleArn externalID roleSessionName w :
  let input := sts.assumeRoleInput roleArn externalID roleSessionName in
  (forall j, j < 100 -> (assumeRoleAnswer env (awsCalls w + j) input).2 <> None) ->
  exists err,
    (assumeRoleAnswer env (awsCalls w + 99) input).2 = Some err
    /\ sts.GetSTSCredentialsV2 client roleArn externalID roleSessionName w
       = (Val (Some empty_AssumeRoleOutput, Some err), afterAttempts input 100 w).
Proof.
  intros input Hfail.
  unfold sts.GetSTSCredentialsV2. fold input. unfold bind.
  replace 100 with (S 99 + 0) by lia.
  rewrite assumeRoleLoop_failures by (intros j Hj; apply Hfail; lia).
  cbn [sts.assumeRoleLoop]. unfold ret at 1.
  specialize (Hfail 99 ltac:(lia)).
  destruct (assumeRoleAnswer env (awsCalls w + 99) input) as [out [e|]];
    [|now destruct Hfail].
  exists e. split; reflexivity.
Qed.

(** C1. For every role ARN, external ID and session name,
    [GetSTSCredentialsV2] asks for a session of 3600 seconds; every attempt is
    half a second of sleep followed by the assume-role call; when the first
    [k < 100] attempts fail and the next succeeds it returns that attempt's
    output with a nil error after [k + 1] attempts; when all 100 attempts
    fail it returns, without panicking, an empty output and the error of the
    last attempt, after exactly 100 attempts. *)
Theorem GetSTSCredentialsV2_retries
    (roleArn externalID roleSessionName : string) (w : World) :
  let input := sts.assumeRoleInput roleArn externalID roleSessionName in
  DurationSeconds input = Some 3600%Z
  /\ (forall k out,
        k < 100 ->
        (forall j, j < k -> (assumeRoleAnswer env (awsCalls w + j) input).2 <> None) ->
        assumeRoleAnswer env (awsCalls w + k) input = (out, None) ->
        sts.GetSTSCredentialsV2 client roleArn externalID roleSessionName w
        = (Val (out, None), afterAttempts input (S k) w))
  /\ ((forall j, j < 100 -> (assumeRoleAnswer env (awsCalls w + j) input).2 <> None) ->
      exists err,
        (assumeRoleAnswer env (awsCalls w + 99) input).2 = Some err
        /\ sts.GetSTSCredentialsV2 client roleArn externalID roleSessionName w
           = (Val (Some empty_AssumeRoleOutput, Some err),
              afterAttempts input 100 w)).
Proof.
  intros input. split; [reflexivity|]. split.
  - intros k out. apply GetSTSCredentialsV2_succeeds.
  - apply GetSTSCredentialsV2_exhausts.
Qed.

End GetSTSCredentials.

(** ** sts: the role-identifier check of [HandleRoleAssumptionV2] *)
Section HandleRoleAssumption.
Import awsclient.
Context (env : Environment).

Let client : ClientV2 := asClientV2 (newClientV2 env).

Lemma wrap64_small z : (- 2 ^ 63 <= z < 2 ^ 63)%Z -> wrap64 z = z.
Proof. intros H. unfold wrap64. rewrite Z.mod_small; lia. Qed.

Lemma backoff_seconds i :
  i < 10 -> Duration_mul (Z.of_nat i) Second = (Z.of_nat i * Second)%Z.
Proof. intros H. unfold Duration_mul, Second. apply wrap64_small. lia. Qed.

Lemma advance_advance es1 n1 es2 n2 w :
  advance es2 n2 (advance es1 n1 w) = advance (es1 ++ es2) (n1 + n2) w.
Proof.
  unfold advance. cbn [trace awsCalls k8sCalls accounts claims configMap current].
  f_equal; [now rewrite app_assoc | lia].
Qed.

Lemma advance_nil w : advance [] 0 w = w.
Proof.
  destruct w. unfold advance. cbn [trace awsCalls k8sCalls accounts claims configMap current].
  now rewrite app_nil_r, Nat.add_0_r.
Qed.

Lemma emitAll_nil w : emitAll [] w = w.
Proof. destruct w. unfold emitAll. cbn. now rewrite app_nil_r. Qed.

Lemma afterAttempts_1 input w :
  afterAttempts input 1 w = advance (attemptEvents input) 1 w.
Proof.
  unfold afterAttempts, advance. cbn [replicate concat]. now rewrite app_nil_r.
Qed.

Lemma assumedRoleIdOf_Some out roleId w :
  roleIdOf out = Some roleId -> sts.assumedRoleIdOf out w = (Val roleId, w).
Proof.
  destruct out as [[[[arn [id|]]|] creds]|]; cbn; try discriminate.
  now intros [= ->].
Qed.

(** One iteration of the loop when the call succeeds at once. *)
Lemma roleAssumptionLoop_step roleArn session ccsRoleID remaining i creds w roleId :
  let input := sts.assumeRoleInput roleArn "" session in
  i < 10 ->
  assumesRole env (awsCalls w) input roleId ->
  exists out,
    assumeRoleAnswer env (awsCalls w) input = (out, None) /\
    sts.roleAssumptionLoop env client roleArn session ccsRoleID (S remaining) i creds w =
    if bool_decide (ccsRoleID <> "")
       && negb (sts.matchSubstringV2 env ccsRoleID roleId).1
    then sts.roleAssumptionLoop env client roleArn session ccsRoleID remaining (S i) out
           (advance (attemptEvents input ++ [EvSleep (Z.of_nat i * Second)%Z])%list 1 w)
    else (Val (out, None), advance (attemptEvents input) 1 w).
Proof.
  intros input Hi (out & Hans & Hid). exists out. split; [exact Hans|].
  unfold client. cbn [sts.roleAssumptionLoop]. unfold bind at 1.
  rewrite (GetSTSCredentialsV2_succeeds env roleArn "" session w 0 out);
    [| lia | intros j Hj; lia | now rewrite Nat.add_0_r].
  fold input. cbn [snd fst]. unfold bind at 1.
  rewrite (assumedRoleIdOf_Some _ _ _ Hid), afterAttempts_1.
  destruct (bool_decide (ccsRoleID <> "")
            && negb (sts.matchSubstringV2 env ccsRoleID roleId).1); [|reflexivity].
  unfold Sleep, modify, bind at 1. rewrite (backoff_seconds i Hi).
  f_equal. unfold emit, advance. cbn. f_equal. now rewrite <- app_assoc.
Qed.

(** [n] mismatching attempts in a row. *)
Lemma roleAssumptionLoop_mismatches roleArn session ccsRoleID n :
  let input := sts.assumeRoleInput roleArn "" session in
  ccsRoleID <> "" ->
  forall remaining i creds w,
    i + n <= 10 ->
    (forall j, j < n ->
       exists roleId,
         assumesRole env (awsCalls w + j) input roleId
         /\ (sts.matchSubstringV2 env ccsRoleID roleId).1 = false) ->
    exists creds',
      sts.roleAssumptionLoop env client roleArn session ccsRoleID (n + remaining) i creds w =
      sts.roleAssumptionLoop env client roleArn session ccsRoleID remaining (i + n) creds'
        (advance (backoffEvents input i n) n w)
      /\ (n = 0 -> creds' = creds).
Proof.
  intros input Hccs. induction n as [|n IH]; intros remaining i creds w Hin Hstale.
  - exists creds. rewrite Nat.add_0_r. cbn [backoffEvents seq flat_map].
    rewrite advance_nil. split; reflexivity.
  - destruct (Hstale 0 ltac:(lia)) as (roleId & Hassumes & Hmis).
    rewrite Nat.add_0_r in Hassumes.
    destruct (roleAssumptionLoop_step roleArn session ccsRoleID (n + remaining)
                i creds w roleId ltac:(lia) Hassumes) as (out & _ & Hstep).
    fold input in Hstep.
    rewrite Hmis, (bool_decide_eq_true_2 _ Hccs) in Hstep. cbn [negb andb] in Hstep.
    destruct (IH remaining (S i) out
                (advance (attemptEvents input ++ [EvSleep (Z.of_nat i * Second)%Z])%list 1 w))
      as (creds' & Hrest & _).
    + lia.
    + intros j Hj. cbn [advance awsCalls].
      replace (awsCalls w + 1 + j) with (awsCalls w + S j) by lia.
      apply Hstale. lia.
    + exists creds'. split; [|discriminate].
      change (S n + remaining) with (S (n + remaining)).
      rewrite Hstep, Hrest, advance_advance.
      replace (S i + n) with (i + S n) by lia.
      replace (1 + n) with (S n) by lia.
      reflexivity.
Qed.

(** What follows the loop (the client is built from the credentials) makes
    no provider call and does not sleep. *)
Lemma buildClient_quiet (creds : option sts_AssumeRoleOutput) (region : string) w :
  exists res rest,
    (let awsRegion := if decide (region <> "") then region else GetDefaultRegion env in
     c <- deref "creds" creds ;;
     k <- deref "creds.Credentials" (Credentials c) ;;
     accessKeyId <- deref "creds.Credentials.AccessKeyId" (AccessKeyId k) ;;
     secretAccessKey <-
       deref "creds.Credentials.SecretAccessKey" (SecretAccessKey k) ;;
     sessionToken <- deref "creds.Credentials.SessionToken" (SessionToken k) ;;
     b <- GetClientV2 (scriptedBuilder env) sts.controllerNameV2
            {| AwsCredsSecretIDKey := accessKeyId;
               AwsCredsSecretAccessKey := secretAccessKey;
               AwsToken := sessionToken;
               AwsRegion := awsRegion;
               SecretName := ""; NameSpace := "" |} ;;
     match b.2 with
     | Some err => ret (None, None, Some err)
     | None => ret (b.1, creds, None)
     end) w = (res, emitAll rest w)
    /\ forallb isQuiet rest = true.
Proof.
  destruct creds as [[user [[[a|] [s|] [t|]]|]]|];
    try (eexists (Panic _), []; rewrite emitAll_nil; split; reflexivity).
  cbn. unfold bind, modify, ret. cbn.
  destruct (getClientAnswer env _); eexists _, [_]; split; reflexivity.
Qed.

(** C5. In [HandleRoleAssumptionV2], when a CCS role identifier is expected
    ([ccsRoleID] is not empty) and the assumed-role identifier returned does
    not match it, the builder sleeps as many seconds as the attempt's index
    and runs the whole of [GetSTSCredentialsV2] again (its half second of
    sleep and its assume-role call), not the match alone: after [k < 10]
    mismatches and a match at attempt [k] the provider has seen [k + 1]
    assume-role calls, separated by sleeps of 0, 1, ..., [k - 1] seconds; ten
    mismatches end the loop after ten calls and sleeps of 0, ..., 9 seconds.
    Nothing after the loop calls the provider or sleeps. *)
Theorem HandleRoleAssumptionV2_backs_off
    (currentAcctInstance : Account) (region roleToAssume ccsRoleID : string)
    (w : World) :
  let roleArn :=
    GetIAMArn env (AwsAccountID (Spec currentAcctInstance))
      sts.AwsResourceTypeRole roleToAssume in
  let input := sts.assumeRoleInput roleArn "" "awsAccountOperator" in
  let mismatch n :=
    exists roleId, assumesRole env n input roleId
                   /\ (sts.matchSubstringV2 env ccsRoleID roleId).1 = false in
  let matches n :=
    exists roleId, assumesRole env n input roleId
                   /\ (sts.matchSubstringV2 env ccsRoleID roleId).1 = true in
  ccsRoleID <> "" ->
  (forall k,
      k < 10 ->
      (forall j, j < k -> mismatch (awsCalls w + j)) ->
      matches (awsCalls w + k) ->
      exists res rest,
        sts.HandleRoleAssumptionV2 env (scriptedBuilder env) currentAcctInstance
          client region roleToAssume ccsRoleID w
        = (res, emitAll rest
                  (advance (backoffEvents input 0 k ++ attemptEvents input) (S k) w))
        /\ forallb isQuiet rest = true)
  /\ ((forall j, j < 10 -> mismatch (awsCalls w + j)) ->
      exists res rest,
        sts.HandleRoleAssumptionV2 env (scriptedBuilder env) currentAcctInstance
          client region roleToAssume ccsRoleID w
        = (res, emitAll rest (advance (backoffEvents input 0 10) 10 w))
        /\ forallb isQuiet rest = true).
Proof.
  intros roleArn input mismatch matches Hccs. split.
  - intros k Hk Hstale (roleId & Hassumes & Hmatch).
    destruct (roleAssumptionLoop_mismatches roleArn "awsAccountOperator" ccsRoleID
                k Hccs (S (9 - k)) 0 None w ltac:(lia) Hstale)
      as (creds' & Hloop & _).
    fold input in Hloop.
    destruct (roleAssumptionLoop_step roleArn "awsAccountOperator" ccsRoleID
                (9 - k) (0 + k) creds' (advance (backoffEvents input 0 k) k w)
                roleId ltac:(lia) Hassumes) as (out & _ & Hstep).
    fold input in Hstep. rewrite Hmatch, andb_false_r in Hstep.
    destruct (buildClient_quiet out region
                (advance (backoffEvents input 0 k ++ attemptEvents input) (S k) w))
      as (res & rest & Hrun & Hquiet).
    exists res, rest. split; [|exact Hquiet].
    unfold sts.HandleRoleAssumptionV2. fold roleArn. unfold bind at 1.
    replace 10 with (k + S (9 - k)) by lia.
    rewrite Hloop, Hstep, advance_advance.
    replace (k + 1) with (S k) by lia. exact Hrun.
  - intros Hstale.
    destruct (roleAssumptionLoop_mismatches roleArn "awsAccountOperator" ccsRoleID
                10 Hccs 0 0 None w ltac:(lia) Hstale)
      as (creds' & Hloop & _).
    fold input in Hloop.
    destruct (buildClient_quiet creds' region (advance (backoffEvents input 0 10) 10 w))
      as (res & rest & Hrun & Hquiet).
    exists res, rest. split; [|exact Hquiet].
    unfold sts.HandleRoleAssumptionV2. fold roleArn. unfold bind at 1.
    change 10 with (10 + 0) at 1. rewrite Hloop. exact Hrun.
Qed.

End HandleRoleAssumption.

(** The retry at work: three denials, then the role is assumed at the fourth
    attempt; and a provider that always denies, given up on after the
    hundredth. *)
Lemma GetSTSCredentialsV2_retries_witness :
  let arn := "arn:aws:iam::123456789012:role/OrganizationAccountAccessRole" in
  let input := sts.assumeRoleInput arn "" "awsAccountOperator" in
  let w := fixtures.worldWith (fixtures.account "osd-creds-mgmt-aaabbb" "" []) in
  let flaky :=
    fixtures.scenario (fixtures.failsThenSucceeds 3) (fun _ => None)
      true false DevModeProduction (fun _ => false) in
  let denying :=
    fixtures.scenario (fun _ _ => (None, Some (OperationError "AccessDenied")))
      (fun _ => None) true false DevModeProduction (fun _ => false) in
  sts.GetSTSCredentialsV2 (awsclient.asClientV2 (awsclient.newClientV2 flaky))
    arn "" "awsAccountOperator" w
  = (Val (Some (fixtures.roleUser "AROAEXAMPLE:awsAccountOperator"), None),
     afterAttempts input 4 w)
  /\ sts.GetSTSCredentialsV2 (awsclient.asClientV2 (awsclient.newClientV2 denying))
       arn "" "awsAccountOperator" w
     = (Val (Some empty_AssumeRoleOutput, Some (OperationError "AccessDenied")),
        afterAttempts input 100 w).
Proof.
  intros arn input w flaky denying. split.
  - apply (proj1 (proj2 (GetSTSCredentialsV2_retries flaky arn "" "awsAccountOperator" w)) 3).
    + lia.
    + intros j Hj. cbn. unfold fixtures.failsThenSucceeds.
      destruct (decide (j < 3)); [discriminate | lia].
    + reflexivity.
  - destruct (proj2 (proj2 (GetSTSCredentialsV2_retries denying arn "" "awsAccountOperator" w)))
      as (err & Herr & Hrun).
    + intros j Hj. discriminate.
    + cbn in Herr. injection Herr as <-. exact Hrun.
Defined.

(** The check at work: the provider answers twice with the stale role and
    then with the expected one; the third attempt is kept. *)
Lemma HandleRoleAssumptionV2_backs_off_witness :
  let env :=
    fixtures.scenario (fixtures.staleThenFresh 2) (fun _ => None)
      true false DevModeProduction (fun _ => false) in
  let acct := fixtures.account "osd-creds-mgmt-aaabbb" "" [] in
  let w := fixtures.worldWith acct in
  let input :=
    sts.assumeRoleInput
      (GetIAMArn env "" sts.AwsResourceTypeRole "BYOCAdminAccess")
      "" "awsAccountOperator" in
  "AROAFRESH" <> ""
  /\ exists res rest,
       sts.HandleRoleAssumptionV2 env (awsclient.scriptedBuilder env) acct
         (awsclient.asClientV2 (awsclient.newClientV2 env))
         "" "BYOCAdminAccess" "AROAFRESH" w
       = (res, emitAll rest
                 (advance (backoffEvents input 0 2 ++ attemptEvents input) 3 w))
       /\ forallb isQuiet rest = true.
Proof.
  intros env acct w input.
  assert (Hne : "AROAFRESH" <> "") by discriminate.
  split; [exact Hne|].
  apply (proj1 (HandleRoleAssumptionV2_backs_off env acct "" "BYOCAdminAccess"
                  "AROAFRESH" w Hne) 2).
  - lia.
  - intros j Hj. exists "AROASTALE:awsAccountOperator". split.
    + exists (Some (fixtures.roleUser "AROASTALE:awsAccountOperator")).
      split; [|reflexivity]. cbn. unfold fixtures.staleThenFresh.
      destruct (decide (j < 2)); [reflexivity | lia].
    + reflexivity.
  - exists "AROAFRESH:awsAccountOperator". split.
    + exists (Some (fixtures.roleUser "AROAFRESH:awsAccountOperator")).
      split; reflexivity.
    + reflexivity.
Defined.

(** The same run, evaluated: three whole attempts, sleeps of 0 and 1 second
    between them, and the client built from the third attempt's
    credentials. *)
Example HandleRoleAssumptionV2_stale_twice :
  let env :=
    fixtures.scenario (fixtures.staleThenFresh 2) (fun _ => None)
      true false DevModeProduction (fun _ => false) in
  let acct := fixtures.account "osd-creds-mgmt-aaabbb" "" [] in
  let input :=
    sts.assumeRoleInput "arn:aws:iam:::role/BYOCAdminAccess" "" "awsAccountOperator" in
  let run :=
    sts.HandleRoleAssumptionV2 env (awsclient.scriptedBuilder env) acct
      (awsclient.asClientV2 (awsclient.newClientV2 env))
      "" "BYOCAdminAccess" "AROAFRESH" (fixtures.worldWith acct) in
  trace run.2 =
    [ EvSleep 500000000%Z; EvAssumeRole input; EvSleep 0%Z;
      EvSleep 500000000%Z; EvAssumeRole input; EvSleep 1000000000%Z;
      EvSleep 500000000%Z; EvAssumeRole input;
      EvGetClientV2 "account"
        {| AwsCredsSecretIDKey := "ACCESS_KEY";
           AwsCredsSecretAccessKey := "SECRET_KEY"; AwsToken := "SESSION_TOKEN";
           AwsRegion := "us-east-1"; SecretName := ""; NameSpace := "" |} ]
  /\ match run.1 with
     | Val (Some _, creds, None) =>
         creds = Some (fixtures.roleUser "AROAFRESH:awsAccountOperator")
     | _ => False
     end.
Proof. vm_compute. split; reflexivity. Qed.

(** ** What a computation may add to the trace *)
Section EmitsOnly.
Context (P : Event -> bool).

Lemma emitsOnly_ret {A} (a : A) : emitsOnly P (ret a).
Proof. intros w. exists []. cbn. now rewrite app_nil_r. Qed.

Lemma emitsOnly_panic {A} what : emitsOnly P (@panic A what).
Proof. intros w. exists []. cbn. now rewrite app_nil_r. Qed.

Lemma emitsOnly_outOfFuel {A} : emitsOnly P (@outOfFuel A).
Proof. intros w. exists []. cbn. now rewrite app_nil_r. Qed.

Lemma emitsOnly_get : emitsOnly P get.
Proof. intros w. exists []. cbn. now rewrite app_nil_r. Qed.

Lemma emitsOnly_deref {A} what (p : option A) : emitsOnly P (deref what p).
Proof. destruct p; [apply emitsOnly_ret | apply emitsOnly_panic]. Qed.

Lemma emitsOnly_modify (f : World -> World) :
  (forall w, trace (f w) = trace w) -> emitsOnly P (modify f).
Proof. intros Hf w. exists []. cbn. now rewrite Hf, app_nil_r. Qed.

Lemma emitsOnly_emit e : P e = true -> emitsOnly P (modify (emit e)).
Proof. intros He w. exists [e]. cbn. now rewrite He. Qed.

Lemma emitsOnly_bind {A B} (m : M A) (k : A -> M B) :
  emitsOnly P m -> (forall a, emitsOnly P (k a)) -> emitsOnly P (bind m k).
Proof.
  intros Hm Hk w. unfold bind. destruct (Hm w) as (es & Hes & HP).
  destruct (m w) as [[a| |] w1]; cbn [snd] in Hes.
  - destruct (Hk a w1) as (es' & Hes' & HP'). exists (es ++ es')%list.
    rewrite Hes', Hes, app_assoc, forallb_app, HP, HP'. now split.
  - now exists es.
  - now exists es.
Qed.

Lemma emitsOnly_providerCall {A} e (answer : nat -> A) :
  P e = true -> emitsOnly P (awsclient.providerCall e answer).
Proof. intros He w. exists [e]. cbn. now rewrite He. Qed.

Lemma emitsOnly_controlPlaneCall env e :
  P e = true -> emitsOnly P (k8s.controlPlaneCall env e).
Proof. intros He w. exists [e]. cbn. now rewrite He. Qed.

Lemma emitsOnly_weaken {A} (Q : Event -> bool) (m : M A) :
  (forall e, Q e = true -> P e = true) -> emitsOnly Q m -> emitsOnly P m.
Proof.
  intros HQP Hm w. destruct (Hm w) as (es & Hes & HQ). exists es. split; [exact Hes|].
  rewrite forallb_forall in *. auto.
Qed.

End EmitsOnly.

(** Splits a computation along its binds and branches. *)
Ltac emits_step :=
  first
    [ apply emitsOnly_ret | apply emitsOnly_panic | apply emitsOnly_outOfFuel
    | apply emitsOnly_get | apply emitsOnly_deref
    | apply emitsOnly_emit; reflexivity
    | apply emitsOnly_providerCall; reflexivity
    | apply emitsOnly_controlPlaneCall; reflexivity
    | apply emitsOnly_modify; intros; reflexivity
    | apply emitsOnly_bind; [|intros]
    | assumption
    | match goal with
      | |- emitsOnly _ (match ?x with _ => _ end) => destruct x
      | |- emitsOnly _ (if ?b then _ else _) => destruct b
      | |- emitsOnly _ (let (_, _) := ?x in _) => destruct x
      end ].

Ltac emits := repeat emits_step.

(** Whatever the provider answers, neither the credential chain nor the
    control plane asks it to create an account. *)
Section NoCreateAccount.
Import awsclient utils.
Context (env : Environment).

Let client : ClientV2 := asClientV2 (newClientV2 env).

Lemma assumeRoleLoop_emits input remaining last :
  emitsOnly notCreateAccount (sts.assumeRoleLoop client input remaining last).
Proof.
  revert last. induction remaining as [|n IH]; intros last; cbn [sts.assumeRoleLoop].
  - emits.
  - unfold Sleep. emits. apply IH.
Qed.

Lemma GetSTSCredentialsV2_emits roleArn externalID session :
  emitsOnly notCreateAccount
    (sts.GetSTSCredentialsV2 client roleArn externalID session).
Proof.
  unfold sts.GetSTSCredentialsV2. apply emitsOnly_bind; [|intros; emits].
  apply assumeRoleLoop_emits.
Qed.

Lemma roleAssumptionLoop_emits roleArn session ccsRoleID remaining i creds :
  emitsOnly notCreateAccount
    (sts.roleAssumptionLoop env client roleArn session ccsRoleID remaining i creds).
Proof.
  revert i creds. induction remaining as [|n IH]; intros i creds;
    cbn [sts.roleAssumptionLoop].
  - emits.
  - apply emitsOnly_bind; [apply GetSTSCredentialsV2_emits|]. intros r.
    unfold sts.assumedRoleIdOf, Sleep. emits. apply IH.
Qed.

Lemma HandleRoleAssumptionV2_emits acct region roleToAssume ccsRoleID :
  emitsOnly notCreateAccount
    (sts.HandleRoleAssumptionV2 env (scriptedBuilder env) acct client region
       roleToAssume ccsRoleID).
Proof.
  unfold sts.HandleRoleAssumptionV2.
  apply emitsOnly_bind; [apply roleAssumptionLoop_emits|]. intros r.
  cbn [GetClientV2 scriptedBuilder]. emits.
Qed.

Lemma Update_emits : emitsOnly notCreateAccount (k8s.Update env).
Proof. unfold k8s.Update, k8s.storeAccount. emits. Qed.

Lemma StatusUpdate_emits : emitsOnly notCreateAccount (k8s.StatusUpdate env).
Proof. unfold k8s.StatusUpdate, k8s.storeAccount. emits. Qed.

Lemma removeFinalizer_emits name :
  emitsOnly notCreateAccount (account.removeFinalizer env name).
Proof.
  unfold account.removeFinalizer, account.currentAccount, account.assign.
  emits.
Qed.

Lemma setAccountFailedV2_emits ctype reason message state :
  emitsOnly notCreateAccount
    (account.setAccountFailedV2 env ctype reason message state).
Proof.
  unfold account.setAccountFailedV2, account.assign, account.statusUpdate.
  emits.
Qed.

Lemma finalizeDeletion_emits shard :
  emitsOnly notCreateAccount
    (account.finalizeDeletion env
       {| account.awsClientBuilder := scriptedBuilder env;
          account.shardName := shard |} client).
Proof.
  unfold account.finalizeDeletion, account.currentAccount,
    account.handleAWSClientErrorV2, account.finalizeAccountV2.
  cbn [account.awsClientBuilder].
  emits; try apply removeFinalizer_emits; try apply HandleRoleAssumptionV2_emits;
    try apply setAccountFailedV2_emits.
Qed.

End NoCreateAccount.

(** ** The account controller *)
Section AccountController.
Import awsclient utils.
Context (env : Environment).

Ltac wsimpl :=
  cbn [trace awsCalls k8sCalls accounts claims configMap current
       emit tickK8s tickAws set_current set_accounts emitAll advance
       afterPrelude fst snd].

Lemma world_ext (w1 w2 : World) :
  trace w1 = trace w2 -> awsCalls w1 = awsCalls w2 -> k8sCalls w1 = k8sCalls w2 ->
  accounts w1 = accounts w2 -> claims w1 = claims w2 ->
  configMap w1 = configMap w2 -> current w1 = current w2 -> w1 = w2.
Proof. destruct w1, w2. cbn. intros; subst; reflexivity. Qed.

Ltac world_eq :=
  apply world_ext; wsimpl; rewrite <- ?app_assoc; try reflexivity.

Lemma run_bind {A B} (m : M A) (k : A -> M B) w a w1 :
  m w = (Val a, w1) -> (x <- m ;; k x) w = k a w1.
Proof. apply bind_val. Qed.

Lemma Get_injected key w e :
  k8sAnswer env (k8sCalls w) = Some e ->
  k8s.Get env key w = (Val (Some e), tickK8s (emit (EvGet key) w)).
Proof.
  intros H. unfold k8s.Get, k8s.controlPlaneCall, bind. now rewrite H.
Qed.

Lemma Get_found key w stored :
  k8sAnswer env (k8sCalls w) = None ->
  accounts w !! key = Some stored ->
  k8s.Get env key w
  = (Val None, set_current stored (tickK8s (emit (EvGet key) w))).
Proof.
  intros H Hs. unfold k8s.Get, k8s.controlPlaneCall, bind, get. rewrite H.
  wsimpl. now rewrite Hs.
Qed.

Lemma Get_missing key w :
  k8sAnswer env (k8sCalls w) = None ->
  accounts w !! key = None ->
  k8s.Get env key w = (Val (Some StatusNotFound), tickK8s (emit (EvGet key) w)).
Proof.
  intros H Hs. unfold k8s.Get, k8s.controlPlaneCall, bind, get. rewrite H.
  wsimpl. now rewrite Hs.
Qed.

Lemma GetOperatorConfigMap_injected w e :
  k8sAnswer env (k8sCalls w) = Some e ->
  k8s.GetOperatorConfigMap env w
  = (Val ([], Some e), tickK8s (emit EvGetConfigMap w)).
Proof.
  intros H. unfold k8s.GetOperatorConfigMap, k8s.controlPlaneCall, bind.
  now rewrite H.
Qed.

Lemma GetOperatorConfigMap_found w data :
  k8sAnswer env (k8sCalls w) = None ->
  configMap w = Some data ->
  k8s.GetOperatorConfigMap env w
  = (Val (data, None), tickK8s (emit EvGetConfigMap w)).
Proof.
  intros H Hd. unfold k8s.GetOperatorConfigMap, k8s.controlPlaneCall, bind, get.
  rewrite H. wsimpl. now rewrite Hd.
Qed.

Lemma GetOperatorConfigMap_missing w :
  k8sAnswer env (k8sCalls w) = None ->
  configMap w = None ->
  k8s.GetOperatorConfigMap env w
  = (Val ([], Some StatusNotFound), tickK8s (emit EvGetConfigMap w)).
Proof.
  intros H Hd. unfold k8s.GetOperatorConfigMap, k8s.controlPlaneCall, bind, get.
  rewrite H. wsimpl. now rewrite Hd.
Qed.

Lemma GetClientV2_scripted name input w :
  GetClientV2 (scriptedBuilder env) name input w
  = (Val (match getClientAnswer env input with
          | Some err => (None, Some err)
          | None => (Some (asClientV2 (newClientV2 env)), None)
          end), emit (EvGetClientV2 name input) w).
Proof.
  cbn [GetClientV2 scriptedBuilder]. unfold bind, modify.
  now destruct (getClientAnswer env input).
Qed.

Lemma StatusUpdate_injected w e :
  k8sAnswer env (k8sCalls w) = Some e ->
  k8s.StatusUpdate env w
  = (Val (Some e), tickK8s (emit (EvStatusUpdate (current w)) w)).
Proof.
  intros H. unfold k8s.StatusUpdate, k8s.controlPlaneCall, bind, get.
  now rewrite H.
Qed.

(** A status update of a stored object that is not on its way out. *)
Lemma StatusUpdate_stored w stored :
  k8sAnswer env (k8sCalls w) = None ->
  accounts w !! ObjectKeyFromObject (current w) = Some stored ->
  (DeletionTimestamp (Meta stored) = None \/ Finalizers (Meta stored) <> []) ->
  let obj := {| Meta := Meta stored; Spec := Spec stored;
                Status := Status (current w) |} in
  k8s.StatusUpdate env w
  = (Val None,
     set_current obj
       (set_accounts (<[ObjectKeyFromObject (current w) := obj]> (accounts w))
          (tickK8s (emit (EvStatusUpdate (current w)) w)))).
Proof.
  intros H Hs Hlive obj.
  unfold k8s.StatusUpdate, k8s.controlPlaneCall, k8s.storeAccount, bind, get, modify, ret.
  rewrite H, Hs. wsimpl. cbn [Meta DeletionTimestamp Finalizers].
  destruct (DeletionTimestamp (Meta stored)) as [t|] eqn:Ht;
    destruct (Finalizers (Meta stored)) as [|f fs] eqn:Hf; try reflexivity.
  destruct Hlive as [Hl|Hl]; [discriminate | now destruct Hl].
Qed.

Lemma Update_injected w e :
  k8sAnswer env (k8sCalls w) = Some e ->
  k8s.Update env w = (Val (Some e), tickK8s (emit (EvUpdate (current w)) w)).
Proof.
  intros H. unfold k8s.Update, k8s.controlPlaneCall, bind, get. now rewrite H.
Qed.

(** An update of a stored object that keeps a finalizer. *)
Lemma Update_stored w stored :
  k8sAnswer env (k8sCalls w) = None ->
  accounts w !! ObjectKeyFromObject (current w) = Some stored ->
  Finalizers (Meta (current w)) <> [] ->
  let obj := {| Meta := Meta (current w); Spec := Spec (current w);
                Status := Status stored |} in
  k8s.Update env w
  = (Val None,
     set_current obj
       (set_accounts (<[ObjectKeyFromObject (current w) := obj]> (accounts w))
          (tickK8s (emit (EvUpdate (current w)) w)))).
Proof.
  intros H Hs Hfin obj.
  unfold k8s.Update, k8s.controlPlaneCall, k8s.storeAccount, bind, get, modify, ret.
  rewrite H, Hs. wsimpl. cbn [Meta DeletionTimestamp Finalizers].
  destruct (DeletionTimestamp (Meta (current w))) as [t|];
    destruct (Finalizers (Meta (current w))) as [|f fs]; try reflexivity.
  now destruct Hfin.
Qed.

Lemma addFinalizer_present w :
  needsFinalizer env (current w) = false ->
  negb (ManualSTSMode (Spec (current w))) = true ->
  account.addFinalizer env w = (Val None, w).
Proof.
  intros Hneeds Hsts. unfold needsFinalizer in Hneeds. rewrite Hsts in Hneeds.
  cbn [andb] in Hneeds.
  unfold account.addFinalizer, account.currentAccount, bind, get, ret. cbn beta iota.
  now rewrite Hneeds.
Qed.

Lemma addFinalizer_injected w e :
  needsFinalizer env (current w) = true ->
  k8sAnswer env (k8sCalls w) = Some e ->
  account.addFinalizer env w
  = (Val (Some e),
     tickK8s (emit (EvUpdate (withFinalizer env (current w)))
                (set_current (withFinalizer env (current w)) w))).
Proof.
  intros Hneeds Hans. unfold withFinalizer. rewrite Hneeds.
  unfold needsFinalizer in Hneeds. apply andb_true_iff in Hneeds as [_ Hc].
  unfold account.addFinalizer, account.currentAccount, account.assign.
  unfold bind at 1. unfold get, bind at 1, ret. cbn beta iota. rewrite Hc.
  unfold bind at 1, modify. cbn beta iota.
  erewrite run_bind by (apply Update_injected; wsimpl; exact Hans).
  reflexivity.
Qed.

Lemma addFinalizer_written w stored :
  needsFinalizer env (current w) = true ->
  k8sAnswer env (k8sCalls w) = None ->
  accounts w !! ObjectKeyFromObject (current w) = Some stored ->
  Status stored = Status (current w) ->
  let obj := withFinalizer env (current w) in
  account.addFinalizer env w
  = (Val None,
     set_current obj
       (set_accounts (<[ObjectKeyFromObject (current w) := obj]> (accounts w))
          (tickK8s (emit (EvUpdate obj) (set_current obj w))))).
Proof.
  intros Hneeds Hans Hstored Hstatus obj. subst obj. unfold withFinalizer.
  rewrite Hneeds.
  unfold needsFinalizer in Hneeds. apply andb_true_iff in Hneeds as [_ Hc].
  unfold account.addFinalizer, account.currentAccount, account.assign.
  unfold bind at 1. unfold get, bind at 1, ret. cbn beta iota. rewrite Hc.
  unfold bind at 1, modify. cbn beta iota.
  erewrite run_bind.
  2:{ apply (Update_stored _ stored); wsimpl.
      - exact Hans.
      - exact Hstored.
      - cbn. intros Hnil. now apply app_eq_nil in Hnil as [_ ?]. }
  wsimpl. rewrite Hstatus. reflexivity.
Qed.

(** The prelude of [Reconcile] when nothing fails. *)
Lemma Reconcile_prelude fuel shard request w a data :
  let r := {| account.awsClientBuilder := scriptedBuilder env;
              account.shardName := shard |} in
  accounts w !! request = Some a ->
  ObjectKeyFromObject a = request ->
  configMap w = Some data ->
  getClientAnswer env (operatorClientInput env) = None ->
  k8sAnswer env (k8sCalls w) = None ->
  k8sAnswer env (S (k8sCalls w)) = None ->
  (needsFinalizer env a = true -> k8sAnswer env (S (S (k8sCalls w))) = None) ->
  account.Reconcile env fuel r request w
  = account.reconcileAccount env fuel r request data
      (optInFeatureEnabled env data) (optInRegionsOf data)
      (asClientV2 (newClientV2 env)) (afterPrelude env request a w).
Proof.
  intros r Hstored Hkey Hdata Hclient H0 H1 H2.
  unfold account.Reconcile.
  erewrite run_bind by reflexivity. cbv beta.
  erewrite run_bind by (apply Get_found; wsimpl; eassumption). cbv beta iota.
  erewrite run_bind by (apply GetOperatorConfigMap_found; wsimpl; eassumption).
  cbn [fst snd]. cbv beta iota zeta.
  erewrite run_bind by apply GetClientV2_scripted.
  fold (operatorClientInput env). rewrite Hclient. cbn [fst snd]. cbv beta iota.
  erewrite run_bind by reflexivity. cbv beta.
  erewrite run_bind by reflexivity. cbv beta.
  wsimpl.
  destruct (needsFinalizer env a) eqn:Hneeds.
  - pose proof Hneeds as Hn. unfold needsFinalizer in Hn.
    apply andb_true_iff in Hn as [Hsts _]. rewrite Hsts.
    erewrite run_bind.
    2:{ apply (addFinalizer_written _ a); wsimpl.
        - exact Hneeds.
        - now apply H2.
        - now rewrite Hkey.
        - reflexivity. }
    cbv beta iota. wsimpl. rewrite Hkey. unfold afterPrelude, preludeEvents.
    rewrite Hneeds. apply f_equal. world_eq.
  - destruct (negb (ManualSTSMode (Spec a))) eqn:Hsts.
    + erewrite run_bind by (apply addFinalizer_present; wsimpl; assumption).
      cbv beta iota.
      unfold afterPrelude, preludeEvents, withFinalizer. rewrite Hneeds.
      apply f_equal. world_eq.
    + erewrite run_bind by reflexivity. cbv beta iota.
      unfold afterPrelude, preludeEvents, withFinalizer. rewrite Hneeds.
      apply f_equal. world_eq.
Qed.

(** Adding the finalizer touches nothing but the finalizers. *)
Lemma Spec_withFinalizer a : Spec (withFinalizer env a) = Spec a.
Proof. unfold withFinalizer. now destruct (needsFinalizer env a). Qed.

Lemma Status_withFinalizer a : Status (withFinalizer env a) = Status a.
Proof. unfold withFinalizer. now destruct (needsFinalizer env a). Qed.

Lemma key_withFinalizer a :
  ObjectKeyFromObject (withFinalizer env a) = ObjectKeyFromObject a.
Proof. unfold withFinalizer. now destruct (needsFinalizer env a). Qed.

Lemma DeletionTimestamp_withFinalizer a :
  DeletionTimestamp (Meta (withFinalizer env a)) = DeletionTimestamp (Meta a).
Proof. unfold withFinalizer. now destruct (needsFinalizer env a). Qed.

Lemma IsPendingDeletion_withFinalizer a :
  IsPendingDeletion (withFinalizer env a) = IsPendingDeletion a.
Proof. unfold IsPendingDeletion. now rewrite DeletionTimestamp_withFinalizer. Qed.

Lemma afterPrelude_stored request a w :
  accounts w !! request = Some a ->
  accounts (afterPrelude env request a w) !! request = Some (withFinalizer env a).
Proof.
  intros H. unfold afterPrelude, withFinalizer. cbn [accounts].
  destruct (needsFinalizer env a); [apply lookup_insert_eq | exact H].
Qed.

(** The state predicates read the status only. *)
Lemma state_predicates_withFinalizer a :
  IsFailed (withFinalizer env a) = IsFailed a
  /\ IsInitializingRegions (withFinalizer env a) = IsInitializingRegions a
  /\ IsPendingVerification (withFinalizer env a) = IsPendingVerification a
  /\ IsReadyUnclaimedAndHasClaimLink (withFinalizer env a)
     = IsReadyUnclaimedAndHasClaimLink a
  /\ IsCreating (withFinalizer env a) = IsCreating a
  /\ IsUnclaimedAndHasNoState (withFinalizer env a) = IsUnclaimedAndHasNoState a
  /\ HasAwsAccountID (withFinalizer env a) = HasAwsAccountID a
  /\ account.newBYOCAccountV2 (withFinalizer env a) = account.newBYOCAccountV2 a.
Proof.
  unfold IsFailed, IsInitializingRegions, IsPendingVerification,
    IsReadyUnclaimedAndHasClaimLink, IsCreating, IsUnclaimedAndHasNoState,
    HasAwsAccountID, account.newBYOCAccountV2, IsReady, HasClaimLink, IsClaimed,
    HasState.
  rewrite Spec_withFinalizer, Status_withFinalizer. repeat split.
Qed.

(** [setAccountFailedV2] when the status update goes through: the state
    stored is the [message] argument, the condition's message the [state]
    argument, and [reason] is nowhere. *)
Lemma setAccountFailedV2_stored ctype reason message state w stored :
  k8sAnswer env (k8sCalls w) = None ->
  accounts w !! ObjectKeyFromObject (current w) = Some stored ->
  DeletionTimestamp (Meta stored) = None ->
  let obj := {| Meta := Meta stored; Spec := Spec stored;
                Status := Status (SetAccountStatus state ctype message (current w)) |} in
  account.setAccountFailedV2 env ctype reason message state w
  = (Val (account.emptyResult, None),
     set_current obj
       (set_accounts (<[ObjectKeyFromObject (current w) := obj]> (accounts w))
          (tickK8s (emit (EvStatusUpdate
                            (SetAccountStatus state ctype message (current w)))
                      (set_current
                         (SetAccountStatus state ctype message (current w)) w))))).
Proof.
  intros Hans Hstored Hlive obj.
  unfold account.setAccountFailedV2, account.assign, account.statusUpdate.
  erewrite run_bind by reflexivity. cbv beta.
  erewrite run_bind.
  2:{ apply (StatusUpdate_stored _ stored); wsimpl; [exact Hans | exact Hstored | now left]. }
  reflexivity.
Qed.

(** A non-BYOC account that sat in [Creating] past the wait threshold:
    [Reconcile] returns the timeout error, and the status it stores has the
    timeout message as its state. *)
Lemma Reconcile_creation_timeout fuel shard request w a data :
  let r := {| account.awsClientBuilder := scriptedBuilder env;
              account.shardName := shard |} in
  let errMsg :=
    "Creation pending for longer than " +:+ pretty (WaitTime env) +:+ " minutes" in
  accounts w !! request = Some a ->
  ObjectKeyFromObject a = request ->
  configMap w = Some data ->
  getClientAnswer env (operatorClientInput env) = None ->
  (forall i, i < 4 -> k8sAnswer env (k8sCalls w + i) = None) ->
  IsPendingDeletion a = false ->
  BYOC (Spec a) = false ->
  State (Status a) = AccountCreating ->
  CreationConditionOlderThan env (withFinalizer env a) (account.createPendTime env)
  = true ->
  exists w' stored,
    account.Reconcile env fuel r request w
    = (Val (account.emptyResult, Some (errorString errMsg)), w')
    /\ accounts w' !! request = Some stored
    /\ State (Status stored) = errMsg
    /\ State (Status stored) <> AccountFailed
    /\ Conditions (Status stored)
       = SetAccountCondition (Conditions (Status a)) ConditionCreationFailed
           AccountFailed.
Proof.
  intros r errMsg Hstored Hkey Hdata Hclient Hk8s Hlive Hbyoc Hstate Hold.
  destruct (state_predicates_withFinalizer a)
    as (Hf & Hi & Hv & Hr & Hc & _ & _ & Hb).
  eassert (Hrun : account.Reconcile env fuel r request w = (Val _, _)).
  { subst r.
    rewrite (Reconcile_prelude fuel shard request w a data Hstored Hkey Hdata Hclient).
    2:{ rewrite <- (Nat.add_0_r (k8sCalls w)). apply Hk8s. lia. }
    2:{ rewrite <- Nat.add_1_r. apply Hk8s. lia. }
    2:{ intros _. replace (S (S (k8sCalls w))) with (k8sCalls w + 2) by lia.
        apply Hk8s. lia. }
    unfold account.reconcileAccount, account.currentAccount.
    erewrite run_bind by reflexivity. cbv beta. wsimpl.
    rewrite IsPendingDeletion_withFinalizer, Hlive, Hf, Hi.
    unfold IsFailed, IsInitializingRegions. rewrite Hstate.
    rewrite !bool_decide_eq_false_2 by discriminate.
    erewrite run_bind.
    2:{ unfold account.setUpAccount, account.currentAccount.
        erewrite run_bind by reflexivity. cbv beta. wsimpl.
        rewrite Hb, Hv, Hr, Hc.
        unfold account.newBYOCAccountV2, IsPendingVerification,
          IsReadyUnclaimedAndHasClaimLink, IsReady, IsCreating.
        rewrite Hbyoc, Hstate.
        rewrite !bool_decide_eq_false_2 by discriminate.
        rewrite bool_decide_eq_true_2 by reflexivity.
        cbn [andb]. rewrite Hold. cbv beta iota zeta.
        erewrite run_bind.
        2:{ apply (setAccountFailedV2_stored _ _ _ _ _ (withFinalizer env a)); wsimpl.
            - destruct (needsFinalizer env a).
              + replace (3 + k8sCalls w) with (k8sCalls w + 3) by lia. apply Hk8s. lia.
              + replace (2 + k8sCalls w) with (k8sCalls w + 2) by lia. apply Hk8s. lia.
            - rewrite key_withFinalizer, Hkey. now apply afterPrelude_stored.
            - rewrite DeletionTimestamp_withFinalizer.
              unfold IsPendingDeletion in Hlive.
              apply bool_decide_eq_false in Hlive.
              destruct (DeletionTimestamp (Meta a)); [now destruct Hlive | reflexivity]. }
        reflexivity. }
    reflexivity. }
  eexists _, _. split; [exact Hrun|].
  wsimpl. rewrite key_withFinalizer, Hkey.
  split; [apply lookup_insert_eq|].
  cbn [Status SetAccountStatus set_Status State Conditions].
  rewrite Status_withFinalizer.
  repeat split. discriminate.
Qed.

Lemma forallb_weaken (P Q : Event -> bool) es :
  (forall e, P e = true -> Q e = true) ->
  forallb P es = true -> forallb Q es = true.
Proof. intros H. rewrite !forallb_forall. auto. Qed.

Lemma isQuiet_notProviderCall e : isQuiet e = true -> notProviderCall e = true.
Proof. now destruct e. Qed.

Lemma isQuiet_notCreateAccount e : isQuiet e = true -> notCreateAccount e = true.
Proof. now destruct e. Qed.

Lemma preludeEvents_quiet request a :
  forallb isQuiet (preludeEvents env request a) = true.
Proof. unfold preludeEvents. now destruct (needsFinalizer env a). Qed.

Lemma preludeEvents_notWrite request a :
  needsFinalizer env a = false ->
  forallb notWrite (preludeEvents env request a) = true.
Proof. intros H. unfold preludeEvents. now rewrite H. Qed.

(** The prelude of [Reconcile], whatever the control plane and the builder
    answer: either it fails, and [Reconcile] returns having written
    nothing, or it goes through. *)
Lemma Reconcile_prelude_cases fuel shard request w a :
  let r := {| account.awsClientBuilder := scriptedBuilder env;
              account.shardName := shard |} in
  accounts w !! request = Some a ->
  ObjectKeyFromObject a = request ->
  (exists res w' es,
      account.Reconcile env fuel r request w = (Val res, w')
      /\ trace w' = (trace w ++ es)%list
      /\ forallb isQuiet es = true
      /\ (needsFinalizer env a = false -> forallb notWrite es = true)
      /\ accounts w' = accounts w)
  \/ (exists data,
        configMap w = Some data
        /\ account.Reconcile env fuel r request w
           = account.reconcileAccount env fuel r request data
               (optInFeatureEnabled env data) (optInRegionsOf data)
               (asClientV2 (newClientV2 env)) (afterPrelude env request a w)).
Proof.
  intros r Hstored Hkey.
  destruct (k8sAnswer env (k8sCalls w)) as [e0|] eqn:H0.
  { left. unfold account.Reconcile. erewrite run_bind by reflexivity. cbv beta.
    erewrite run_bind by (apply Get_injected; wsimpl; exact H0). cbv beta iota.
    destruct (IsNotFound e0); unfold ret; eexists _, _, [_];
      (split; [reflexivity|]); wsimpl; repeat split; auto. }
  destruct (k8sAnswer env (S (k8sCalls w))) as [e1|] eqn:H1.
  { left. unfold account.Reconcile. erewrite run_bind by reflexivity. cbv beta.
    erewrite run_bind by (apply Get_found; wsimpl; eassumption). cbv beta iota.
    erewrite run_bind by (apply GetOperatorConfigMap_injected; wsimpl; exact H1).
    cbn [fst snd]. cbv beta iota. unfold ret. eexists _, _, [_; _].
    split; [reflexivity|]. wsimpl. rewrite <- app_assoc. repeat split; auto. }
  destruct (configMap w) as [data|] eqn:Hdata.
  2:{ left. unfold account.Reconcile. erewrite run_bind by reflexivity. cbv beta.
      erewrite run_bind by (apply Get_found; wsimpl; eassumption). cbv beta iota.
      erewrite run_bind by (apply GetOperatorConfigMap_missing; wsimpl; assumption).
      cbn [fst snd]. cbv beta iota. unfold ret. eexists _, _, [_; _].
      split; [reflexivity|]. wsimpl. rewrite <- app_assoc. repeat split; auto. }
  destruct (getClientAnswer env (operatorClientInput env)) as [e2|] eqn:Hclient.
  { left. unfold account.Reconcile. erewrite run_bind by reflexivity. cbv beta.
    erewrite run_bind by (apply Get_found; wsimpl; eassumption). cbv beta iota.
    erewrite run_bind by (apply GetOperatorConfigMap_found; wsimpl; eassumption).
    cbn [fst snd]. cbv beta iota zeta.
    erewrite run_bind by apply GetClientV2_scripted.
    fold (operatorClientInput env). rewrite Hclient. cbn [fst snd]. cbv beta iota.
    unfold ret. eexists _, _, [_; _; _].
    split; [reflexivity|]. wsimpl. rewrite <- !app_assoc. repeat split; auto. }
  destruct (needsFinalizer env a) eqn:Hneeds;
    [destruct (k8sAnswer env (S (S (k8sCalls w)))) as [e3|] eqn:H2|].
  - (* the finalizer's update is rejected *)
    left. unfold account.Reconcile. erewrite run_bind by reflexivity. cbv beta.
    erewrite run_bind by (apply Get_found; wsimpl; eassumption). cbv beta iota.
    erewrite run_bind by (apply GetOperatorConfigMap_found; wsimpl; eassumption).
    cbn [fst snd]. cbv beta iota zeta.
    erewrite run_bind by apply GetClientV2_scripted.
    fold (operatorClientInput env). rewrite Hclient. cbn [fst snd]. cbv beta iota.
    erewrite run_bind by reflexivity. cbv beta.
    erewrite run_bind by reflexivity. cbv beta. wsimpl.
    pose proof Hneeds as Hn. unfold needsFinalizer in Hn.
    apply andb_true_iff in Hn as [Hsts _]. rewrite Hsts.
    erewrite run_bind by (apply addFinalizer_injected; wsimpl; eassumption).
    cbv beta iota. unfold ret. eexists _, _, [_; _; _; _].
    split; [reflexivity|]. wsimpl. rewrite <- !app_assoc.
    repeat split; auto; discriminate.
  - right. exists data. split; [reflexivity|].
    apply Reconcile_prelude; try assumption. now intros _.
  - right. exists data. split; [reflexivity|].
    apply Reconcile_prelude; try assumption. intros ?; congruence.
Qed.

(** C7 (as amended). For every account in the [Failed] state that is not
    pending deletion, and whatever the collaborators answer, [Reconcile]
    returns without a panic, makes no provider call, performs no state
    transition (spec and status stay as stored), and writes at most one
    thing: the account finalizer, when the account is not in manual STS mode
    and does not carry it yet.  An account that needs no finalizer is left
    unchanged and nothing is written at all. *)
Theorem Reconcile_failed_account_skipped fuel shard request w a :
  let r := {| account.awsClientBuilder := scriptedBuilder env;
              account.shardName := shard |} in
  accounts w !! request = Some a ->
  ObjectKeyFromObject a = request ->
  IsFailed a = true ->
  IsPendingDeletion a = false ->
  exists res w' es,
    account.Reconcile env fuel r request w = (Val res, w')
    /\ trace w' = (trace w ++ es)%list
    /\ forallb notProviderCall es = true
    /\ (accounts w' = accounts w
        \/ needsFinalizer env a = true
           /\ accounts w' = <[request := withFinalizer env a]> (accounts w))
    /\ (needsFinalizer env a = false ->
        accounts w' = accounts w /\ forallb notWrite es = true)
    /\ (forall stored, accounts w' !! request = Some stored ->
        Spec stored = Spec a /\ Status stored = Status a).
Proof.
  intros r Hstored Hkey Hfailed Hlive.
  destruct (state_predicates_withFinalizer a) as (Hf & _).
  destruct (Reconcile_prelude_cases fuel shard request w a Hstored Hkey)
    as [(res & w' & es & Hrun & Htrace & Hquiet & Hwrite & Hacc)
       |(data & Hdata & Hrun)].
  - exists res, w', es. repeat split; auto.
    + eapply forallb_weaken; [apply isQuiet_notProviderCall | exact Hquiet].
    + rewrite Hacc, Hstored in H. now injection H as <-.
    + rewrite Hacc, Hstored in H. now injection H as <-.
  - fold r in Hrun. rewrite Hrun.
    unfold account.reconcileAccount, account.currentAccount.
    erewrite run_bind by reflexivity. cbv beta. wsimpl.
    rewrite IsPendingDeletion_withFinalizer, Hlive, Hf, Hfailed. cbv beta iota.
    unfold ret. eexists _, _, (preludeEvents env request a).
    split; [reflexivity|]. wsimpl.
    split; [reflexivity|].
    split; [eapply forallb_weaken;
            [apply isQuiet_notProviderCall | apply preludeEvents_quiet]|].
    destruct (needsFinalizer env a) eqn:Hneeds.
    + split; [right; split; reflexivity|].
      split; [discriminate|].
      intros stored Hs. rewrite lookup_insert_eq in Hs. injection Hs as <-.
      now rewrite Spec_withFinalizer, Status_withFinalizer.
    + split; [now left|].
      split; [intros _; split; [reflexivity | now apply preludeEvents_notWrite]|].
      intros stored Hs. rewrite Hstored in Hs. now injection Hs as <-.
Qed.

Lemma five_minutes : Duration_mul 5%Z Minute = (5 * Minute)%Z.
Proof. reflexivity. Qed.

Lemma no_state a : IsUnclaimedAndHasNoState a = true -> State (Status a) = "".
Proof.
  unfold IsUnclaimedAndHasNoState, HasState. intros H.
  apply andb_true_iff in H as [_ H]. apply negb_true_iff, bool_decide_eq_false in H.
  destruct (decide (State (Status a) = "")); [assumption | contradiction].
Qed.

(** Over budget and outside FedRAMP, the set-up of a new account stops at
    the budget check. *)
Lemma reconcileAccount_over_budget fuel r request data flag regions client w :
  IsPendingDeletion (current w) = false ->
  BYOC (Spec (current w)) = false ->
  IsUnclaimedAndHasNoState (current w) = true ->
  HasAwsAccountID (current w) = false ->
  AccountsCanBeCreated env = false ->
  IsFedramp env = false ->
  account.reconcileAccount env fuel r request data flag regions client w
  = (Val ({| account.Requeue := true; account.RequeueAfter := (5 * Minute)%Z |},
          None), w).
Proof.
  intros Hlive Hbyoc Hnew Hid Hbudget Hfed.
  pose proof (no_state _ Hnew) as Hstate.
  unfold account.reconcileAccount, account.currentAccount.
  erewrite run_bind by reflexivity. cbv beta.
  rewrite Hlive. unfold IsFailed, IsInitializingRegions. rewrite Hstate.
  rewrite !bool_decide_eq_false_2 by discriminate.
  erewrite run_bind.
  2:{ unfold account.setUpAccount, account.currentAccount.
      erewrite run_bind by reflexivity. cbv beta.
      unfold account.newBYOCAccountV2, IsPendingVerification,
        IsReadyUnclaimedAndHasClaimLink, IsReady, IsCreating.
      rewrite Hbyoc, Hstate, Hnew, Hid, Hbudget, Hfed.
      rewrite !bool_decide_eq_false_2 by discriminate.
      cbn [andb negb]. rewrite five_minutes. reflexivity. }
  reflexivity.
Qed.

(** C8 (as amended). For every unclaimed non-BYOC account with no state and
    no AWS account ID, when the account-creation budget does not allow a
    creation and the deployment is not FedRAMP, [Reconcile] never calls
    [CreateAccount], whatever the collaborators answer; and when its prelude
    goes through and the account is not pending deletion, it returns a
    requeue after five minutes with a nil error, having made no provider
    call at all. *)
Theorem Reconcile_respects_creation_budget fuel shard request w a :
  let r := {| account.awsClientBuilder := scriptedBuilder env;
              account.shardName := shard |} in
  accounts w !! request = Some a ->
  ObjectKeyFromObject a = request ->
  BYOC (Spec a) = false ->
  IsUnclaimedAndHasNoState a = true ->
  HasAwsAccountID a = false ->
  AccountsCanBeCreated env = false ->
  IsFedramp env = false ->
  (exists es,
      trace (account.Reconcile env fuel r request w).2 = (trace w ++ es)%list
      /\ forallb notCreateAccount es = true)
  /\ (IsPendingDeletion a = false ->
      forall data,
        configMap w = Some data ->
        getClientAnswer env (operatorClientInput env) = None ->
        (forall i, i < 3 -> k8sAnswer env (k8sCalls w + i) = None) ->
        account.Reconcile env fuel r request w
        = (Val ({| account.Requeue := true;
                   account.RequeueAfter := (5 * Minute)%Z |}, None),
           afterPrelude env request a w)
        /\ forallb notProviderCall (preludeEvents env request a) = true).
Proof.
  intros r Hstored Hkey Hbyoc Hnew Hid Hbudget Hfed.
  destruct (state_predicates_withFinalizer a)
    as (_ & _ & _ & _ & _ & Hn & Hi & _).
  assert (Hstop : IsPendingDeletion a = false ->
            forall data flag regions,
              account.reconcileAccount env fuel r request data flag regions
                (asClientV2 (newClientV2 env)) (afterPrelude env request a w)
              = (Val ({| account.Requeue := true;
                         account.RequeueAfter := (5 * Minute)%Z |}, None),
                 afterPrelude env request a w)).
  { intros Hlive data flag regions. apply reconcileAccount_over_budget; wsimpl.
    - now rewrite IsPendingDeletion_withFinalizer.
    - now rewrite Spec_withFinalizer.
    - now rewrite Hn.
    - now rewrite Hi.
    - assumption.
    - assumption. }
  split.
  - destruct (Reconcile_prelude_cases fuel shard request w a Hstored Hkey)
      as [(res & w' & es & Hrun & Htrace & Hquiet & _ & _)
         |(data & Hdata & Hrun)]; fold r in Hrun; rewrite Hrun.
    + exists es. split; [exact Htrace|].
      eapply forallb_weaken; [apply isQuiet_notCreateAccount | exact Hquiet].
    + destruct (IsPendingDeletion a) eqn:Hlive.
      * unfold account.reconcileAccount, account.currentAccount.
        erewrite run_bind by reflexivity. cbv beta. wsimpl.
        rewrite IsPendingDeletion_withFinalizer, Hlive. cbv iota.
        destruct (finalizeDeletion_emits env shard (afterPrelude env request a w))
          as (es & Hes & Hno).
        fold r in Hes. rewrite Hes. wsimpl.
        exists (preludeEvents env request a ++ es)%list.
        rewrite app_assoc, forallb_app, Hno, andb_true_r. split; [reflexivity|].
        eapply forallb_weaken;
          [apply isQuiet_notCreateAccount | apply preludeEvents_quiet].
      * rewrite (Hstop eq_refl). wsimpl.
        exists (preludeEvents env request a). split; [reflexivity|].
        eapply forallb_weaken;
          [apply isQuiet_notCreateAccount | apply preludeEvents_quiet].
  - intros Hlive data Hdata Hclient Hk8s. split.
    + unfold r.
      rewrite (Reconcile_prelude fuel shard request w a data Hstored Hkey Hdata Hclient).
      * apply (Hstop Hlive).
      * rewrite <- (Nat.add_0_r (k8sCalls w)). apply Hk8s. lia.
      * rewrite <- Nat.add_1_r. apply Hk8s. lia.
      * intros _. replace (S (S (k8sCalls w))) with (k8sCalls w + 2) by lia.
        apply Hk8s. lia.
    + eapply forallb_weaken;
        [apply isQuiet_notProviderCall | apply preludeEvents_quiet].
Qed.

End AccountController.

(** ** The account controller on concrete accounts *)

(** C6, at a failing input.  A non-BYOC account in [Creating] whose creation
    condition is older than the threshold: [Reconcile] returns the timeout
    error, but the status it stores has the timeout message as its state (not
    [Failed]), the condition it adds has [Failed] as its message, and the
    reason [CreationTimeout] is recorded nowhere; the account does not count
    as failed afterwards. *)
Example Reconcile_creation_timeout_stores_message :
  let env :=
    fixtures.scenario (fixtures.failsThenSucceeds 0) (fun _ => None)
      true false DevModeProduction (fun _ => true) in
  let a :=
    fixtures.account "osd-creds-mgmt-aaabbb" "Creating"
      ["finalizer.aws.managed.openshift.io"] in
  let request := ("aws-account-operator", "osd-creds-mgmt-aaabbb") in
  let run :=
    account.Reconcile env 5 (fixtures.reconciler env) request
      (fixtures.worldWith a) in
  BYOC (Spec a) = false
  /\ utils.IsCreating a = true
  /\ CreationConditionOlderThan env a (account.createPendTime env) = true
  /\ run.1 = Val (account.emptyResult,
                  Some (errorString "Creation pending for longer than 25 minutes"))
  /\ Status <$> (accounts run.2 !! request)
     = Some {| Claimed := false; SupportCaseID := "";
               Conditions :=
                 [{| Condition_Type := ConditionCreationFailed;
                     Condition_Reason := "AccountCreationFailed";
                     Condition_Message := "Failed" |}];
               State := "Creation pending for longer than 25 minutes";
               Reused := false |}
  /\ utils.IsFailed <$> (accounts run.2 !! request) = Some false.
Proof. vm_compute. repeat split. Qed.

(** C7 as stated fails: a failed account that does not carry the finalizer
    is written to, and what is stored afterwards differs from what was. *)
Lemma Reconcile_failed_account_gains_finalizer :
  let env :=
    fixtures.scenario (fixtures.failsThenSucceeds 0) (fun _ => None)
      true false DevModeProduction (fun _ => false) in
  let a := fixtures.account "osd-creds-mgmt-aaabbb" "Failed" [] in
  let request := ("aws-account-operator", "osd-creds-mgmt-aaabbb") in
  let w := fixtures.worldWith a in
  let run := account.Reconcile env 5 (fixtures.reconciler env) request w in
  utils.IsFailed a = true
  /\ utils.IsPendingDeletion a = false
  /\ accounts w !! request = Some a
  /\ run.1 = Val (account.emptyResult, None)
  /\ accounts run.2 !! request
     = Some (set_Finalizers ["finalizer.aws.managed.openshift.io"] a)
  /\ accounts run.2 !! request <> Some a
  /\ countEvents isWrite (trace run.2) = 1.
Proof. vm_compute. repeat split. discriminate. Qed.

(** The amended C7 on that account and on one that carries the finalizer. *)
Lemma Reconcile_failed_account_skipped_witness :
  let env :=
    fixtures.scenario (fixtures.failsThenSucceeds 0) (fun _ => None)
      true false DevModeProduction (fun _ => false) in
  let a :=
    fixtures.account "osd-creds-mgmt-aaabbb" "Failed"
      ["finalizer.aws.managed.openshift.io"] in
  let request := ("aws-account-operator", "osd-creds-mgmt-aaabbb") in
  let w := fixtures.worldWith a in
  exists res w' es,
    account.Reconcile env 5 (fixtures.reconciler env) request w = (Val res, w')
    /\ trace w' = (trace w ++ es)%list
    /\ forallb notProviderCall es = true
    /\ (accounts w' = accounts w
        \/ needsFinalizer env a = true
           /\ accounts w' = <[request := withFinalizer env a]> (accounts w))
    /\ (needsFinalizer env a = false ->
        accounts w' = accounts w /\ forallb notWrite es = true)
    /\ (forall stored, accounts w' !! request = Some stored ->
        Spec stored = Spec a /\ Status stored = Status a).
Proof.
  intros env a request w.
  apply (Reconcile_failed_account_skipped env 5 "hive-shard-1" request w a).
  - vm_compute. reflexivity.
  - reflexivity.
  - reflexivity.
  - reflexivity.
Defined.

(** C8 as stated fails: in a FedRAMP deployment the budget is not
    consulted, and an account is created although the budget forbids it. *)
Lemma Reconcile_fedramp_ignores_budget :
  let env :=
    fixtures.scenario (fixtures.failsThenSucceeds 0) (fun _ => None)
      false true DevModeProduction (fun _ => false) in
  let a := fixtures.account "osd-creds-mgmt-aaabbb" "" [] in
  let request := ("aws-account-operator", "osd-creds-mgmt-aaabbb") in
  let run :=
    account.Reconcile env 5 (fixtures.reconciler env) request
      (fixtures.worldWith a) in
  BYOC (Spec a) = false
  /\ utils.IsUnclaimedAndHasNoState a = true
  /\ utils.HasAwsAccountID a = false
  /\ AccountsCanBeCreated env = false
  /\ List.filter isCreateAccount (trace run.2)
     = [EvCreateAccount
          {| AccountName := Some "osd-creds-mgmt-aaabbb";
             Email := Some "osd-creds-mgmt-aaabbb@example.com" |}]
  /\ run.1 = Val (account.emptyResult, None)
  /\ (AwsAccountID ∘ Spec) <$> (accounts run.2 !! request) = Some "111122223333".
Proof. vm_compute. repeat split. Qed.

(** The amended C8 on the same account outside FedRAMP: a requeue after
    five minutes, and no call to the provider. *)
Lemma Reconcile_respects_creation_budget_witness :
  let env :=
    fixtures.scenario (fixtures.failsThenSucceeds 0) (fun _ => None)
      false false DevModeProduction (fun _ => false) in
  let a := fixtures.account "osd-creds-mgmt-aaabbb" "" [] in
  let request := ("aws-account-operator", "osd-creds-mgmt-aaabbb") in
  let w := fixtures.worldWith a in
  let run := account.Reconcile env 5 (fixtures.reconciler env) request w in
  (exists es, trace run.2 = (trace w ++ es)%list
              /\ forallb notCreateAccount es = true)
  /\ run = (Val ({| account.Requeue := true;
                    account.RequeueAfter := (5 * Minute)%Z |}, None),
            afterPrelude env request a w)
  /\ forallb notProviderCall (preludeEvents env request a) = true.
Proof.
  intros env a request w run.
  assert (Hstored : accounts w !! request = Some a) by (vm_compute; reflexivity).
  destruct (Reconcile_respects_creation_budget env 5 "hive-shard-1" request w a
              Hstored eq_refl eq_refl eq_refl eq_refl eq_refl eq_refl)
    as [Hnever Hrequeue].
  split; [exact Hnever|].
  apply (Hrequeue eq_refl [("ami-owner", "000000000000")] eq_refl eq_refl).
  intros i _. reflexivity.
Defined.

(** * The claim controller *)

(** ** The pool matcher *)
Section PoolMatcher.
Import accountclaim.
Context (defaultPool : string) (claim : AccountClaim).

(** The pass ends on the first reused account of the claim's legal entity;
    without one it returns the first reused account, and without one of
    those the first account. *)
Lemma pickAccount_find cs reusedAccount unusedAccount :
  pickAccount claim cs reusedAccount unusedAccount
  = match find (reclaims claim) cs with
    | Some a => Some a
    | None =>
        orElse (orElse reusedAccount (find isReused cs))
               (orElse unusedAccount (find (fun a => negb (isReused a)) cs))
    end.
Proof.
  revert reusedAccount unusedAccount.
  induction cs as [|a rest IH]; intros ru uu; cbn [pickAccount find].
  - destruct ru, uu; reflexivity.
  - assert (Hre : reclaims claim a
                 = Reused (Status a) && matchAccountForReuse claim a) by reflexivity.
    assert (Hru : isReused a = Reused (Status a)) by reflexivity.
    rewrite Hre, Hru. clear Hre Hru.
    destruct (Reused (Status a)); cbn [andb negb].
    + destruct (matchAccountForReuse claim a); [reflexivity|].
      rewrite IH. destruct (find (reclaims claim) rest); [reflexivity|].
      now destruct ru.
    + rewrite IH. destruct (find (reclaims claim) rest); [reflexivity|].
      destruct ru; [reflexivity|]. cbn [orElse].
      destruct (find isReused rest); [reflexivity|]. now destruct uu.
Qed.

Lemma find_split {A} (p : A -> bool) (l : list A) a :
  find p l = Some a ->
  exists before after,
    l = (before ++ a :: after)%list /\ p a = true
    /\ forallb (fun c => negb (p c)) before = true.
Proof.
  induction l as [|x l IH]; cbn [find]; [discriminate|].
  destruct (p x) eqn:Hx.
  - intros [= ->]. now exists [], l.
  - intros H. destruct (IH H) as (before & after & -> & Ha & Hb).
    exists (x :: before), after. cbn. now rewrite Hx.
Qed.

Lemma find_none_existsb {A} (p : A -> bool) (l : list A) :
  find p l = None -> existsb p l = false.
Proof.
  induction l as [|x l IH]; cbn; [reflexivity|].
  destruct (p x); [discriminate|]. exact IH.
Qed.

Lemma find_some_existsb {A} (p : A -> bool) (l : list A) a :
  find p l = Some a -> existsb p l = true.
Proof.
  intros H. apply existsb_exists. exists a. apply find_some in H. exact H.
Qed.


(** C4. When several accounts are eligible the pool matcher ranks them: a
    reused account of the claim's legal entity outranks all others; without
    one, a reused account outranks every never-claimed account; otherwise the
    first-listed candidate is taken.  Within a rank the first-listed wins:
    no candidate listed before the chosen one is of its rank or a better
    one.  Without a candidate nothing is chosen. *)
Theorem getUnclaimedAccount_tie_break (listing : list Account) :
  match getUnclaimedAccount defaultPool claim listing with
  | None => candidates defaultPool claim listing = []
  | Some a =>
      exists before after,
        candidates defaultPool claim listing = (before ++ a :: after)%list
        /\ if existsb (reclaims claim) (candidates defaultPool claim listing)
           then reclaims claim a = true
                /\ forallb (fun c => negb (reclaims claim c)) before = true
           else if existsb isReused (candidates defaultPool claim listing)
           then isReused a = true
                /\ forallb (fun c => negb (isReused c)) before = true
           else before = []
  end.
Proof.
  unfold getUnclaimedAccount. rewrite pickAccount_find. cbn [orElse].
  destruct (find (reclaims claim) _) as [a|] eqn:E1.
  - rewrite (find_some_existsb _ _ _ E1).
    destruct (find_split _ _ _ E1) as (before & after & Hl & Ha & Hb).
    exists before, after. auto.
  - rewrite (find_none_existsb _ _ E1).
    destruct (find isReused _) as [a|] eqn:E2.
    + rewrite (find_some_existsb _ _ _ E2).
      destruct (find_split _ _ _ E2) as (before & after & Hl & Ha & Hb).
      exists before, after. auto.
    + rewrite (find_none_existsb _ _ E2).
      destruct (candidates defaultPool claim listing) as [|c cs] eqn:Ec;
        [reflexivity|].
      cbn [find] in E2 |- *. destruct (isReused c); [discriminate|].
      cbn [negb]. now exists [], cs.
Qed.


End PoolMatcher.

(** ** The pool matcher on the accounts of the tests *)



(** The remaining pool tests.  With only an account of an empty pool name in
    the listing, a claim for the service-quota pool is not bound ("should NOT
    claim the default account"); a claim that names the default pool is bound
    to the account that carries its name. *)
Example claimAccount_pool_tests :
  let defaultAccount :=
    fixtures.poolAccount "default-account" fixtures.defaultAccountPoolName
      fixtures.noEntity false in
  let sqAccount :=
    fixtures.poolAccount "service-quota-account" fixtures.sqAccountPoolName
      fixtures.noEntity false in
  accountclaim.claimAccount fixtures.defaultAccountPoolName
    (fixtures.poolClaim "service-quota-accountclaim" fixtures.sqAccountPoolName
       fixtures.noEntity)
    [fixtures.poolAccount "default-account" "" fixtures.noEntity false]
  = None
  /\ (Name ∘ Meta ∘ fst)
       <$> accountclaim.claimAccount fixtures.defaultAccountPoolName
             (fixtures.poolClaim "default-accountclaim"
                fixtures.defaultAccountPoolName fixtures.noEntity)
             [defaultAccount; sqAccount]
     = Some "default-account"
  /\ (Name ∘ Meta ∘ fst)
       <$> accountclaim.claimAccount fixtures.defaultAccountPoolName
             (fixtures.poolClaim "default-accountclaim" "" fixtures.noEntity)
             [fixtures.poolAccount "default-account" "" fixtures.noEntity false]
     = Some "default-account".
Proof. repeat split. Qed.

(** The tie-break tests.  Of two reused accounts the one of the claim's legal
    entity is taken, also when the other is listed first ("should claim the
    legalEntity2 account"); a reused account is taken before a never-claimed
    one of the same legal entity, also when it is listed last ("Should claim
    the reused account instead of the unused").  The third case is rule (b)
    of section 4.2 where no test speaks: a reused account of another legal
    entity is taken before a never-claimed one. *)
Example getUnclaimedAccount_tie_break_tests :
  let first := fixtures.poolAccount "default-account" "" fixtures.legalEntity1 true in
  let second := fixtures.poolAccount "account-two" "" fixtures.legalEntity2 true in
  let fresh := fixtures.poolAccount "a-not-me" "" fixtures.legalEntity1 false in
  accountclaim.getUnclaimedAccount fixtures.defaultAccountPoolName
    (fixtures.poolClaim "service-quota-accountclaim" "" fixtures.legalEntity2)
    [first; second]
  = Some second
  /\ accountclaim.getUnclaimedAccount fixtures.defaultAccountPoolName
       (fixtures.poolClaim "default-accountclaim" "" fixtures.legalEntity1)
       [fresh; first]
     = Some first
  /\ accountclaim.getUnclaimedAccount fixtures.defaultAccountPoolName
       (fixtures.poolClaim "default-accountclaim" "" fixtures.legalEntity2)
       [fresh; first]
     = Some first.
Proof. repeat split. Qed.

(** ** What a computation leaves alone *)
Section Respects.
Context (R : World -> World -> Prop).
Context (R_refl : forall w, R w w).
Context (R_trans : forall w1 w2 w3, R w1 w2 -> R w2 w3 -> R w1 w3).

Lemma respects_ret {A} (a : A) : respects R (ret a).
Proof. intros w. apply R_refl. Qed.

Lemma respects_panic {A} what : respects R (@panic A what).
Proof. intros w. apply R_refl. Qed.

Lemma respects_outOfFuel {A} : respects R (@outOfFuel A).
Proof. intros w. apply R_refl. Qed.

Lemma respects_get : respects R get.
Proof. intros w. apply R_refl. Qed.

Lemma respects_deref {A} what (p : option A) : respects R (deref what p).
Proof. destruct p; [apply respects_ret | apply respects_panic]. Qed.

Lemma respects_modify (f : World -> World) :
  (forall w, R w (f w)) -> respects R (modify f).
Proof. intros Hf w. apply Hf. Qed.

Lemma respects_bind {A B} (m : M A) (k : A -> M B) :
  respects R m -> (forall a, respects R (k a)) -> respects R (bind m k).
Proof.
  intros Hm Hk w. unfold bind. specialize (Hm w).
  destruct (m w) as [[a| |] w1]; cbn [snd] in Hm; try exact Hm.
  eapply R_trans; [exact Hm | apply Hk].
Qed.

Lemma respects_providerCall {A} e (answer : nat -> A) :
  (forall w, R w (tickAws (emit e w))) ->
  respects R (awsclient.providerCall e answer).
Proof. intros He w. apply He. Qed.

(** The credential chain sleeps, assumes roles and builds clients. *)
Context (env : Environment).
Context (R_sleep : forall d w, R w (emit (EvSleep d) w)).
Context (R_assume : forall input w, R w (tickAws (emit (EvAssumeRole input) w))).
Context (R_client : forall name input w, R w (emit (EvGetClientV2 name input) w)).

Let client : awsclient.ClientV2 := awsclient.asClientV2 (awsclient.newClientV2 env).

Lemma assumeRoleLoop_respects input remaining last :
  respects R (sts.assumeRoleLoop client input remaining last).
Proof.
  revert last. induction remaining as [|n IH]; intros last; cbn [sts.assumeRoleLoop].
  - apply respects_ret.
  - apply respects_bind; [apply respects_modify, R_sleep|]. intros _.
    apply respects_bind; [apply respects_providerCall, R_assume|]. intros res.
    destruct res.2; [apply IH | apply respects_ret].
Qed.

Lemma GetSTSCredentialsV2_respects roleArn externalID session :
  respects R (sts.GetSTSCredentialsV2 client roleArn externalID session).
Proof.
  unfold sts.GetSTSCredentialsV2.
  apply respects_bind; [apply assumeRoleLoop_respects|]. intros r.
  destruct r.2; apply respects_ret.
Qed.

Lemma roleAssumptionLoop_respects roleArn session ccsRoleID remaining i creds :
  respects R
    (sts.roleAssumptionLoop env client roleArn session ccsRoleID remaining i creds).
Proof.
  revert i creds. induction remaining as [|n IH]; intros i creds;
    cbn [sts.roleAssumptionLoop].
  - apply respects_ret.
  - apply respects_bind; [apply GetSTSCredentialsV2_respects|]. intros r.
    destruct r.2; [apply respects_ret|].
    apply respects_bind.
    { unfold sts.assumedRoleIdOf.
      repeat (apply respects_bind; [apply respects_deref | intros ?]).
      apply respects_deref. }
    intros roleId.
    destruct (_ && _); [|apply respects_ret].
    apply respects_bind; [apply respects_modify, R_sleep|]. intros _. apply IH.
Qed.

Lemma HandleRoleAssumptionV2_respects acct region roleToAssume ccsRoleID :
  respects R
    (sts.HandleRoleAssumptionV2 env (awsclient.scriptedBuilder env) acct client
       region roleToAssume ccsRoleID).
Proof.
  unfold sts.HandleRoleAssumptionV2.
  apply respects_bind; [apply roleAssumptionLoop_respects|]. intros r.
  destruct r.2; [apply respects_ret|].
  repeat (apply respects_bind; [apply respects_deref | intros ?]).
  cbn [awsclient.GetClientV2 awsclient.scriptedBuilder].
  apply respects_bind.
  - apply respects_bind; [apply respects_modify, R_client|]. intros _.
    destruct (getClientAnswer env _); apply respects_ret.
  - intros b. destruct b.2; apply respects_ret.
Qed.

End Respects.

(** ** The deletion of a claim *)
Section ClaimDeletion.
Import awsclient utils accountclaim.
Context (env : Environment).

Let r : AccountClaimReconciler := {| awsClientBuilder := scriptedBuilder env |}.
Let client : ClientV2 := asClientV2 (newClientV2 env).

Ltac wsimpl :=
  cbn [trace awsCalls k8sCalls accounts claims configMap current
       emit tickK8s tickAws set_current set_accounts set_claims emitAll advance
       fst snd].

Lemma untouched_refl w : untouched w w.
Proof. repeat split. exists []. now rewrite app_nil_r. Qed.

Lemma untouched_trans w1 w2 w3 :
  untouched w1 w2 -> untouched w2 w3 -> untouched w1 w3.
Proof.
  intros (Ha & Hc & es & Ht & Hes) (Ha' & Hc' & es' & Ht' & Hes').
  split; [congruence|]. split; [congruence|].
  exists (es ++ es')%list. rewrite Ht', Ht, app_assoc, forallb_app, Hes, Hes'.
  now split.
Qed.

Lemma untouched_emit e w : notTeardown e = true -> untouched w (emit e w).
Proof. intros He. repeat split. exists [e]. cbn. now rewrite He. Qed.

Lemma untouched_call e w :
  notTeardown e = true -> untouched w (tickAws (emit e w)).
Proof. intros He. repeat split. exists [e]. cbn. now rewrite He. Qed.

Lemma filter_notTeardown es :
  forallb notTeardown es = true -> List.filter isTeardown es = [].
Proof.
  induction es as [|e es IH]; [reflexivity|]. cbn. unfold notTeardown at 1.
  destruct (isTeardown e); [discriminate|]. exact IH.
Qed.

Lemma filter_teardownEvents n cs :
  List.filter isTeardown (teardownEvents env n cs) = teardownEvents env n cs.
Proof.
  revert n. induction cs as [|c cs IH]; intros n; [reflexivity|].
  cbn. now rewrite IH.
Qed.

Lemma teardownEvents_clean n cs :
  teardownFailures env n cs = [] ->
  teardownEvents env n cs = map (fun c => EvTeardown c None) cs.
Proof.
  revert n. induction cs as [|c cs IH]; intros n; [reflexivity|].
  cbn. destruct (teardownAnswer env n c); [discriminate|].
  intros H. now rewrite IH.
Qed.

Lemma teardownEvents_failed n cs :
  teardownEvents env n cs = map (fun c => EvTeardown c None) cs ->
  teardownFailures env n cs = [].
Proof.
  revert n. induction cs as [|c cs IH]; intros n; [reflexivity|].
  cbn. intros [= Hc Hrest]. rewrite Hc. now apply IH.
Qed.

Lemma teardownFailures_none n cs :
  (forall i c, i < length cs -> teardownAnswer env (n + i) c = None) ->
  teardownFailures env n cs = [].
Proof.
  revert n. induction cs as [|c cs IH]; intros n H; [reflexivity|].
  cbn. rewrite <- (Nat.add_0_r n) at 1. rewrite H by (cbn; lia).
  apply IH. intros i c' Hi. replace (S n + i) with (n + S i) by lia.
  apply H. cbn. lia.
Qed.

(** A teardown attempts every category, whatever the earlier ones came to. *)
Lemma runCategories_run awsClient cs w :
  runCategories env awsClient cs w
  = (Val (teardownFailures env (awsCalls w) cs),
     advance (teardownEvents env (awsCalls w) cs) (length cs) w).
Proof.
  revert w. induction cs as [|c cs IH]; intros w.
  - cbn [runCategories teardownFailures teardownEvents length].
    now rewrite advance_nil.
  - cbn [runCategories teardownFailures teardownEvents length].
    unfold bind at 1, teardownCategory at 1. unfold bind at 1. rewrite IH.
    wsimpl. destruct (teardownAnswer env (awsCalls w) c);
      (apply f_equal; apply world_ext; wsimpl; rewrite <- ?app_assoc;
       try reflexivity; lia).
Qed.

(** The reset: the update, then the update of the status; a rejected write
    ends it. *)
Lemma resetAccountSpecStatus_run key acct w :
  accounts w !! key = Some acct ->
  resetAccountSpecStatus env key acct w
  = let w1 := tickK8s (emit (EvUpdate (resetAccount acct)) w) in
    let w2 := tickK8s (emit (EvStatusUpdate (resetAccount acct))
                         (set_accounts (<[key := specReset acct]> (accounts w)) w1)) in
    match k8sAnswer env (k8sCalls w) with
    | Some e => (Val (Some e), w1)
    | None =>
        match k8sAnswer env (S (k8sCalls w)) with
        | Some e => (Val (Some e), w2)
        | None =>
            (Val None, set_accounts (<[key := resetAccount acct]> (accounts w)) w2)
        end
    end.
Proof.
  intros Hstored. cbv zeta. unfold resetAccountSpecStatus.
  unfold bind at 1, updateAccount at 1.
  unfold bind at 1, k8s.controlPlaneCall at 1. wsimpl.
  destruct (k8sAnswer env (k8sCalls w)); [reflexivity|].
  unfold bind at 1, get at 1. wsimpl. rewrite Hstored.
  unfold bind at 1, modify at 1, ret at 1. wsimpl.
  unfold updateAccountStatus.
  unfold bind at 1, k8s.controlPlaneCall at 1. wsimpl.
  change {| Meta := Meta (resetAccount acct); Spec := Spec (resetAccount acct);
            Status := Status acct |} with (specReset acct).
  destruct (k8sAnswer env (S (k8sCalls w))); [reflexivity|].
  unfold bind at 1, get at 1. wsimpl. rewrite lookup_insert_eq.
  unfold bind, modify, ret. wsimpl. rewrite insert_insert_eq. reflexivity.
Qed.

(** Teardown, then release: a teardown with a failure ends the release. *)
Lemma releaseAccount_failed awsClient key acct w :
  teardownFailures env (awsCalls w) teardownCategories <> [] ->
  releaseAccount env awsClient key acct w
  = (Val (Some (errorString "AWS account cleanup failed")),
     advance (teardownEvents env (awsCalls w) teardownCategories) 5 w).
Proof.
  intros Hfail. unfold releaseAccount, cleanUpAwsAccount.
  unfold bind at 1. unfold bind at 1. rewrite runCategories_run.
  change (length teardownCategories) with 5.
  destruct (teardownFailures env (awsCalls w) teardownCategories);
    [contradiction|reflexivity].
Qed.

(** A teardown without a failure is followed by the reset. *)
Lemma releaseAccount_clean awsClient key acct w :
  teardownFailures env (awsCalls w) teardownCategories = [] ->
  releaseAccount env awsClient key acct w
  = (rejected <- resetAccountSpecStatus env key acct ;;
     match rejected with
     | Some e =>
         ret (Some (errorString
                      ("account CR modified during reset: " +:+ Error_ env e)))
     | None => ret None
     end) (advance (teardownEvents env (awsCalls w) teardownCategories) 5 w).
Proof.
  intros Hfail. unfold releaseAccount, cleanUpAwsAccount.
  unfold bind at 1. unfold bind at 1. rewrite runCategories_run.
  change (length teardownCategories) with 5. rewrite Hfail. reflexivity.
Qed.

Lemma GetClaim_run key w c :
  claims w !! key = Some c ->
  k8s.GetClaim env key w
  = (Val (match k8sAnswer env (k8sCalls w) with
          | Some e => (None, Some e)
          | None => (Some c, None)
          end), tickK8s (emit (EvGetClaim key) w)).
Proof.
  intros Hc. unfold k8s.GetClaim, bind, k8s.controlPlaneCall, get.
  destruct (k8sAnswer env (k8sCalls w)); [reflexivity|].
  wsimpl. now rewrite Hc.
Qed.

Lemma writeClaim_run key obj w stored :
  claims w !! key = Some stored ->
  DeletionTimestamp (Claim_Meta obj) <> None ->
  Finalizers (Claim_Meta obj) = [] ->
  writeClaim env key obj w
  = match k8sAnswer env (k8sCalls w) with
    | Some e => (Val (Some e), tickK8s (emit (EvUpdateClaim obj) w))
    | None =>
        (Val None,
         set_claims (delete key (claims w)) (tickK8s (emit (EvUpdateClaim obj) w)))
    end.
Proof.
  intros Hc Hd Hf. unfold writeClaim, bind, k8s.controlPlaneCall, get.
  destruct (k8sAnswer env (k8sCalls w)); [reflexivity|].
  wsimpl. rewrite Hc, Hf.
  destruct (DeletionTimestamp (Claim_Meta obj)); [reflexivity|contradiction].
Qed.

Lemma withoutFinalizer_free claim :
  Finalizers (Claim_Meta claim) = [AccountClaimFinalizer env] ->
  Finalizers (Claim_Meta (withoutFinalizer env claim)) = [].
Proof.
  intros H. cbn. rewrite H. cbn. now rewrite String.eqb_refl.
Qed.

(** Whatever the provider answers, obtaining the scoped client writes to
    neither store and tears nothing down. *)
Lemma assumeAccountRole_untouched acct :
  respects untouched (assumeAccountRole env r acct).
Proof.
  intros w. unfold assumeAccountRole. subst r. cbn [awsClientBuilder].
  erewrite run_bind by apply GetClientV2_scripted.
  match goal with
  | |- untouched w (?k ?w1).2 =>
      apply (untouched_trans w w1); [now apply untouched_emit|]
  end.
  destruct (getClientAnswer env _); cbn [fst snd]; [apply untouched_refl|].
  unfold deref. rewrite bind_ret_l.
  apply (respects_bind untouched untouched_trans).
  - apply (HandleRoleAssumptionV2_respects untouched untouched_refl untouched_trans).
    + intros d w'. now apply untouched_emit.
    + intros input w'. now apply untouched_call.
    + intros name input w'. now apply untouched_emit.
  - intros h. destruct h.2; apply (respects_ret untouched untouched_refl).
Qed.

Lemma isUsable_roleId out :
  isUsable out = true -> exists roleId, roleIdOf out = Some roleId.
Proof.
  unfold isUsable, roleIdOf. intros H.
  repeat case_match; try discriminate; eauto.
Qed.

(** With a provider that lets the role be assumed at once, the scoped client
    costs one provider call. *)
Lemma assumeAccountRole_run acct w out :
  assumeRoleAnswer env (awsCalls w) (operatorRoleInput env acct) = (out, None) ->
  isUsable out = true ->
  (forall input, getClientAnswer env input = None) ->
  exists w',
    assumeAccountRole env r acct w = (Val (Some client, None), w')
    /\ untouched w w'
    /\ awsCalls w' = awsCalls w + 1 /\ k8sCalls w' = k8sCalls w.
Proof.
  intros Hans Huse Hclient.
  pose proof (assumeAccountRole_untouched acct w) as Hframe.
  destruct (isUsable_roleId out Huse) as (roleId & Hid).
  destruct out as [[user [[[a|] [s|] [t|]]|]]|];
    try (destruct user as [[arn [id|]]|]; discriminate Huse);
    try discriminate Huse.
  eassert (Hrun : assumeAccountRole env r acct w = (Val (Some client, None), _)).
  { unfold assumeAccountRole. subst r. cbn [awsClientBuilder].
    erewrite run_bind by apply GetClientV2_scripted.
    rewrite Hclient. cbn [fst snd]. unfold deref at 1. rewrite bind_ret_l.
    unfold sts.HandleRoleAssumptionV2.
    set (w1 := emit _ w).
    destruct (roleAssumptionLoop_step env
                (GetIAMArn env (AwsAccountID (Spec acct)) sts.AwsResourceTypeRole
                   (AccountOperatorIAMRole env))
                "awsAccountOperator" "" 9 0 None w1 roleId ltac:(lia))
      as (out' & Hans' & Hstep).
    { eexists. split; [exact Hans | exact Hid]. }
    change (awsCalls w1) with (awsCalls w) in Hans'.
    unfold operatorRoleInput in Hans. rewrite Hans in Hans'.
    injection Hans' as <-.
    rewrite (bool_decide_eq_false_2 ("" <> "")) in Hstep by (intros H; now apply H).
    cbn [andb] in Hstep.
    unfold bind at 1. unfold bind at 1. rewrite Hstep. cbn [fst snd].
    do 5 (cbn [deref Credentials AccessKeyId SecretAccessKey SessionToken];
          rewrite bind_ret_l).
    cbn [GetClientV2 scriptedBuilder].
    unfold bind, modify, ret. rewrite Hclient. cbn [fst snd].
    subst w1. reflexivity. }
  rewrite Hrun in Hframe. cbn [snd] in Hframe.
  eexists. split; [exact Hrun|]. split; [exact Hframe|].
  wsimpl. split; reflexivity.
Qed.

Lemma cleanTeardown_pass before n after :
  forallb notTeardown before = true ->
  forallb notTeardown after = true ->
  teardownFailures env n teardownCategories = [] ->
  cleanTeardown (before ++ teardownEvents env n teardownCategories ++ after).
Proof.
  intros Hb Ha Hclean. unfold cleanTeardown.
  rewrite !List.filter_app, (filter_notTeardown _ Hb), (filter_notTeardown _ Ha),
    filter_teardownEvents, app_nil_r, (teardownEvents_clean _ _ Hclean).
  reflexivity.
Qed.

(** What the flow does for the account, whatever its collaborators answer:
    the claims are not written; the account is either reset, after a teardown
    without a failure, or not written at all, or, after a teardown without a
    failure, written by the first write of the reset only. *)
Lemma finalizeAccountClaim_cases claim acct w :
  accounts w !! accountKey env claim = Some acct ->
  BYOC (Spec acct) = false ->
  exists es,
    trace (finalizeAccountClaim env r claim w).2 = (trace w ++ es)%list
    /\ claims (finalizeAccountClaim env r claim w).2 = claims w
    /\ ((finalizeAccountClaim env r claim w).1 = Val None
        /\ accounts (finalizeAccountClaim env r claim w).2
           = <[accountKey env claim := resetAccount acct]> (accounts w)
        /\ cleanTeardown es
        \/ (finalizeAccountClaim env r claim w).1 <> Val None
           /\ (accounts (finalizeAccountClaim env r claim w).2 = accounts w
               \/ accounts (finalizeAccountClaim env r claim w).2
                  = <[accountKey env claim := specReset acct]> (accounts w)
                  /\ cleanTeardown es)).
Proof.
  intros Hstored Hbyoc.
  remember (finalizeAccountClaim env r claim w) as run eqn:Hrun.
  unfold finalizeAccountClaim in Hrun.
  set (key := accountKey env claim) in *.
  destruct (k8sAnswer env (k8sCalls w)) as [e|] eqn:Hk.
  { erewrite run_bind in Hrun by (apply Get_injected; exact Hk). subst run.
    exists [EvGet key]. cbn. repeat split. right.
    split; [discriminate|left; reflexivity]. }
  erewrite run_bind in Hrun by (apply Get_found; eassumption).
  cbv beta iota in Hrun.
  erewrite run_bind in Hrun by reflexivity. cbv beta zeta in Hrun.
  set (w1 := set_current acct (tickK8s (emit (EvGet key) w))) in *.
  change (current w1) with acct in Hrun. unfold IsBYOC in Hrun.
  rewrite Hbyoc in Hrun. unfold bind at 1 in Hrun.
  pose proof (assumeAccountRole_untouched acct w1) as Hframe.
  assert (Hstop : forall (o : Outcome (option error)) w2 es,
            run = (o, w2) -> o <> Val None ->
            accounts w2 = accounts w1 -> claims w2 = claims w1 ->
            trace w2 = (trace w1 ++ es)%list ->
            exists es',
              trace run.2 = (trace w ++ es')%list
              /\ claims run.2 = claims w
              /\ (run.1 = Val None
                  /\ accounts run.2 = <[key := resetAccount acct]> (accounts w)
                  /\ cleanTeardown es'
                  \/ run.1 <> Val None
                     /\ (accounts run.2 = accounts w
                         \/ accounts run.2 = <[key := specReset acct]> (accounts w)
                            /\ cleanTeardown es'))).
  { intros o w2 es -> Ho Ha Hc Ht. exists ([EvGet key] ++ es)%list. cbn [fst snd].
    rewrite Ht, Ha, Hc. subst w1. wsimpl. rewrite <- app_assoc.
    repeat split. right. split; [exact Ho|left; reflexivity]. }
  destruct (assumeAccountRole env r acct w1) as [[[scoped failure]| |] w2];
    cbn [snd] in Hframe; destruct Hframe as (Ha & Hc & es & Ht & Hes);
    try (apply (Hstop _ w2 es Hrun); [discriminate|assumption..]).
  cbn [fst snd] in Hrun.
  destruct failure as [e|];
    [apply (Hstop _ w2 es Hrun); [discriminate|assumption..]|].
  destruct scoped as [scoped|];
    [|apply (Hstop _ w2 es Hrun); [discriminate|assumption..]].
  unfold deref in Hrun. rewrite bind_ret_l in Hrun.
  assert (Hstored2 : accounts w2 !! key = Some acct) by (rewrite Ha; exact Hstored).
  destruct (teardownFailures env (awsCalls w2) teardownCategories) eqn:Hfail.
  - rewrite (releaseAccount_clean scoped key acct w2 Hfail) in Hrun.
    set (w3 := advance (teardownEvents env (awsCalls w2) teardownCategories) 5 w2)
      in *.
    unfold bind at 1 in Hrun.
    rewrite (resetAccountSpecStatus_run key acct w3 Hstored2) in Hrun.
    cbv zeta in Hrun. change (k8sCalls w3) with (k8sCalls w2) in Hrun.
    change (accounts w3) with (accounts w2) in Hrun.
    destruct (k8sAnswer env (k8sCalls w2)); cbv beta iota in Hrun;
      unfold ret in Hrun.
    + eapply (Hstop _ _ (es ++ teardownEvents env (awsCalls w2) teardownCategories
                         ++ [EvUpdate (resetAccount acct)])%list Hrun);
        [discriminate|subst w3; wsimpl; try assumption..].
      rewrite Ht, <- !app_assoc. reflexivity.
    + clear Hstop. subst run.
      destruct (k8sAnswer env (S (k8sCalls w2))); cbv beta iota; unfold ret;
        exists (([EvGet key] ++ es)
                ++ teardownEvents env (awsCalls w2) teardownCategories
                ++ [EvUpdate (resetAccount acct);
                    EvStatusUpdate (resetAccount acct)])%list;
        subst w3; wsimpl; rewrite Ht, Ha, Hc; subst w1; wsimpl;
        rewrite <- !app_assoc; (split; [reflexivity|]); (split; [reflexivity|]).
      * right. split; [discriminate|]. right. split; [reflexivity|].
        rewrite app_assoc.
        change ([EvGet key] ++ es)%list with (EvGet key :: es).
        apply cleanTeardown_pass; [exact Hes | reflexivity | exact Hfail].
      * left. split; [reflexivity|]. split; [reflexivity|].
        rewrite app_assoc.
        change ([EvGet key] ++ es)%list with (EvGet key :: es).
        apply cleanTeardown_pass; [exact Hes | reflexivity | exact Hfail].
  - rewrite (releaseAccount_failed scoped key acct w2) in Hrun
      by (rewrite Hfail; discriminate).
    eapply (Hstop _ _ (es ++ teardownEvents env (awsCalls w2) teardownCategories)%list
              Hrun);
      [discriminate|wsimpl; try assumption..].
    rewrite Ht, <- !app_assoc. reflexivity.
Qed.

(** The same with a provider that cooperates and a control plane that lets
    the account be read: what happens hangs on the answers to the two writes
    of the reset. *)
Lemma finalizeAccountClaim_run claim acct w :
  accounts w !! accountKey env claim = Some acct ->
  BYOC (Spec acct) = false ->
  cooperates env acct (awsCalls w) ->
  k8sAnswer env (k8sCalls w) = None ->
  exists w' es,
    finalizeAccountClaim env r claim w
    = (Val (match k8sAnswer env (S (k8sCalls w)) with
            | Some e => Some (rejectionError env ResetUpdate e)
            | None =>
                match k8sAnswer env (S (S (k8sCalls w))) with
                | Some e => Some (rejectionError env ResetStatusUpdate e)
                | None => None
                end
            end), w')
    /\ trace w' = (trace w ++ es)%list /\ cleanTeardown es
    /\ claims w' = claims w
    /\ awsCalls w' = awsCalls w + 6
    /\ match k8sAnswer env (S (k8sCalls w)) with
       | Some _ => accounts w' = accounts w /\ k8sCalls w' = k8sCalls w + 2
       | None =>
           k8sCalls w' = k8sCalls w + 3
           /\ accounts w'
              = <[accountKey env claim :=
                    match k8sAnswer env (S (S (k8sCalls w))) with
                    | Some _ => specReset acct
                    | None => resetAccount acct
                    end]> (accounts w)
       end.
Proof.
  intros Hstored Hbyoc ((out & Hans & Huse) & Hclient & Hclean) Hk.
  set (key := accountKey env claim) in *.
  set (w1 := set_current acct (tickK8s (emit (EvGet key) w))).
  destruct (assumeAccountRole_run acct w1 out Hans Huse Hclient)
    as (w2 & Hrole & (Ha & Hc & es & Ht & Hes) & Haws & Hk8s).
  assert (Hstored2 : accounts w2 !! key = Some acct) by (rewrite Ha; exact Hstored).
  assert (Hfail : teardownFailures env (awsCalls w2) teardownCategories = []).
  { apply teardownFailures_none. intros i c Hi. rewrite Haws.
    apply Hclean. exact Hi. }
  assert (Hrun : finalizeAccountClaim env r claim w
                 = releaseAccount env client key acct w2).
  { unfold finalizeAccountClaim. fold key.
    erewrite run_bind by (apply Get_found; eassumption). cbv beta iota.
    erewrite run_bind by reflexivity. cbv beta zeta. fold w1.
    change (current w1) with acct. unfold IsBYOC. rewrite Hbyoc.
    erewrite run_bind by exact Hrole. cbn [fst snd]. unfold deref.
    now rewrite bind_ret_l. }
  rewrite Hrun, (releaseAccount_clean client key acct w2 Hfail).
  set (w3 := advance (teardownEvents env (awsCalls w2) teardownCategories) 5 w2).
  unfold bind at 1.
  rewrite (resetAccountSpecStatus_run key acct w3 Hstored2).
  cbv zeta. change (k8sCalls w3) with (k8sCalls w2).
  change (accounts w3) with (accounts w2).
  rewrite Hk8s. change (k8sCalls w1) with (S (k8sCalls w)).
  assert (Hpass : forall after,
            forallb notTeardown after = true ->
            cleanTeardown
              (([EvGet key] ++ es)
               ++ teardownEvents env (awsCalls w2) teardownCategories ++ after)).
  { intros after Hafter. change ([EvGet key] ++ es)%list with (EvGet key :: es).
    apply cleanTeardown_pass; [exact Hes | exact Hafter | exact Hfail]. }
  destruct (k8sAnswer env (S (k8sCalls w))); cbv beta iota; unfold ret.
  - eexists _, (([EvGet key] ++ es)
                ++ teardownEvents env (awsCalls w2) teardownCategories
                ++ [EvUpdate (resetAccount acct)])%list.
    split; [reflexivity|].
    split; [subst w3; wsimpl; rewrite Ht; subst w1; wsimpl;
            now rewrite <- !app_assoc|].
    split; [now apply Hpass|].
    subst w3; wsimpl; rewrite Ha, Hc, Haws, Hk8s; subst w1; wsimpl.
    repeat split; lia.
  - destruct (k8sAnswer env (S (S (k8sCalls w)))); cbv beta iota; unfold ret;
      (eexists _, (([EvGet key] ++ es)
                   ++ teardownEvents env (awsCalls w2) teardownCategories
                   ++ [EvUpdate (resetAccount acct);
                       EvStatusUpdate (resetAccount acct)])%list;
       split; [reflexivity|];
       split; [subst w3; wsimpl; rewrite Ht; subst w1; wsimpl;
               now rewrite <- !app_assoc|];
       split; [now apply Hpass|];
       subst w3; wsimpl; rewrite Ha, Hc, Haws, Hk8s; subst w1; wsimpl;
       repeat split; lia).
Qed.

Lemma cleanTeardown_frame before es after :
  forallb notTeardown before = true ->
  forallb notTeardown after = true ->
  cleanTeardown es -> cleanTeardown (before ++ es ++ after).
Proof.
  intros Hb Ha Hes. unfold cleanTeardown in *.
  now rewrite !List.filter_app, (filter_notTeardown _ Hb),
    (filter_notTeardown _ Ha), app_nil_r.
Qed.

(** One reconciliation of a claim marked for deletion, whatever its
    collaborators answer: either the claim is removed, the account having
    been reset after a teardown without a failure, or the claim stays as it
    was; the account is then written only after a teardown without a
    failure. *)
Lemma ReconcileDeletion_cases request claim acct w :
  beingDeleted env request claim acct w ->
  exists es,
    trace (ReconcileDeletion env r request w).2 = (trace w ++ es)%list
    /\ ((ReconcileDeletion env r request w).1 = Val (account.emptyResult, None)
        /\ claims (ReconcileDeletion env r request w).2 = delete request (claims w)
        /\ accounts (ReconcileDeletion env r request w).2
           = <[accountKey env claim := resetAccount acct]> (accounts w)
        /\ cleanTeardown es
        \/ claims (ReconcileDeletion env r request w).2 = claims w
           /\ (accounts (ReconcileDeletion env r request w).2 = accounts w
               \/ cleanTeardown es
                  /\ exists rejected,
                       accounts (ReconcileDeletion env r request w).2
                       = <[accountKey env claim := leftBy rejected acct]>
                           (accounts w))).
Proof.
  intros (Hclaim & Hdel & Hfin & Hstored & Hbyoc).
  remember (ReconcileDeletion env r request w) as run eqn:Hrun.
  unfold ReconcileDeletion in Hrun.
  erewrite run_bind in Hrun by (apply GetClaim_run; exact Hclaim).
  set (w1 := tickK8s (emit (EvGetClaim request) w)) in *.
  destruct (k8sAnswer env (k8sCalls w)) as [e|]; cbn [fst snd] in Hrun.
  { exists [EvGetClaim request]. destruct (IsNotFound e); subst run; cbn;
      repeat split; right; split; auto. }
  unfold deref in Hrun. rewrite bind_ret_l in Hrun.
  destruct (DeletionTimestamp (Claim_Meta claim)) as [stamp|] eqn:Hstamp;
    [|contradiction].
  rewrite decide_True in Hrun by exact Hfin.
  unfold bind at 1 in Hrun.
  destruct (finalizeAccountClaim_cases claim acct w1 Hstored Hbyoc)
    as (es & Ht & Hc & Hcases).
  destruct (finalizeAccountClaim env r claim w1) as [o w2].
  cbn [fst snd] in Ht, Hc, Hcases.
  destruct Hcases as [(-> & Ha & Hclean)|(Ho & Ha)].
  - assert (Hclaim2 : claims w2 !! request = Some claim)
      by (rewrite Hc; exact Hclaim).
    cbv beta iota in Hrun. unfold bind at 1 in Hrun.
    rewrite (writeClaim_run request (withoutFinalizer env claim) w2 claim Hclaim2)
      in Hrun;
      [| cbn; rewrite Hstamp; discriminate | apply withoutFinalizer_free, Hfin].
    exists ([EvGetClaim request] ++ es
            ++ [EvUpdateClaim (withoutFinalizer env claim)])%list.
    destruct (k8sAnswer env (k8sCalls w2)) as [e|]; subst run;
      cbn [bind ret fst snd]; wsimpl; rewrite Ht, Ha, ?Hc; subst w1; wsimpl;
      rewrite <- !app_assoc; (split; [reflexivity|]).
    + right. split; [reflexivity|]. right.
      split; [now apply cleanTeardown_frame|]. now exists FinalizerWrite.
    + left. repeat split. now apply cleanTeardown_frame.
  - exists ([EvGetClaim request] ++ es)%list.
    destruct o as [[e|]| |]; try contradiction; subst run;
      cbn [bind ret fst snd]; rewrite Ht, Hc; subst w1; wsimpl;
      rewrite <- !app_assoc; (split; [reflexivity|]); right;
      (split; [reflexivity|]);
      (destruct Ha as [Ha|[Ha Hclean]]; [left; exact Ha|]);
      (right; split;
       [now apply (cleanTeardown_frame [EvGetClaim request] es []) in Hclean;
        [rewrite app_nil_r in Hclean|..]|];
       now exists ResetStatusUpdate).
Qed.


(** The same with a provider that cooperates and a control plane that lets
    the claim and its account be read: what happens hangs on the answers to
    the three writes. *)
Lemma ReconcileDeletion_run request claim acct w :
  beingDeleted env request claim acct w ->
  cooperates env acct (awsCalls w) ->
  k8sAnswer env (k8sCalls w) = None ->
  k8sAnswer env (k8sCalls w + 1) = None ->
  exists w' es,
    ReconcileDeletion env r request w
    = (Val (account.emptyResult,
            match firstRejected env (k8sCalls w + 2) with
            | Some (rejected, e) => Some (rejectionError env rejected e)
            | None => None
            end), w')
    /\ trace w' = (trace w ++ es)%list /\ cleanTeardown es
    /\ awsCalls w' = awsCalls w + 6
    /\ match firstRejected env (k8sCalls w + 2) with
       | Some (rejected, _) =>
           claims w' = claims w
           /\ accounts w'
              = <[accountKey env claim := leftBy rejected acct]> (accounts w)
           /\ k8sCalls w'
              = k8sCalls w + match rejected with
                             | ResetUpdate => 3
                             | ResetStatusUpdate => 4
                             | FinalizerWrite => 5
                             end
       | None =>
           claims w' = delete request (claims w)
           /\ accounts w'
              = <[accountKey env claim := resetAccount acct]> (accounts w)
           /\ k8sCalls w' = k8sCalls w + 5
       end.
Proof.
  intros (Hclaim & Hdel & Hfin & Hstored & Hbyoc) Hcoop Hk0 Hk1.
  replace (k8sCalls w + 2) with (S (S (k8sCalls w))) by lia. unfold firstRejected.
  set (w1 := tickK8s (emit (EvGetClaim request) w)).
  destruct (finalizeAccountClaim_run claim acct w1 Hstored Hbyoc Hcoop)
    as (w2 & es & Hfinal & Ht & Hclean & Hc & Haws & Hstores).
  { change (k8sCalls w1) with (S (k8sCalls w)).
    now replace (S (k8sCalls w)) with (k8sCalls w + 1) by lia. }
  change (k8sCalls w1) with (S (k8sCalls w)) in Hfinal, Hstores.
  change (awsCalls w1) with (awsCalls w) in Haws.
  change (trace w1) with (trace w ++ [EvGetClaim request])%list in Ht.
  change (claims w1) with (claims w) in Hc.
  change (accounts w1) with (accounts w) in Hstores.
  assert (Hclaim2 : claims w2 !! request = Some claim)
    by (rewrite Hc; exact Hclaim).
  destruct (DeletionTimestamp (Claim_Meta claim)) as [stamp|] eqn:Hstamp;
    [|contradiction].
  assert (Hrun : ReconcileDeletion env r request w
                 = (err <- finalizeAccountClaim env r claim ;;
                    match err with
                    | Some e => ret (account.emptyResult, Some e)
                    | None =>
                        err <- writeClaim env request (withoutFinalizer env claim) ;;
                        ret (account.emptyResult, err)
                    end) w1).
  { unfold ReconcileDeletion.
    erewrite run_bind by (apply GetClaim_run; exact Hclaim).
    rewrite Hk0. cbn [fst snd]. unfold deref. rewrite bind_ret_l.
    rewrite Hstamp, decide_True by exact Hfin. reflexivity. }
  rewrite Hrun. erewrite run_bind by exact Hfinal.
  assert (Hframe : cleanTeardown ([EvGetClaim request] ++ es)).
  { apply (cleanTeardown_frame [EvGetClaim request] es []) in Hclean;
      [now rewrite app_nil_r in Hclean|reflexivity..]. }
  destruct (k8sAnswer env (S (S (k8sCalls w)))) as [e|].
  - destruct Hstores as [Ha Hk].
    exists w2, ([EvGetClaim request] ++ es)%list.
    split; [reflexivity|]. split; [now rewrite Ht, <- app_assoc|].
    split; [exact Hframe|]. split; [exact Haws|].
    split; [exact Hc|]. split; [|cbn [leftBy]; lia].
    cbn [leftBy]. now rewrite insert_id by exact Hstored.
  - destruct Hstores as [Hk Ha].
    destruct (k8sAnswer env (S (S (S (k8sCalls w))))) as [e|].
    + exists w2, ([EvGetClaim request] ++ es)%list.
      split; [reflexivity|]. split; [now rewrite Ht, <- app_assoc|].
      split; [exact Hframe|]. split; [exact Haws|].
      split; [exact Hc|]. split; [exact Ha|lia].
    + cbv beta iota. unfold bind at 1.
      rewrite (writeClaim_run request (withoutFinalizer env claim) w2 claim Hclaim2);
        [| cbn; rewrite Hstamp; discriminate | apply withoutFinalizer_free, Hfin].
      replace (k8sCalls w2) with (S (S (S (S (k8sCalls w))))) by lia.
      destruct (k8sAnswer env (S (S (S (S (k8sCalls w)))))) as [e|];
        cbv beta iota; unfold ret;
        (eexists _, ([EvGetClaim request] ++ es
                     ++ [EvUpdateClaim (withoutFinalizer env claim)])%list;
         split; [reflexivity|];
         split; [wsimpl; now rewrite Ht, <- !app_assoc|];
         split; [now apply cleanTeardown_frame|];
         wsimpl; rewrite ?Hc; repeat split; try assumption; lia).
Qed.

Lemma reconcileWithRequeue_unfold requeues request :
  reconcileWithRequeue env requeues r request
  = (res <- ReconcileDeletion env r request ;;
     match res.2, requeues with
     | Some _, S n => reconcileWithRequeue env n r request
     | _, _ => ret res
     end).
Proof. destruct requeues; reflexivity. Qed.

(** A reset of what an earlier reconciliation left is the reset of the
    account. *)
Lemma resetAccount_leftBy rejected acct :
  resetAccount (leftBy rejected acct) = resetAccount acct.
Proof. now destruct rejected. Qed.

(** What two reconciliations leave, one after the other, is what one of them
    leaves. *)
Lemma leftBy_leftBy first second acct :
  exists rejected, leftBy second (leftBy first acct) = leftBy rejected acct.
Proof.
  destruct first.
  - now exists second.
  - destruct second; [now exists ResetStatusUpdate..|now exists FinalizerWrite].
  - exists FinalizerWrite. now destruct second.
Qed.

Lemma rejections_step rejected rest i :
  rejections (rejected :: rest)
    (match rejected with
     | ResetUpdate => 3
     | ResetStatusUpdate => 4
     | FinalizerWrite => 5
     end + i)
  = rejections rest i.
Proof. now destruct rejected. Qed.

Lemma rejections_first rejected rest :
  rejections (rejected :: rest) 0 = None
  /\ rejections (rejected :: rest) 1 = None
  /\ (fun answer =>
        match answer 2 with
        | Some e => Some (ResetUpdate, e)
        | None =>
            match answer 3 with
            | Some e => Some (ResetStatusUpdate, e)
            | None =>
                match answer 4 with
                | Some e => Some (FinalizerWrite, e)
                | None => None
                end
            end
        end) (rejections (rejected :: rest))
     = Some (rejected, StatusConflict).
Proof. now destruct rejected. Qed.

(** The first write that the scripted control plane rejects. *)
Lemma firstRejected_rejections attempts w :
  (forall i, k8sAnswer env (k8sCalls w + i) = rejections attempts i) ->
  k8sAnswer env (k8sCalls w) = None
  /\ k8sAnswer env (k8sCalls w + 1) = None
  /\ firstRejected env (k8sCalls w + 2)
     = match attempts with
       | [] => None
       | rejected :: _ => Some (rejected, StatusConflict)
       end.
Proof.
  intros Hscript. unfold firstRejected.
  replace (S (k8sCalls w + 2)) with (k8sCalls w + 3) by lia.
  replace (S (k8sCalls w + 3)) with (k8sCalls w + 4) by lia.
  rewrite <- (Nat.add_0_r (k8sCalls w)) at 1.
  rewrite !Hscript.
  destruct attempts as [|rejected rest]; [easy|].
  apply (rejections_first rejected rest).
Qed.

(** Requeued reconciliations against a control plane that rejects one write
    in each of the first reconciliations. *)
Lemma reconcileWithRequeue_run request claim attempts :
  forall requeues acct w,
    beingDeleted env request claim acct w ->
    (forall n, cooperates env acct n) ->
    (forall i, k8sAnswer env (k8sCalls w + i) = rejections attempts i) ->
    exists w',
      (length attempts <= requeues ->
       reconcileWithRequeue env requeues r request w
       = (Val (account.emptyResult, None), w')
       /\ claims w' = delete request (claims w)
       /\ accounts w' = <[accountKey env claim := resetAccount acct]> (accounts w))
      /\ (requeues < length attempts ->
          (exists e, reconcileWithRequeue env requeues r request w
                     = (Val (account.emptyResult, Some e), w'))
          /\ claims w' = claims w
          /\ exists rejected,
               accounts w'
               = <[accountKey env claim := leftBy rejected acct]> (accounts w)).
Proof.
  induction attempts as [|write rest IH]; intros requeues acct w Hdel Hcoop Hscript;
    destruct (firstRejected_rejections _ w Hscript) as (Hk0 & Hk1 & Hfirst);
    destruct (ReconcileDeletion_run request claim acct w Hdel (Hcoop _) Hk0 Hk1)
      as (w1 & es & Hrun & _ & _ & _ & Hstores);
    rewrite Hfirst in Hrun, Hstores.
  - destruct Hstores as (Hc & Ha & _).
    exists w1. split; [|cbn; lia]. intros _.
    rewrite reconcileWithRequeue_unfold. erewrite run_bind by exact Hrun.
    cbn [snd]. now destruct requeues.
  - destruct Hstores as (Hc & Ha & Hk).
    destruct Hdel as (Hclaim & Hstamp & Hfin & Hstored & Hbyoc).
    destruct requeues as [|requeues].
    + exists w1. split; [cbn; lia|]. intros _.
      split; [|split; [exact Hc | now exists write]].
      eexists. rewrite reconcileWithRequeue_unfold.
      erewrite run_bind by exact Hrun. reflexivity.
    + destruct (IH requeues (leftBy write acct) w1) as (w' & Hok & Hout).
      { repeat split; try assumption; [now rewrite Hc| |now destruct write].
        rewrite Ha. apply lookup_insert_eq. }
      { intros n. specialize (Hcoop n). now destruct write. }
      { intros i. rewrite Hk, <- Nat.add_assoc, Hscript.
        apply rejections_step. }
      exists w'. rewrite reconcileWithRequeue_unfold.
      erewrite run_bind by exact Hrun. cbn [snd length].
      rewrite resetAccount_leftBy, Ha, insert_insert_eq, Hc in Hok.
      rewrite Ha, Hc in Hout.
      split; intros Hlen.
      * apply Hok. lia.
      * destruct (Hout ltac:(lia)) as (He & Hc' & second & Ha').
        split; [exact He|]. split; [exact Hc'|].
        destruct (leftBy_leftBy write second acct) as (rejected & Hleft).
        exists rejected. now rewrite Ha', insert_insert_eq, Hleft.
Qed.

Lemma firstRejected_none n :
  (forall i, i < 3 -> k8sAnswer env (n + i) = None) ->
  firstRejected env n = None.
Proof.
  intros Hscript. unfold firstRejected.
  rewrite <- (Nat.add_0_r n) at 1. rewrite Hscript by lia.
  replace (S n) with (n + 1) by lia. rewrite Hscript by lia.
  replace (S (n + 1)) with (n + 2) by lia. now rewrite Hscript by lia.
Qed.

(** C2. Deleting a claim bound to a non-BYOC account.  With a provider that
    lets the account's role be assumed and a teardown in which no category
    fails, and a control plane that accepts the writes, one reconciliation
    leaves the account with its claim link cleared, [Claimed = false],
    [State = Ready] and [Reused = true], and the claim, its finalizer
    dropped, is gone from the control plane.  And whatever the collaborators
    answer: if the claim is gone after the reconciliation, then the
    reconciliation ran a teardown, one call per category, of which none
    failed, and the account is the reset one; a claim that is not gone is as
    it was, finalizer included; and when the teardown was not clean neither
    the claim nor the account has been written. *)
Theorem ReconcileDeletion_releases_account request claim acct w :
  beingDeleted env request claim acct w ->
  (cooperates env acct (awsCalls w) ->
   (forall i, i < 5 -> k8sAnswer env (k8sCalls w + i) = None) ->
   exists w' stored,
     ReconcileDeletion env r request w = (Val (account.emptyResult, None), w')
     /\ claims w' !! request = None
     /\ accounts w' !! accountKey env claim = Some stored
     /\ ClaimLink (Spec stored) = "" /\ ClaimLinkNamespace (Spec stored) = ""
     /\ Claimed (Status stored) = false
     /\ State (Status stored) = AccountReady
     /\ Reused (Status stored) = true
     /\ Meta stored = Meta acct
     /\ AwsAccountID (Spec stored) = AwsAccountID (Spec acct))
  /\ exists es,
       trace (ReconcileDeletion env r request w).2 = (trace w ++ es)%list
       /\ (claims (ReconcileDeletion env r request w).2 !! request = None ->
           cleanTeardown es
           /\ accounts (ReconcileDeletion env r request w).2 !! accountKey env claim
              = Some (resetAccount acct))
       /\ (claims (ReconcileDeletion env r request w).2 !! request <> None ->
           claims (ReconcileDeletion env r request w).2 = claims w)
       /\ (~ cleanTeardown es ->
           claims (ReconcileDeletion env r request w).2 = claims w
           /\ accounts (ReconcileDeletion env r request w).2 = accounts w).
Proof.
  intros Hdel. split.
  - intros Hcoop Hscript.
    destruct (ReconcileDeletion_run request claim acct w Hdel Hcoop)
      as (w' & es & Hrun & _ & _ & _ & Hstores).
    { rewrite <- (Nat.add_0_r (k8sCalls w)). apply Hscript. lia. }
    { apply Hscript. lia. }
    rewrite firstRejected_none in Hrun, Hstores
      by (intros i Hi; rewrite <- Nat.add_assoc; apply Hscript; lia).
    destruct Hstores as (Hc & Ha & _).
    exists w', (resetAccount acct). split; [exact Hrun|].
    split; [rewrite Hc; apply lookup_delete_eq|].
    split; [rewrite Ha; apply lookup_insert_eq|].
    repeat split.
  - destruct (ReconcileDeletion_cases request claim acct w Hdel) as (es & Ht & Hcases).
    destruct Hdel as (Hclaim & _).
    exists es. split; [exact Ht|].
    destruct Hcases as [(_ & Hc & Ha & Hclean)|(Hc & Hcases)].
    + split; [intros _; split; [exact Hclean|rewrite Ha; apply lookup_insert_eq]|].
      split; [intros Hkept; rewrite Hc, lookup_delete_eq in Hkept; contradiction|].
      intros Hdirty. contradiction.
    + split; [intros Hgone; rewrite Hc, Hclaim in Hgone; discriminate|].
      split; [intros _; exact Hc|].
      intros Hdirty. split; [exact Hc|].
      destruct Hcases as [Ha|(Hclean & _)]; [exact Ha|contradiction].
Qed.

(** C9, amended.  A write of the deletion flow that the control plane
    rejects as a conflict is not fatal: the reconciliation returns the error
    and leaves the claim as it was, finalizer included.  What the control
    plane accepted before the rejected write stays written: when the update
    of the reset is rejected the account is as it was; when the update of
    the status is rejected the account has lost its claim link and keeps its
    old status; when the removal of the finalizer is rejected the account is
    reset and ready while the claim still names it.  Requeued, the
    reconciliation starts from a fresh read and converges: when each of the
    first reconciliations has one write rejected and there are requeues
    enough, the claim is removed and the account reset, as if no write had
    been rejected; when the requeues run out first, the last error is
    returned, the claim still carries its finalizer and the account is in
    one of the three states above. *)
Theorem reconcileWithRequeue_converges request claim acct attempts requeues w :
  beingDeleted env request claim acct w ->
  (forall n, cooperates env acct n) ->
  (forall i, k8sAnswer env (k8sCalls w + i) = rejections attempts i) ->
  match attempts with
  | [] => True
  | ResetUpdate :: _ =>
      exists w',
        ReconcileDeletion env r request w
        = (Val (account.emptyResult,
                Some (errorString ("account CR modified during reset: "
                                   +:+ Error_ env StatusConflict))), w')
        /\ claims w' = claims w /\ accounts w' = accounts w
  | ResetStatusUpdate :: _ =>
      exists w',
        ReconcileDeletion env r request w
        = (Val (account.emptyResult,
                Some (errorString ("account CR modified during reset: "
                                   +:+ Error_ env StatusConflict))), w')
        /\ claims w' = claims w
        /\ accounts w'
           = <[accountKey env claim :=
                 {| Meta := Meta acct; Spec := Spec (resetAccount acct);
                    Status := Status acct |}]> (accounts w)
  | FinalizerWrite :: _ =>
      exists w',
        ReconcileDeletion env r request w
        = (Val (account.emptyResult, Some StatusConflict), w')
        /\ claims w' = claims w
        /\ accounts w' = <[accountKey env claim := resetAccount acct]> (accounts w)
  end
  /\ exists w',
       (length attempts <= requeues ->
        reconcileWithRequeue env requeues r request w
        = (Val (account.emptyResult, None), w')
        /\ claims w' !! request = None
        /\ accounts w' = <[accountKey env claim := resetAccount acct]> (accounts w))
       /\ (requeues < length attempts ->
           (exists e, reconcileWithRequeue env requeues r request w
                      = (Val (account.emptyResult, Some e), w'))
           /\ claims w' !! request = Some claim
           /\ Finalizers (Claim_Meta claim) = [AccountClaimFinalizer env]
           /\ (accounts w' = accounts w
               \/ accounts w'
                  = <[accountKey env claim :=
                        {| Meta := Meta acct; Spec := Spec (resetAccount acct);
                           Status := Status acct |}]> (accounts w)
               \/ accounts w'
                  = <[accountKey env claim := resetAccount acct]> (accounts w))).
Proof.
  intros Hdel Hcoop Hscript. split.
  - destruct (firstRejected_rejections _ w Hscript) as (Hk0 & Hk1 & Hfirst).
    destruct (ReconcileDeletion_run request claim acct w Hdel (Hcoop _) Hk0 Hk1)
      as (w' & es & Hrun & _ & _ & _ & Hstores).
    rewrite Hfirst in Hrun, Hstores.
    destruct Hdel as (_ & _ & _ & Hstored & _).
    destruct attempts as [|[] rest]; [exact I|..];
      destruct Hstores as (Hc & Ha & _); cbn [leftBy] in Ha;
      rewrite ?insert_id in Ha by exact Hstored; exists w'; now repeat split.
  - destruct (reconcileWithRequeue_run request claim attempts requeues acct w
                Hdel Hcoop Hscript) as (w' & Hok & Hout).
    destruct Hdel as (Hclaim & _ & Hfin & Hstored & _).
    exists w'. split.
    + intros Hlen. destruct (Hok Hlen) as (Hrun & Hc & Ha).
      split; [exact Hrun|]. split; [|exact Ha].
      rewrite Hc. apply lookup_delete_eq.
    + intros Hlen. destruct (Hout Hlen) as (Hrun & Hc & rejected & Ha).
      split; [exact Hrun|]. split; [now rewrite Hc|]. split; [exact Hfin|].
      destruct rejected; cbn [leftBy] in Ha.
      * left. now rewrite insert_id in Ha by exact Hstored.
      * right. left. exact Ha.
      * right. right. exact Ha.
Qed.

End ClaimDeletion.

(** ** The deletion of a claim on the objects of the tests *)

(** C2 on the claim and the account of the deletion tests, with a provider
    whose teardown finds nothing and a control plane that accepts every
    write. *)
Lemma ReconcileDeletion_releases_account_witness :
  let env := fixtures.claimScenario (fun _ _ => None) (fun _ => None) in
  let r := fixtures.claimReconciler env in
  let request := fixtures.deletedClaimKey in
  let claim := fixtures.deletedClaim in
  let acct := fixtures.claimedAccount in
  let w := fixtures.worldWithClaim in
  (exists w' stored,
     accountclaim.ReconcileDeletion env r request w
     = (Val (account.emptyResult, None), w')
     /\ claims w' !! request = None
     /\ accounts w' !! accountclaim.accountKey env claim = Some stored
     /\ ClaimLink (Spec stored) = "" /\ ClaimLinkNamespace (Spec stored) = ""
     /\ Claimed (Status stored) = false
     /\ State (Status stored) = utils.AccountReady
     /\ Reused (Status stored) = true
     /\ Meta stored = Meta acct
     /\ AwsAccountID (Spec stored) = AwsAccountID (Spec acct))
  /\ exists es,
       trace (accountclaim.ReconcileDeletion env r request w).2 = (trace w ++ es)%list
       /\ (claims (accountclaim.ReconcileDeletion env r request w).2 !! request = None ->
           cleanTeardown es
           /\ accounts (accountclaim.ReconcileDeletion env r request w).2
                !! accountclaim.accountKey env claim
              = Some (accountclaim.resetAccount acct))
       /\ (claims (accountclaim.ReconcileDeletion env r request w).2 !! request <> None ->
           claims (accountclaim.ReconcileDeletion env r request w).2 = claims w)
       /\ (~ cleanTeardown es ->
           claims (accountclaim.ReconcileDeletion env r request w).2 = claims w
           /\ accounts (accountclaim.ReconcileDeletion env r request w).2 = accounts w).
Proof.
  intros env r request claim acct w.
  assert (Hdel : beingDeleted env request claim acct w).
  { repeat split; try (vm_compute; reflexivity). discriminate. }
  destruct (ReconcileDeletion_releases_account env request claim acct w Hdel)
    as [Hok Hany].
  split; [|exact Hany]. apply Hok.
  - split; [|split].
    + eexists. split; reflexivity.
    + reflexivity.
    + reflexivity.
  - reflexivity.
Defined.

(** C9 as stated fails: a rejected write can leave the two objects half way.
    On the claim and the account of the deletion tests, with a teardown that
    finds nothing: when the control plane rejects the update of the status,
    the reconciliation returns the error and the account is left with its
    claim link cleared and still [Claimed]; when it rejects the removal of
    the finalizer, the account is left reset, unclaimed and ready for the
    next claim, while the claim still carries its finalizer and still names
    the account. *)
Lemma ReconcileDeletion_conflict_leaves_partial_state :
  let request := fixtures.deletedClaimKey in
  let claim := fixtures.deletedClaim in
  let key := ("aws-account-operator", "osd-creds-mgmt-aaabbb") in
  let run k8sScript :=
    let env := fixtures.claimScenario (fun _ _ => None) k8sScript in
    accountclaim.ReconcileDeletion env (fixtures.claimReconciler env) request
      fixtures.worldWithClaim in
  let half := run (rejections [ResetStatusUpdate]) in
  let unbound := run (rejections [FinalizerWrite]) in
  (exists stored,
     half.1 = Val (account.emptyResult,
                   Some (errorString "account CR modified during reset: Conflict"))
     /\ claims half.2 !! request = Some claim
     /\ accounts half.2 !! key = Some stored
     /\ ClaimLink (Spec stored) = ""
     /\ ClaimLinkNamespace (Spec stored) = ""
     /\ Claimed (Status stored) = true
     /\ Reused (Status stored) = false)
  /\ (exists stored,
        unbound.1 = Val (account.emptyResult, Some StatusConflict)
        /\ claims unbound.2 !! request = Some claim
        /\ Finalizers (Claim_Meta claim) = ["finalizer.aws.managed.openshift.io"]
        /\ AccountLink (Claim_Spec claim) = "osd-creds-mgmt-aaabbb"
        /\ accounts unbound.2 !! key = Some stored
        /\ ClaimLink (Spec stored) = ""
        /\ Claimed (Status stored) = false
        /\ State (Status stored) = "Ready"
        /\ Reused (Status stored) = true).
Proof.
  intros request claim key run half unbound. split.
  - exists (specReset fixtures.claimedAccount). vm_compute. repeat split.
  - exists (accountclaim.resetAccount fixtures.claimedAccount).
    vm_compute. repeat split.
Qed.

(** The amended C9 on the same claim: the update of the status is rejected
    in the first reconciliation, the removal of the finalizer in the second,
    the update of the reset in the third, and the fourth goes through. *)
Lemma reconcileWithRequeue_converges_witness :
  let attempts := [ResetStatusUpdate; FinalizerWrite; ResetUpdate] in
  let env := fixtures.claimScenario (fun _ _ => None) (rejections attempts) in
  let r := fixtures.claimReconciler env in
  let request := fixtures.deletedClaimKey in
  let claim := fixtures.deletedClaim in
  let acct := fixtures.claimedAccount in
  let w := fixtures.worldWithClaim in
  (exists w',
     accountclaim.ReconcileDeletion env r request w
     = (Val (account.emptyResult,
             Some (errorString "account CR modified during reset: Conflict")), w')
     /\ claims w' = claims w
     /\ accounts w'
        = <[accountclaim.accountKey env claim :=
              {| Meta := Meta acct; Spec := Spec (accountclaim.resetAccount acct);
                 Status := Status acct |}]> (accounts w))
  /\ exists w',
       accountclaim.reconcileWithRequeue env 3 r request w
       = (Val (account.emptyResult, None), w')
       /\ claims w' !! request = None
       /\ accounts w'
          = <[accountclaim.accountKey env claim := accountclaim.resetAccount acct]>
              (accounts w).
Proof.
  intros attempts env r request claim acct w.
  assert (Hdel : beingDeleted env request claim acct w).
  { repeat split; try (vm_compute; reflexivity). discriminate. }
  assert (Hcoop : forall n, cooperates env acct n).
  { intros n. split; [|split].
    - eexists. split; reflexivity.
    - reflexivity.
    - reflexivity. }
  destruct (reconcileWithRequeue_converges env request claim acct attempts 3 w
              Hdel Hcoop (fun i => eq_refl))
    as [Hone (w' & Hok & _)].
  split; [exact Hone|]. exists w'. apply Hok. cbn. lia.
Defined.

(** The deletion tests.  "should delete AccountClaim": the claim is gone and
    the account is reset.  "should retry on a conflict error": the error
    reads as the test expects and the claim keeps its finalizers.  "should
    handle aws cleanup errors": every category fails, an error is returned
    and the claim keeps its finalizers.  "should do nothing when there are
    additional finalizers present": no error, nothing called, nothing
    written. *)
Example ReconcileDeletion_tests :
  let request := fixtures.deletedClaimKey in
  let claim := fixtures.deletedClaim in
  let key := ("aws-account-operator", "osd-creds-mgmt-aaabbb") in
  let w := fixtures.worldWithClaim in
  let run teardownScript k8sScript w :=
    let env := fixtures.claimScenario teardownScript k8sScript in
    accountclaim.ReconcileDeletion env (fixtures.claimReconciler env) request w in
  let deleted := run (fun _ _ => None) (fun _ => None) w in
  let conflict := run (fun _ _ => None) (rejections [ResetUpdate]) w in
  let failing :=
    run (fun _ _ => Some (OperationError "foo")) (fun _ => None) w in
  let held :=
    {| Claim_Meta := {| Name := Name (Claim_Meta claim);
                        Namespace := Namespace (Claim_Meta claim);
                        DeletionTimestamp := Some 1%Z;
                        Finalizers := ["finalizer.aws.managed.openshift.io";
                                       "another.blocking.finalizer"];
                        Labels := [] |};
       Claim_Spec := Claim_Spec claim; Claim_Status := Claim_Status claim |} in
  let blocked :=
    run (fun _ _ => None) (fun _ => None)
      (set_claims {[ request := held ]} w) in
  (deleted.1 = Val (account.emptyResult, None)
   /\ claims deleted.2 !! request = None
   /\ (fun a => (ClaimLink (Spec a), ClaimLinkNamespace (Spec a),
                 State (Status a), Reused (Status a), Claimed (Status a)))
        <$> (accounts deleted.2 !! key)
      = Some ("", "", "Ready", true, false))
  /\ (conflict.1
      = Val (account.emptyResult,
             Some (errorString "account CR modified during reset: Conflict"))
      /\ claims conflict.2 !! request = Some claim
      /\ accounts conflict.2 !! key = Some fixtures.claimedAccount)
  /\ (failing.1
      = Val (account.emptyResult, Some (errorString "AWS account cleanup failed"))
      /\ countEvents isTeardown (trace failing.2) = 5
      /\ claims failing.2 !! request = Some claim
      /\ accounts failing.2 !! key = Some fixtures.claimedAccount)
  /\ (blocked.1 = Val (account.emptyResult, None)
      /\ trace blocked.2 = [EvGetClaim request]
      /\ claims blocked.2 !! request = Some held
      /\ accounts blocked.2 !! key = Some fixtures.claimedAccount).
Proof. vm_compute. repeat split. Qed.

(** * Further properties of the code *)

(** ** The creation of an account *)
Section AccountCreation.
Import awsclient utils.
Context (env : Environment).

Let client : ClientV2 := asClientV2 (newClientV2 env).

Ltac wsimpl :=
  cbn [trace awsCalls k8sCalls accounts claims configMap current
       emit tickK8s tickAws set_current set_accounts set_claims emitAll advance
       fst snd].

Lemma ten_seconds : Duration_mul 10%Z Second = (10 * Second)%Z.
Proof. reflexivity. Qed.

Lemma pollEvents_S input k :
  pollEvents input (S k)
  = ([EvDescribeCreateAccountStatus input; EvSleep (10 * Second)%Z]
     ++ pollEvents input k)%list.
Proof. reflexivity. Qed.

Lemma createFailureError_table reason :
  (if decide (reason = "ACCOUNT_LIMIT_EXCEEDED") then ErrAwsAccountLimitExceeded
   else if decide (reason = "INTERNAL_FAILURE") then ErrAwsInternalFailure
   else ErrAwsFailedCreateAccount)
  = createFailureError reason.
Proof.
  unfold createFailureError.
  destruct (decide (reason = "ACCOUNT_LIMIT_EXCEEDED")) as [->|H1]; [reflexivity|].
  destruct (decide (reason = "INTERNAL_FAILURE")) as [->|H2]; [reflexivity|].
  repeat case_match; try reflexivity; subst; contradiction.
Qed.

(** One round of the poll. *)
Lemma pollCreateAccountStatus_step input fuel w out cas :
  pollFinds env (awsCalls w) input out cas ->
  account.pollCreateAccountStatus client input (S fuel) w
  = if decide (CreateAccountStatus_State cas = "FAILED") then
      (Val (Some account.empty_DescribeCreateAccountStatusOutput,
            Some (createFailureError (CreateAccountStatus_FailureReason cas))),
       advance [EvDescribeCreateAccountStatus input] 1 w)
    else if decide (CreateAccountStatus_State cas <> "IN_PROGRESS") then
      (Val (Some out, None), advance [EvDescribeCreateAccountStatus input] 1 w)
    else
      account.pollCreateAccountStatus client input fuel
        (advance [EvDescribeCreateAccountStatus input; EvSleep (10 * Second)%Z] 1 w).
Proof.
  intros [Hans Hcas]. unfold client. cbn [account.pollCreateAccountStatus].
  unfold bind at 1.
  cbn [DescribeCreateAccountStatus asClientV2 awsClientV2_DescribeCreateAccountStatus
       organizations_Client_DescribeCreateAccountStatus orgClient newClientV2
       sdkOrganizations].
  unfold providerCall at 1. rewrite Hans. cbn [fst snd deref].
  rewrite bind_ret_l, Hcas. cbn [deref]. rewrite bind_ret_l.
  assert (Hw : tickAws (emit (EvDescribeCreateAccountStatus input) w)
               = advance [EvDescribeCreateAccountStatus input] 1 w).
  { apply world_ext; wsimpl; try reflexivity; lia. }
  rewrite Hw.
  destruct (decide (CreateAccountStatus_State cas = "FAILED")) as [_|_].
  - rewrite createFailureError_table. reflexivity.
  - destruct (decide (CreateAccountStatus_State cas <> "IN_PROGRESS")) as [_|_];
      [reflexivity|].
    unfold Sleep, bind at 1, modify at 1. rewrite ten_seconds.
    apply f_equal. apply world_ext; wsimpl; rewrite <- ?app_assoc; reflexivity.
Qed.

(** [k] rounds that find the creation in progress. *)
Lemma pollCreateAccountStatus_waits input k :
  forall fuel w,
    (forall j, j < k ->
       exists out cas, pollFinds env (awsCalls w + j) input out cas
                       /\ CreateAccountStatus_State cas = "IN_PROGRESS") ->
    account.pollCreateAccountStatus client input (k + fuel) w
    = account.pollCreateAccountStatus client input fuel
        (advance (pollEvents input k) k w).
Proof.
  induction k as [|k IH]; intros fuel w Hwait.
  - cbn [pollEvents replicate concat Nat.add]. now rewrite advance_nil.
  - destruct (Hwait 0 ltac:(lia)) as (out & cas & Hfinds & Hstate).
    rewrite Nat.add_0_r in Hfinds.
    change (S k + fuel) with (S (k + fuel)).
    rewrite (pollCreateAccountStatus_step input (k + fuel) w out cas Hfinds), Hstate.
    cbn [decide]. rewrite decide_False by discriminate.
    rewrite decide_False by (intros H; now apply H).
    rewrite IH.
    2:{ intros j Hj. wsimpl.
        replace (awsCalls w + 1 + j) with (awsCalls w + S j) by lia.
        apply Hwait. lia. }
    rewrite advance_advance, pollEvents_S.
    now replace (1 + k) with (S k) by lia.
Qed.

(** The call that asks for the creation. *)
Lemma CreateAccount_run input w :
  CreateAccount client input w
  = (Val (createAccountAnswer env (awsCalls w) input),
     advance [EvCreateAccount input] 1 w).
Proof.
  unfold client.
  cbn [CreateAccount asClientV2 awsClientV2_CreateAccount
       organizations_Client_CreateAccount orgClient newClientV2 sdkOrganizations].
  unfold providerCall. apply f_equal.
  apply world_ext; wsimpl; try reflexivity; lia.
Qed.

Lemma createAccountError_table code :
  (if decide (code = "ConcurrentModificationException")
   then ErrAwsConcurrentModification
   else if decide (code = "ConstraintViolationException")
   then ErrAwsAccountLimitExceeded
   else if decide (code = "ServiceException")
   then ErrAwsInternalFailure
   else if decide (code = "TooManyRequestsException")
   then ErrAwsTooManyRequests
   else ErrAwsFailedCreateAccount)
  = createAccountError code.
Proof.
  unfold createAccountError.
  destruct (decide (code = "ConcurrentModificationException")) as [->|H1];
    [reflexivity|].
  destruct (decide (code = "ConstraintViolationException")) as [->|H2];
    [reflexivity|].
  destruct (decide (code = "ServiceException")) as [->|H3]; [reflexivity|].
  destruct (decide (code = "TooManyRequestsException")) as [->|H4]; [reflexivity|].
  repeat case_match; try reflexivity; subst; contradiction.
Qed.

(** The poll settles after [k] rounds. *)
Lemma CreateAccountV2_settles
    (accountName accountEmail : string) (fuel k : nat) (w : World)
    (created out : organizations_CreateAccountOutput)
    (request cas : organizations_CreateAccountStatus) :
  let input :=
    {| CreateAccountRequestId := CreateAccountStatus_Id request |} in
  createAccountAnswer env (awsCalls w)
    {| AccountName := Some accountName; Email := Some accountEmail |}
  = (Some created, None) ->
  CreateAccountStatus created = Some request ->
  k < fuel ->
  (forall j, j < k ->
     exists out cas, pollFinds env (awsCalls w + 1 + j) input out cas
                     /\ CreateAccountStatus_State cas = "IN_PROGRESS") ->
  pollFinds env (awsCalls w + 1 + k) input out cas ->
  CreateAccountStatus_State cas <> "IN_PROGRESS" ->
  account.CreateAccountV2 fuel client accountName accountEmail w
  = (Val (if decide (CreateAccountStatus_State cas = "FAILED")
          then (Some account.empty_DescribeCreateAccountStatusOutput,
                Some (createFailureError (CreateAccountStatus_FailureReason cas)))
          else (Some out, None)),
     advance
       ([EvCreateAccount {| AccountName := Some accountName;
                            Email := Some accountEmail |}]
        ++ pollEvents input k ++ [EvDescribeCreateAccountStatus input])
       (k + 2) w).
Proof.
  intros input Hcreate Hrequest Hfuel Hwait Hfinds Hsettled.
  unfold account.CreateAccountV2.
  erewrite run_bind by apply CreateAccount_run.
  rewrite Hcreate. cbn [fst snd deref]. rewrite bind_ret_l, Hrequest.
  cbn [deref]. rewrite bind_ret_l. fold input.
  replace fuel with (k + S (fuel - S k)) by lia.
  rewrite pollCreateAccountStatus_waits by (intros j Hj; wsimpl; now apply Hwait).
  rewrite (pollCreateAccountStatus_step input _ _ out cas)
    by (wsimpl; replace (awsCalls w + 1 + k) with (awsCalls w + 1 + k) by lia;
        exact Hfinds).
  rewrite !advance_advance.
  replace (1 + (k + 1)) with (k + 2) by lia.
  destruct (decide (CreateAccountStatus_State cas = "FAILED")); [reflexivity|].
  rewrite decide_True by exact Hsettled. reflexivity.
Qed.

(** X1. [CreateAccountV2] polls the status of the request it made until the
    creation is no longer in progress.  When the provider accepts the request
    and the first [k] polls find the creation in progress, and the next poll
    finds it in another state, [CreateAccountV2] has made [k + 1] polls, all
    for the request identifier the provider gave, and has slept ten seconds
    after each of the first [k].  It returns the status of the last poll,
    unless that state is [FAILED]: then it returns an empty output and the
    error that stands for the failure reason. *)
Theorem CreateAccountV2_polls_until_settled
    (accountName accountEmail : string) (fuel k : nat) (w : World)
    (created out : organizations_CreateAccountOutput)
    (request cas : organizations_CreateAccountStatus) :
  let input :=
    {| CreateAccountRequestId := CreateAccountStatus_Id request |} in
  createAccountAnswer env (awsCalls w)
    {| AccountName := Some accountName; Email := Some accountEmail |}
  = (Some created, None) ->
  CreateAccountStatus created = Some request ->
  k < fuel ->
  (forall j, j < k ->
     exists out cas, pollFinds env (awsCalls w + 1 + j) input out cas
                     /\ CreateAccountStatus_State cas = "IN_PROGRESS") ->
  pollFinds env (awsCalls w + 1 + k) input out cas ->
  CreateAccountStatus_State cas <> "IN_PROGRESS" ->
  account.CreateAccountV2 fuel client accountName accountEmail w
  = (Val (if decide (CreateAccountStatus_State cas = "FAILED")
          then (Some account.empty_DescribeCreateAccountStatusOutput,
                Some (createFailureError (CreateAccountStatus_FailureReason cas)))
          else (Some out, None)),
     advance
       ([EvCreateAccount {| AccountName := Some accountName;
                            Email := Some accountEmail |}]
        ++ pollEvents input k ++ [EvDescribeCreateAccountStatus input])
       (k + 2) w).
Proof.
  intros input. apply CreateAccountV2_settles.
Qed.

(** The call that asks for the creation fails. *)
Lemma CreateAccountV2_rejected (accountName accountEmail : string) (fuel : nat)
    (w : World) failed err :
  let createInput :=
    {| AccountName := Some accountName; Email := Some accountEmail |} in
  createAccountAnswer env (awsCalls w) createInput = (failed, Some err) ->
  account.CreateAccountV2 fuel client accountName accountEmail w
  = (Val (Some account.empty_DescribeCreateAccountStatusOutput,
          match err with
          | OperationError code => Some (createAccountError code)
          | _ => None
          end),
     advance [EvCreateAccount createInput] 1 w).
Proof.
  intros createInput Hcreate. unfold account.CreateAccountV2.
  erewrite run_bind by apply CreateAccount_run.
  fold createInput. rewrite Hcreate. cbn [fst snd].
  destruct err; try reflexivity.
  now rewrite createAccountError_table.
Qed.

(** X2. The errors of [CreateAccountV2].  An operation error of the call that
    asks for the creation is turned into one of the operator's errors and
    nothing is polled.  Any other error of that call is lost: the function
    returns an empty output and no error.  An error of a poll is returned as
    it is, with an empty output, and ends the polling. *)
Theorem CreateAccountV2_errors
    (accountName accountEmail : string) (fuel : nat) (w : World) :
  let createInput :=
    {| AccountName := Some accountName; Email := Some accountEmail |} in
  (forall failed err,
      createAccountAnswer env (awsCalls w) createInput = (failed, Some err) ->
      account.CreateAccountV2 fuel client accountName accountEmail w
      = (Val (Some account.empty_DescribeCreateAccountStatusOutput,
              match err with
              | OperationError code => Some (createAccountError code)
              | _ => None
              end),
         advance [EvCreateAccount createInput] 1 w))
  /\ (forall created request k failed err,
        let input :=
          {| CreateAccountRequestId := CreateAccountStatus_Id request |} in
        createAccountAnswer env (awsCalls w) createInput = (Some created, None) ->
        CreateAccountStatus created = Some request ->
        k < fuel ->
        (forall j, j < k ->
           exists out cas, pollFinds env (awsCalls w + 1 + j) input out cas
                           /\ CreateAccountStatus_State cas = "IN_PROGRESS") ->
        describeCreateAccountStatusAnswer env (awsCalls w + 1 + k) input
        = (failed, Some err) ->
        account.CreateAccountV2 fuel client accountName accountEmail w
        = (Val (Some account.empty_DescribeCreateAccountStatusOutput, Some err),
           advance
             ([EvCreateAccount createInput]
              ++ pollEvents input k ++ [EvDescribeCreateAccountStatus input])
             (k + 2) w)).
Proof.
  intros createInput. split.
  - intros failed err. apply CreateAccountV2_rejected.
  - intros created request k failed err input Hcreate Hrequest Hfuel Hwait Hfail.
    unfold account.CreateAccountV2.
    erewrite run_bind by apply CreateAccount_run.
    fold createInput. rewrite Hcreate. cbn [fst snd deref].
    rewrite bind_ret_l, Hrequest. cbn [deref]. rewrite bind_ret_l. fold input.
    replace fuel with (k + S (fuel - S k)) by lia.
    rewrite pollCreateAccountStatus_waits by (intros j Hj; wsimpl; now apply Hwait).
    unfold client. cbn [account.pollCreateAccountStatus]. unfold bind at 1.
    cbn [DescribeCreateAccountStatus asClientV2
         awsClientV2_DescribeCreateAccountStatus
         organizations_Client_DescribeCreateAccountStatus orgClient newClientV2
         sdkOrganizations].
    unfold providerCall at 1. wsimpl. rewrite Hfail. cbn [fst snd]. unfold ret.
    apply f_equal. apply world_ext; wsimpl; rewrite <- ?app_assoc;
      try reflexivity; lia.
Qed.

(** A read of the control plane returns, whatever it finds, and writes
    nothing. *)
Lemma Get_returns key w :
  exists o w',
    k8s.Get env key w = (Val o, w')
    /\ trace w' = (trace w ++ [EvGet key])%list
    /\ accounts w' = accounts w /\ claims w' = claims w
    /\ awsCalls w' = awsCalls w /\ k8sCalls w' = S (k8sCalls w).
Proof.
  destruct (k8sAnswer env (k8sCalls w)) as [e|] eqn:Hk.
  - rewrite (Get_injected env key w e Hk). eexists _, _. split; [reflexivity|].
    wsimpl. repeat split.
  - destruct (accounts w !! key) as [stored|] eqn:Hs.
    + rewrite (Get_found env key w stored Hk Hs). eexists _, _.
      split; [reflexivity|]. wsimpl. repeat split.
    + rewrite (Get_missing env key w Hk Hs). eexists _, _.
      split; [reflexivity|]. wsimpl. repeat split.
Qed.

(** X3. An error of the call that asks for the creation that is not an operation
    error is lost in [CreateAccountV2], and [BuildAccountV2], which is told of
    no error, reads the account again and then dereferences the status of an
    empty output: it panics.  Nothing has been written by then. *)
Theorem BuildAccountV2_panics_on_lost_error (fuel : nat) (w : World)
    (failed : option organizations_CreateAccountOutput) (err : error) :
  let createInput :=
    {| AccountName := Some (Name (Meta (current w)));
       Email := Some (formatAccountEmail env (Name (Meta (current w)))) |} in
  createAccountAnswer env (awsCalls w) createInput = (failed, Some err) ->
  isOperationError err = false ->
  exists w',
    account.BuildAccountV2 env fuel client w
    = (Panic "nil pointer dereference: orgOutput.CreateAccountStatus", w')
    /\ trace w'
       = (trace w ++ [EvCreateAccount createInput;
                      EvGet (ObjectKeyFromObject (current w))])%list
    /\ accounts w' = accounts w.
Proof.
  intros createInput Hcreate Hplain.
  pose proof (CreateAccountV2_rejected (Name (Meta (current w)))
                (formatAccountEmail env (Name (Meta (current w)))) fuel w
                failed err Hcreate) as Herr.
  fold createInput in Herr.
  assert (Hlost : match err with
                  | OperationError code => Some (createAccountError code)
                  | _ => None
                  end = None) by (destruct err; try reflexivity; discriminate).
  rewrite Hlost in Herr. clear Hlost.
  destruct (Get_returns (ObjectKeyFromObject (current w))
              (advance [EvCreateAccount createInput] 1 w))
    as (o & w' & Hget & Ht & Ha & _).
  exists w'. split.
  - unfold account.BuildAccountV2, account.currentAccount.
    erewrite run_bind by reflexivity. cbv beta zeta.
    erewrite run_bind by exact Herr. cbn [fst snd].
    erewrite run_bind by reflexivity. cbv beta.
    erewrite run_bind by exact Hget. reflexivity.
  - rewrite Ht, Ha. wsimpl. rewrite <- app_assoc. split; reflexivity.
Qed.

Lemma key_SetAccountStatus message ctype state a :
  ObjectKeyFromObject (SetAccountStatus message ctype state a)
  = ObjectKeyFromObject a.
Proof. reflexivity. Qed.

(** X4. [BuildAccountV2] marks the account failed only when the creation itself
    failed.  When the call that asks for the creation is refused because of
    a limit, a conflict, throttling or a failure of the service, the error is
    returned and the control plane is not called: the account stays as it
    is.  For any other operation error the condition
    [AccountCreationFailed] with the message [Failed to create AWS Account]
    is set and the state [Failed] is written to the account's status; the
    creation error is returned, or the error of the status update if that
    fails. *)
Theorem BuildAccountV2_marks_failed_only_when_creation_failed (fuel : nat)
    (w : World) (failed : option organizations_CreateAccountOutput)
    (code : string) :
  let createInput :=
    {| AccountName := Some (Name (Meta (current w)));
       Email := Some (formatAccountEmail env (Name (Meta (current w)))) |} in
  let failedAccount :=
    SetAccountStatus "Failed to create AWS Account" ConditionCreationFailed
      AccountFailed (current w) in
  createAccountAnswer env (awsCalls w) createInput
  = (failed, Some (OperationError code)) ->
  (createAccountError code <> ErrAwsFailedCreateAccount ->
   account.BuildAccountV2 env fuel client w
   = (Val ("", Some (createAccountError code)),
      advance [EvCreateAccount createInput] 1 w))
  /\ (createAccountError code = ErrAwsFailedCreateAccount ->
      (forall e,
          k8sAnswer env (k8sCalls w) = Some e ->
          exists w',
            account.BuildAccountV2 env fuel client w = (Val ("", Some e), w')
            /\ accounts w' = accounts w)
      /\ (forall stored,
             k8sAnswer env (k8sCalls w) = None ->
             accounts w !! ObjectKeyFromObject (current w) = Some stored ->
             DeletionTimestamp (Meta stored) = None
             \/ Finalizers (Meta stored) <> [] ->
             exists w',
               account.BuildAccountV2 env fuel client w
               = (Val ("", Some ErrAwsFailedCreateAccount), w')
               /\ accounts w' !! ObjectKeyFromObject (current w)
                  = Some {| Meta := Meta stored; Spec := Spec stored;
                            Status := Status failedAccount |}
               /\ State (Status failedAccount) = "Failed"
               /\ List.filter isWrite (trace w')
                  = (List.filter isWrite (trace w)
                     ++ [EvStatusUpdate failedAccount])%list)).
Proof.
  intros createInput failedAccount Hcreate.
  pose proof (CreateAccountV2_rejected (Name (Meta (current w)))
                (formatAccountEmail env (Name (Meta (current w)))) fuel w
                failed _ Hcreate) as Herr.
  fold createInput in Herr. cbv beta iota in Herr.
  assert (Hbuild : account.BuildAccountV2 env fuel client w
                   = (if decide (createAccountError code = ErrAwsFailedCreateAccount)
                      then
                        account.assign
                          (SetAccountStatus "Failed to create AWS Account"
                             ConditionCreationFailed AccountFailed) ;;;
                        err <- account.statusUpdate env ;;
                        match err with
                        | Some e => ret ("", Some e)
                        | None => ret ("", Some (createAccountError code))
                        end
                      else ret ("", Some (createAccountError code)))
                       (advance [EvCreateAccount createInput] 1 w)).
  { unfold account.BuildAccountV2, account.currentAccount.
    erewrite run_bind by reflexivity. cbv beta zeta.
    erewrite run_bind by exact Herr. reflexivity. }
  rewrite Hbuild. clear Hbuild. split.
  - intros Hother. now rewrite decide_False by exact Hother.
  - intros Hfailed. rewrite decide_True by exact Hfailed. rewrite Hfailed.
    unfold account.assign, account.statusUpdate.
    erewrite run_bind by reflexivity. cbv beta.
    set (w1 := set_current _ _).
    assert (Hcur : current w1 = failedAccount) by reflexivity.
    split.
    + intros e He.
      erewrite run_bind by (apply StatusUpdate_injected; exact He).
      eexists. split; [reflexivity|]. reflexivity.
    + intros stored Hk Hstored Hlive.
      erewrite run_bind.
      2:{ apply (StatusUpdate_stored env w1 stored); [exact Hk| |exact Hlive].
          rewrite Hcur. exact Hstored. }
      cbv beta iota zeta. rewrite Hcur.
      eexists. split; [reflexivity|].
      split; [wsimpl; subst failedAccount; rewrite key_SetAccountStatus;
              apply lookup_insert_eq|].
      split; [reflexivity|].
      subst w1. wsimpl. rewrite !List.filter_app. cbn [List.filter isWrite].
      now rewrite app_nil_r.
Qed.

(** An update of a stored object that is not on its way out. *)
Lemma Update_live w stored :
  k8sAnswer env (k8sCalls w) = None ->
  accounts w !! ObjectKeyFromObject (current w) = Some stored ->
  DeletionTimestamp (Meta (current w)) = None ->
  let obj := {| Meta := Meta (current w); Spec := Spec (current w);
                Status := Status stored |} in
  k8s.Update env w
  = (Val None,
     set_current obj
       (set_accounts (<[ObjectKeyFromObject (current w) := obj]> (accounts w))
          (tickK8s (emit (EvUpdate (current w)) w)))).
Proof.
  intros H Hs Hlive obj.
  unfold k8s.Update, k8s.controlPlaneCall, k8s.storeAccount, bind, get, modify, ret.
  rewrite H, Hs. wsimpl. cbn [Meta DeletionTimestamp Finalizers].
  now rewrite Hlive.
Qed.

Lemma TagAccountV2_run awsAccountID shard w :
  exists o,
    account.TagAccountV2 client awsAccountID shard w
    = (Val o,
       advance [EvTagResource {| ResourceId := Some awsAccountID;
                                 Tags := [(Some "owner", Some shard)] |}] 1 w).
Proof.
  unfold account.TagAccountV2, client.
  cbn [TagResource asClientV2 awsClientV2_TagResource
       organizations_Client_TagResource orgClient newClientV2 sdkOrganizations].
  unfold bind, providerCall.
  assert (Hw : forall e, tickAws (emit e w) = advance [e] 1 w).
  { intros e. apply world_ext; wsimpl; try reflexivity; lia. }
  destruct (tagResourceAnswer env (awsCalls w) _); eexists; unfold ret;
    rewrite Hw; reflexivity.
Qed.

(** What [nonCCSAssignAccountIDV2] does once it has an account identifier:
    the state [Creating] is written to the status, the identifier to the
    spec; the tagging of the account between the two is made whatever it
    comes to. *)
Lemma assignAccountID_run (r : account.AccountReconcilerV2)
    (awsAccountID : string) (dev : bool) (w : World) (stored : Account) :
  k8sAnswer env (k8sCalls w) = None ->
  k8sAnswer env (S (k8sCalls w)) = None ->
  accounts w !! ObjectKeyFromObject (current w) = Some stored ->
  ObjectKeyFromObject stored = ObjectKeyFromObject (current w) ->
  DeletionTimestamp (Meta stored) = None ->
  exists w' after,
    (account.assign
       (SetAccountStatus AccountCreating ConditionCreating AccountCreating) ;;;
     err <- account.statusUpdate env ;;
     match err with
     | Some e => ret (Some e)
     | None =>
         (if dev then account.assign (set_SupportCaseID "11111111") else ret tt) ;;;
         account.assign (set_AwsAccountID awsAccountID) ;;;
         account.TagAccountV2 client awsAccountID (account.shardName r) ;;;
         account.accountSpecUpdate env
     end) w
    = (Val None, w')
    /\ trace w'
       = (trace w
          ++ [EvStatusUpdate
                (SetAccountStatus AccountCreating ConditionCreating
                   AccountCreating (current w));
              EvTagResource {| ResourceId := Some awsAccountID;
                               Tags := [(Some "owner",
                                         Some (account.shardName r))] |};
              EvUpdate after])%list
    /\ accounts w' !! ObjectKeyFromObject (current w)
       = Some (set_AwsAccountID awsAccountID
                 {| Meta := Meta stored; Spec := Spec stored;
                    Status :=
                      Status (SetAccountStatus AccountCreating ConditionCreating
                                AccountCreating (current w)) |})
    /\ Spec after = Spec (set_AwsAccountID awsAccountID stored)
    /\ Meta after = Meta stored
    /\ awsCalls w' = awsCalls w + 1.
Proof.
  intros Hk0 Hk1 Hstored Hkey Hlive.
  unfold account.assign, account.statusUpdate.
  erewrite run_bind by reflexivity. cbv beta.
  set (w1 := set_current _ w).
  erewrite run_bind.
  2:{ apply (StatusUpdate_stored env w1 stored); [exact Hk0|exact Hstored|].
      left. exact Hlive. }
  cbv beta iota zeta.
  set (obj := {| Meta := Meta stored; Spec := Spec stored;
                 Status := Status (current w1) |}).
  set (w2 := set_current obj _).
  assert (Hdev : exists cur,
             ((if dev then
                 modify (fun w => set_current (set_SupportCaseID "11111111" (current w)) w)
               else ret tt) ;;;
              modify (fun w => set_current (set_AwsAccountID awsAccountID (current w)) w) ;;;
              account.TagAccountV2 client awsAccountID (account.shardName r) ;;;
              account.accountSpecUpdate env) w2
             = (account.TagAccountV2 client awsAccountID (account.shardName r) ;;;
                account.accountSpecUpdate env) (set_current cur w2)
             /\ Spec cur = Spec (set_AwsAccountID awsAccountID stored)
             /\ Meta cur = Meta stored).
  { destruct dev; eexists; (split; [reflexivity|]); split; reflexivity. }
  destruct Hdev as (cur & Hdev & Hspec & Hmeta).
  rewrite Hdev. clear Hdev.
  destruct (TagAccountV2_run awsAccountID (account.shardName r) (set_current cur w2))
    as (o & Htag).
  erewrite run_bind by exact Htag.
  set (w3 := advance _ 1 _). unfold account.accountSpecUpdate.
  erewrite run_bind.
  2:{ apply (Update_live w3 obj).
      - exact Hk1.
      - subst w3 w2 w1. wsimpl.
        assert (Hk : ObjectKeyFromObject cur = ObjectKeyFromObject (current w)).
        { unfold ObjectKeyFromObject. rewrite Hmeta. exact Hkey. }
        rewrite Hk. apply lookup_insert_eq.
      - subst w3. wsimpl. rewrite Hmeta. exact Hlive. }
  cbv beta iota zeta.
  eexists _, cur. split; [reflexivity|].
  assert (Hk : ObjectKeyFromObject cur = ObjectKeyFromObject (current w)).
  { unfold ObjectKeyFromObject. rewrite Hmeta. exact Hkey. }
  subst w3 w2 w1. wsimpl. rewrite Hk, insert_insert_eq, lookup_insert_eq.
  split; [now rewrite <- !app_assoc|].
  split; [|split; [exact Hspec|split; [exact Hmeta|reflexivity]]].
  apply f_equal. destruct cur as [m s st]. cbn in Hspec, Hmeta |- *.
  now subst.
Qed.

(** X5. Outside production [nonCCSAssignAccountIDV2] asks the provider for no
    account: the identifier is the fixed one of development mode.  The state
    [Creating] is written to the status and the identifier to the spec; the
    account of that identifier is tagged with the shard's name, and the
    outcome of the tagging, an error too, changes nothing. *)
Theorem nonCCSAssignAccountIDV2_development_mode (fuel : nat)
    (r : account.AccountReconcilerV2) (w : World) (stored : Account) :
  DetectDevMode env <> DevModeProduction ->
  k8sAnswer env (k8sCalls w) = None ->
  k8sAnswer env (S (k8sCalls w)) = None ->
  accounts w !! ObjectKeyFromObject (current w) = Some stored ->
  ObjectKeyFromObject stored = ObjectKeyFromObject (current w) ->
  DeletionTimestamp (Meta stored) = None ->
  exists w' after,
    account.nonCCSAssignAccountIDV2 env fuel r client w = (Val None, w')
    /\ trace w'
       = (trace w
          ++ [EvStatusUpdate
                (SetAccountStatus AccountCreating ConditionCreating
                   AccountCreating (current w));
              EvTagResource {| ResourceId := Some "123456789012";
                               Tags := [(Some "owner",
                                         Some (account.shardName r))] |};
              EvUpdate after])%list
    /\ accounts w' !! ObjectKeyFromObject (current w)
       = Some (set_AwsAccountID "123456789012"
                 {| Meta := Meta stored; Spec := Spec stored;
                    Status :=
                      Status (SetAccountStatus AccountCreating ConditionCreating
                                AccountCreating (current w)) |})
    /\ AwsAccountID (Spec after) = "123456789012".
Proof.
  intros Hmode Hk0 Hk1 Hstored Hkey Hlive.
  destruct (assignAccountID_run r "123456789012" true w stored
              Hk0 Hk1 Hstored Hkey Hlive)
    as (w' & after & Hrun & Ht & Ha & Hspec & _).
  exists w', after. split; [|split; [exact Ht|split; [exact Ha|now rewrite Hspec]]].
  unfold account.nonCCSAssignAccountIDV2.
  destruct (DetectDevMode env); [contradiction|exact Hrun|exact Hrun].
Qed.

(** [BuildAccountV2] when the creation settles in a state that is not a
    failure: the account is read again and the identifier of the last status
    is returned. *)
Lemma BuildAccountV2_created (fuel k : nat) (w : World)
    (created out : organizations_CreateAccountOutput)
    (request cas : organizations_CreateAccountStatus)
    (stored : Account) (awsAccountID : string) :
  let createInput :=
    {| AccountName := Some (Name (Meta (current w)));
       Email := Some (formatAccountEmail env (Name (Meta (current w)))) |} in
  let input :=
    {| CreateAccountRequestId := CreateAccountStatus_Id request |} in
  createAccountAnswer env (awsCalls w) createInput = (Some created, None) ->
  CreateAccountStatus created = Some request ->
  k < fuel ->
  (forall j, j < k ->
     exists out cas, pollFinds env (awsCalls w + 1 + j) input out cas
                     /\ CreateAccountStatus_State cas = "IN_PROGRESS") ->
  pollFinds env (awsCalls w + 1 + k) input out cas ->
  CreateAccountStatus_State cas <> "IN_PROGRESS" ->
  CreateAccountStatus_State cas <> "FAILED" ->
  CreateAccountStatus_AccountId cas = Some awsAccountID ->
  k8sAnswer env (k8sCalls w) = None ->
  accounts w !! ObjectKeyFromObject (current w) = Some stored ->
  account.BuildAccountV2 env fuel client w
  = (Val (awsAccountID, None),
     set_current stored
       (tickK8s
          (emit (EvGet (ObjectKeyFromObject (current w)))
             (advance
                ([EvCreateAccount createInput]
                 ++ pollEvents input k ++ [EvDescribeCreateAccountStatus input])
                (k + 2) w)))).
Proof.
  intros createInput input Hcreate Hrequest Hfuel Hwait Hfinds Hsettled Hok Hid
    Hk Hstored.
  pose proof (CreateAccountV2_settles (Name (Meta (current w)))
                (formatAccountEmail env (Name (Meta (current w)))) fuel k w
                created out request cas Hcreate Hrequest Hfuel Hwait Hfinds
                Hsettled) as Hrun.
  rewrite decide_False in Hrun by exact Hok. fold createInput input in Hrun.
  unfold account.BuildAccountV2, account.currentAccount.
  erewrite run_bind by reflexivity. cbv beta zeta.
  erewrite run_bind by exact Hrun. cbn [fst snd].
  erewrite run_bind by reflexivity. cbv beta.
  erewrite run_bind by (apply Get_found; wsimpl; eassumption).
  destruct Hfinds as [_ Hcas].
  cbn [deref]. rewrite bind_ret_l, Hcas. cbn [deref]. rewrite bind_ret_l, Hid.
  reflexivity.
Qed.

(** X6. In production [nonCCSAssignAccountIDV2] assigns the identifier of the
    account the provider created.  When the creation settles after [k] polls
    in a state that is not a failure, and the control plane accepts what is
    written, the account is read again, the state [Creating] is written to
    the status of what was read, the account of the new identifier is tagged
    with the shard's name, and the identifier is written to the spec. *)
Theorem nonCCSAssignAccountIDV2_assigns_created_account (fuel k : nat)
    (r : account.AccountReconcilerV2) (w : World)
    (created out : organizations_CreateAccountOutput)
    (request cas : organizations_CreateAccountStatus)
    (stored : Account) (awsAccountID : string) :
  let createInput :=
    {| AccountName := Some (Name (Meta (current w)));
       Email := Some (formatAccountEmail env (Name (Meta (current w)))) |} in
  let input :=
    {| CreateAccountRequestId := CreateAccountStatus_Id request |} in
  let creating :=
    SetAccountStatus AccountCreating ConditionCreating AccountCreating stored in
  DetectDevMode env = DevModeProduction ->
  createAccountAnswer env (awsCalls w) createInput = (Some created, None) ->
  CreateAccountStatus created = Some request ->
  k < fuel ->
  (forall j, j < k ->
     exists out cas, pollFinds env (awsCalls w + 1 + j) input out cas
                     /\ CreateAccountStatus_State cas = "IN_PROGRESS") ->
  pollFinds env (awsCalls w + 1 + k) input out cas ->
  CreateAccountStatus_State cas <> "IN_PROGRESS" ->
  CreateAccountStatus_State cas <> "FAILED" ->
  CreateAccountStatus_AccountId cas = Some awsAccountID ->
  (forall i, i < 3 -> k8sAnswer env (k8sCalls w + i) = None) ->
  accounts w !! ObjectKeyFromObject (current w) = Some stored ->
  ObjectKeyFromObject stored = ObjectKeyFromObject (current w) ->
  DeletionTimestamp (Meta stored) = None ->
  exists w' after,
    account.nonCCSAssignAccountIDV2 env fuel r client w = (Val None, w')
    /\ trace w'
       = (trace w
          ++ [EvCreateAccount createInput]
          ++ pollEvents input k
          ++ [EvDescribeCreateAccountStatus input;
              EvGet (ObjectKeyFromObject (current w));
              EvStatusUpdate creating;
              EvTagResource {| ResourceId := Some awsAccountID;
                               Tags := [(Some "owner",
                                         Some (account.shardName r))] |};
              EvUpdate after])%list
    /\ accounts w' !! ObjectKeyFromObject (current w)
       = Some (set_AwsAccountID awsAccountID creating)
    /\ AwsAccountID (Spec after) = awsAccountID.
Proof.
  intros createInput input creating Hmode Hcreate Hrequest Hfuel Hwait Hfinds
    Hsettled Hok Hid Hk8s Hstored Hkey Hlive.
  pose proof (BuildAccountV2_created fuel k w created out request cas stored
                awsAccountID Hcreate Hrequest Hfuel Hwait Hfinds Hsettled Hok Hid)
    as Hbuild.
  rewrite <- (Nat.add_0_r (k8sCalls w)) in Hbuild at 1.
  specialize (Hbuild (Hk8s 0 ltac:(lia)) Hstored).
  fold createInput input in Hbuild.
  set (w1 := set_current stored _) in Hbuild.
  destruct (assignAccountID_run r awsAccountID false w1 stored)
    as (w' & after & Hrun & Ht & Ha & Hspec & _).
  { subst w1. wsimpl. replace (S (k8sCalls w)) with (k8sCalls w + 1) by lia.
    apply Hk8s. lia. }
  { subst w1. wsimpl. replace (S (S (k8sCalls w))) with (k8sCalls w + 2) by lia.
    apply Hk8s. lia. }
  { subst w1. wsimpl. rewrite Hkey. exact Hstored. }
  { reflexivity. }
  { exact Hlive. }
  exists w', after. split; [|split; [|split]].
  - unfold account.nonCCSAssignAccountIDV2. rewrite Hmode.
    erewrite run_bind by exact Hbuild. exact Hrun.
  - rewrite Ht. subst w1. wsimpl. now rewrite <- !app_assoc.
  - change (current w1) with stored in Ha. rewrite <- Hkey. exact Ha.
  - now rewrite Hspec.
Qed.

End AccountCreation.

(** ** Edges of the reconciliation of an account *)
Section ReconcileEdges.
Import awsclient utils.
Context (env : Environment) (fuel : nat) (shard : string).

Let r : account.AccountReconcilerV2 :=
  {| account.awsClientBuilder := scriptedBuilder env;
     account.shardName := shard |}.

Ltac wsimpl :=
  cbn [trace awsCalls k8sCalls accounts claims configMap current
       emit tickK8s tickAws set_current set_accounts set_claims emitAll advance
       afterPrelude fst snd].

(** X7. [Reconcile] on a request whose account is gone.  A control plane that
    does not hold the account, or that answers the read with a not-found
    error, ends the reconciliation without an error; any other error of the
    read is returned.  In each case the read is all that happens: the config
    map is not read, no client is built, nothing is written. *)
Theorem Reconcile_account_gone (request : NamespacedName) (w : World) :
  (k8sAnswer env (k8sCalls w) = None ->
   accounts w !! request = None ->
   account.Reconcile env fuel r request w
   = (Val (account.emptyResult, None),
      tickK8s (emit (EvGet request) (set_current emptyAccount w))))
  /\ (forall e,
        k8sAnswer env (k8sCalls w) = Some e ->
        account.Reconcile env fuel r request w
        = (Val (account.emptyResult, if IsNotFound e then None else Some e),
           tickK8s (emit (EvGet request) (set_current emptyAccount w)))).
Proof.
  split.
  - intros Hk Hgone. unfold account.Reconcile.
    erewrite run_bind by reflexivity. cbv beta.
    erewrite run_bind by (apply Get_missing; wsimpl; assumption).
    reflexivity.
  - intros e Hk. unfold account.Reconcile.
    erewrite run_bind by reflexivity. cbv beta.
    erewrite run_bind by (apply Get_injected; wsimpl; exact Hk).
    cbv beta iota. now destruct (IsNotFound e).
Qed.

Lemma live_not_pending a :
  IsPendingDeletion a = false -> DeletionTimestamp (Meta a) = None.
Proof.
  unfold IsPendingDeletion. intros H. apply bool_decide_eq_false in H.
  destruct (DeletionTimestamp (Meta a)); [now destruct H | reflexivity].
Qed.

(** The prelude of [Reconcile] with a control plane that accepts what the
    prelude asks of it. *)
Lemma Reconcile_after_prelude request w a data :
  accounts w !! request = Some a ->
  ObjectKeyFromObject a = request ->
  configMap w = Some data ->
  getClientAnswer env (operatorClientInput env) = None ->
  (forall i, i < 3 -> k8sAnswer env (k8sCalls w + i) = None) ->
  account.Reconcile env fuel r request w
  = account.reconcileAccount env fuel r request data
      (optInFeatureEnabled env data) (optInRegionsOf data)
      (asClientV2 (newClientV2 env)) (afterPrelude env request a w).
Proof.
  intros Hstored Hkey Hdata Hclient Hk8s. subst r.
  apply Reconcile_prelude; try assumption.
  - rewrite <- (Nat.add_0_r (k8sCalls w)). apply Hk8s. lia.
  - rewrite <- Nat.add_1_r. apply Hk8s. lia.
  - intros _. replace (S (S (k8sCalls w))) with (k8sCalls w + 2) by lia.
    apply Hk8s. lia.
Qed.

(** What follows the set-up of an account: the stub of the region
    enablement, or the look-up of the AMI owner and, for an account that is
    ready for it, the initialization. *)
Lemma reconcileAccount_tail request data flag regions awsSetupClient w :
  (currentAcctInstance <- account.currentAccount ;;
   if (ReadyForRegionEnablement env currentAcctInstance
       || IsEnablingOptInRegions env currentAcctInstance)
      && flag && bool_decide (regions <> "") then
     account.handleOptInRegionEnablementV2 awsSetupClient regions
   else
     match lookupData "ami-owner" data with
     | None => ret (account.emptyResult, Some ErrInvalidConfigMap)
     | Some amiOwner =>
         currentAcctInstance <- account.currentAccount ;;
         if ReadyForInitialization env currentAcctInstance then
           account.initializeAccount env request awsSetupClient amiOwner
         else ret (account.emptyResult, None)
     end) w
  = (if (ReadyForRegionEnablement env (current w)
         || IsEnablingOptInRegions env (current w))
        && flag && bool_decide (regions <> "") then
       account.handleOptInRegionEnablementV2 awsSetupClient regions
     else
       match lookupData "ami-owner" data with
       | None => ret (account.emptyResult, Some ErrInvalidConfigMap)
       | Some amiOwner =>
           if ReadyForInitialization env (current w) then
             account.initializeAccount env request awsSetupClient amiOwner
           else ret (account.emptyResult, None)
       end) w.
Proof.
  unfold account.currentAccount.
  erewrite run_bind by reflexivity. cbv beta.
  destruct (_ && _ && _); [reflexivity|].
  destruct (lookupData "ami-owner" data); [|reflexivity].
  erewrite run_bind by reflexivity. reflexivity.
Qed.

(** The initialization asks nothing of the provider: what is left of it
    reads the claim and writes the account. *)
Lemma initializeAccount_emits request awsSetupClient amiOwner :
  emitsOnly notProviderCall
    (account.initializeAccount env request awsSetupClient amiOwner).
Proof.
  unfold account.initializeAccount, account.currentAccount, account.getAccountClaim,
    account.getSTSClientV2, account.handleIAMUserCreationV2,
    account.initializeRegionsV2, account.assign, account.statusUpdate,
    k8s.GetClaim, k8s.Update, k8s.StatusUpdate, k8s.storeAccount.
  emits.
Qed.

(** X8. Every reconciliation of a BYOC account sets its state back to
    [Creating].  [newBYOCAccountV2] reads the BYOC flag only, so a BYOC
    account that is neither pending deletion nor failed nor initializing
    regions takes the set-up path whatever its state, a ready and claimed
    account too: the condition [Creating] is set if it is not there, and the
    state [Creating] is written to the status.  The reconciliation goes on
    from the world [written], in which the control plane holds the account
    in state [Creating]: to the stub of the region enablement, or to the
    look-up of the AMI owner and, when the account is then ready for it, to
    its initialization.  What follows the write asks nothing of the
    provider, and nothing follows it when the account is not ready for
    initialization. *)
Theorem Reconcile_byoc_account_set_to_creating (request : NamespacedName)
    (w : World) (a : Account) (data : ConfigMapData) :
  let creating :=
    SetAccountStatus AccountCreating ConditionCreating AccountCreating
      (withFinalizer env a) in
  accounts w !! request = Some a ->
  ObjectKeyFromObject a = request ->
  configMap w = Some data ->
  getClientAnswer env (operatorClientInput env) = None ->
  (forall i, i < 4 -> k8sAnswer env (k8sCalls w + i) = None) ->
  BYOC (Spec a) = true ->
  IsPendingDeletion a = false ->
  IsFailed a = false ->
  IsInitializingRegions a = false ->
  State (Status creating) = "Creating"
  /\ exists written es,
       trace written
       = (trace w ++ preludeEvents env request a ++ [EvStatusUpdate creating])%list
       /\ accounts written !! request = Some creating
       /\ current written = creating
       /\ account.Reconcile env fuel r request w
          = (if (ReadyForRegionEnablement env creating
                 || IsEnablingOptInRegions env creating)
                && optInFeatureEnabled env data
                && bool_decide (optInRegionsOf data <> "") then
               account.handleOptInRegionEnablementV2 (asClientV2 (newClientV2 env))
                 (optInRegionsOf data)
             else
               match lookupData "ami-owner" data with
               | None => ret (account.emptyResult, Some ErrInvalidConfigMap)
               | Some amiOwner =>
                   if ReadyForInitialization env creating then
                     account.initializeAccount env request
                       (asClientV2 (newClientV2 env)) amiOwner
                   else ret (account.emptyResult, None)
               end) written
       /\ trace (account.Reconcile env fuel r request w).2 = (trace written ++ es)%list
       /\ forallb notProviderCall es = true
       /\ (ReadyForInitialization env creating = false ->
           (account.Reconcile env fuel r request w).2 = written
           /\ exists res, (account.Reconcile env fuel r request w).1 = Val res).
Proof.
  intros creating Hstored Hkey Hdata Hclient Hk8s Hbyoc Hlive Hfailed Hinit.
  split; [reflexivity|].
  destruct (state_predicates_withFinalizer env a)
    as (Hf & Hi & _ & _ & _ & _ & _ & Hb).
  rewrite (Reconcile_after_prelude request w a data Hstored Hkey Hdata Hclient)
    by (intros i Hi'; apply Hk8s; lia).
  unfold account.reconcileAccount, account.currentAccount.
  erewrite run_bind by reflexivity. cbv beta. wsimpl.
  rewrite IsPendingDeletion_withFinalizer, Hlive, Hf, Hfailed, Hi, Hinit.
  set (w1 := afterPrelude env request a w).
  assert (Hsetup : exists w2,
             account.setUpAccount env fuel r (asClientV2 (newClientV2 env)) w1
             = (Val None, w2)
             /\ trace w2 = (trace w1 ++ [EvStatusUpdate creating])%list
             /\ accounts w2 !! request = Some creating
             /\ current w2 = creating).
  { unfold account.setUpAccount, account.currentAccount.
    erewrite run_bind by reflexivity. cbv beta.
    change (current w1) with (withFinalizer env a).
    rewrite Hb. unfold account.newBYOCAccountV2. rewrite Hbyoc.
    unfold account.initializeNewCCSAccountV2. rewrite bind_ret_l. cbn [snd].
    unfold account.assign, account.statusUpdate.
    erewrite run_bind by reflexivity. cbv beta.
    erewrite run_bind.
    2:{ apply (StatusUpdate_stored env _ (withFinalizer env a)); subst w1; wsimpl.
        - destruct (needsFinalizer env a).
          + replace (3 + k8sCalls w) with (k8sCalls w + 3) by lia. apply Hk8s. lia.
          + replace (2 + k8sCalls w) with (k8sCalls w + 2) by lia. apply Hk8s. lia.
        - rewrite key_SetAccountStatus, key_withFinalizer, Hkey.
          now apply afterPrelude_stored.
        - left. rewrite DeletionTimestamp_withFinalizer.
          now apply live_not_pending. }
    cbv beta iota zeta. eexists. split; [reflexivity|]. subst w1. wsimpl.
    rewrite key_SetAccountStatus, key_withFinalizer, Hkey.
    split; [reflexivity|]. split; [apply lookup_insert_eq|].
    subst creating. now destruct (withFinalizer env a). }
  destruct Hsetup as (w2 & Hsetup & Ht & Ha & Hcur).
  erewrite run_bind by exact Hsetup. cbv beta iota.
  rewrite reconcileAccount_tail, Hcur.
  match goal with
  | |- exists written es, _ /\ _ /\ _ /\ ?m w2 = _ /\ _ =>
      assert (Hemits : emitsOnly notProviderCall m)
  end.
  { unfold account.handleOptInRegionEnablementV2.
    emits; apply initializeAccount_emits. }
  destruct (Hemits w2) as (es & Hes & Hquiet).
  exists w2, es.
  split; [rewrite Ht; subst w1; wsimpl; now rewrite <- app_assoc|].
  split; [exact Ha|]. split; [exact Hcur|]. split; [reflexivity|].
  split; [exact Hes|]. split; [exact Hquiet|].
  intros Hnot. rewrite Hnot.
  destruct (_ && _ && _); [split; [reflexivity|eexists; reflexivity]|].
  destruct (lookupData "ami-owner" data); split; try reflexivity;
    eexists; reflexivity.
Qed.

(** X9. A config map without the key [ami-owner] fails the reconciliation of an
    account that needs nothing done.  An account that is ready and claimed,
    not BYOC and not pending deletion, and for which no region is to be
    enabled, passes the set-up untouched; [Reconcile] then returns
    [ErrInvalidConfigMap], having done nothing after the prelude. *)
Theorem Reconcile_requires_ami_owner (request : NamespacedName) (w : World)
    (a : Account) (data : ConfigMapData) :
  accounts w !! request = Some a ->
  ObjectKeyFromObject a = request ->
  configMap w = Some data ->
  getClientAnswer env (operatorClientInput env) = None ->
  (forall i, i < 3 -> k8sAnswer env (k8sCalls w + i) = None) ->
  BYOC (Spec a) = false ->
  IsPendingDeletion a = false ->
  IsReady a = true ->
  IsClaimed a = true ->
  (ReadyForRegionEnablement env (withFinalizer env a)
   || IsEnablingOptInRegions env (withFinalizer env a))
  && optInFeatureEnabled env data && bool_decide (optInRegionsOf data <> "")
  = false ->
  lookupData "ami-owner" data = None ->
  account.Reconcile env fuel r request w
  = (Val (account.emptyResult, Some ErrInvalidConfigMap),
     afterPrelude env request a w).
Proof.
  intros Hstored Hkey Hdata Hclient Hk8s Hbyoc Hlive Hready Hclaimed Hregions Hami.
  destruct (state_predicates_withFinalizer env a)
    as (Hf & Hi & Hv & Hl & Hc & Hu & _ & Hb).
  rewrite (Reconcile_after_prelude request w a data Hstored Hkey Hdata Hclient Hk8s).
  assert (Hstate : State (Status a) = AccountReady)
    by (now apply bool_decide_eq_true in Hready).
  unfold account.reconcileAccount, account.setUpAccount, account.currentAccount.
  erewrite run_bind by reflexivity. cbv beta. wsimpl.
  rewrite IsPendingDeletion_withFinalizer, Hlive, Hf, Hi.
  unfold IsFailed, IsInitializingRegions. rewrite Hstate.
  cbn [bool_decide decide_rel]. 
  rewrite !bool_decide_eq_false_2 by discriminate.
  erewrite run_bind.
  2:{ erewrite run_bind by reflexivity. cbv beta. wsimpl.
      rewrite Hb, Hv, Hl, Hc, Hu.
      unfold account.newBYOCAccountV2, IsPendingVerification,
        IsReadyUnclaimedAndHasClaimLink, IsCreating, IsUnclaimedAndHasNoState.
      rewrite Hbyoc, Hclaimed, Hstate.
      rewrite !(bool_decide_eq_false_2 (AccountReady = _)) by discriminate.
      rewrite andb_false_r. cbn [negb andb]. reflexivity. }
  cbv beta iota.
  erewrite run_bind by reflexivity. cbv beta. wsimpl.
  rewrite Hregions, Hami. reflexivity.
Qed.

(** An update of the current account when the control plane accepts it and
    holds the object. *)
Lemma Update_run w stored :
  k8sAnswer env (k8sCalls w) = None ->
  accounts w !! ObjectKeyFromObject (current w) = Some stored ->
  let obj := {| Meta := Meta (current w); Spec := Spec (current w);
                Status := Status stored |} in
  k8s.Update env w
  = (Val None,
     set_current obj
       (set_accounts
          (match DeletionTimestamp (Meta (current w)), Finalizers (Meta (current w)) with
           | Some _, [] => delete (ObjectKeyFromObject (current w)) (accounts w)
           | _, _ => <[ObjectKeyFromObject (current w) := obj]> (accounts w)
           end)
          (tickK8s (emit (EvUpdate (current w)) w)))).
Proof.
  intros H Hs obj.
  unfold k8s.Update, k8s.controlPlaneCall, k8s.storeAccount, bind, get, modify, ret.
  rewrite H, Hs. wsimpl. cbn [Meta DeletionTimestamp Finalizers].
  destruct (DeletionTimestamp (Meta (current w))) as [t|];
    destruct (Finalizers (Meta (current w))) as [|f fs]; reflexivity.
Qed.

(** X10. The deletion of an account in manual STS mode touches nothing at the
    provider.  [Reconcile] adds no finalizer to such an account; when it is
    pending deletion the account finalizer is taken off its list and the
    account is updated, and that one update is the only write: no role is
    assumed and no clean-up is run.  The outcome of the update is the
    outcome of [Reconcile]; when it goes through, the account is gone from
    the store if no other finalizer holds it and stays, without the account
    finalizer, otherwise. *)
Theorem Reconcile_releases_sts_account (request : NamespacedName) (w : World)
    (a : Account) (data : ConfigMapData) :
  let released :=
    set_Finalizers (Remove (Finalizers (Meta a)) (AccountFinalizer env)) a in
  accounts w !! request = Some a ->
  ObjectKeyFromObject a = request ->
  configMap w = Some data ->
  getClientAnswer env (operatorClientInput env) = None ->
  (forall i, i < 2 -> k8sAnswer env (k8sCalls w + i) = None) ->
  ManualSTSMode (Spec a) = true ->
  IsPendingDeletion a = true ->
  exists w',
    account.Reconcile env fuel r request w
    = (Val (account.emptyResult, k8sAnswer env (k8sCalls w + 2)), w')
    /\ trace w'
       = (trace w ++ preludeEvents env request a ++ [EvUpdate released])%list
    /\ awsCalls w' = awsCalls w
    /\ (k8sAnswer env (k8sCalls w + 2) = None ->
        accounts w' !! request
        = if decide (Finalizers (Meta released) = []) then None
          else Some released).
Proof.
  intros released Hstored Hkey Hdata Hclient Hk8s Hsts Hgoing.
  assert (Hneeds : needsFinalizer env a = false)
    by (unfold needsFinalizer; now rewrite Hsts).
  assert (Hwith : withFinalizer env a = a)
    by (unfold withFinalizer; now rewrite Hneeds).
  assert (Hpre : account.Reconcile env fuel r request w
                 = account.reconcileAccount env fuel r request data
                     (optInFeatureEnabled env data) (optInRegionsOf data)
                     (asClientV2 (newClientV2 env)) (afterPrelude env request a w)).
  { subst r. apply Reconcile_prelude; try assumption.
    - rewrite <- (Nat.add_0_r (k8sCalls w)). apply Hk8s. lia.
    - rewrite <- Nat.add_1_r. apply Hk8s. lia.
    - rewrite Hneeds. discriminate. }
  rewrite Hpre.
  unfold account.reconcileAccount, account.finalizeDeletion,
    account.removeFinalizer, account.currentAccount, account.assign.
  erewrite run_bind by reflexivity. cbv beta. wsimpl.
  rewrite Hwith, Hgoing.
  erewrite run_bind by reflexivity. cbv beta. wsimpl.
  rewrite Hwith, Hsts.
  set (w1 := set_current released (afterPrelude env request a w)).
  assert (Hcalls : k8sCalls w1 = k8sCalls w + 2).
  { subst w1. wsimpl. rewrite Hneeds. lia. }
  assert (Htrace : trace w1 = (trace w ++ preludeEvents env request a)%list)
    by reflexivity.
  destruct (k8sAnswer env (k8sCalls w + 2)) as [e|] eqn:Hans.
  - eexists. split.
    + erewrite run_bind.
      2:{ erewrite run_bind by reflexivity. cbv beta. wsimpl. rewrite Hwith.
          erewrite run_bind by reflexivity. cbv beta.
          cbn [current afterPrelude]. rewrite Hwith. fold released. fold w1.
          erewrite run_bind by (apply Update_injected; rewrite Hcalls; exact Hans).
          reflexivity. }
      reflexivity.
    + wsimpl. rewrite Htrace, <- app_assoc.
      repeat split. discriminate.
  - assert (Hheld : accounts w1 !! ObjectKeyFromObject (current w1) = Some a).
    { subst w1. wsimpl. rewrite Hneeds. subst released.
      change (ObjectKeyFromObject (set_Finalizers _ a)) with (ObjectKeyFromObject a).
      now rewrite Hkey. }
    eexists. split.
    + erewrite run_bind.
      2:{ erewrite run_bind by reflexivity. cbv beta. wsimpl. rewrite Hwith.
          erewrite run_bind by reflexivity. cbv beta.
          cbn [current afterPrelude]. rewrite Hwith. fold released. fold w1.
          erewrite run_bind
            by (apply (Update_run _ a); [rewrite Hcalls; exact Hans|exact Hheld]).
          reflexivity. }
      reflexivity.
    + fold w1. wsimpl. rewrite Htrace, <- app_assoc.
      split; [reflexivity|]. split; [reflexivity|]. intros _.
      subst w1. wsimpl. rewrite Hneeds.
      change (ObjectKeyFromObject released) with (ObjectKeyFromObject a).
      rewrite Hkey.
      assert (Hts : exists t, DeletionTimestamp (Meta released) = Some t).
      { unfold IsPendingDeletion in Hgoing. apply bool_decide_eq_true in Hgoing.
        change (DeletionTimestamp (Meta released))
          with (DeletionTimestamp (Meta a)).
        destruct (DeletionTimestamp (Meta a)); [eauto|now destruct Hgoing]. }
      destruct Hts as (t & Hts). rewrite Hts.
      destruct (Finalizers (Meta released)) as [|f fs] eqn:Hfin.
      * rewrite decide_True by reflexivity. apply lookup_delete_eq.
      * rewrite decide_False by discriminate. rewrite lookup_insert_eq.
        reflexivity.
Qed.

End ReconcileEdges.

(** ** The assumption of a role *)
Section RoleAssumption.
Import awsclient.
Context (env : Environment).

Let client : ClientV2 := asClientV2 (newClientV2 env).

Ltac wsimpl :=
  cbn [trace awsCalls k8sCalls accounts claims configMap current
       emit tickK8s tickAws set_current set_accounts set_claims emitAll advance
       fst snd].

Lemma assumedRoleIdOf_None out w :
  roleIdOf out = None -> exists what, sts.assumedRoleIdOf out w = (Panic what, w).
Proof.
  destruct out as [[[[arn [id|]]|] creds]|]; cbn; try discriminate;
    intros _; eexists; reflexivity.
Qed.

(** The first round of the loop of [HandleRoleAssumptionV2] when the role is
    assumed after [k] failed attempts. *)
Lemma roleAssumptionLoop_assumed roleArn session ccsRoleID remaining i creds w k out :
  let input := sts.assumeRoleInput roleArn "" session in
  k < 100 ->
  (forall j, j < k -> (assumeRoleAnswer env (awsCalls w + j) input).2 <> None) ->
  assumeRoleAnswer env (awsCalls w + k) input = (out, None) ->
  sts.roleAssumptionLoop env client roleArn session ccsRoleID (S remaining) i creds w
  = (roleId <- sts.assumedRoleIdOf out ;;
     if bool_decide (ccsRoleID <> "")
        && negb (sts.matchSubstringV2 env ccsRoleID roleId).1
     then
       Sleep (Duration_mul (Z.of_nat i) Second) ;;;
       sts.roleAssumptionLoop env client roleArn session ccsRoleID remaining (S i) out
     else ret (out, None)) (afterAttempts input (S k) w).
Proof.
  intros input Hk Hfail Hok. cbn [sts.roleAssumptionLoop]. unfold bind at 1.
  unfold client.
  rewrite (GetSTSCredentialsV2_succeeds env roleArn "" session w k out Hk Hfail Hok).
  reflexivity.
Qed.

(** What [HandleRoleAssumptionV2] does with the outcome of its loop. *)
Lemma HandleRoleAssumptionV2_after_loop acct region roleToAssume ccsRoleID w
    creds keys w1 :
  sts.roleAssumptionLoop env client
    (GetIAMArn env (AwsAccountID (Spec acct)) sts.AwsResourceTypeRole roleToAssume)
    "awsAccountOperator" ccsRoleID 10 0 None w = (Val (creds, None), w1) ->
  credentialKeys creds = Some keys ->
  sts.HandleRoleAssumptionV2 env (scriptedBuilder env) acct client region
    roleToAssume ccsRoleID w
  = (Val (match getClientAnswer env (assumedClientInput env region keys) with
          | Some err => (None, None, Some err)
          | None => (Some client, creds, None)
          end),
     emit (EvGetClientV2 sts.controllerNameV2 (assumedClientInput env region keys))
       w1).
Proof.
  intros Hloop Hkeys. unfold sts.HandleRoleAssumptionV2.
  erewrite run_bind by exact Hloop. cbv beta iota zeta. cbn [fst snd].
  destruct creds as [[user [[[id|] [secret|] [token|]]|]]|]; try discriminate.
  cbn in Hkeys. injection Hkeys as <-.
  do 5 (cbn [deref Credentials AccessKeyId SecretAccessKey SessionToken];
        rewrite bind_ret_l).
  erewrite run_bind by apply GetClientV2_scripted.
  unfold assumedClientInput. cbn [fst snd].
  now destruct (getClientAnswer env _).
Qed.

(** X11. [HandleRoleAssumptionV2] when the role assumed is accepted at the first
    round: no role identifier is expected, or the one returned matches.  The
    credentials of the first successful assume-role call are used, there is
    no back-off, and the builder is asked once for a client with exactly the
    access key, secret key and session token returned, no secret named, in
    the region asked for or, when that is empty, in the default region.  The
    client comes back with the credentials and a nil error; an error of the
    builder is returned without client and without credentials. *)
Theorem HandleRoleAssumptionV2_builds_client_from_credentials (acct : Account)
    (region roleToAssume ccsRoleID : string) (w : World) (k : nat)
    (out : option sts_AssumeRoleOutput) (roleId : string)
    (keys : string * string * string) :
  let roleArn :=
    GetIAMArn env (AwsAccountID (Spec acct)) sts.AwsResourceTypeRole roleToAssume in
  let input := sts.assumeRoleInput roleArn "" "awsAccountOperator" in
  let clientInput := assumedClientInput env region keys in
  k < 100 ->
  (forall j, j < k -> (assumeRoleAnswer env (awsCalls w + j) input).2 <> None) ->
  assumeRoleAnswer env (awsCalls w + k) input = (out, None) ->
  roleIdOf out = Some roleId ->
  ccsRoleID = "" \/ (sts.matchSubstringV2 env ccsRoleID roleId).1 = true ->
  credentialKeys out = Some keys ->
  sts.HandleRoleAssumptionV2 env (scriptedBuilder env) acct client region
    roleToAssume ccsRoleID w
  = (Val (match getClientAnswer env clientInput with
          | Some err => (None, None, Some err)
          | None => (Some client, out, None)
          end),
     emit (EvGetClientV2 "account" clientInput) (afterAttempts input (S k) w)).
Proof.
  intros roleArn input clientInput Hk Hfail Hok Hid Haccepted Hkeys.
  apply HandleRoleAssumptionV2_after_loop; [|exact Hkeys].
  fold roleArn.
  rewrite (roleAssumptionLoop_assumed roleArn "awsAccountOperator" ccsRoleID 9 0
             None w k out Hk Hfail Hok).
  fold input. unfold bind at 1. rewrite (assumedRoleIdOf_Some _ _ _ Hid).
  replace (bool_decide (ccsRoleID <> "")
           && negb (sts.matchSubstringV2 env ccsRoleID roleId).1) with false;
    [reflexivity|].
  destruct Haccepted as [-> | ->]; [reflexivity | now rewrite andb_false_r].
Qed.

(** X12. [HandleRoleAssumptionV2] gives up when a hundred assume-role calls in a
    row fail: it returns the error of the hundredth call with neither client
    nor credentials, after exactly a hundred attempts; the outer loop does
    not run a second round and the builder is not called. *)
Theorem HandleRoleAssumptionV2_gives_up (acct : Account)
    (region roleToAssume ccsRoleID : string) (w : World) :
  let roleArn :=
    GetIAMArn env (AwsAccountID (Spec acct)) sts.AwsResourceTypeRole roleToAssume in
  let input := sts.assumeRoleInput roleArn "" "awsAccountOperator" in
  (forall j, j < 100 -> (assumeRoleAnswer env (awsCalls w + j) input).2 <> None) ->
  exists err,
    (assumeRoleAnswer env (awsCalls w + 99) input).2 = Some err
    /\ sts.HandleRoleAssumptionV2 env (scriptedBuilder env) acct client region
         roleToAssume ccsRoleID w
       = (Val (None, None, Some err), afterAttempts input 100 w).
Proof.
  intros roleArn input Hfail.
  destruct (GetSTSCredentialsV2_exhausts env roleArn "" "awsAccountOperator" w Hfail)
    as (err & Herr & Hrun).
  exists err. split; [exact Herr|].
  unfold sts.HandleRoleAssumptionV2. fold roleArn.
  erewrite run_bind.
  2:{ cbn [sts.roleAssumptionLoop]. erewrite run_bind by exact Hrun. reflexivity. }
  reflexivity.
Qed.

(** X13. [HandleRoleAssumptionV2] panics on a successful answer that names no
    assumed role, whether a role identifier is expected or not: the
    identifier is dereferenced before [ccsRoleID] is looked at.  It panics
    too when the role is accepted and the answer carries no complete
    credentials.  In both cases the builder is not called. *)
Theorem HandleRoleAssumptionV2_panics_on_incomplete_answer (acct : Account)
    (region roleToAssume ccsRoleID : string) (w : World) (k : nat)
    (out : option sts_AssumeRoleOutput) :
  let roleArn :=
    GetIAMArn env (AwsAccountID (Spec acct)) sts.AwsResourceTypeRole roleToAssume in
  let input := sts.assumeRoleInput roleArn "" "awsAccountOperator" in
  k < 100 ->
  (forall j, j < k -> (assumeRoleAnswer env (awsCalls w + j) input).2 <> None) ->
  assumeRoleAnswer env (awsCalls w + k) input = (out, None) ->
  (roleIdOf out = None
   \/ (credentialKeys out = None
       /\ exists roleId,
            roleIdOf out = Some roleId
            /\ (ccsRoleID = ""
                \/ (sts.matchSubstringV2 env ccsRoleID roleId).1 = true))) ->
  exists what,
    sts.HandleRoleAssumptionV2 env (scriptedBuilder env) acct client region
      roleToAssume ccsRoleID w
    = (Panic what, afterAttempts input (S k) w).
Proof.
  intros roleArn input Hk Hfail Hok Hincomplete.
  pose proof (roleAssumptionLoop_assumed roleArn "awsAccountOperator" ccsRoleID 9 0
                None w k out Hk Hfail Hok) as Hloop.
  fold input in Hloop. unfold bind at 1 in Hloop.
  unfold sts.HandleRoleAssumptionV2. fold roleArn. unfold bind at 1.
  rewrite Hloop. clear Hloop.
  destruct Hincomplete as [Hnone | (Hkeys & roleId & Hid & Haccepted)].
  - destruct (assumedRoleIdOf_None out (afterAttempts input (S k) w) Hnone)
      as (what & ->).
    exists what. reflexivity.
  - rewrite (assumedRoleIdOf_Some _ _ _ Hid).
    replace (bool_decide (ccsRoleID <> "")
             && negb (sts.matchSubstringV2 env ccsRoleID roleId).1) with false
      by (destruct Haccepted as [-> | ->];
          [reflexivity | now rewrite andb_false_r]).
    unfold ret at 1. cbn [fst snd].
    destruct out as [[user [[[id|] [secret|] [token|]]|]]|]; try discriminate;
      eexists; reflexivity.
Qed.

(** Ten mismatching rounds, with the credentials of the last. *)
Lemma roleAssumptionLoop_stale roleArn session ccsRoleID n :
  let input := sts.assumeRoleInput roleArn "" session in
  ccsRoleID <> "" ->
  forall remaining i creds w,
    i + S n <= 10 ->
    (forall j, j < S n ->
       exists roleId,
         assumesRole env (awsCalls w + j) input roleId
         /\ (sts.matchSubstringV2 env ccsRoleID roleId).1 = false) ->
    sts.roleAssumptionLoop env client roleArn session ccsRoleID (S n + remaining) i creds w
    = sts.roleAssumptionLoop env client roleArn session ccsRoleID remaining (i + S n)
        (assumeRoleAnswer env (awsCalls w + n) input).1
        (advance (backoffEvents input i (S n)) (S n) w).
Proof.
  intros input Hccs. induction n as [|n IH]; intros remaining i creds w Hin Hstale.
  - destruct (Hstale 0 ltac:(lia)) as (roleId & Hassumes & Hmis).
    rewrite Nat.add_0_r in Hassumes |- *.
    destruct (roleAssumptionLoop_step env roleArn session ccsRoleID remaining
                i creds w roleId ltac:(lia) Hassumes) as (out & Hans & Hstep).
    fold input in Hstep, Hans.
    rewrite Hmis, (bool_decide_eq_true_2 _ Hccs) in Hstep. cbn [negb andb] in Hstep.
    change (1 + remaining) with (S remaining). unfold client. rewrite Hstep, Hans.
    cbn [fst backoffEvents seq flat_map]. rewrite app_nil_r.
    now rewrite Nat.add_1_r.
  - destruct (Hstale 0 ltac:(lia)) as (roleId & Hassumes & Hmis).
    rewrite Nat.add_0_r in Hassumes.
    destruct (roleAssumptionLoop_step env roleArn session ccsRoleID (S n + remaining)
                i creds w roleId ltac:(lia) Hassumes) as (out & _ & Hstep).
    fold input in Hstep.
    rewrite Hmis, (bool_decide_eq_true_2 _ Hccs) in Hstep. cbn [negb andb] in Hstep.
    change (S (S n) + remaining) with (S (S n + remaining)).
    unfold client. rewrite Hstep. fold client.
    rewrite (IH remaining (S i) out).
    + rewrite advance_advance. cbn [advance awsCalls].
      replace (S i + S n) with (i + S (S n)) by lia.
      replace (awsCalls w + 1 + n) with (awsCalls w + S n) by lia.
      reflexivity.
    + lia.
    + intros j Hj. cbn [advance awsCalls].
      replace (awsCalls w + 1 + j) with (awsCalls w + S j) by lia.
      apply Hstale. lia.
Qed.

(** X14. [HandleRoleAssumptionV2] does not fail when the expected role never
    shows up.  After ten rounds whose assumed role does not match
    [ccsRoleID] the loop ends, and the client is built from the credentials
    of the tenth round: the caller gets that client, those credentials and a
    nil error, as after a match. *)
Theorem HandleRoleAssumptionV2_keeps_mismatching_credentials (acct : Account)
    (region roleToAssume ccsRoleID : string) (w : World)
    (out : option sts_AssumeRoleOutput) (keys : string * string * string) :
  let roleArn :=
    GetIAMArn env (AwsAccountID (Spec acct)) sts.AwsResourceTypeRole roleToAssume in
  let input := sts.assumeRoleInput roleArn "" "awsAccountOperator" in
  let clientInput := assumedClientInput env region keys in
  ccsRoleID <> "" ->
  (forall j, j < 10 ->
     exists roleId,
       assumesRole env (awsCalls w + j) input roleId
       /\ (sts.matchSubstringV2 env ccsRoleID roleId).1 = false) ->
  assumeRoleAnswer env (awsCalls w + 9) input = (out, None) ->
  credentialKeys out = Some keys ->
  getClientAnswer env clientInput = None ->
  sts.HandleRoleAssumptionV2 env (scriptedBuilder env) acct client region
    roleToAssume ccsRoleID w
  = (Val (Some client, out, None),
     emit (EvGetClientV2 "account" clientInput)
       (advance (backoffEvents input 0 10) 10 w)).
Proof.
  intros roleArn input clientInput Hccs Hstale Hlast Hkeys Hbuilt.
  pose proof (HandleRoleAssumptionV2_after_loop acct region roleToAssume ccsRoleID
                w out keys (advance (backoffEvents input 0 10) 10 w)) as Hrun.
  fold clientInput in Hrun. rewrite Hbuilt in Hrun. apply Hrun; [|exact Hkeys].
  fold roleArn. change 10 with (S 9 + 0) at 1.
  rewrite (roleAssumptionLoop_stale roleArn "awsAccountOperator" ccsRoleID 9 Hccs
             0 0 None w ltac:(lia) Hstale).
  fold input. rewrite Hlast. reflexivity.
Qed.

End RoleAssumption.

(** ** The deletion of an account *)
Section AccountDeletion.
Import awsclient utils.
Context (env : Environment) (fuel : nat) (shard : string).

Let r : account.AccountReconcilerV2 :=
  {| account.awsClientBuilder := scriptedBuilder env;
     account.shardName := shard |}.

Ltac wsimpl :=
  cbn [trace awsCalls k8sCalls accounts claims configMap current
       emit tickK8s tickAws set_current set_accounts set_claims emitAll advance
       afterPrelude afterAttempts fst snd].

(** A status update of an object the control plane holds and that a
    finalizer keeps: one call, and the object's metadata stay as stored
    whatever the control plane answers. *)
Lemma StatusUpdate_keeps w stored :
  accounts w !! ObjectKeyFromObject (current w) = Some stored ->
  Finalizers (Meta stored) <> [] ->
  exists o w',
    k8s.StatusUpdate env w = (Val o, w')
    /\ trace w' = (trace w ++ [EvStatusUpdate (current w)])%list
    /\ awsCalls w' = awsCalls w
    /\ exists kept,
         accounts w' !! ObjectKeyFromObject (current w) = Some kept
         /\ Meta kept = Meta stored.
Proof.
  intros Hs Hfin.
  destruct (k8sAnswer env (k8sCalls w)) as [e|] eqn:Hk.
  - rewrite (StatusUpdate_injected env w e Hk). eexists _, _.
    split; [reflexivity|]. wsimpl. repeat split. now exists stored.
  - rewrite (StatusUpdate_stored env w stored Hk Hs (or_intror Hfin)).
    eexists _, _. split; [reflexivity|]. wsimpl. repeat split.
    eexists. split; [apply lookup_insert_eq | reflexivity].
Qed.

Lemma withFinalizer_held a :
  ManualSTSMode (Spec a) = false -> Finalizers (Meta (withFinalizer env a)) <> [].
Proof.
  intros Hsts. unfold withFinalizer, needsFinalizer. rewrite Hsts. cbn [negb andb].
  destruct (Contains (Finalizers (Meta a)) (AccountFinalizer env)) eqn:Hc;
    cbn [negb].
  - intros Hnil. rewrite Hnil in Hc. discriminate.
  - destruct a as [[n ns ts fs ls] sp st]. cbn. now destruct fs.
Qed.

(** X15. A deletion that cannot assume the role leaves the account in place.
    For an account pending deletion that is not in manual STS mode,
    [Reconcile] assumes the role of the account: the BYOC role for a BYOC
    account, the operator's role otherwise.  When a hundred attempts fail,
    [handleAWSClientErrorV2] writes a status that records the failure,
    and [Reconcile] returns the error of the last attempt whatever the
    control plane answers to that write.  No finalizer is removed and no
    object is updated: the account stays in the store with the metadata it
    had after the prelude. *)
Theorem Reconcile_deletion_keeps_account_when_role_is_denied
    (request : NamespacedName) (w : World) (a : Account) (data : ConfigMapData) :
  let acct := withFinalizer env a in
  let roleToAssume :=
    if IsBYOC a then GetAssumeRole env acct else AccountOperatorIAMRole env in
  let input :=
    sts.assumeRoleInput
      (GetIAMArn env (AwsAccountID (Spec a)) sts.AwsResourceTypeRole roleToAssume)
      "" "awsAccountOperator" in
  let failed err :=
    SetAccountStatus AccountFailed ConditionClientError
      ("Failed to create STS Credentials for account ID "
       +:+ AwsAccountID (Spec a) +:+ ": " +:+ Error_ env err) acct in
  accounts w !! request = Some a ->
  ObjectKeyFromObject a = request ->
  configMap w = Some data ->
  getClientAnswer env (operatorClientInput env) = None ->
  (forall i, i < 2 -> k8sAnswer env (k8sCalls w + i) = None) ->
  (needsFinalizer env a = true -> k8sAnswer env (k8sCalls w + 2) = None) ->
  ManualSTSMode (Spec a) = false ->
  IsPendingDeletion a = true ->
  (forall j, j < 100 -> (assumeRoleAnswer env (awsCalls w + j) input).2 <> None) ->
  exists err w',
    (assumeRoleAnswer env (awsCalls w + 99) input).2 = Some err
    /\ account.Reconcile env fuel r request w
       = (Val (account.emptyResult, Some err), w')
    /\ trace w'
       = (trace w ++ preludeEvents env request a
          ++ concat (replicate 100 (attemptEvents input))
          ++ [EvStatusUpdate (failed err)])%list
    /\ exists kept,
         accounts w' !! request = Some kept /\ Meta kept = Meta acct.
Proof.
  intros acct roleToAssume input failed Hstored Hkey Hdata Hclient Hk8s Hk8s2
    Hsts Hgoing Hdenied.
  assert (Hpre : account.Reconcile env fuel r request w
                 = account.reconcileAccount env fuel r request data
                     (optInFeatureEnabled env data) (optInRegionsOf data)
                     (asClientV2 (newClientV2 env)) (afterPrelude env request a w)).
  { subst r. apply Reconcile_prelude; try assumption.
    - rewrite <- (Nat.add_0_r (k8sCalls w)). apply Hk8s. lia.
    - rewrite <- Nat.add_1_r. apply Hk8s. lia.
    - intros Hn. replace (S (S (k8sCalls w))) with (k8sCalls w + 2) by lia. auto. }
  rewrite Hpre. clear Hpre.
  set (w1 := afterPrelude env request a w).
  assert (Hcalls : awsCalls w1 = awsCalls w) by reflexivity.
  destruct (GetSTSCredentialsV2_exhausts env
              (GetIAMArn env (AwsAccountID (Spec a)) sts.AwsResourceTypeRole
                 roleToAssume) "" "awsAccountOperator" w1)
    as (err & Herr & Hrun).
  { fold input. rewrite Hcalls. exact Hdenied. }
  fold input in Herr, Hrun. rewrite Hcalls in Herr.
  exists err.
  assert (Hhandle :
            sts.HandleRoleAssumptionV2 env (scriptedBuilder env) acct
              (asClientV2 (newClientV2 env)) "" roleToAssume "" w1
            = (Val (None, None, Some err), afterAttempts input 100 w1)).
  { unfold sts.HandleRoleAssumptionV2. subst acct.
    rewrite Spec_withFinalizer.
    erewrite run_bind.
    2:{ cbn [sts.roleAssumptionLoop]. erewrite run_bind by exact Hrun.
        reflexivity. }
    reflexivity. }
  set (w2 := set_current (failed err) (afterAttempts input 100 w1)).
  destruct (StatusUpdate_keeps w2 acct) as (o & w' & Hupd & Htrace & _ & Hkept).
  { subst w2 w1. wsimpl. unfold failed.
    rewrite key_SetAccountStatus. unfold acct. rewrite key_withFinalizer, Hkey.
    now apply afterPrelude_stored. }
  { now apply withFinalizer_held. }
  exists w'. split; [exact Herr|]. split; [|split].
  - unfold account.reconcileAccount, account.finalizeDeletion,
      account.currentAccount.
    erewrite run_bind by reflexivity. cbv beta.
    change (current w1) with acct. unfold acct at 1.
    rewrite IsPendingDeletion_withFinalizer, Hgoing.
    erewrite run_bind by reflexivity. cbv beta.
    change (current w1) with acct. unfold acct at 1.
    rewrite Spec_withFinalizer, Hsts.
    replace (IsBYOC acct) with (IsBYOC a)
      by (unfold IsBYOC, acct; now rewrite Spec_withFinalizer).
    fold roleToAssume.
    erewrite run_bind by exact Hhandle. cbn [fst snd].
    unfold account.handleAWSClientErrorV2, account.setAccountFailedV2,
      account.currentAccount, account.assign, account.statusUpdate.
    erewrite run_bind by reflexivity. cbv beta.
    erewrite run_bind.
    2:{ erewrite run_bind by reflexivity. cbv beta.
        erewrite run_bind.
        2:{ cbn [current afterAttempts]. change (current w1) with acct.
            unfold acct at 1. rewrite Spec_withFinalizer.
            fold (failed err). fold w2. exact Hupd. }
        cbv beta iota.
        instantiate (1 := w'). instantiate (1 := (account.emptyResult, o)).
        now destruct o. }
    reflexivity.
  - rewrite Htrace. subst w2 w1. wsimpl. now rewrite <- !app_assoc.
  - destruct Hkept as (kept & Hk & Hm). exists kept. split; [|exact Hm].
    rewrite <- Hk. f_equal. subst w2. wsimpl. unfold failed.
    rewrite key_SetAccountStatus. unfold acct. now rewrite key_withFinalizer.
Qed.

Lemma withFinalizer_listed a :
  ManualSTSMode (Spec a) = false ->
  Contains (Finalizers (Meta (withFinalizer env a))) (AccountFinalizer env) = true.
Proof.
  intros Hsts. unfold withFinalizer, needsFinalizer. rewrite Hsts. cbn [negb andb].
  destruct (Contains (Finalizers (Meta a)) (AccountFinalizer env)) eqn:Hc;
    cbn [negb]; [exact Hc|].
  destruct a as [[n ns ts fs ls] sp st]. cbn. unfold Contains.
  rewrite existsb_app. cbn.
  now rewrite String.eqb_refl, orb_true_r.
Qed.

(** X16. The deletion of an account that is not in manual STS mode, when the role
    is assumed.  [Reconcile] assumes the role of the account and has a client
    built from the credentials; the clean-up that follows does nothing, and
    the account finalizer is then taken off with one update.  The provider
    sees assume-role calls only.  The account is gone from the store when no
    other finalizer holds it and stays, without the account finalizer,
    otherwise. *)
Theorem Reconcile_deletion_removes_finalizer
    (request : NamespacedName) (w : World) (a : Account) (data : ConfigMapData)
    (k : nat) (out : option sts_AssumeRoleOutput) (roleId : string)
    (keys : string * string * string) :
  let acct := withFinalizer env a in
  let roleToAssume :=
    if IsBYOC a then GetAssumeRole env acct else AccountOperatorIAMRole env in
  let input :=
    sts.assumeRoleInput
      (GetIAMArn env (AwsAccountID (Spec a)) sts.AwsResourceTypeRole roleToAssume)
      "" "awsAccountOperator" in
  let clientInput := assumedClientInput env "" keys in
  let released :=
    set_Finalizers (Remove (Finalizers (Meta acct)) (AccountFinalizer env)) acct in
  accounts w !! request = Some a ->
  ObjectKeyFromObject a = request ->
  configMap w = Some data ->
  getClientAnswer env (operatorClientInput env) = None ->
  getClientAnswer env clientInput = None ->
  (forall i, i < 4 -> k8sAnswer env (k8sCalls w + i) = None) ->
  ManualSTSMode (Spec a) = false ->
  IsPendingDeletion a = true ->
  k < 100 ->
  (forall j, j < k -> (assumeRoleAnswer env (awsCalls w + j) input).2 <> None) ->
  assumeRoleAnswer env (awsCalls w + k) input = (out, None) ->
  roleIdOf out = Some roleId ->
  credentialKeys out = Some keys ->
  exists w',
    account.Reconcile env fuel r request w = (Val (account.emptyResult, None), w')
    /\ trace w'
       = (trace w ++ preludeEvents env request a
          ++ concat (replicate (S k) (attemptEvents input))
          ++ [EvGetClientV2 "account" clientInput; EvUpdate released])%list
    /\ awsCalls w' = awsCalls w + S k
    /\ accounts w' !! request
       = if decide (Finalizers (Meta released) = []) then None
         else Some released.
Proof.
  intros acct roleToAssume input clientInput released Hstored Hkey Hdata Hclient
    Hbuilt Hk8s Hsts Hgoing Hk Hfail Hok Hid Hkeys.
  assert (Hpre : account.Reconcile env fuel r request w
                 = account.reconcileAccount env fuel r request data
                     (optInFeatureEnabled env data) (optInRegionsOf data)
                     (asClientV2 (newClientV2 env)) (afterPrelude env request a w)).
  { subst r. apply Reconcile_prelude; try assumption.
    - rewrite <- (Nat.add_0_r (k8sCalls w)). apply Hk8s. lia.
    - rewrite <- Nat.add_1_r. apply Hk8s. lia.
    - intros Hn. replace (S (S (k8sCalls w))) with (k8sCalls w + 2) by lia.
      apply Hk8s. lia. }
  rewrite Hpre. clear Hpre.
  set (w1 := afterPrelude env request a w).
  assert (Hcalls : awsCalls w1 = awsCalls w) by reflexivity.
  assert (Hhandle :
            sts.HandleRoleAssumptionV2 env (scriptedBuilder env) acct
              (asClientV2 (newClientV2 env)) "" roleToAssume "" w1
            = (Val (Some (asClientV2 (newClientV2 env)), out, None),
               emit (EvGetClientV2 "account" clientInput)
                 (afterAttempts input (S k) w1))).
  { pose proof (HandleRoleAssumptionV2_after_loop env acct "" roleToAssume "" w1
                  out keys (afterAttempts input (S k) w1)) as Hrun.
    fold clientInput in Hrun. rewrite Hbuilt in Hrun. apply Hrun; [|exact Hkeys].
    unfold acct. rewrite Spec_withFinalizer.
    rewrite (roleAssumptionLoop_assumed env _ "awsAccountOperator" "" 9 0 None w1
               k out Hk);
      fold input; rewrite ?Hcalls; try assumption.
    unfold bind at 1. now rewrite (assumedRoleIdOf_Some _ _ _ Hid). }
  set (w2 := emit (EvGetClientV2 "account" clientInput)
               (afterAttempts input (S k) w1)) in *.
  set (w3 := set_current released w2).
  assert (Hheld : accounts w3 !! ObjectKeyFromObject (current w3) = Some acct).
  { subst w3 w2 w1. wsimpl.
    change (ObjectKeyFromObject released) with (ObjectKeyFromObject acct).
    unfold acct. rewrite key_withFinalizer, Hkey. now apply afterPrelude_stored. }
  assert (Hanswer : k8sAnswer env (k8sCalls w3) = None).
  { subst w3 w2 w1. wsimpl. destruct (needsFinalizer env a).
    - replace (3 + k8sCalls w) with (k8sCalls w + 3) by lia. apply Hk8s. lia.
    - replace (2 + k8sCalls w) with (k8sCalls w + 2) by lia. apply Hk8s. lia. }
  pose proof (Update_run env w3 acct Hanswer Hheld) as Hupd. cbv zeta in Hupd.
  eexists. split; [|split; [|split]].
  - unfold account.reconcileAccount, account.finalizeDeletion,
      account.currentAccount.
    erewrite run_bind by reflexivity. cbv beta.
    change (current w1) with acct. unfold acct at 1.
    rewrite IsPendingDeletion_withFinalizer, Hgoing.
    erewrite run_bind by reflexivity. cbv beta.
    change (current w1) with acct. unfold acct at 1.
    rewrite Spec_withFinalizer, Hsts.
    replace (IsBYOC acct) with (IsBYOC a)
      by (unfold IsBYOC, acct; now rewrite Spec_withFinalizer).
    fold roleToAssume.
    erewrite run_bind by exact Hhandle. cbn [fst snd].
    unfold account.finalizeAccountV2. rewrite bind_ret_l.
    erewrite run_bind by reflexivity. cbv beta.
    change (current w2) with acct.
    unfold IsNonSTSPendingDeletionWithFinalizer. unfold acct at 1 2 3.
    rewrite IsPendingDeletion_withFinalizer, Hgoing, Spec_withFinalizer, Hsts,
      (withFinalizer_listed a Hsts).
    cbn [negb andb].
    unfold account.removeFinalizer, account.currentAccount, account.assign.
    erewrite run_bind.
    2:{ erewrite run_bind by reflexivity. cbv beta.
        erewrite run_bind by reflexivity. cbv beta.
        change (current w2) with acct. fold released. fold w3.
        erewrite run_bind by exact Hupd. reflexivity. }
    reflexivity.
  - subst w3 w2 w1. wsimpl. now rewrite <- !app_assoc.
  - subst w3 w2 w1. wsimpl. reflexivity.
  - wsimpl. change (current w3) with released.
    change (ObjectKeyFromObject released) with (ObjectKeyFromObject acct).
    unfold acct at 1 2. rewrite key_withFinalizer, Hkey.
    assert (Hts : exists t, DeletionTimestamp (Meta released) = Some t).
    { unfold IsPendingDeletion in Hgoing. apply bool_decide_eq_true in Hgoing.
      change (DeletionTimestamp (Meta released))
        with (DeletionTimestamp (Meta acct)).
      unfold acct. rewrite DeletionTimestamp_withFinalizer.
      destruct (DeletionTimestamp (Meta a)); [eauto|now destruct Hgoing]. }
    destruct Hts as (t & Hts). rewrite Hts.
    destruct (Finalizers (Meta released)) as [|f fs] eqn:Hfin.
    + rewrite decide_True by reflexivity. apply lookup_delete_eq.
    + rewrite decide_False by discriminate. rewrite lookup_insert_eq.
      reflexivity.
Qed.

End AccountDeletion.

(** ** The initialization of an account *)
Section AccountInitialization.
Import awsclient utils.
Context (env : Environment) (fuel : nat) (shard : string).

Let r : account.AccountReconcilerV2 :=
  {| account.awsClientBuilder := scriptedBuilder env;
     account.shardName := shard |}.

Ltac wsimpl :=
  cbn [trace awsCalls k8sCalls accounts claims configMap current
       emit tickK8s tickAws set_current set_accounts set_claims emitAll advance
       afterPrelude fst snd].

Lemma Labels_withFinalizer a :
  Labels (Meta (withFinalizer env a)) = Labels (Meta a).
Proof. unfold withFinalizer. now destruct (needsFinalizer env a). Qed.

(** [Reconcile] up to the initialization, for an account in state
    [Creating] that needs no set-up and no region enabled. *)
Lemma Reconcile_reaches_initialization request w a data amiOwner :
  let acct := withFinalizer env a in
  accounts w !! request = Some a ->
  ObjectKeyFromObject a = request ->
  configMap w = Some data ->
  getClientAnswer env (operatorClientInput env) = None ->
  (forall i, i < 3 -> k8sAnswer env (k8sCalls w + i) = None) ->
  BYOC (Spec a) = false ->
  IsPendingDeletion a = false ->
  State (Status a) = AccountCreating ->
  CreationConditionOlderThan env acct (account.createPendTime env) = false ->
  (ReadyForRegionEnablement env acct || IsEnablingOptInRegions env acct)
  && optInFeatureEnabled env data && bool_decide (optInRegionsOf data <> "")
  = false ->
  lookupData "ami-owner" data = Some amiOwner ->
  ReadyForInitialization env acct = true ->
  account.Reconcile env fuel r request w
  = account.initializeAccount env request (asClientV2 (newClientV2 env))
      amiOwner (afterPrelude env request a w).
Proof.
  intros acct Hstored Hkey Hdata Hclient Hk8s Hbyoc Hlive Hstate Hfresh Hregions
    Hami Hready.
  destruct (state_predicates_withFinalizer env a)
    as (Hf & Hi & Hv & Hl & Hc & Hu & _ & Hb).
  assert (Hpre : account.Reconcile env fuel r request w
                 = account.reconcileAccount env fuel r request data
                     (optInFeatureEnabled env data) (optInRegionsOf data)
                     (asClientV2 (newClientV2 env)) (afterPrelude env request a w)).
  { subst r. apply Reconcile_prelude; try assumption.
    - rewrite <- (Nat.add_0_r (k8sCalls w)). apply Hk8s. lia.
    - rewrite <- Nat.add_1_r. apply Hk8s. lia.
    - intros _. replace (S (S (k8sCalls w))) with (k8sCalls w + 2) by lia.
      apply Hk8s. lia. }
  rewrite Hpre. clear Hpre.
  unfold account.reconcileAccount, account.setUpAccount, account.currentAccount.
  erewrite run_bind by reflexivity. cbv beta. wsimpl.
  rewrite IsPendingDeletion_withFinalizer, Hlive, Hf, Hi.
  unfold IsFailed, IsInitializingRegions. rewrite Hstate.
  rewrite !bool_decide_eq_false_2 by discriminate.
  erewrite run_bind.
  2:{ erewrite run_bind by reflexivity. cbv beta. wsimpl.
      rewrite Hb, Hv, Hl, Hc, Hu. fold acct. rewrite Hfresh.
      unfold account.newBYOCAccountV2, IsPendingVerification,
        IsReadyUnclaimedAndHasClaimLink, IsCreating, IsUnclaimedAndHasNoState,
        IsReady, HasState.
      rewrite Hbyoc, Hstate.
      rewrite !(bool_decide_eq_false_2 (AccountCreating = _)) by discriminate.
      rewrite (bool_decide_eq_true_2 (AccountCreating <> ""))
        by discriminate.
      rewrite !andb_false_r. cbn [negb andb]. reflexivity. }
  cbv beta iota.
  erewrite run_bind by reflexivity. cbv beta. wsimpl. fold acct.
  rewrite Hregions, Hami.
  erewrite run_bind by reflexivity. cbv beta. wsimpl. fold acct.
  rewrite Hready. reflexivity.
Qed.

(** X17. An account that is ready for initialization and carries no IAM user
    label is labelled first.  [Reconcile] adds the label, with a fresh short
    identifier, updates the account and asks for an immediate requeue; the
    outcome of the update is returned with the requeue.  Nothing else is
    done in that pass: no provider call, no change of the status. *)
Theorem Reconcile_labels_account_before_initialization
    (request : NamespacedName) (w : World) (a : Account)
    (data : ConfigMapData) (amiOwner : string) :
  let acct := withFinalizer env a in
  let labelled := AddLabels acct (IAMUserIDLabel env, GenerateShortUID env) in
  accounts w !! request = Some a ->
  ObjectKeyFromObject a = request ->
  configMap w = Some data ->
  getClientAnswer env (operatorClientInput env) = None ->
  (forall i, i < 3 -> k8sAnswer env (k8sCalls w + i) = None) ->
  BYOC (Spec a) = false ->
  ManualSTSMode (Spec a) = false ->
  IsPendingDeletion a = false ->
  State (Status a) = AccountCreating ->
  CreationConditionOlderThan env acct (account.createPendTime env) = false ->
  (ReadyForRegionEnablement env acct || IsEnablingOptInRegions env acct)
  && optInFeatureEnabled env data && bool_decide (optInRegionsOf data <> "")
  = false ->
  lookupData "ami-owner" data = Some amiOwner ->
  ReadyForInitialization env acct = true ->
  AccountCRHasIAMUserIDLabel (IAMUserIDLabel env) a = false ->
  exists err w',
    account.Reconcile env fuel r request w
    = (Val ({| account.Requeue := true; account.RequeueAfter := 0%Z |}, err), w')
    /\ trace w'
       = (trace w ++ preludeEvents env request a ++ [EvUpdate labelled])%list
    /\ awsCalls w' = awsCalls w
    /\ (err = None ->
        accounts w' !! request
        = Some {| Meta := Meta labelled; Spec := Spec a; Status := Status a |}).
Proof.
  intros acct labelled Hstored Hkey Hdata Hclient Hk8s Hbyoc Hsts Hlive Hstate
    Hfresh Hregions Hami Hready Hlabel.
  rewrite (Reconcile_reaches_initialization request w a data amiOwner Hstored
             Hkey Hdata Hclient Hk8s Hbyoc Hlive Hstate Hfresh Hregions Hami
             Hready).
  unfold account.initializeAccount, account.currentAccount, account.assign.
  erewrite run_bind by reflexivity. cbv beta. wsimpl. fold acct.
  unfold acct at 1. rewrite Spec_withFinalizer, Hsts.
  unfold AccountCRHasIAMUserIDLabel in Hlabel |- *. unfold acct at 1.
  rewrite Labels_withFinalizer, Hlabel. cbn [negb].
  set (w1 := afterPrelude env request a w).
  set (w2 := set_current labelled w1).
  assert (Hheld : accounts w2 !! ObjectKeyFromObject (current w2) = Some acct).
  { subst w2 w1. wsimpl.
    change (ObjectKeyFromObject labelled) with (ObjectKeyFromObject acct).
    unfold acct. rewrite key_withFinalizer, Hkey. now apply afterPrelude_stored. }
  destruct (k8sAnswer env (k8sCalls w2)) as [e|] eqn:Hans.
  - eexists _, _. split.
    + erewrite run_bind.
      2:{ erewrite run_bind by reflexivity. cbv beta.
          change (current (afterPrelude env request a w)) with acct.
          fold labelled. fold w1. fold w2.
          erewrite run_bind by (apply Update_injected; exact Hans).
          reflexivity. }
      reflexivity.
    + subst w2 w1. wsimpl. rewrite <- ?app_assoc. repeat split. discriminate.
  - eexists _, _. split.
    + erewrite run_bind.
      2:{ erewrite run_bind by reflexivity. cbv beta.
          change (current (afterPrelude env request a w)) with acct.
          fold labelled. fold w1. fold w2.
          erewrite run_bind.
          2:{ apply (Update_live env w2 acct Hans Hheld).
              change (DeletionTimestamp (Meta (current w2)))
                with (DeletionTimestamp (Meta acct)).
              unfold acct. rewrite DeletionTimestamp_withFinalizer.
              unfold IsPendingDeletion in Hlive.
              apply bool_decide_eq_false in Hlive.
              destruct (DeletionTimestamp (Meta a)); [|reflexivity].
              now destruct Hlive. }
          reflexivity. }
      reflexivity.
    + subst w2 w1. wsimpl. rewrite <- ?app_assoc. split; [reflexivity|]. split; [reflexivity|].
      intros _.
      change (ObjectKeyFromObject labelled) with (ObjectKeyFromObject acct).
      unfold acct at 1. rewrite key_withFinalizer, Hkey, lookup_insert_eq.
      change (Spec labelled) with (Spec acct). unfold acct.
      now rewrite Spec_withFinalizer, Status_withFinalizer.
Qed.

(** X18. The initialization of a labelled account does nothing at the provider.
    For an account that is ready for initialization, not in manual STS mode
    and labelled, [Reconcile] creates no IAM user and initializes no region:
    it sets the condition and the state [Ready] and writes the status.  The
    outcome of that write is the outcome of [Reconcile]. *)
Theorem Reconcile_initialization_only_marks_ready
    (request : NamespacedName) (w : World) (a : Account)
    (data : ConfigMapData) (amiOwner : string) :
  let acct := withFinalizer env a in
  let ready := SetAccountStatus AccountReady ConditionReady AccountReady acct in
  accounts w !! request = Some a ->
  ObjectKeyFromObject a = request ->
  configMap w = Some data ->
  getClientAnswer env (operatorClientInput env) = None ->
  (forall i, i < 3 -> k8sAnswer env (k8sCalls w + i) = None) ->
  BYOC (Spec a) = false ->
  ManualSTSMode (Spec a) = false ->
  IsPendingDeletion a = false ->
  State (Status a) = AccountCreating ->
  CreationConditionOlderThan env acct (account.createPendTime env) = false ->
  (ReadyForRegionEnablement env acct || IsEnablingOptInRegions env acct)
  && optInFeatureEnabled env data && bool_decide (optInRegionsOf data <> "")
  = false ->
  lookupData "ami-owner" data = Some amiOwner ->
  ReadyForInitialization env acct = true ->
  AccountCRHasIAMUserIDLabel (IAMUserIDLabel env) a = true ->
  exists err w',
    account.Reconcile env fuel r request w
    = (Val (account.emptyResult, err), w')
    /\ trace w'
       = (trace w ++ preludeEvents env request a ++ [EvStatusUpdate ready])%list
    /\ awsCalls w' = awsCalls w
    /\ (err = None ->
        accounts w' !! request = Some ready
        /\ State (Status ready) = "Ready").
Proof.
  intros acct ready Hstored Hkey Hdata Hclient Hk8s Hbyoc Hsts Hlive Hstate
    Hfresh Hregions Hami Hready Hlabel.
  rewrite (Reconcile_reaches_initialization request w a data amiOwner Hstored
             Hkey Hdata Hclient Hk8s Hbyoc Hlive Hstate Hfresh Hregions Hami
             Hready).
  unfold account.initializeAccount, account.currentAccount, account.assign,
    account.statusUpdate.
  erewrite run_bind by reflexivity. cbv beta. wsimpl. fold acct.
  unfold acct at 1. rewrite Spec_withFinalizer, Hsts.
  unfold AccountCRHasIAMUserIDLabel in Hlabel |- *. unfold acct at 1.
  rewrite Labels_withFinalizer, Hlabel. cbn [negb].
  unfold account.handleIAMUserCreationV2, account.initializeRegionsV2,
    account.isAwsOptInErrorV2.
  erewrite run_bind by (rewrite bind_ret_l; reflexivity).
  cbv beta iota. cbn [fst snd]. rewrite bind_ret_l. cbv beta iota.
  erewrite run_bind by reflexivity. cbv beta.
  change (current (afterPrelude env request a w)) with acct. fold ready.
  set (w1 := afterPrelude env request a w).
  set (w2 := set_current ready w1).
  assert (Hheld : accounts w2 !! ObjectKeyFromObject (current w2) = Some acct).
  { subst w2 w1. wsimpl. unfold ready.
    rewrite key_SetAccountStatus. unfold acct.
    rewrite key_withFinalizer, Hkey. now apply afterPrelude_stored. }
  destruct (k8sAnswer env (k8sCalls w2)) as [e|] eqn:Hans.
  - eexists _, _. split.
    + erewrite run_bind by (apply StatusUpdate_injected; exact Hans).
      reflexivity.
    + subst w2 w1. wsimpl. rewrite <- ?app_assoc. repeat split; discriminate.
  - eexists _, _. split.
    + erewrite run_bind.
      2:{ apply (StatusUpdate_stored env w2 acct Hans Hheld).
          left. unfold acct. rewrite DeletionTimestamp_withFinalizer.
          unfold IsPendingDeletion in Hlive.
          apply bool_decide_eq_false in Hlive.
          destruct (DeletionTimestamp (Meta a)); [|reflexivity].
          now destruct Hlive. }
      reflexivity.
    + cbv zeta. subst w2 w1. wsimpl. rewrite <- ?app_assoc. split; [reflexivity|]. split; [reflexivity|].
      intros _. unfold ready at 1.
      rewrite key_SetAccountStatus. unfold acct at 1.
      rewrite key_withFinalizer, Hkey, lookup_insert_eq.
      split; reflexivity.
Qed.

End AccountInitialization.

(** ** The builder of the clients *)
Section Builder.
Context {Config Client : Type}.
Context (LoadDefaultConfig : builder.LoadOptions -> Config * option error).
Context (NewFromConfig : Config -> Client).
Context (Errorf : string -> error -> error).

Let GetClientV2 := builder.GetClientV2 LoadDefaultConfig NewFromConfig Errorf.

(** The client [newClientV2] makes of the default credential chain in a
    region. *)
Let defaultChain (region : string) : option Client * option error :=
  let loaded :=
    LoadDefaultConfig {| builder.WithRegion := region;
                         builder.WithCredentialsProvider := None |} in
  match loaded.2 with
  | Some err => (None, Some (Errorf "failed to load AWS config" err))
  | None => (Some (NewFromConfig loaded.1), None)
  end.

(** X19. When the input names a secret, by name and namespace, the credentials
    come from the secret alone: the access key, the secret key and the
    session token of the input are not looked at, nor is the controller's
    name.  Two inputs that name the same secret and region give the same
    client or the same error. *)
Theorem GetClientV2_named_secret_overrides_input
    (kubeGet : NamespacedName -> builder.SecretData * option error)
    (name1 name2 : string) (input1 input2 : NewAwsClientInputV2) :
  SecretName input1 <> "" ->
  NameSpace input1 <> "" ->
  SecretName input2 = SecretName input1 ->
  NameSpace input2 = NameSpace input1 ->
  AwsRegion input2 = AwsRegion input1 ->
  GetClientV2 kubeGet name1 input1 = GetClientV2 kubeGet name2 input2.
Proof.
  intros Hname Hns Hn Hs Hr. subst GetClientV2. unfold builder.GetClientV2.
  rewrite Hn, Hs, Hr.
  rewrite (bool_decide_eq_true_2 _ Hname), (bool_decide_eq_true_2 _ Hns).
  cbn [andb]. destruct (kubeGet _).2; reflexivity.
Qed.

(** X20. A secret named in part is not read.  When the input gives a secret name
    without a namespace, or a namespace without a name, the control plane is
    not asked and no error tells of it: the client is built from the keys of
    the input, as if no secret had been named. *)
Theorem GetClientV2_ignores_partially_named_secret
    (kubeGet kubeGet' : NamespacedName -> builder.SecretData * option error)
    (name : string) (input : NewAwsClientInputV2) :
  SecretName input = "" \/ NameSpace input = "" ->
  GetClientV2 kubeGet name input
  = GetClientV2 kubeGet' name
      {| AwsCredsSecretIDKey := AwsCredsSecretIDKey input;
         AwsCredsSecretAccessKey := AwsCredsSecretAccessKey input;
         AwsToken := AwsToken input;
         AwsRegion := AwsRegion input;
         SecretName := ""; NameSpace := "" |}.
Proof.
  intros Hpart. subst GetClientV2. unfold builder.GetClientV2.
  cbn [SecretName NameSpace AwsCredsSecretIDKey AwsCredsSecretAccessKey
       AwsToken AwsRegion].
  replace (bool_decide (SecretName input <> "")
           && bool_decide (NameSpace input <> "")) with false; [reflexivity|].
  destruct Hpart as [-> | ->]; [reflexivity | now rewrite andb_false_r].
Qed.

(** X21. Credentials that are not complete are dropped without an error.  When
    the secret read lacks the access key identifier or the secret key, or,
    with no secret named, when the input's identifier or secret key is
    empty, the configuration is loaded with the region only: the client
    runs on the default credential chain, and a session token given in the
    input is not used. *)
Theorem GetClientV2_incomplete_credentials_use_default_chain
    (kubeGet : NamespacedName -> builder.SecretData * option error)
    (name : string) (input : NewAwsClientInputV2) :
  (forall secret,
     SecretName input <> "" ->
     NameSpace input <> "" ->
     kubeGet (NameSpace input, SecretName input) = (secret, None) ->
     secret !! "aws_access_key_id" = None
     \/ secret !! "aws_secret_access_key" = None ->
     GetClientV2 kubeGet name input = defaultChain (AwsRegion input))
  /\ (SecretName input = "" \/ NameSpace input = "" ->
      AwsCredsSecretIDKey input = "" \/ AwsCredsSecretAccessKey input = "" ->
      GetClientV2 kubeGet name input = defaultChain (AwsRegion input)).
Proof.
  subst GetClientV2 defaultChain. split.
  - intros secret Hname Hns Hgot Hlacks. unfold builder.GetClientV2.
    rewrite (bool_decide_eq_true_2 _ Hname), (bool_decide_eq_true_2 _ Hns), Hgot.
    cbn [andb fst snd]. unfold builder.newClientV2,
      builder.awsCredsSecretIDKeyV2, builder.awsCredsSecretAccessKeyV2.
    replace (bool_decide (default "" (secret !! "aws_access_key_id") <> "")
             && bool_decide (default "" (secret !! "aws_secret_access_key") <> ""))
      with false; [reflexivity|].
    destruct Hlacks as [-> | ->]; cbn [default];
      [reflexivity | now rewrite andb_false_r].
  - intros Hpart Hlacks. unfold builder.GetClientV2.
    replace (bool_decide (SecretName input <> "")
             && bool_decide (NameSpace input <> "")) with false
      by (destruct Hpart as [-> | ->]; [reflexivity | now rewrite andb_false_r]).
    unfold builder.newClientV2.
    replace (bool_decide (AwsCredsSecretIDKey input <> "")
             && bool_decide (AwsCredsSecretAccessKey input <> ""))
      with false; [reflexivity|].
    destruct Hlacks as [-> | ->]; [reflexivity | now rewrite andb_false_r].
Qed.

End Builder.

(** ** The code of the first SDK *)
Section Byoc.
Import utils.
Context (env : Environment).

Ltac wsimpl :=
  cbn [trace awsCalls k8sCalls accounts claims configMap current
       emit tickK8s tickAws set_current set_accounts set_claims emitAll advance
       fst snd].

(** X22. [newBYOCAccountV2] takes more accounts for new BYOC accounts than
    [newBYOCAccount] did.  An account that the first takes the second takes
    too; they differ exactly on the BYOC accounts that have a state and are
    claimed, which only [newBYOCAccountV2] takes. *)
Theorem newBYOCAccountV2_widens_newBYOCAccount (a : Account) :
  (byoc.newBYOCAccount a = true -> account.newBYOCAccountV2 a = true)
  /\ (account.newBYOCAccountV2 a = true /\ byoc.newBYOCAccount a = false
      <-> BYOC (Spec a) = true /\ State (Status a) <> ""
          /\ Claimed (Status a) = true).
Proof.
  unfold byoc.newBYOCAccount, account.newBYOCAccountV2, IsBYOC, HasState,
    IsClaimed.
  destruct (BYOC (Spec a)), (Claimed (Status a)),
    (decide (State (Status a) = "")) as [Hs|Hs];
    rewrite ?(bool_decide_eq_false_2 _ (fun H => H Hs)),
      ?(bool_decide_eq_true_2 _ Hs); cbn; intuition congruence.
Qed.

(** X23. What [GetExistingRole] makes of the answer of [GetRole].  The error is
    nil exactly when the call succeeded or failed with the code
    [NoSuchEntity]; any other error comes back as it is.  The output is the
    call's on success and an empty output, never nil, on every failure. *)
Theorem GetExistingRole_absent_role_is_no_error (byocRole : string)
    (client : byoc.Client) :
  let asked :=
    byoc.GetRole client {| byoc.GetRole_RoleName := Some byocRole |} in
  let got := byoc.GetExistingRole byocRole client in
  (got.2 = None
   <-> asked.2 = None
       \/ exists message, asked.2 = Some (byoc.awserr "NoSuchEntity" message))
  /\ (asked.2 = None -> got.1 = asked.1)
  /\ (asked.2 <> None -> got.1 = Some byoc.empty_GetRoleOutput)
  /\ (got.2 <> None -> got.2 = asked.2).
Proof.
  intros asked got. subst got. unfold byoc.GetExistingRole. fold asked.
  unfold byoc.ErrCodeNoSuchEntityException, byoc.ErrCodeServiceFailureException.
  destruct asked as [out [[code message|other]|]]; cbn [fst snd].
  - destruct (decide (code = "NoSuchEntity")) as [->|Hcode].
    + cbn [fst snd].
      repeat split; try congruence; eauto; try (intros H; now destruct H).
    + assert (Hres : (if decide (code = "ServiceFailure")
                      then (Some byoc.empty_GetRoleOutput,
                            Some (byoc.awserr code message))
                      else (Some byoc.empty_GetRoleOutput,
                            Some (byoc.awserr code message)))
                     = (Some byoc.empty_GetRoleOutput,
                        Some (byoc.awserr code message)))
        by (now destruct (decide (code = "ServiceFailure"))).
      rewrite Hres. cbn [fst snd]. repeat split; try congruence.
      intros [H | (m & H)]; [discriminate | congruence].
  - repeat split; try congruence.
    intros [H | (m & H)]; discriminate.
  - repeat split; try congruence; eauto; try (intros H; now destruct H).
Qed.

(** X24. [GetSREAccessARN] never returns an empty ARN without an error.  It reads
    the config map once and writes nothing; the error is nil exactly when
    the ARN returned is not empty, and that ARN is then the value of the key
    in the config map.  A key that is there with an empty value counts as
    missing. *)
Theorem GetSREAccessARN_never_returns_empty_arn (arnName : string) (w : World) :
  exists arn err w',
    byoc.GetSREAccessARN env arnName w = (Val (arn, err), w')
    /\ w' = tickK8s (emit EvGetConfigMap w)
    /\ (err = None <-> arn <> "")
    /\ (err = None ->
        exists data,
          configMap w = Some data /\ lookupData arnName data = Some arn)
    /\ (forall data,
          k8sAnswer env (k8sCalls w) = None ->
          configMap w = Some data ->
          lookupData arnName data = Some "" ->
          err = Some ErrInvalidConfigMap).
Proof.
  unfold byoc.GetSREAccessARN, byoc.getDefaultConfigMap.
  destruct (k8sAnswer env (k8sCalls w)) as [e|] eqn:Hk.
  - erewrite run_bind by (apply GetOperatorConfigMap_injected; exact Hk).
    cbn [fst snd]. eexists _, _, _. split; [reflexivity|].
    repeat split; try congruence; try discriminate;
      try (intros H; now destruct H).
  - destruct (configMap w) as [data|] eqn:Hdata.
    + erewrite run_bind by (apply GetOperatorConfigMap_found; eassumption).
      cbn [fst snd].
      destruct (lookupData arnName data) as [v|] eqn:Hv;
        cbn [default from_option id].
      * destruct (decide (v = "")) as [->|Hne].
        -- eexists _, _, _. split; [reflexivity|].
           repeat split; try congruence; try discriminate;
      try (intros H; now destruct H).
        -- eexists _, _, _. split; [reflexivity|].
           repeat split; try congruence.
           intros _. exists data. now rewrite Hv.
      * eexists _, _, _. split; [reflexivity|].
        repeat split; try congruence; try discriminate;
      try (intros H; now destruct H).
    + erewrite run_bind by (apply GetOperatorConfigMap_missing; eassumption).
      cbn [fst snd]. eexists _, _, _. split; [reflexivity|].
      repeat split; try congruence; try discriminate;
      try (intros H; now destruct H).
Qed.

(** X25. [getSTSClient] reports no error when the config map lacks the jump
    role.  With the config map read and the key [sts-jump-role] missing or
    empty, it returns a nil client, nil credentials and a nil error: the
    error returned is that of the read, which is nil by then.  No role is
    assumed and no client is built. *)
Theorem getSTSClient_missing_jump_role_is_no_error {ClientV1 : Type}
    (GetSTSCredentials :
       option ClientV1 -> string -> string -> string ->
       M (option sts_AssumeRoleOutput * option error))
    (GetClient :
       string -> NewAwsClientInputV2 -> M (option ClientV1 * option error))
    (STSRoleARN STSExternalID : AccountClaim -> string)
    (accountClaim : option AccountClaim) (operatorAWSClient : option ClientV1)
    (w : World) (data : ConfigMapData) :
  k8sAnswer env (k8sCalls w) = None ->
  configMap w = Some data ->
  default "" (lookupData "sts-jump-role" data) = "" ->
  byoc.getSTSClient env GetSTSCredentials GetClient STSRoleARN STSExternalID
    accountClaim operatorAWSClient w
  = (Val (None, None, None), tickK8s (emit EvGetConfigMap w)).
Proof.
  intros Hk Hdata Hmissing. unfold byoc.getSTSClient, byoc.getDefaultConfigMap.
  erewrite run_bind by (apply GetOperatorConfigMap_found; eassumption).
  cbn [fst snd]. cbv zeta. rewrite Hmissing. reflexivity.
Qed.

End Byoc.

(** ** The example reconciler *)
Section Example.
Import awsclient.
Context (env : Environment) (iamEc2 : ClientV2 -> example.IamEc2)
        (shard : string).

Let r : example.AccountReconcilerV2Example :=
  {| example.awsClientBuilder := scriptedBuilder env;
     example.shardName := shard |}.

Let client : ClientV2 := asClientV2 (newClientV2 env).

Let clientInput : NewAwsClientInputV2 :=
  {| AwsCredsSecretIDKey := ""; AwsCredsSecretAccessKey := "";
     AwsToken := ""; AwsRegion := GetDefaultRegion env;
     SecretName := ""; NameSpace := "" |}.

Let again : account.Result * option error :=
  ({| account.Requeue := false;
      account.RequeueAfter := Duration_mul 30%Z Second |}, None).

Ltac wsimpl :=
  cbn [trace awsCalls k8sCalls accounts claims configMap current
       emit tickK8s tickAws set_current set_accounts set_claims emitAll advance
       fst snd].

Lemma countEvents_app p t es :
  countEvents p (t ++ es) = countEvents p t + countEvents p es.
Proof. unfold countEvents. now rewrite List.filter_app, length_app. Qed.

Lemma Describe_run input w :
  DescribeCreateAccountStatus client input w
  = (Val (describeCreateAccountStatusAnswer env (awsCalls w) input),
     advance [EvDescribeCreateAccountStatus input] 1 w).
Proof.
  unfold client.
  cbn [DescribeCreateAccountStatus asClientV2
       awsClientV2_DescribeCreateAccountStatus
       organizations_Client_DescribeCreateAccountStatus orgClient newClientV2
       sdkOrganizations].
  unfold providerCall. apply f_equal.
  apply world_ext; wsimpl; try reflexivity; lia.
Qed.

Section Passes.
Context (request : NamespacedName) (a : Account).
Hypothesis Hk8s : forall n, k8sAnswer env n = None.
Hypothesis Hbuilt : getClientAnswer env clientInput = None.
Hypothesis Hcreate :
  forall n input,
    exists out cas id,
      createAccountAnswer env n input = (Some out, None)
      /\ CreateAccountStatus out = Some cas
      /\ CreateAccountStatus_Id cas = Some id.
Hypothesis Hdescribe :
  forall n input,
    exists out cas,
      describeCreateAccountStatusAnswer env n input = (Some out, None)
      /\ CreateAccountStatus out = Some cas.
Hypothesis Hstate : State (Status a) = "".
Hypothesis Hid : AwsAccountID (Spec a) = "".

(** One pass over an account without state and without an AWS account. *)
Lemma exampleReconcile_pass w :
  accounts w !! request = Some a ->
  exists w',
    example.Reconcile env iamEc2 r request w = (Val again, w')
    /\ accounts w' = accounts w
    /\ countEvents isCreateAccount (trace w')
       = S (countEvents isCreateAccount (trace w))
    /\ countEvents isWrite (trace w') = countEvents isWrite (trace w).
Proof.
  intros Hstored. unfold example.Reconcile.
  erewrite run_bind by reflexivity. cbv beta.
  erewrite run_bind by (apply Get_found; [apply Hk8s | wsimpl; exact Hstored]).
  cbv beta iota.
  erewrite run_bind by (subst r; apply GetClientV2_scripted).
  fold clientInput. rewrite Hbuilt. cbn [fst snd].
  unfold account.currentAccount.
  erewrite run_bind by reflexivity. cbv beta. wsimpl. rewrite Hstate.
  rewrite decide_True by reflexivity.
  unfold example.createAccountV2, account.currentAccount.
  erewrite run_bind by reflexivity. cbv beta. wsimpl.
  cbn [deref]. rewrite bind_ret_l. fold client.
  set (w1 := emit _ _).
  destruct (Hcreate (awsCalls w1)
              {| AccountName := Some (Name (Meta a));
                 Email := Some (Name (Meta a) +:+ "@example.com") |})
    as (out & cas & id & Hc & Hcas & Hcid).
  erewrite run_bind by apply (CreateAccount_run env).
  rewrite Hc. cbn [fst snd deref]. rewrite bind_ret_l, Hcas.
  cbn [deref]. rewrite bind_ret_l, Hcid. cbn [deref]. rewrite bind_ret_l.
  set (w2 := advance _ 1 w1).
  destruct (Hdescribe (awsCalls w2) {| CreateAccountRequestId := Some id |})
    as (sout & scas & Hd & Hscas).
  erewrite run_bind by apply Describe_run.
  rewrite Hd. cbn [fst snd deref]. rewrite bind_ret_l, Hscas.
  cbn [deref]. rewrite bind_ret_l, Hid.
  rewrite decide_False by (intros H; now apply H).
  eexists. split; [reflexivity|]. subst w2 w1. wsimpl.
  split; [reflexivity|].
  rewrite <- !app_assoc, !countEvents_app. cbn. split; lia.
Qed.

Lemma exampleReconcile_passes n :
  forall w,
    accounts w !! request = Some a ->
    exists res w',
      example.reconcileTimes env iamEc2 r request n w = (Val res, w')
      /\ (n <> 0 -> res = again)
      /\ accounts w' = accounts w
      /\ countEvents isCreateAccount (trace w')
         = countEvents isCreateAccount (trace w) + n
      /\ countEvents isWrite (trace w') = countEvents isWrite (trace w).
Proof.
  induction n as [|n IH]; intros w Hstored.
  - exists (account.emptyResult, None), w. split; [reflexivity|].
    split; [intros H; now destruct H|]. repeat split; lia.
  - destruct (IH w Hstored) as (res & w1 & Hrun & _ & Hacc & Hc & Hw).
    destruct (exampleReconcile_pass w1) as (w' & Hpass & Hacc' & Hc' & Hw').
    { now rewrite Hacc. }
    exists again, w'. cbn [example.reconcileTimes].
    erewrite run_bind by exact Hrun. split; [exact Hpass|].
    split; [reflexivity|]. split; [congruence|]. split; lia.
Qed.

End Passes.

(** X26. The example reconciler asks for a new AWS account at every pass.  For an
    account without state and without AWS account identifier it calls
    [CreateAccount], reads the creation status once and returns with a
    requeue after thirty seconds; it writes neither the state nor the
    identifier.  The account is therefore as it was at the next pass, and
    [n] passes make [n] requests for a new account. *)
Theorem exampleReconcile_creates_an_account_at_every_pass
    (request : NamespacedName) (a : Account) (w : World) (n : nat) :
  (forall k, k8sAnswer env k = None) ->
  getClientAnswer env clientInput = None ->
  (forall k input,
     exists out cas id,
       createAccountAnswer env k input = (Some out, None)
       /\ CreateAccountStatus out = Some cas
       /\ CreateAccountStatus_Id cas = Some id) ->
  (forall k input,
     exists out cas,
       describeCreateAccountStatusAnswer env k input = (Some out, None)
       /\ CreateAccountStatus out = Some cas) ->
  accounts w !! request = Some a ->
  State (Status a) = "" ->
  AwsAccountID (Spec a) = "" ->
  exists w',
    example.reconcileTimes env iamEc2 r request (S n) w
    = (Val ({| account.Requeue := false;
               account.RequeueAfter := Duration_mul 30%Z Second |}, None), w')
    /\ accounts w' = accounts w
    /\ countEvents isCreateAccount (trace w')
       = countEvents isCreateAccount (trace w) + S n
    /\ countEvents isWrite (trace w') = countEvents isWrite (trace w).
Proof.
  intros Hk8s Hbuilt Hcreate Hdescribe Hstored Hstate Hid.
  destruct (exampleReconcile_passes request a Hk8s Hbuilt Hcreate Hdescribe
              Hstate Hid (S n) w Hstored) as (res & w' & Hrun & Hres & Hrest).
  exists w'. rewrite Hrun, (Hres ltac:(discriminate)). split; [reflexivity|].
  exact Hrest.
Qed.

(** X27. [createIAMUserV2] panics when [RunInstances] succeeds without an
    instance.  The user and its access key are created first; the call that
    runs the instance then returns an empty list with a nil error, and the
    line that logs the first instance's identifier indexes it: the function
    does not return. *)
Theorem createIAMUserV2_panics_without_instance
    (awsClient : ClientV2) (creds : option sts_AssumeRoleOutput)
    (w w1 w2 w3 : World) (userName keyId : string) :
  example.CreateUser (iamEc2 awsClient)
    {| example.CreateUser_UserName := Some "example-user" |} w
  = (Val (Some {| example.User :=
                    Some {| example.UserName := Some userName |} |}, None), w1) ->
  example.CreateAccessKey (iamEc2 awsClient)
    {| example.CreateAccessKey_UserName := Some userName |} w1
  = (Val (Some {| example.AccessKey :=
                    Some {| example.AccessKey_AccessKeyId := Some keyId |} |},
          None), w2) ->
  example.RunInstances (iamEc2 awsClient)
    {| example.ImageId := Some "ami-12345678";
       example.MinCount := Some 1%Z; example.MaxCount := Some 1%Z;
       example.InstanceType := "t2.micro" |} w2
  = (Val (Some {| example.Instances := [] |}, None), w3) ->
  example.createIAMUserV2 iamEc2 (Some awsClient) creds w
  = (Panic "index out of range [0] with length 0", w3).
Proof.
  intros Huser Hkey Hrun. unfold example.createIAMUserV2.
  cbn [deref]. rewrite bind_ret_l.
  erewrite run_bind by exact Huser. cbn [fst snd deref example.User].
  do 3 (rewrite bind_ret_l; cbn [deref example.User example.UserName]).
  erewrite run_bind by exact Hkey.
  cbn [fst snd deref example.AccessKey].
  do 3 (rewrite bind_ret_l;
        cbn [deref example.AccessKey example.AccessKey_AccessKeyId]).
  erewrite run_bind by exact Hrun. cbn [fst snd deref].
  rewrite bind_ret_l. reflexivity.
Qed.

End Example.

(** ** The properties at work *)
Section AtWork.
Import awsclient utils.

(** Two polls find the creation in progress and the third finds it done:
    three polls, twenty seconds of sleep. *)
Lemma CreateAccountV2_polls_until_settled_witness :
  let env := scripts.slowCreation in
  let w := fixtures.worldWith (fixtures.account "osd-creds-mgmt-aaabbb" "" []) in
  let input := {| CreateAccountRequestId := Some "car-1" |} in
  account.CreateAccountV2 5 (awsclient.asClientV2 (awsclient.newClientV2 env))
    "osd-creds-mgmt-aaabbb" "osd-creds-mgmt-aaabbb@example.com" w
  = (Val (scripts.inProgressThen 3 "SUCCEEDED" "" 3 input),
     advance
       ([EvCreateAccount
           {| AccountName := Some "osd-creds-mgmt-aaabbb";
              Email := Some "osd-creds-mgmt-aaabbb@example.com" |}]
        ++ pollEvents input 2 ++ [EvDescribeCreateAccountStatus input])
       4 w).
Proof.
  intros env w input.
  apply (CreateAccountV2_polls_until_settled env "osd-creds-mgmt-aaabbb"
           "osd-creds-mgmt-aaabbb@example.com" 5 2 w
           (fixtures.createStatus "IN_PROGRESS")
           {| CreateAccountStatus :=
                Some {| CreateAccountStatus_Id := Some "car-1";
                        CreateAccountStatus_AccountId := Some "111122223333";
                        CreateAccountStatus_State := "SUCCEEDED";
                        CreateAccountStatus_FailureReason := "" |} |}
           {| CreateAccountStatus_Id := Some "car-1";
              CreateAccountStatus_AccountId := Some "111122223333";
              CreateAccountStatus_State := "IN_PROGRESS";
              CreateAccountStatus_FailureReason := "" |}
           {| CreateAccountStatus_Id := Some "car-1";
              CreateAccountStatus_AccountId := Some "111122223333";
              CreateAccountStatus_State := "SUCCEEDED";
              CreateAccountStatus_FailureReason := "" |}).
  - reflexivity.
  - reflexivity.
  - lia.
  - intros j Hj. eexists _, _. split; [split; reflexivity|].
    cbn. destruct (decide (S j < 3)); [reflexivity | lia].
  - split; reflexivity.
  - discriminate.
Defined.

(** A connection error of the call that asks for the creation: the error is
    lost and [BuildAccountV2] panics. *)
Lemma BuildAccountV2_panics_on_lost_error_witness :
  let env := scripts.refusing (errorString "connection reset") in
  let a := fixtures.account "osd-creds-mgmt-aaabbb" "" [] in
  let w := scripts.withCurrent a in
  let createInput :=
    {| AccountName := Some "osd-creds-mgmt-aaabbb";
       Email := Some "osd-creds-mgmt-aaabbb@example.com" |} in
  exists w',
    account.BuildAccountV2 env 5
      (awsclient.asClientV2 (awsclient.newClientV2 env)) w
    = (Panic "nil pointer dereference: orgOutput.CreateAccountStatus", w')
    /\ trace w'
       = (trace w ++ [EvCreateAccount createInput;
                      EvGet (ObjectKeyFromObject (current w))])%list
    /\ accounts w' = accounts w.
Proof.
  intros env a w createInput.
  apply (BuildAccountV2_panics_on_lost_error env 5 w None
           (errorString "connection reset")); reflexivity.
Defined.

(** The organization's account limit is reached: the error comes back and
    the account is not touched. *)
Lemma BuildAccountV2_marks_failed_only_when_creation_failed_witness :
  let env := scripts.refusing (OperationError "ConstraintViolationException") in
  let a := fixtures.account "osd-creds-mgmt-aaabbb" "" [] in
  let w := scripts.withCurrent a in
  account.BuildAccountV2 env 5
    (awsclient.asClientV2 (awsclient.newClientV2 env)) w
  = (Val ("", Some ErrAwsAccountLimitExceeded),
     advance
       [EvCreateAccount
          {| AccountName := Some "osd-creds-mgmt-aaabbb";
             Email := Some "osd-creds-mgmt-aaabbb@example.com" |}] 1 w).
Proof.
  intros env a w.
  apply (proj1 (BuildAccountV2_marks_failed_only_when_creation_failed env 5 w
                  None "ConstraintViolationException" eq_refl)).
  discriminate.
Defined.

(** A local development run: no account is asked for, the fixed identifier
    is assigned. *)
Lemma nonCCSAssignAccountIDV2_development_mode_witness :
  let env := scripts.development in
  let a := fixtures.account "osd-creds-mgmt-aaabbb" "" [] in
  let w := scripts.withCurrent a in
  let r := fixtures.reconciler env in
  exists w' after,
    account.nonCCSAssignAccountIDV2 env 5 r
      (awsclient.asClientV2 (awsclient.newClientV2 env)) w = (Val None, w')
    /\ trace w'
       = (trace w
          ++ [EvStatusUpdate
                (SetAccountStatus AccountCreating ConditionCreating
                   AccountCreating (current w));
              EvTagResource {| ResourceId := Some "123456789012";
                               Tags := [(Some "owner",
                                         Some (account.shardName r))] |};
              EvUpdate after])%list
    /\ accounts w' !! ObjectKeyFromObject (current w)
       = Some (set_AwsAccountID "123456789012"
                 {| Meta := Meta a; Spec := Spec a;
                    Status :=
                      Status (SetAccountStatus AccountCreating ConditionCreating
                                AccountCreating (current w)) |})
    /\ AwsAccountID (Spec after) = "123456789012".
Proof.
  intros env a w r.
  apply (nonCCSAssignAccountIDV2_development_mode env 5 r w a).
  - discriminate.
  - reflexivity.
  - reflexivity.
  - vm_compute. reflexivity.
  - reflexivity.
  - reflexivity.
Defined.

(** In production, with a creation that takes two polls to settle: the
    identifier the provider gave is assigned. *)
Lemma nonCCSAssignAccountIDV2_assigns_created_account_witness :
  let env := scripts.slowCreation in
  let a := fixtures.account "osd-creds-mgmt-aaabbb" "" [] in
  let w := scripts.withCurrent a in
  let r := fixtures.reconciler env in
  let createInput :=
    {| AccountName := Some "osd-creds-mgmt-aaabbb";
       Email := Some "osd-creds-mgmt-aaabbb@example.com" |} in
  let input := {| CreateAccountRequestId := Some "car-1" |} in
  let creating :=
    SetAccountStatus AccountCreating ConditionCreating AccountCreating a in
  exists w' after,
    account.nonCCSAssignAccountIDV2 env 5 r
      (awsclient.asClientV2 (awsclient.newClientV2 env)) w = (Val None, w')
    /\ trace w'
       = (trace w
          ++ [EvCreateAccount createInput]
          ++ pollEvents input 2
          ++ [EvDescribeCreateAccountStatus input;
              EvGet (ObjectKeyFromObject (current w));
              EvStatusUpdate creating;
              EvTagResource {| ResourceId := Some "111122223333";
                               Tags := [(Some "owner",
                                         Some (account.shardName r))] |};
              EvUpdate after])%list
    /\ accounts w' !! ObjectKeyFromObject (current w)
       = Some (set_AwsAccountID "111122223333" creating)
    /\ AwsAccountID (Spec after) = "111122223333".
Proof.
  intros env a w r createInput input creating.
  apply (nonCCSAssignAccountIDV2_assigns_created_account env 5 2 r w
           (fixtures.createStatus "IN_PROGRESS")
           {| CreateAccountStatus :=
                Some {| CreateAccountStatus_Id := Some "car-1";
                        CreateAccountStatus_AccountId := Some "111122223333";
                        CreateAccountStatus_State := "SUCCEEDED";
                        CreateAccountStatus_FailureReason := "" |} |}
           {| CreateAccountStatus_Id := Some "car-1";
              CreateAccountStatus_AccountId := Some "111122223333";
              CreateAccountStatus_State := "IN_PROGRESS";
              CreateAccountStatus_FailureReason := "" |}
           {| CreateAccountStatus_Id := Some "car-1";
              CreateAccountStatus_AccountId := Some "111122223333";
              CreateAccountStatus_State := "SUCCEEDED";
              CreateAccountStatus_FailureReason := "" |}
           a "111122223333").
  - reflexivity.
  - reflexivity.
  - reflexivity.
  - lia.
  - intros j Hj. eexists _, _. split; [split; reflexivity|].
    cbn. destruct (decide (S j < 3)); [reflexivity | lia].
  - split; reflexivity.
  - discriminate.
  - discriminate.
  - reflexivity.
  - intros i Hi. reflexivity.
  - vm_compute. reflexivity.
  - reflexivity.
  - reflexivity.
Defined.

(** A BYOC account that is ready and claimed, under an environment in which
    every account is ready for initialization: the reconciliation sets it
    back to [Creating] and goes on to initialize it. *)
Lemma Reconcile_byoc_account_set_to_creating_witness :
  let env := scripts.readyForInitialization scripts.production in
  let a :=
    scripts.accountWith "osd-creds-mgmt-aaabbb" "Ready"
      [scripts.accountFinalizer] None true false true in
  let request := scripts.accountKey in
  let w := fixtures.worldWith a in
  let creating :=
    SetAccountStatus AccountCreating ConditionCreating AccountCreating
      (withFinalizer env a) in
  ReadyForInitialization env creating = true
  /\ State (Status creating) = "Creating"
  /\ exists written es,
       accounts written !! request = Some creating
       /\ account.Reconcile env 5 (fixtures.reconciler env) request w
          = account.initializeAccount env request (asClientV2 (newClientV2 env))
              "000000000000" written
       /\ trace (account.Reconcile env 5 (fixtures.reconciler env) request w).2
          = (trace w ++ preludeEvents env request a ++ [EvStatusUpdate creating]
             ++ es)%list
       /\ forallb notProviderCall es = true.
Proof.
  intros env a request w creating. split; [reflexivity|].
  destruct (Reconcile_byoc_account_set_to_creating env 5 "hive-shard-1" request w a
              [("ami-owner", "000000000000")])
    as (Hstate & written & es & Ht & Ha & _ & Hrun & Hes & Hquiet & _).
  - vm_compute. reflexivity.
  - reflexivity.
  - reflexivity.
  - reflexivity.
  - intros i Hi. reflexivity.
  - reflexivity.
  - reflexivity.
  - reflexivity.
  - reflexivity.
  - split; [exact Hstate|]. exists written, es.
    split; [exact Ha|]. split; [exact Hrun|].
    split; [|exact Hquiet].
    etransitivity; [exact Hes|]. rewrite Ht, <- !app_assoc. reflexivity.
Defined.

(** A ready and claimed account under a config map without [ami-owner]. *)
Lemma Reconcile_requires_ami_owner_witness :
  let env := scripts.production in
  let a := fixtures.claimedAccount in
  let request := scripts.accountKey in
  let w := scripts.worldWithConfig a [] in
  account.Reconcile env 5 (fixtures.reconciler env) request w
  = (Val (account.emptyResult, Some ErrInvalidConfigMap),
     afterPrelude env request a w).
Proof.
  intros env a request w.
  apply (Reconcile_requires_ami_owner env 5 "hive-shard-1" request w a []).
  - vm_compute. reflexivity.
  - reflexivity.
  - reflexivity.
  - reflexivity.
  - intros i Hi. reflexivity.
  - reflexivity.
  - reflexivity.
  - reflexivity.
  - reflexivity.
  - reflexivity.
  - reflexivity.
Defined.

(** An account in manual STS mode that is being deleted and that only the
    account finalizer holds: it is gone after one update. *)
Lemma Reconcile_releases_sts_account_witness :
  let env := scripts.production in
  let a :=
    scripts.accountWith "osd-creds-mgmt-aaabbb" "Ready"
      [scripts.accountFinalizer] (Some 1%Z) false true true in
  let request := scripts.accountKey in
  let w := fixtures.worldWith a in
  let released :=
    set_Finalizers (Remove (Finalizers (Meta a)) (AccountFinalizer env)) a in
  exists w',
    account.Reconcile env 5 (fixtures.reconciler env) request w
    = (Val (account.emptyResult, k8sAnswer env (k8sCalls w + 2)), w')
    /\ trace w'
       = (trace w ++ preludeEvents env request a ++ [EvUpdate released])%list
    /\ awsCalls w' = awsCalls w
    /\ (k8sAnswer env (k8sCalls w + 2) = None ->
        accounts w' !! request
        = if decide (Finalizers (Meta released) = []) then None
          else Some released).
Proof.
  intros env a request w released.
  apply (Reconcile_releases_sts_account env 5 "hive-shard-1" request w a
           [("ami-owner", "000000000000")]).
  - vm_compute. reflexivity.
  - reflexivity.
  - reflexivity.
  - reflexivity.
  - intros i Hi. reflexivity.
  - reflexivity.
  - reflexivity.
Defined.

(** Three denials, then the role is assumed; no role identifier is
    expected and no region asked for. *)
Lemma HandleRoleAssumptionV2_builds_client_from_credentials_witness :
  let env := scripts.flaky in
  let acct := fixtures.account "osd-creds-mgmt-aaabbb" "" [] in
  let w := fixtures.worldWith acct in
  let input :=
    sts.assumeRoleInput
      (GetIAMArn env "" sts.AwsResourceTypeRole "OrganizationAccountAccessRole")
      "" "awsAccountOperator" in
  let client := asClientV2 (newClientV2 env) in
  sts.HandleRoleAssumptionV2 env (scriptedBuilder env) acct client ""
    "OrganizationAccountAccessRole" "" w
  = (Val (Some client,
          Some (fixtures.roleUser "AROAEXAMPLE:awsAccountOperator"), None),
     emit (EvGetClientV2 "account"
             {| AwsCredsSecretIDKey := "ACCESS_KEY";
                AwsCredsSecretAccessKey := "SECRET_KEY";
                AwsToken := "SESSION_TOKEN";
                AwsRegion := "us-east-1";
                SecretName := ""; NameSpace := "" |})
       (afterAttempts input 4 w)).
Proof.
  intros env acct w input client.
  apply (HandleRoleAssumptionV2_builds_client_from_credentials env acct ""
           "OrganizationAccountAccessRole" "" w 3
           (Some (fixtures.roleUser "AROAEXAMPLE:awsAccountOperator"))
           "AROAEXAMPLE:awsAccountOperator"
           ("ACCESS_KEY", "SECRET_KEY", "SESSION_TOKEN")).
  - lia.
  - intros j Hj. cbn. unfold fixtures.failsThenSucceeds.
    destruct (decide (j < 3)); [discriminate | lia].
  - reflexivity.
  - reflexivity.
  - left. reflexivity.
  - reflexivity.
Defined.

(** A provider that denies every call is given up on after the hundredth. *)
Lemma HandleRoleAssumptionV2_gives_up_witness :
  let env := scripts.denying in
  let acct := fixtures.account "osd-creds-mgmt-aaabbb" "" [] in
  let w := fixtures.worldWith acct in
  let input :=
    sts.assumeRoleInput
      (GetIAMArn env "" sts.AwsResourceTypeRole "OrganizationAccountAccessRole")
      "" "awsAccountOperator" in
  exists err,
    (assumeRoleAnswer env (awsCalls w + 99) input).2 = Some err
    /\ sts.HandleRoleAssumptionV2 env (scriptedBuilder env) acct
         (asClientV2 (newClientV2 env)) "" "OrganizationAccountAccessRole"
         "AROAFRESH" w
       = (Val (None, None, Some err), afterAttempts input 100 w).
Proof.
  intros env acct w input.
  apply (HandleRoleAssumptionV2_gives_up env acct ""
           "OrganizationAccountAccessRole" "AROAFRESH" w).
  intros j Hj. discriminate.
Defined.

(** A successful answer that is empty: the role identifier is missing. *)
Lemma HandleRoleAssumptionV2_panics_on_incomplete_answer_witness :
  let env := scripts.anonymous in
  let acct := fixtures.account "osd-creds-mgmt-aaabbb" "" [] in
  let w := fixtures.worldWith acct in
  let input :=
    sts.assumeRoleInput
      (GetIAMArn env "" sts.AwsResourceTypeRole "OrganizationAccountAccessRole")
      "" "awsAccountOperator" in
  exists what,
    sts.HandleRoleAssumptionV2 env (scriptedBuilder env) acct
      (asClientV2 (newClientV2 env)) "" "OrganizationAccountAccessRole" "" w
    = (Panic what, afterAttempts input 1 w).
Proof.
  intros env acct w input.
  apply (HandleRoleAssumptionV2_panics_on_incomplete_answer env acct ""
           "OrganizationAccountAccessRole" "" w 0
           (Some empty_AssumeRoleOutput)).
  - lia.
  - intros j Hj. lia.
  - reflexivity.
  - left. reflexivity.
Defined.

(** The stale role at each of the ten rounds: its credentials are used. *)
Lemma HandleRoleAssumptionV2_keeps_mismatching_credentials_witness :
  let env := scripts.stale in
  let acct := fixtures.account "osd-creds-mgmt-aaabbb" "" [] in
  let w := fixtures.worldWith acct in
  let input :=
    sts.assumeRoleInput
      (GetIAMArn env "" sts.AwsResourceTypeRole "BYOCAdminAccess")
      "" "awsAccountOperator" in
  let client := asClientV2 (newClientV2 env) in
  sts.HandleRoleAssumptionV2 env (scriptedBuilder env) acct client ""
    "BYOCAdminAccess" "AROAFRESH" w
  = (Val (Some client,
          Some (fixtures.roleUser "AROASTALE:awsAccountOperator"), None),
     emit (EvGetClientV2 "account"
             (assumedClientInput env ""
                ("ACCESS_KEY", "SECRET_KEY", "SESSION_TOKEN")))
       (advance (backoffEvents input 0 10) 10 w)).
Proof.
  intros env acct w input client.
  apply (HandleRoleAssumptionV2_keeps_mismatching_credentials env acct ""
           "BYOCAdminAccess" "AROAFRESH" w
           (Some (fixtures.roleUser "AROASTALE:awsAccountOperator"))
           ("ACCESS_KEY", "SECRET_KEY", "SESSION_TOKEN")).
  - discriminate.
  - intros j Hj. exists "AROASTALE:awsAccountOperator". split.
    + exists (Some (fixtures.roleUser "AROASTALE:awsAccountOperator")).
      split; [|reflexivity]. cbn. unfold fixtures.staleThenFresh.
      destruct (decide (j < 10)); [reflexivity | lia].
    + reflexivity.
  - reflexivity.
  - reflexivity.
  - reflexivity.
Defined.

(** An account that is being deleted while the provider denies the role:
    the error comes back and the account keeps its finalizer. *)
Lemma Reconcile_deletion_keeps_account_when_role_is_denied_witness :
  let env := scripts.denying in
  let a :=
    scripts.accountWith "osd-creds-mgmt-aaabbb" "Ready"
      [scripts.accountFinalizer] (Some 1%Z) false false true in
  let request := scripts.accountKey in
  let w := fixtures.worldWith a in
  let acct := withFinalizer env a in
  let input :=
    sts.assumeRoleInput
      (GetIAMArn env "123456789012" sts.AwsResourceTypeRole
         "OrganizationAccountAccessRole")
      "" "awsAccountOperator" in
  let failed err :=
    SetAccountStatus AccountFailed ConditionClientError
      ("Failed to create STS Credentials for account ID "
       +:+ "123456789012" +:+ ": " +:+ Error_ env err) acct in
  exists err w',
    (assumeRoleAnswer env (awsCalls w + 99) input).2 = Some err
    /\ account.Reconcile env 5 (fixtures.reconciler env) request w
       = (Val (account.emptyResult, Some err), w')
    /\ trace w'
       = (trace w ++ preludeEvents env request a
          ++ concat (replicate 100 (attemptEvents input))
          ++ [EvStatusUpdate (failed err)])%list
    /\ exists kept,
         accounts w' !! request = Some kept /\ Meta kept = Meta acct.
Proof.
  intros env a request w acct input failed.
  apply (Reconcile_deletion_keeps_account_when_role_is_denied env 5
           "hive-shard-1" request w a [("ami-owner", "000000000000")]).
  - vm_compute. reflexivity.
  - reflexivity.
  - reflexivity.
  - reflexivity.
  - intros i Hi. reflexivity.
  - intros _. reflexivity.
  - reflexivity.
  - reflexivity.
  - intros j Hj. discriminate.
Defined.

(** An account that is being deleted and that only the account finalizer
    holds: the role is assumed at once and the account is gone. *)
Lemma Reconcile_deletion_removes_finalizer_witness :
  let env := scripts.production in
  let a :=
    scripts.accountWith "osd-creds-mgmt-aaabbb" "Ready"
      [scripts.accountFinalizer] (Some 1%Z) false false true in
  let request := scripts.accountKey in
  let w := fixtures.worldWith a in
  let acct := withFinalizer env a in
  let input :=
    sts.assumeRoleInput
      (GetIAMArn env "123456789012" sts.AwsResourceTypeRole
         "OrganizationAccountAccessRole")
      "" "awsAccountOperator" in
  let clientInput :=
    assumedClientInput env "" ("ACCESS_KEY", "SECRET_KEY", "SESSION_TOKEN") in
  let released :=
    set_Finalizers (Remove (Finalizers (Meta acct)) (AccountFinalizer env)) acct in
  exists w',
    account.Reconcile env 5 (fixtures.reconciler env) request w
    = (Val (account.emptyResult, None), w')
    /\ trace w'
       = (trace w ++ preludeEvents env request a
          ++ concat (replicate 1 (attemptEvents input))
          ++ [EvGetClientV2 "account" clientInput; EvUpdate released])%list
    /\ awsCalls w' = awsCalls w + 1
    /\ accounts w' !! request
       = if decide (Finalizers (Meta released) = []) then None
         else Some released.
Proof.
  intros env a request w acct input clientInput released.
  apply (Reconcile_deletion_removes_finalizer env 5 "hive-shard-1" request w a
           [("ami-owner", "000000000000")] 0
           (Some (fixtures.roleUser "AROAEXAMPLE:awsAccountOperator"))
           "AROAEXAMPLE:awsAccountOperator"
           ("ACCESS_KEY", "SECRET_KEY", "SESSION_TOKEN")).
  - vm_compute. reflexivity.
  - reflexivity.
  - reflexivity.
  - reflexivity.
  - reflexivity.
  - intros i Hi. reflexivity.
  - reflexivity.
  - reflexivity.
  - lia.
  - intros j Hj. lia.
  - reflexivity.
  - reflexivity.
  - reflexivity.
Defined.

(** Two inputs that name the same secret, one of them with credentials of
    its own. *)
Lemma GetClientV2_named_secret_overrides_input_witness :
  let named :=
    {| AwsCredsSecretIDKey := ""; AwsCredsSecretAccessKey := "";
       AwsToken := ""; AwsRegion := "us-east-1";
       SecretName := "byoc"; NameSpace := "customer" |} in
  let withKeys :=
    {| AwsCredsSecretIDKey := "ACCESS_KEY";
       AwsCredsSecretAccessKey := "SECRET_KEY";
       AwsToken := "SESSION_TOKEN"; AwsRegion := "us-east-1";
       SecretName := "byoc"; NameSpace := "customer" |} in
  builder.GetClientV2 scripts.loadAll id scripts.wrap scripts.fullSecret
    "account" named
  = builder.GetClientV2 scripts.loadAll id scripts.wrap scripts.fullSecret
      "accountclaim" withKeys.
Proof.
  intros named withKeys.
  apply (GetClientV2_named_secret_overrides_input scripts.loadAll id
           scripts.wrap scripts.fullSecret "account" "accountclaim" named
           withKeys); first [discriminate | reflexivity].
Defined.

(** A secret named without its namespace. *)
Lemma GetClientV2_ignores_partially_named_secret_witness :
  let input :=
    {| AwsCredsSecretIDKey := ""; AwsCredsSecretAccessKey := "";
       AwsToken := ""; AwsRegion := "us-east-1";
       SecretName := "byoc"; NameSpace := "" |} in
  builder.GetClientV2 scripts.loadAll id scripts.wrap scripts.fullSecret
    "account" input
  = builder.GetClientV2 scripts.loadAll id scripts.wrap scripts.partialSecret
      "account"
      {| AwsCredsSecretIDKey := ""; AwsCredsSecretAccessKey := "";
         AwsToken := ""; AwsRegion := "us-east-1";
         SecretName := ""; NameSpace := "" |}.
Proof.
  intros input.
  apply (GetClientV2_ignores_partially_named_secret scripts.loadAll id
           scripts.wrap scripts.fullSecret scripts.partialSecret "account"
           input).
  right. reflexivity.
Defined.

(** A secret that holds the access key identifier only. *)
Lemma GetClientV2_incomplete_credentials_use_default_chain_witness :
  let input :=
    {| AwsCredsSecretIDKey := ""; AwsCredsSecretAccessKey := "";
       AwsToken := ""; AwsRegion := "us-east-1";
       SecretName := "byoc"; NameSpace := "customer" |} in
  builder.GetClientV2 scripts.loadAll id scripts.wrap scripts.partialSecret
    "account" input
  = (Some {| builder.WithRegion := "us-east-1";
             builder.WithCredentialsProvider := None |}, None).
Proof.
  intros input.
  apply (proj1 (GetClientV2_incomplete_credentials_use_default_chain
                  scripts.loadAll id scripts.wrap scripts.partialSecret
                  "account" input)
           {[ "aws_access_key_id" := "AKIAEXAMPLE" ]}).
  - discriminate.
  - discriminate.
  - reflexivity.
  - right. vm_compute. reflexivity.
Defined.

(** A config map that holds the AMI owner only. *)
Lemma getSTSClient_missing_jump_role_is_no_error_witness :
  let env := scripts.production in
  let w := fixtures.worldWith (fixtures.account "osd-creds-mgmt-aaabbb" "" []) in
  byoc.getSTSClient (ClientV1 := unit) env
    (fun _ _ _ _ => ret (None, None)) (fun _ _ => ret (None, None))
    (fun _ => "") (fun _ => "") None None w
  = (Val (None, None, None), tickK8s (emit EvGetConfigMap w)).
Proof.
  intros env w.
  apply (getSTSClient_missing_jump_role_is_no_error env
           (fun _ _ _ _ => ret (None, None)) (fun _ _ => ret (None, None))
           (fun _ => "") (fun _ => "") None None w
           [("ami-owner", "000000000000")]); reflexivity.
Defined.

(** Three passes over a new account: three requests for an AWS account. *)
Lemma exampleReconcile_creates_an_account_at_every_pass_witness :
  let env := scripts.production in
  let a := fixtures.account "osd-creds-mgmt-aaabbb" "" [] in
  let request := scripts.accountKey in
  let w := fixtures.worldWith a in
  let r :=
    {| example.awsClientBuilder := scriptedBuilder env;
       example.shardName := "hive-shard-1" |} in
  exists w',
    example.reconcileTimes env scripts.noInstance r request 3 w
    = (Val ({| account.Requeue := false;
               account.RequeueAfter := Duration_mul 30%Z Second |}, None), w')
    /\ accounts w' = accounts w
    /\ countEvents isCreateAccount (trace w')
       = countEvents isCreateAccount (trace w) + 3
    /\ countEvents isWrite (trace w') = countEvents isWrite (trace w).
Proof.
  intros env a request w r.
  apply (exampleReconcile_creates_an_account_at_every_pass env
           scripts.noInstance "hive-shard-1" request a w 2).
  - intros k. reflexivity.
  - reflexivity.
  - intros k input. eexists _, _, _. repeat split; reflexivity.
  - intros k input. eexists _, _. repeat split; reflexivity.
  - vm_compute. reflexivity.
  - reflexivity.
  - reflexivity.
Defined.

(** The user and the key are created; no instance comes back. *)
Lemma createIAMUserV2_panics_without_instance_witness :
  let env := scripts.production in
  let w := fixtures.worldWith (fixtures.account "osd-creds-mgmt-aaabbb" "" []) in
  example.createIAMUserV2 scripts.noInstance
    (Some (asClientV2 (newClientV2 env))) None w
  = (Panic "index out of range [0] with length 0", w).
Proof.
  intros env w.
  apply (createIAMUserV2_panics_without_instance scripts.noInstance
           (asClientV2 (newClientV2 env)) None w w w w "example-user"
           "AKIAEXAMPLE"); reflexivity.
Defined.

(** A new account that is ready for initialization and not yet labelled. *)
Lemma Reconcile_labels_account_before_initialization_witness :
  let env := scripts.readyForInitialization scripts.production in
  let a := scripts.creatingAccount in
  let request := scripts.accountKey in
  let w := fixtures.worldWith a in
  let labelled := AddLabels (withFinalizer env a) ("iamUserId", "abcdef") in
  exists err w',
    account.Reconcile env 5 (fixtures.reconciler env) request w
    = (Val ({| account.Requeue := true; account.RequeueAfter := 0%Z |}, err), w')
    /\ trace w'
       = (trace w ++ preludeEvents env request a ++ [EvUpdate labelled])%list
    /\ awsCalls w' = awsCalls w
    /\ (err = None ->
        accounts w' !! request
        = Some {| Meta := Meta labelled; Spec := Spec a; Status := Status a |}).
Proof.
  intros env a request w labelled.
  apply (Reconcile_labels_account_before_initialization env 5 "hive-shard-1"
           request w a [("ami-owner", "000000000000")] "000000000000").
  - vm_compute. reflexivity.
  - reflexivity.
  - reflexivity.
  - reflexivity.
  - intros i Hi. reflexivity.
  - reflexivity.
  - reflexivity.
  - reflexivity.
  - reflexivity.
  - reflexivity.
  - reflexivity.
  - reflexivity.
  - reflexivity.
  - reflexivity.
Defined.

(** The same account at the next pass, labelled. *)
Lemma Reconcile_initialization_only_marks_ready_witness :
  let env := scripts.readyForInitialization scripts.production in
  let a := AddLabels scripts.creatingAccount ("iamUserId", "abcdef") in
  let request := scripts.accountKey in
  let w := fixtures.worldWith a in
  let ready :=
    SetAccountStatus AccountReady ConditionReady AccountReady
      (withFinalizer env a) in
  exists err w',
    account.Reconcile env 5 (fixtures.reconciler env) request w
    = (Val (account.emptyResult, err), w')
    /\ trace w'
       = (trace w ++ preludeEvents env request a ++ [EvStatusUpdate ready])%list
    /\ awsCalls w' = awsCalls w
    /\ (err = None ->
        accounts w' !! request = Some ready
        /\ State (Status ready) = "Ready").
Proof.
  intros env a request w ready.
  apply (Reconcile_initialization_only_marks_ready env 5 "hive-shard-1"
           request w a [("ami-owner", "000000000000")] "000000000000").
  - vm_compute. reflexivity.
  - reflexivity.
  - reflexivity.
  - reflexivity.
  - intros i Hi. reflexivity.
  - reflexivity.
  - reflexivity.
  - reflexivity.
  - reflexivity.
  - reflexivity.
  - reflexivity.
  - reflexivity.
  - reflexivity.
  - reflexivity.
Defined.

End AtWork.
